(** * SandOS kernel: a shallow embedding and its verified properties

    The development follows the layout of the C sources:
    - [os_cpu.c]  : the priority look-up table and [OS_GetTopPrio];
    - [os_core.h] : the kernel's data structures;
    - [os_core.c] : intrusive lists, the ready set, the tick handler,
                    delays, semaphores, mutexes, queues and memory pools.

    C integers are modelled as [Z] with the wrap-around of their width
    written out, pointers to task control blocks as [option nat]
    ([None] is the null pointer), and the kernel's global variables as one
    record that every operation threads through a state-and-fault monad. *)

From Stdlib Require Import ZArith Lia Bool List.
From stdpp Require Import base decidable option list sorting functions gmap fin_maps.

Local Open Scope Z_scope.

(** ** Machine integers *)

Definition u8  (x : Z) : Z := x mod 2 ^ 8.
Definition u16 (x : Z) : Z := x mod 2 ^ 16.
Definition u32 (x : Z) : Z := x mod 2 ^ 32.

(** [~x] on an [uint32_t]. *)
Definition not32 (x : Z) : Z := Z.lxor x (Z.ones 32).

(** ** os_cpu.c : highest-priority look-up *)

Definition OS_MapTable : list Z :=
  [ 0; 0; 1; 0; 2; 0; 1; 0; 3; 0; 1; 0; 2; 0; 1; 0;
    4; 0; 1; 0; 2; 0; 1; 0; 3; 0; 1; 0; 2; 0; 1; 0;
    5; 0; 1; 0; 2; 0; 1; 0; 3; 0; 1; 0; 2; 0; 1; 0;
    4; 0; 1; 0; 2; 0; 1; 0; 3; 0; 1; 0; 2; 0; 1; 0;
    6; 0; 1; 0; 2; 0; 1; 0; 3; 0; 1; 0; 2; 0; 1; 0;
    4; 0; 1; 0; 2; 0; 1; 0; 3; 0; 1; 0; 2; 0; 1; 0;
    5; 0; 1; 0; 2; 0; 1; 0; 3; 0; 1; 0; 2; 0; 1; 0;
    4; 0; 1; 0; 2; 0; 1; 0; 3; 0; 1; 0; 2; 0; 1; 0;
    7; 0; 1; 0; 2; 0; 1; 0; 3; 0; 1; 0; 2; 0; 1; 0;
    4; 0; 1; 0; 2; 0; 1; 0; 3; 0; 1; 0; 2; 0; 1; 0;
    5; 0; 1; 0; 2; 0; 1; 0; 3; 0; 1; 0; 2; 0; 1; 0;
    4; 0; 1; 0; 2; 0; 1; 0; 3; 0; 1; 0; 2; 0; 1; 0;
    6; 0; 1; 0; 2; 0; 1; 0; 3; 0; 1; 0; 2; 0; 1; 0;
    4; 0; 1; 0; 2; 0; 1; 0; 3; 0; 1; 0; 2; 0; 1; 0;
    5; 0; 1; 0; 2; 0; 1; 0; 3; 0; 1; 0; 2; 0; 1; 0;
    4; 0; 1; 0; 2; 0; 1; 0; 3; 0; 1; 0; 2; 0; 1; 0 ].

(** [OS_MapTable[i]]; every index the code uses is masked with [0xFF]. *)
Definition MapTable_at (i : Z) : Z := nth (Z.to_nat i) OS_MapTable 0.

Definition OS_GetTopPrio (PrioMap : Z) : Z :=
  if negb (Z.land PrioMap 0xFF =? 0) then
    MapTable_at (Z.land PrioMap 0xFF)
  else if negb (Z.land PrioMap 0xFF00 =? 0) then
    u8 (8 + MapTable_at (Z.land (Z.shiftr PrioMap 8) 0xFF))
  else if negb (Z.land PrioMap 0xFF0000 =? 0) then
    u8 (16 + MapTable_at (Z.land (Z.shiftr PrioMap 16) 0xFF))
  else
    u8 (24 + MapTable_at (Z.land (Z.shiftr PrioMap 24) 0xFF)).

(** *** The table holds the index of the lowest set bit of every byte *)

Definition byte_entry_ok (b : Z) : bool :=
  let e := MapTable_at b in
  (0 <=? e) && (e <? 8) && Z.testbit b e &&
  forallb (fun j => negb (Z.testbit b j) || (e <=? j)) [0; 1; 2; 3; 4; 5; 6; 7].

Definition nonzero_bytes : list Z := map Z.of_nat (seq 1 255).

(** Byte lane [k] of a 32-bit word. *)
Definition lane (k : Z) (x : Z) : Z := Z.land (Z.shiftr x (8 * k)) 0xFF.

(** [p] is the index of the lowest set bit of [x]. *)
Definition lowest_set_bit (x p : Z) : Prop :=
  0 <= p ∧ Z.testbit x p = true ∧ ∀ j, 0 <= j < p → Z.testbit x j = false.

(** ** os_core.h : status codes and data structures *)

Definition OS_MAX_PRIO : Z := 32.
Definition IDLE_STACK_SIZE : Z := 128.
Definition OS_STACK_MAGIC_VAL : Z := 0xDEADBEEF.
Definition MSTATUS_VALUE : Z := 0x00001880.

Inductive OS_Status : Set :=
| OS_OK | OS_ERR_PARAM | OS_ERR_TIMEOUT | OS_ERR_RESOURCE
| OS_ERR_NOT_OWNER | OS_ERR_NESTING | OS_ERR_Q_FULL
| OS_ERR_INVALID_ADDR | OS_ERR_NOT_ALIGN | OS_ERR_ISR.

Inductive OS_TaskState : Set := TASK_READY | TASK_BLOCKED | TASK_DELETED.

(** A task control block.  [Prev] and [Next] are the intrusive links. *)
Record OS_TCB : Set := mkTCB {
  stackPtr : Z;
  stackLimit : Z;
  Prev : option nat;
  Next : option nat;
  State : OS_TaskState;
  DelayTicks : Z;
  Priority : Z;
  OriginalPrio : Z
}.

Record OS_List : Set := mkList { Head : option nat; Tail : option nat }.

Record OS_Sem : Set := mkSem { count : Z; sem_WaitList : OS_List }.

Record OS_Mutex : Set := mkMutex {
  Owner : option nat;
  mtx_WaitList : OS_List;
  NestCount : Z;
  mtx_OriginalPrio : Z
}.

(** [Buffer] holds the bytes of the storage area the C field points to. *)
Record OS_Queue : Set := mkQueue {
  Buffer : list Z;
  MsgSize : Z;
  QSize : Z;
  MsgCount : Z;
  q_Head : Z;
  q_Tail : Z;
  WaitReadList : OS_List
}.

(** [Addr] and [FreeList] are addresses; [0] is the null pointer. *)
Record OS_Mem : Set := mkMem {
  Addr : Z;
  FreeList : Z;
  BlockSize : Z;
  TotalBlocks : Z;
  FreeBlocks : Z;
  mem_WaitList : OS_List
}.

(** *** Field updates *)

Definition set_Prev (v : option nat) (t : OS_TCB) : OS_TCB :=
  mkTCB (stackPtr t) (stackLimit t) v (Next t) (State t) (DelayTicks t) (Priority t) (OriginalPrio t).
Definition set_Next (v : option nat) (t : OS_TCB) : OS_TCB :=
  mkTCB (stackPtr t) (stackLimit t) (Prev t) v (State t) (DelayTicks t) (Priority t) (OriginalPrio t).
Definition set_State (v : OS_TaskState) (t : OS_TCB) : OS_TCB :=
  mkTCB (stackPtr t) (stackLimit t) (Prev t) (Next t) v (DelayTicks t) (Priority t) (OriginalPrio t).
Definition set_DelayTicks (v : Z) (t : OS_TCB) : OS_TCB :=
  mkTCB (stackPtr t) (stackLimit t) (Prev t) (Next t) (State t) v (Priority t) (OriginalPrio t).
Definition set_Priority (v : Z) (t : OS_TCB) : OS_TCB :=
  mkTCB (stackPtr t) (stackLimit t) (Prev t) (Next t) (State t) (DelayTicks t) v (OriginalPrio t).
Definition set_OriginalPrio (v : Z) (t : OS_TCB) : OS_TCB :=
  mkTCB (stackPtr t) (stackLimit t) (Prev t) (Next t) (State t) (DelayTicks t) (Priority t) v.
Definition set_stackPtr (v : Z) (t : OS_TCB) : OS_TCB :=
  mkTCB v (stackLimit t) (Prev t) (Next t) (State t) (DelayTicks t) (Priority t) (OriginalPrio t).
Definition set_stackLimit (v : Z) (t : OS_TCB) : OS_TCB :=
  mkTCB (stackPtr t) v (Prev t) (Next t) (State t) (DelayTicks t) (Priority t) (OriginalPrio t).

Definition set_Head (v : option nat) (l : OS_List) : OS_List := mkList v (Tail l).
Definition set_Tail (v : option nat) (l : OS_List) : OS_List := mkList (Head l) v.
Definition empty_list : OS_List := mkList None None.

Definition set_count (v : Z) (x : OS_Sem) : OS_Sem := mkSem v (sem_WaitList x).
Definition set_sem_WaitList (v : OS_List) (x : OS_Sem) : OS_Sem := mkSem (count x) v.

Definition set_Owner (v : option nat) (m : OS_Mutex) : OS_Mutex :=
  mkMutex v (mtx_WaitList m) (NestCount m) (mtx_OriginalPrio m).
Definition set_mtx_WaitList (v : OS_List) (m : OS_Mutex) : OS_Mutex :=
  mkMutex (Owner m) v (NestCount m) (mtx_OriginalPrio m).
Definition set_NestCount (v : Z) (m : OS_Mutex) : OS_Mutex :=
  mkMutex (Owner m) (mtx_WaitList m) v (mtx_OriginalPrio m).
Definition set_mtx_OriginalPrio (v : Z) (m : OS_Mutex) : OS_Mutex :=
  mkMutex (Owner m) (mtx_WaitList m) (NestCount m) v.

Definition set_Buffer (v : list Z) (q : OS_Queue) : OS_Queue :=
  mkQueue v (MsgSize q) (QSize q) (MsgCount q) (q_Head q) (q_Tail q) (WaitReadList q).
Definition set_MsgSize (v : Z) (q : OS_Queue) : OS_Queue :=
  mkQueue (Buffer q) v (QSize q) (MsgCount q) (q_Head q) (q_Tail q) (WaitReadList q).
Definition set_QSize (v : Z) (q : OS_Queue) : OS_Queue :=
  mkQueue (Buffer q) (MsgSize q) v (MsgCount q) (q_Head q) (q_Tail q) (WaitReadList q).
Definition set_MsgCount (v : Z) (q : OS_Queue) : OS_Queue :=
  mkQueue (Buffer q) (MsgSize q) (QSize q) v (q_Head q) (q_Tail q) (WaitReadList q).
Definition set_q_Head (v : Z) (q : OS_Queue) : OS_Queue :=
  mkQueue (Buffer q) (MsgSize q) (QSize q) (MsgCount q) v (q_Tail q) (WaitReadList q).
Definition set_q_Tail (v : Z) (q : OS_Queue) : OS_Queue :=
  mkQueue (Buffer q) (MsgSize q) (QSize q) (MsgCount q) (q_Head q) v (WaitReadList q).
Definition set_WaitReadList (v : OS_List) (q : OS_Queue) : OS_Queue :=
  mkQueue (Buffer q) (MsgSize q) (QSize q) (MsgCount q) (q_Head q) (q_Tail q) v.

Definition set_Addr (v : Z) (m : OS_Mem) : OS_Mem :=
  mkMem v (FreeList m) (BlockSize m) (TotalBlocks m) (FreeBlocks m) (mem_WaitList m).
Definition set_FreeList (v : Z) (m : OS_Mem) : OS_Mem :=
  mkMem (Addr m) v (BlockSize m) (TotalBlocks m) (FreeBlocks m) (mem_WaitList m).
Definition set_BlockSize (v : Z) (m : OS_Mem) : OS_Mem :=
  mkMem (Addr m) (FreeList m) v (TotalBlocks m) (FreeBlocks m) (mem_WaitList m).
Definition set_TotalBlocks (v : Z) (m : OS_Mem) : OS_Mem :=
  mkMem (Addr m) (FreeList m) (BlockSize m) v (FreeBlocks m) (mem_WaitList m).
Definition set_FreeBlocks (v : Z) (m : OS_Mem) : OS_Mem :=
  mkMem (Addr m) (FreeList m) (BlockSize m) (TotalBlocks m) v (mem_WaitList m).
Definition set_mem_WaitList (v : OS_List) (m : OS_Mem) : OS_Mem :=
  mkMem (Addr m) (FreeList m) (BlockSize m) (TotalBlocks m) (FreeBlocks m) v.

(** ** The kernel state

    The global variables of [os_core.c], the memory that holds the
    user-allocated control blocks ([tcbs], [sems], [mutexes], [queues],
    [pools], keyed by address), the words of RAM the kernel reads and writes
    through raw pointers ([ram]: stack sentinels, initial stack frames and
    the links of free pool blocks), and the two bits of CPU state the port
    layer drives: the global interrupt enable and the pending
    software-interrupt request. *)
Record Kernel : Type := mkKernel {
  g_SystemTickCount : Z;
  g_CriticalNesting : Z;
  g_PrioMap : Z;
  g_OSRunning : bool;
  ReadyList : list OS_List;
  DelayList : OS_List;
  CurrentTCB : option nat;
  NextTCB : option nat;
  tcbs : gmap nat OS_TCB;
  sems : gmap nat OS_Sem;
  mutexes : gmap nat OS_Mutex;
  queues : gmap nat OS_Queue;
  pools : gmap nat OS_Mem;
  ram : gmap Z Z;
  irq_enabled : bool;
  swi_pending : bool
}.

Definition set_g_SystemTickCount (v : Z) (s : Kernel) : Kernel :=
  mkKernel v (g_CriticalNesting s) (g_PrioMap s) (g_OSRunning s) (ReadyList s) (DelayList s)
    (CurrentTCB s) (NextTCB s) (tcbs s) (sems s) (mutexes s) (queues s) (pools s) (ram s)
    (irq_enabled s) (swi_pending s).
Definition set_g_CriticalNesting (v : Z) (s : Kernel) : Kernel :=
  mkKernel (g_SystemTickCount s) v (g_PrioMap s) (g_OSRunning s) (ReadyList s) (DelayList s)
    (CurrentTCB s) (NextTCB s) (tcbs s) (sems s) (mutexes s) (queues s) (pools s) (ram s)
    (irq_enabled s) (swi_pending s).
Definition set_g_PrioMap (v : Z) (s : Kernel) : Kernel :=
  mkKernel (g_SystemTickCount s) (g_CriticalNesting s) v (g_OSRunning s) (ReadyList s) (DelayList s)
    (CurrentTCB s) (NextTCB s) (tcbs s) (sems s) (mutexes s) (queues s) (pools s) (ram s)
    (irq_enabled s) (swi_pending s).
Definition set_g_OSRunning (v : bool) (s : Kernel) : Kernel :=
  mkKernel (g_SystemTickCount s) (g_CriticalNesting s) (g_PrioMap s) v (ReadyList s) (DelayList s)
    (CurrentTCB s) (NextTCB s) (tcbs s) (sems s) (mutexes s) (queues s) (pools s) (ram s)
    (irq_enabled s) (swi_pending s).
Definition set_ReadyList (v : list OS_List) (s : Kernel) : Kernel :=
  mkKernel (g_SystemTickCount s) (g_CriticalNesting s) (g_PrioMap s) (g_OSRunning s) v (DelayList s)
    (CurrentTCB s) (NextTCB s) (tcbs s) (sems s) (mutexes s) (queues s) (pools s) (ram s)
    (irq_enabled s) (swi_pending s).
Definition set_DelayList (v : OS_List) (s : Kernel) : Kernel :=
  mkKernel (g_SystemTickCount s) (g_CriticalNesting s) (g_PrioMap s) (g_OSRunning s) (ReadyList s) v
    (CurrentTCB s) (NextTCB s) (tcbs s) (sems s) (mutexes s) (queues s) (pools s) (ram s)
    (irq_enabled s) (swi_pending s).
Definition set_CurrentTCB (v : option nat) (s : Kernel) : Kernel :=
  mkKernel (g_SystemTickCount s) (g_CriticalNesting s) (g_PrioMap s) (g_OSRunning s) (ReadyList s) (DelayList s)
    v (NextTCB s) (tcbs s) (sems s) (mutexes s) (queues s) (pools s) (ram s)
    (irq_enabled s) (swi_pending s).
Definition set_NextTCB (v : option nat) (s : Kernel) : Kernel :=
  mkKernel (g_SystemTickCount s) (g_CriticalNesting s) (g_PrioMap s) (g_OSRunning s) (ReadyList s) (DelayList s)
    (CurrentTCB s) v (tcbs s) (sems s) (mutexes s) (queues s) (pools s) (ram s)
    (irq_enabled s) (swi_pending s).
Definition set_tcbs (v : gmap nat OS_TCB) (s : Kernel) : Kernel :=
  mkKernel (g_SystemTickCount s) (g_CriticalNesting s) (g_PrioMap s) (g_OSRunning s) (ReadyList s) (DelayList s)
    (CurrentTCB s) (NextTCB s) v (sems s) (mutexes s) (queues s) (pools s) (ram s)
    (irq_enabled s) (swi_pending s).
Definition set_sems (v : gmap nat OS_Sem) (s : Kernel) : Kernel :=
  mkKernel (g_SystemTickCount s) (g_CriticalNesting s) (g_PrioMap s) (g_OSRunning s) (ReadyList s) (DelayList s)
    (CurrentTCB s) (NextTCB s) (tcbs s) v (mutexes s) (queues s) (pools s) (ram s)
    (irq_enabled s) (swi_pending s).
Definition set_mutexes (v : gmap nat OS_Mutex) (s : Kernel) : Kernel :=
  mkKernel (g_SystemTickCount s) (g_CriticalNesting s) (g_PrioMap s) (g_OSRunning s) (ReadyList s) (DelayList s)
    (CurrentTCB s) (NextTCB s) (tcbs s) (sems s) v (queues s) (pools s) (ram s)
    (irq_enabled s) (swi_pending s).
Definition set_queues (v : gmap nat OS_Queue) (s : Kernel) : Kernel :=
  mkKernel (g_SystemTickCount s) (g_CriticalNesting s) (g_PrioMap s) (g_OSRunning s) (ReadyList s) (DelayList s)
    (CurrentTCB s) (NextTCB s) (tcbs s) (sems s) (mutexes s) v (pools s) (ram s)
    (irq_enabled s) (swi_pending s).
Definition set_pools (v : gmap nat OS_Mem) (s : Kernel) : Kernel :=
  mkKernel (g_SystemTickCount s) (g_CriticalNesting s) (g_PrioMap s) (g_OSRunning s) (ReadyList s) (DelayList s)
    (CurrentTCB s) (NextTCB s) (tcbs s) (sems s) (mutexes s) (queues s) v (ram s)
    (irq_enabled s) (swi_pending s).
Definition set_ram (v : gmap Z Z) (s : Kernel) : Kernel :=
  mkKernel (g_SystemTickCount s) (g_CriticalNesting s) (g_PrioMap s) (g_OSRunning s) (ReadyList s) (DelayList s)
    (CurrentTCB s) (NextTCB s) (tcbs s) (sems s) (mutexes s) (queues s) (pools s) v
    (irq_enabled s) (swi_pending s).
Definition set_irq_enabled (v : bool) (s : Kernel) : Kernel :=
  mkKernel (g_SystemTickCount s) (g_CriticalNesting s) (g_PrioMap s) (g_OSRunning s) (ReadyList s) (DelayList s)
    (CurrentTCB s) (NextTCB s) (tcbs s) (sems s) (mutexes s) (queues s) (pools s) (ram s)
    v (swi_pending s).
Definition set_swi_pending (v : bool) (s : Kernel) : Kernel :=
  mkKernel (g_SystemTickCount s) (g_CriticalNesting s) (g_PrioMap s) (g_OSRunning s) (ReadyList s) (DelayList s)
    (CurrentTCB s) (NextTCB s) (tcbs s) (sems s) (mutexes s) (queues s) (pools s) (ram s)
    (irq_enabled s) v.

(** ** Faults and the kernel monad

    A kernel operation either returns a value or stops at a fault; in both
    cases the state it has built so far is kept.  [NullPointer] is a load or
    store through a null pointer, [WildPointer] one through an address that
    holds no object of the expected type, [AssertFailed] a failed
    [OS_ASSERT] (the kernel masks interrupts and halts), [OutOfBounds] an
    access outside an array, [DivideByZero] a [%] by zero, and [OutOfFuel]
    a loop that did not finish within the iterations the model grants it. *)
Inductive fault : Set :=
| NullPointer | WildPointer | AssertFailed | OutOfBounds | DivideByZero | OutOfFuel.

Inductive outcome (A : Type) : Type :=
| Ret (a : A)
| Fault (f : fault).
Arguments Ret {A} a.
Arguments Fault {A} f.

Definition M (A : Type) : Type := Kernel → outcome A * Kernel.

Definition ret {A} (a : A) : M A := λ s, (Ret a, s).
Definition bind {A B} (m : M A) (k : A → M B) : M B :=
  λ s, match m s with
       | (Ret a, s') => k a s'
       | (Fault f, s') => (Fault f, s')
       end.
Definition fail {A} (f : fault) : M A := λ s, (Fault f, s).
Definition gets {A} (f : Kernel → A) : M A := λ s, (Ret (f s), s).
Definition modify (f : Kernel → Kernel) : M unit := λ s, (Ret tt, f s).

Declare Scope kernel_scope.
Delimit Scope kernel_scope with K.
Notation "x ← y ; z" := (bind y (λ x, z))
  (at level 20, y at level 100, z at level 200, only parsing) : kernel_scope.
Notation "y ;; z" := (bind y (λ _, z))
  (at level 100, z at level 200, only parsing, right associativity) : kernel_scope.
Local Open Scope kernel_scope.

(** State reached by an operation, and what it came to. *)
Definition exec {A} (m : M A) (s : Kernel) : Kernel := snd (m s).
Definition result {A} (m : M A) (s : Kernel) : outcome A := fst (m s).

(** *** Port layer (os_cpu.c) *)

Definition OS_Enable_IRQ : M unit := modify (set_irq_enabled true).
Definition OS_Disable_IRQ : M unit := modify (set_irq_enabled false).
Definition OS_Trigger_SWI : M unit := modify (set_swi_pending true).
(** The timer registers are outside the model. *)
Definition OS_Init_Timer : M unit := ret tt.

(** [OS_AssertFailed]: mask interrupts and spin for ever. *)
Definition OS_AssertFailed {A} : M A := OS_Disable_IRQ ;; fail AssertFailed.
Definition OS_ASSERT (x : bool) : M unit := if x then ret tt else OS_AssertFailed.

(** *** Memory accesses *)

Definition is_null (p : option nat) : bool := if p is None then true else false.

(** [*p] for a pointer to a task control block. *)
Definition load_tcb (p : option nat) : M OS_TCB :=
  λ s, match p with
       | None => (Fault NullPointer, s)
       | Some a => match tcbs s !! a with
                   | Some t => (Ret t, s)
                   | None => (Fault WildPointer, s)
                   end
       end.

(** [p->field = v], given as the update [f] of the block. *)
Definition store_tcb (p : option nat) (f : OS_TCB → OS_TCB) : M unit :=
  λ s, match p with
       | None => (Fault NullPointer, s)
       | Some a => match tcbs s !! a with
                   | Some t => (Ret tt, set_tcbs (<[a := f t]> (tcbs s)) s)
                   | None => (Fault WildPointer, s)
                   end
       end.

(** The lists of the kernel: [&ReadyList[p]], [&DelayList] and the wait
    lists embedded in the synchronisation objects. *)
Inductive list_ref : Set :=
| ReadyListAt (p : Z)
| DelayListRef
| SemWaitList (a : nat)
| MutexWaitList (a : nat)
| QueueWaitReadList (a : nat)
| MemWaitList (a : nat).

Definition get_list (l : list_ref) (s : Kernel) : option OS_List :=
  match l with
  | ReadyListAt p =>
      if (0 <=? p) && (p <? OS_MAX_PRIO) then ReadyList s !! Z.to_nat p else None
  | DelayListRef => Some (DelayList s)
  | SemWaitList a => sem_WaitList <$> sems s !! a
  | MutexWaitList a => mtx_WaitList <$> mutexes s !! a
  | QueueWaitReadList a => WaitReadList <$> queues s !! a
  | MemWaitList a => mem_WaitList <$> pools s !! a
  end.

Definition set_list (l : list_ref) (v : OS_List) (s : Kernel) : Kernel :=
  match l with
  | ReadyListAt p =>
      if (0 <=? p) && (p <? OS_MAX_PRIO)
      then set_ReadyList (<[Z.to_nat p := v]> (ReadyList s)) s
      else s
  | DelayListRef => set_DelayList v s
  | SemWaitList a => set_sems (alter (set_sem_WaitList v) a (sems s)) s
  | MutexWaitList a => set_mutexes (alter (set_mtx_WaitList v) a (mutexes s)) s
  | QueueWaitReadList a => set_queues (alter (set_WaitReadList v) a (queues s)) s
  | MemWaitList a => set_pools (alter (set_mem_WaitList v) a (pools s)) s
  end.

Definition list_fault (l : list_ref) : fault :=
  match l with ReadyListAt _ => OutOfBounds | _ => WildPointer end.

Definition load_list (l : list_ref) : M OS_List :=
  λ s, match get_list l s with
       | Some v => (Ret v, s)
       | None => (Fault (list_fault l), s)
       end.

Definition store_list (l : list_ref) (f : OS_List → OS_List) : M unit :=
  λ s, match get_list l s with
       | Some v => (Ret tt, set_list l (f v) s)
       | None => (Fault (list_fault l), s)
       end.

Definition load_sem (p : nat) : M OS_Sem :=
  λ s, match sems s !! p with Some x => (Ret x, s) | None => (Fault WildPointer, s) end.
Definition store_sem (p : nat) (f : OS_Sem → OS_Sem) : M unit :=
  λ s, match sems s !! p with
       | Some x => (Ret tt, set_sems (<[p := f x]> (sems s)) s)
       | None => (Fault WildPointer, s)
       end.

Definition load_mutex (p : nat) : M OS_Mutex :=
  λ s, match mutexes s !! p with Some x => (Ret x, s) | None => (Fault WildPointer, s) end.
Definition store_mutex (p : nat) (f : OS_Mutex → OS_Mutex) : M unit :=
  λ s, match mutexes s !! p with
       | Some x => (Ret tt, set_mutexes (<[p := f x]> (mutexes s)) s)
       | None => (Fault WildPointer, s)
       end.

Definition load_queue (p : nat) : M OS_Queue :=
  λ s, match queues s !! p with Some x => (Ret x, s) | None => (Fault WildPointer, s) end.
Definition store_queue (p : nat) (f : OS_Queue → OS_Queue) : M unit :=
  λ s, match queues s !! p with
       | Some x => (Ret tt, set_queues (<[p := f x]> (queues s)) s)
       | None => (Fault WildPointer, s)
       end.

Definition load_pool (p : nat) : M OS_Mem :=
  λ s, match pools s !! p with Some x => (Ret x, s) | None => (Fault WildPointer, s) end.
Definition store_pool (p : nat) (f : OS_Mem → OS_Mem) : M unit :=
  λ s, match pools s !! p with
       | Some x => (Ret tt, set_pools (<[p := f x]> (pools s)) s)
       | None => (Fault WildPointer, s)
       end.

(** A word of RAM; a word never written reads as zero. *)
Definition load_word (a : Z) : M Z := gets (λ s, default 0 (ram s !! a)).
Definition store_word (a : Z) (v : Z) : M unit := modify (λ s, set_ram (<[a := v]> (ram s)) s).

(** Number of iterations granted to a loop that walks a list of task
    control blocks: a well-formed list has no more nodes than there are
    control blocks. *)
Definition walk_fuel : M nat := gets (λ s, size (tcbs s)).

(** *** [OS_StackInit] (os_cpu.c) *)

(** Addresses fixed by the linker.  Any values that are distinct and not
    null would do. *)
Definition OS_TaskReturn : Z := 0x08000100.
Definition global_pointer : Z := 0x20000800.
Definition IdleTask : Z := 0x08000200.
Definition IdleTaskStack : Z := 0x20008000.
Definition IdleTaskTCB : nat := 0%nat.

Fixpoint push_words (sp : Z) (ws : list Z) : M Z :=
  match ws with
  | [] => ret sp
  | w :: ws' => store_word (u32 (sp - 4)) w ;; push_words (u32 (sp - 4)) ws'
  end.

Definition OS_StackInit (task_function task_param stack_init_address stack_depth : Z) : M Z :=
  let sp := u32 (stack_init_address + 4 * stack_depth) in
  let sp := Z.land sp 0xFFFFFFF0 in
  push_words sp
    ([MSTATUS_VALUE; u32 task_function; OS_TaskReturn; global_pointer; u32 task_param]
       ++ repeat 0 27).

(** ** os_core.c *)

Definition OS_CheckStackOverflow : M unit :=
  cur ← gets CurrentTCB;
  if is_null cur then ret tt
  else
    t ← load_tcb cur;
    w ← load_word (stackLimit t);
    if negb (w =? OS_STACK_MAGIC_VAL) || (stackPtr t <=? stackLimit t)
    then OS_Disable_IRQ ;; OS_ASSERT false
    else ret tt.

Definition List_Init (list : list_ref) : M unit :=
  store_list list (set_Head None) ;;
  store_list list (set_Tail None).

Definition List_InsertTail (list : list_ref) (tcb : option nat) : M unit :=
  OS_ASSERT (negb (is_null tcb)) ;;
  store_tcb tcb (set_Next None) ;;
  l ← load_list list;
  if is_null (Head l) then
    store_list list (set_Head tcb) ;;
    store_list list (set_Tail tcb) ;;
    store_tcb tcb (set_Prev None)
  else
    store_tcb (Tail l) (set_Next tcb) ;;
    l ← load_list list;
    store_tcb tcb (set_Prev (Tail l)) ;;
    store_list list (set_Tail tcb).

Definition List_Remove (list : list_ref) (tcb : option nat) : M unit :=
  OS_ASSERT (negb (is_null tcb)) ;;
  t ← load_tcb tcb;
  (if is_null (Prev t) then store_list list (set_Head (Next t))
   else store_tcb (Prev t) (set_Next (Next t))) ;;
  t ← load_tcb tcb;
  (if is_null (Next t) then store_list list (set_Tail (Prev t))
   else store_tcb (Next t) (set_Prev (Prev t))) ;;
  store_tcb tcb (set_Prev None) ;;
  store_tcb tcb (set_Next None).

Definition List_PopHead (list : list_ref) : M (option nat) :=
  l ← load_list list;
  let head := Head l in
  (if is_null head then ret tt else List_Remove list head) ;;
  ret head.

Definition OS_ReadyListAdd (tcb : option nat) : M unit :=
  OS_ASSERT (negb (is_null tcb)) ;;
  t ← load_tcb tcb;
  modify (λ s, set_g_PrioMap (Z.lor (g_PrioMap s) (u32 (Z.shiftl 1 (Priority t)))) s) ;;
  t ← load_tcb tcb;
  List_InsertTail (ReadyListAt (Priority t)) tcb.

Definition OS_ReadyListRemove (tcb : option nat) : M unit :=
  OS_ASSERT (negb (is_null tcb)) ;;
  t ← load_tcb tcb;
  List_Remove (ReadyListAt (Priority t)) tcb ;;
  t ← load_tcb tcb;
  l ← load_list (ReadyListAt (Priority t));
  if is_null (Head l) then
    t ← load_tcb tcb;
    modify (λ s, set_g_PrioMap (Z.land (g_PrioMap s) (not32 (u32 (Z.shiftl 1 (Priority t))))) s)
  else ret tt.

Definition FindNextTask : M (option nat) :=
  map ← gets g_PrioMap;
  OS_ASSERT (negb (map =? 0)) ;;
  map ← gets g_PrioMap;
  let TopPrio := OS_GetTopPrio map in
  l ← load_list (ReadyListAt TopPrio);
  let next_task := Head l in
  OS_ASSERT (negb (is_null next_task)) ;;
  ret next_task.

Definition OS_TaskCreate (tcb : option nat) (task_function task_param : Z)
    (stack_init_address stack_depth : Z) (priority : Z) : M OS_Status :=
  if is_null tcb || (task_function =? 0) || (stack_init_address =? 0)
     || (priority >? OS_MAX_PRIO - 1)
  then ret OS_ERR_PARAM
  else
    sp ← OS_StackInit task_function task_param stack_init_address stack_depth;
    store_tcb tcb (set_stackPtr sp) ;;
    store_tcb tcb (set_stackLimit stack_init_address) ;;
    t ← load_tcb tcb;
    store_word (stackLimit t) OS_STACK_MAGIC_VAL ;;
    store_tcb tcb (set_DelayTicks 0) ;;
    store_tcb tcb (set_State TASK_READY) ;;
    store_tcb tcb (set_Priority priority) ;;
    store_tcb tcb (set_OriginalPrio priority) ;;
    OS_ReadyListAdd tcb ;;
    ret OS_OK.

Fixpoint init_ready_lists (n : nat) (i : Z) : M unit :=
  match n with
  | O => ret tt
  | S n' => List_Init (ReadyListAt i) ;; init_ready_lists n' (i + 1)
  end.

Definition OS_Init : M unit :=
  modify (set_g_OSRunning false) ;;
  modify (set_g_SystemTickCount 0) ;;
  modify (set_g_CriticalNesting 0) ;;
  modify (set_g_PrioMap 0) ;;
  init_ready_lists (Z.to_nat OS_MAX_PRIO) 0 ;;
  List_Init DelayListRef ;;
  _ ← OS_TaskCreate (Some IdleTaskTCB) IdleTask 0 IdleTaskStack IDLE_STACK_SIZE (OS_MAX_PRIO - 1);
  ret tt.

(** [OS_StartScheduler] up to the jump into the first task, which is the
    port's and does not return. *)
Definition OS_StartScheduler : M unit :=
  next ← FindNextTask;
  modify (set_CurrentTCB next) ;;
  OS_Init_Timer ;;
  modify (set_g_OSRunning true).

(** The wake loop of the tick handler,
    [while (DelayList.Head->DelayTicks == 0 && DelayList.Head != NULL)]:
    the left operand of [&&] is evaluated first, so the head is
    dereferenced before it is compared with [NULL]. *)
Fixpoint Tick_WakeLoop (fuel : nat) : M unit :=
  s_DelayList ← gets DelayList;
  h ← load_tcb (Head s_DelayList);
  s_DelayList ← gets DelayList;
  if (DelayTicks h =? 0) && negb (is_null (Head s_DelayList)) then
    match fuel with
    | O => fail OutOfFuel
    | S fuel' =>
        tcb_to_wake ← List_PopHead DelayListRef;
        store_tcb tcb_to_wake (set_State TASK_READY) ;;
        OS_ReadyListAdd tcb_to_wake ;;
        Tick_WakeLoop fuel'
    end
  else ret tt.

(** Lines 215-225: the processing of the delay list on a tick. *)
Definition Tick_DelayList : M unit :=
  s_DelayList ← gets DelayList;
  if negb (is_null (Head s_DelayList)) then
    h ← load_tcb (Head s_DelayList);
    (if DelayTicks h >? 0
     then store_tcb (Head s_DelayList) (set_DelayTicks (u32 (DelayTicks h - 1)))
     else ret tt) ;;
    fuel ← walk_fuel;
    Tick_WakeLoop fuel
  else ret tt.

(** Lines 227-233: rotation of the running task's priority band. *)
Definition Tick_RoundRobin : M unit :=
  cur ← gets CurrentTCB;
  c ← load_tcb cur;
  let ls := ReadyListAt (Priority c) in
  l ← load_list ls;
  if (if State c is TASK_READY then true else false)
     && negb (bool_decide (Head l = Tail l))
  then List_Remove ls cur ;; List_InsertTail ls cur
  else ret tt.

Definition OS_Tick_Handler : M unit :=
  running ← gets g_OSRunning;
  if negb running then ret tt
  else
    cur ← gets CurrentTCB;
    OS_ASSERT (negb (is_null cur)) ;;
    OS_CheckStackOverflow ;;
    modify (λ s, set_g_SystemTickCount (u32 (g_SystemTickCount s + 1)) s) ;;
    Tick_DelayList ;;
    Tick_RoundRobin ;;
    next ← FindNextTask;
    modify (set_NextTCB next) ;;
    cur ← gets CurrentTCB;
    if negb (bool_decide (next = cur)) then OS_Trigger_SWI else ret tt.

Definition OS_EnterCritical : M unit :=
  OS_Disable_IRQ ;;
  modify (λ s, set_g_CriticalNesting (u32 (g_CriticalNesting s + 1)) s).

Definition OS_ExitCritical : M unit :=
  n ← gets g_CriticalNesting;
  OS_ASSERT (negb (n =? 0)) ;;
  modify (λ s, set_g_CriticalNesting (u32 (g_CriticalNesting s - 1)) s) ;;
  n ← gets g_CriticalNesting;
  if n =? 0 then OS_Enable_IRQ else ret tt.

(** The search of [OS_Delay],
    [while (iter != NULL && ticks >= iter->DelayTicks)]. *)
Fixpoint Delay_Walk (fuel : nat) (iter : option nat) (ticks : Z) : M (option nat * Z) :=
  if is_null iter then ret (iter, ticks)
  else
    i ← load_tcb iter;
    if ticks >=? DelayTicks i then
      match fuel with
      | O => fail OutOfFuel
      | S fuel' => Delay_Walk fuel' (Next i) (u32 (ticks - DelayTicks i))
      end
    else ret (iter, ticks).

Definition OS_Delay (ticks : Z) : M unit :=
  OS_EnterCritical ;;
  cur ← gets CurrentTCB;
  store_tcb cur (set_State TASK_BLOCKED) ;;
  OS_ReadyListRemove cur ;;
  s_DelayList ← gets DelayList;
  (if is_null (Head s_DelayList) then
     store_tcb cur (set_DelayTicks ticks) ;;
     List_InsertTail DelayListRef cur
   else
     fuel ← walk_fuel;
     found ← Delay_Walk fuel (Head s_DelayList) ticks;
     let iter := fst found in
     let ticks := snd found in
     store_tcb cur (set_DelayTicks ticks) ;;
     s_DelayList ← gets DelayList;
     if is_null iter then
       List_InsertTail DelayListRef cur
     else if bool_decide (iter = Head s_DelayList) then
       i ← load_tcb iter;
       store_tcb iter (set_DelayTicks (u32 (DelayTicks i - ticks))) ;;
       store_tcb cur (set_Next iter) ;;
       store_tcb iter (set_Prev cur) ;;
       store_tcb cur (set_Prev None) ;;
       modify (λ s, set_DelayList (set_Head cur (DelayList s)) s)
     else
       i ← load_tcb iter;
       store_tcb iter (set_DelayTicks (u32 (DelayTicks i - ticks))) ;;
       store_tcb cur (set_Next iter) ;;
       i ← load_tcb iter;
       store_tcb cur (set_Prev (Prev i)) ;;
       i ← load_tcb iter;
       store_tcb (Prev i) (set_Next cur) ;;
       store_tcb iter (set_Prev cur)) ;;
  next ← FindNextTask;
  modify (set_NextTCB next) ;;
  OS_Trigger_SWI ;;
  OS_ExitCritical.

(** *** Semaphores *)

Definition OS_SemInit (p_sem : option nat) : M OS_Status :=
  match p_sem with
  | None => ret OS_ERR_PARAM
  | Some a => List_Init (SemWaitList a) ;; ret OS_OK
  end.

(** The blocking branch returns [OS_OK] once the task has been switched
    back in; the state given here is the one at the end of the critical
    section, with the switch requested. *)
Definition OS_SemWait (p_sem : option nat) : M OS_Status :=
  match p_sem with
  | None => ret OS_ERR_PARAM
  | Some a =>
      OS_EnterCritical ;;
      x ← load_sem a;
      if count x >? 0 then
        store_sem a (set_count (u16 (count x - 1))) ;;
        OS_ExitCritical ;;
        ret OS_OK
      else
        cur ← gets CurrentTCB;
        store_tcb cur (set_State TASK_BLOCKED) ;;
        OS_ReadyListRemove cur ;;
        List_InsertTail (SemWaitList a) cur ;;
        next ← FindNextTask;
        modify (set_NextTCB next) ;;
        OS_Trigger_SWI ;;
        OS_ExitCritical ;;
        ret OS_OK
  end.

Definition OS_SemPost (p_sem : option nat) : M OS_Status :=
  match p_sem with
  | None => ret OS_ERR_PARAM
  | Some a =>
      OS_EnterCritical ;;
      x ← load_sem a;
      if is_null (Head (sem_WaitList x)) then
        store_sem a (set_count (u16 (count x + 1))) ;;
        OS_ExitCritical ;;
        ret OS_OK
      else
        TaskToWake ← List_PopHead (SemWaitList a);
        store_tcb TaskToWake (set_State TASK_READY) ;;
        OS_ReadyListAdd TaskToWake ;;
        next ← FindNextTask;
        modify (set_NextTCB next) ;;
        OS_Trigger_SWI ;;
        OS_ExitCritical ;;
        ret OS_OK
  end.

(** *** Mutexes *)

Definition OS_MutexInit (p_mutex : option nat) : M OS_Status :=
  match p_mutex with
  | None => ret OS_ERR_PARAM
  | Some a =>
      store_mutex a (set_Owner None) ;;
      store_mutex a (set_NestCount 0) ;;
      store_mutex a (set_mtx_OriginalPrio (OS_MAX_PRIO - 1)) ;;
      List_Init (MutexWaitList a) ;;
      ret OS_OK
  end.

(** The search of [OS_MutexPend],
    [while (iter->Next != NULL && iter->Next->Priority <= CurrentTCB->Priority)]. *)
Fixpoint MutexPend_Walk (fuel : nat) (iter : option nat) : M (option nat) :=
  i ← load_tcb iter;
  if is_null (Next i) then ret iter
  else
    n ← load_tcb (Next i);
    cur ← gets CurrentTCB;
    c ← load_tcb cur;
    if Priority n <=? Priority c then
      match fuel with
      | O => fail OutOfFuel
      | S fuel' => MutexPend_Walk fuel' (Next i)
      end
    else ret iter.

(** Lines 433-465: the caller is linked into the wait list. *)
Definition MutexPend_Enqueue (a : nat) : M unit :=
  cur ← gets CurrentTCB;
  m ← load_mutex a;
  if is_null (Head (mtx_WaitList m)) then
    List_InsertTail (MutexWaitList a) cur
  else
    h ← load_tcb (Head (mtx_WaitList m));
    c ← load_tcb cur;
    if Priority h >? Priority c then
      store_tcb cur (set_Next (Head (mtx_WaitList m))) ;;
      store_tcb (Head (mtx_WaitList m)) (set_Prev cur) ;;
      store_tcb cur (set_Prev None) ;;
      store_list (MutexWaitList a) (set_Head cur)
    else
      fuel ← walk_fuel;
      iter ← MutexPend_Walk fuel (Head (mtx_WaitList m));
      i ← load_tcb iter;
      store_tcb cur (set_Next (Next i)) ;;
      store_tcb cur (set_Prev iter) ;;
      i ← load_tcb iter;
      (if negb (is_null (Next i))
       then store_tcb (Next i) (set_Prev cur)
       else store_list (MutexWaitList a) (set_Tail cur)) ;;
      store_tcb iter (set_Next cur).

Definition OS_MutexPend (p_mutex : option nat) : M OS_Status :=
  match p_mutex with
  | None => ret OS_ERR_PARAM
  | Some a =>
      OS_EnterCritical ;;
      m ← load_mutex a;
      cur ← gets CurrentTCB;
      if is_null (Owner m) then
        store_mutex a (set_Owner cur) ;;
        store_mutex a (set_NestCount 1) ;;
        OS_ExitCritical ;;
        ret OS_OK
      else if bool_decide (Owner m = cur) then
        store_mutex a (set_NestCount (u8 (NestCount m + 1))) ;;
        OS_ExitCritical ;;
        ret OS_OK
      else
        c ← load_tcb cur;
        o ← load_tcb (Owner m);
        (if Priority c <? Priority o then
           if (if State o is TASK_READY then true else false) then
             OS_ReadyListRemove (Owner m) ;;
             c ← load_tcb cur;
             store_tcb (Owner m) (set_Priority (Priority c)) ;;
             OS_ReadyListAdd (Owner m)
           else
             store_tcb (Owner m) (set_Priority (Priority c))
         else ret tt) ;;
        store_tcb cur (set_State TASK_BLOCKED) ;;
        OS_ReadyListRemove cur ;;
        MutexPend_Enqueue a ;;
        next ← FindNextTask;
        modify (set_NextTCB next) ;;
        OS_Trigger_SWI ;;
        OS_ExitCritical ;;
        ret OS_OK
  end.

Definition OS_MutexPost (p_mutex : option nat) : M OS_Status :=
  match p_mutex with
  | None => ret OS_ERR_PARAM
  | Some a =>
      OS_EnterCritical ;;
      m ← load_mutex a;
      cur ← gets CurrentTCB;
      if negb (bool_decide (Owner m = cur)) then
        OS_ExitCritical ;;
        ret OS_ERR_NOT_OWNER
      else
        store_mutex a (set_NestCount (u8 (NestCount m - 1))) ;;
        m ← load_mutex a;
        if NestCount m >? 0 then
          OS_ExitCritical ;;
          ret OS_OK
        else
          c ← load_tcb cur;
          (if negb (Priority c =? OriginalPrio c) then
             OS_ReadyListRemove cur ;;
             c ← load_tcb cur;
             store_tcb cur (set_Priority (OriginalPrio c)) ;;
             OS_ReadyListAdd cur
           else ret tt) ;;
          m ← load_mutex a;
          if is_null (Head (mtx_WaitList m)) then
            store_mutex a (set_Owner None) ;;
            OS_ExitCritical ;;
            ret OS_OK
          else
            TaskToWake ← List_PopHead (MutexWaitList a);
            store_mutex a (set_Owner TaskToWake) ;;
            store_mutex a (set_NestCount 1) ;;
            OS_ReadyListAdd TaskToWake ;;
            next ← FindNextTask;
            modify (set_NextTCB next) ;;
            OS_Trigger_SWI ;;
            OS_ExitCritical ;;
            ret OS_OK
  end.

(** *** Message queues *)

(** [memcpy (buf + off, src, n)] on the bytes of a buffer. *)
Definition memcpy_to (buf : list Z) (off : Z) (src : list Z) (n : Z) : option (list Z) :=
  if (0 <=? off) && (0 <=? n) && (off + n <=? Z.of_nat (length buf))
     && (n <=? Z.of_nat (length src))
  then Some (take (Z.to_nat off) buf ++ take (Z.to_nat n) src
               ++ drop (Z.to_nat (off + n)) buf)
  else None.

(** The [n] bytes at [buf + off]. *)
Definition memcpy_from (buf : list Z) (off : Z) (n : Z) : option (list Z) :=
  if (0 <=? off) && (0 <=? n) && (off + n <=? Z.of_nat (length buf))
  then Some (take (Z.to_nat n) (drop (Z.to_nat off) buf))
  else None.

Definition OS_QueueInit (p_queue : option nat) (buffer : option (list Z))
    (msg_size queue_size : Z) : M unit :=
  match p_queue, buffer with
  | Some a, Some b =>
      if (msg_size =? 0) || (queue_size =? 0) then ret tt
      else
        store_queue a (set_Buffer b) ;;
        store_queue a (set_MsgSize msg_size) ;;
        store_queue a (set_QSize queue_size) ;;
        store_queue a (set_MsgCount 0) ;;
        store_queue a (set_q_Head 0) ;;
        store_queue a (set_q_Tail 0) ;;
        List_Init (QueueWaitReadList a)
  | _, _ => ret tt
  end.

Definition OS_QueueSend (p_queue : option nat) (p_msg : option (list Z)) : M OS_Status :=
  match p_queue, p_msg with
  | Some a, Some msg =>
      OS_EnterCritical ;;
      q ← load_queue a;
      if MsgCount q >=? QSize q then
        OS_ExitCritical ;;
        ret OS_ERR_Q_FULL
      else
        match memcpy_to (Buffer q) (q_Head q * MsgSize q) msg (MsgSize q) with
        | None => fail OutOfBounds
        | Some b =>
            store_queue a (set_Buffer b) ;;
            q ← load_queue a;
            (if QSize q =? 0 then fail DivideByZero
             else store_queue a (set_q_Head (u16 ((q_Head q + 1) mod QSize q)))) ;;
            q ← load_queue a;
            store_queue a (set_MsgCount (u16 (MsgCount q + 1))) ;;
            q ← load_queue a;
            (if negb (is_null (Head (WaitReadList q))) then
               TaskToWake ← List_PopHead (QueueWaitReadList a);
               store_tcb TaskToWake (set_State TASK_READY) ;;
               OS_ReadyListAdd TaskToWake ;;
               next ← FindNextTask;
               modify (set_NextTCB next) ;;
               OS_Trigger_SWI
             else ret tt) ;;
            OS_ExitCritical ;;
            ret OS_OK
        end
  | _, _ => ret OS_ERR_PARAM
  end.

(** What a call that may suspend its caller comes to: it returns, or the
    caller is parked inside the call and re-evaluates the guarding
    condition when it runs again. *)
Inductive call (A : Type) : Type :=
| Returned (a : A)
| Suspended.
Arguments Returned {A} a.
Arguments Suspended {A}.

(** The body of the [while (p_queue->MsgCount == 0)] loop and what follows
    it, entered with the critical section held.  A suspended caller comes
    back through [OS_EnterCritical] to this same test. *)
Definition QueueReceive_Body (a : nat) : M (call (OS_Status * list Z)) :=
  q ← load_queue a;
  if MsgCount q =? 0 then
    cur ← gets CurrentTCB;
    store_tcb cur (set_State TASK_BLOCKED) ;;
    OS_ReadyListRemove cur ;;
    List_InsertTail (QueueWaitReadList a) cur ;;
    next ← FindNextTask;
    modify (set_NextTCB next) ;;
    OS_Trigger_SWI ;;
    OS_ExitCritical ;;
    ret Suspended
  else
    match memcpy_from (Buffer q) (q_Tail q * MsgSize q) (MsgSize q) with
    | None => fail OutOfBounds
    | Some bytes =>
        (if QSize q =? 0 then fail DivideByZero
         else store_queue a (set_q_Tail (u16 ((q_Tail q + 1) mod QSize q)))) ;;
        q ← load_queue a;
        store_queue a (set_MsgCount (u16 (MsgCount q - 1))) ;;
        OS_ExitCritical ;;
        ret (Returned (OS_OK, bytes))
    end.

(** [p_msg_buffer] is given by whether it is null; the bytes stored
    through it are returned. *)
Definition OS_QueueReceive (p_queue : option nat) (p_msg_buffer : bool)
  : M (call (OS_Status * list Z)) :=
  match p_queue, p_msg_buffer with
  | Some a, true => OS_EnterCritical ;; QueueReceive_Body a
  | _, _ => ret (Returned (OS_ERR_PARAM, []))
  end.

(** *** Memory pools *)

Fixpoint MemInit_Link (n : nat) (p_block : Z) (block_size : Z) : M Z :=
  match n with
  | O => ret p_block
  | S n' =>
      let p_next := u32 (p_block + block_size) in
      store_word p_block p_next ;;
      MemInit_Link n' p_next block_size
  end.

Definition OS_MemInit (p_mem : option nat) (start_addr blocks block_size : Z) : M unit :=
  match p_mem with
  | None => ret tt
  | Some a =>
      if (start_addr =? 0) || (blocks =? 0) || (block_size <? 4) then ret tt
      else
        store_pool a (set_Addr start_addr) ;;
        store_pool a (set_FreeList start_addr) ;;
        store_pool a (set_BlockSize block_size) ;;
        store_pool a (set_TotalBlocks blocks) ;;
        store_pool a (set_FreeBlocks blocks) ;;
        List_Init (MemWaitList a) ;;
        p_block ← MemInit_Link (Z.to_nat (blocks - 1)) start_addr block_size;
        store_word p_block 0
  end.

Definition MemGet_Body (a : nat) : M (call Z) :=
  m ← load_pool a;
  if FreeBlocks m =? 0 then
    cur ← gets CurrentTCB;
    store_tcb cur (set_State TASK_BLOCKED) ;;
    OS_ReadyListRemove cur ;;
    List_InsertTail (MemWaitList a) cur ;;
    next ← FindNextTask;
    modify (set_NextTCB next) ;;
    OS_Trigger_SWI ;;
    OS_ExitCritical ;;
    ret Suspended
  else
    let r := FreeList m in
    w ← load_word r;
    store_pool a (set_FreeList w) ;;
    m ← load_pool a;
    store_pool a (set_FreeBlocks (u32 (FreeBlocks m - 1))) ;;
    OS_ExitCritical ;;
    ret (Returned r).

Definition OS_MemGet (p_mem : option nat) : M (call Z) :=
  match p_mem with
  | None => ret (Returned 0)
  | Some a => OS_EnterCritical ;; MemGet_Body a
  end.

Definition OS_MemPut (p_mem : option nat) (p_block : Z) : M OS_Status :=
  match p_mem with
  | None => ret OS_ERR_PARAM
  | Some a =>
      if p_block =? 0 then ret OS_ERR_PARAM
      else
        OS_EnterCritical ;;
        m ← load_pool a;
        let start_addr := Addr m in
        let block_addr := p_block in
        let total_size := u32 (TotalBlocks m * BlockSize m) in
        if (block_addr <? start_addr) || (block_addr >=? u32 (start_addr + total_size)) then
          OS_ExitCritical ;;
          ret OS_ERR_INVALID_ADDR
        else if BlockSize m =? 0 then fail DivideByZero
        else if negb (u32 (block_addr - start_addr) mod BlockSize m =? 0) then
          OS_ExitCritical ;;
          ret OS_ERR_NOT_ALIGN
        else
          store_word p_block (FreeList m) ;;
          store_pool a (set_FreeList p_block) ;;
          m ← load_pool a;
          store_pool a (set_FreeBlocks (u32 (FreeBlocks m + 1))) ;;
          m ← load_pool a;
          (if negb (is_null (Head (mem_WaitList m))) then
             TaskToWake ← List_PopHead (MemWaitList a);
             store_tcb TaskToWake (set_State TASK_READY) ;;
             OS_ReadyListAdd TaskToWake ;;
             next ← FindNextTask;
             modify (set_NextTCB next) ;;
             OS_Trigger_SWI
           else ret tt) ;;
          OS_ExitCritical ;;
          ret OS_OK
  end.

(** *** The context switch

    Modelled from the spec: the software-interrupt handler of the CPU port
    is assembly code that is not among the sources.  The spec gives its
    contract: when the request raised by [OS_Trigger_SWI] is serviced, the
    port saves the registers of the running task, commits
    [current_tcb = next_tcb] and restores the registers of the new task.
    Registers are outside the model; the request is serviced once
    interrupts are enabled. *)
Definition OS_SWI_Handler : M unit :=
  pending ← gets swi_pending;
  enabled ← gets irq_enabled;
  if pending && enabled then
    modify (set_swi_pending false) ;;
    next ← gets NextTCB;
    modify (set_CurrentTCB next)
  else ret tt.

(** *** Memory at reset

    Statically allocated objects are zero-filled; [boot] holds the
    kernel's own variables and the idle task's control block. *)
Definition zero_tcb : OS_TCB := mkTCB 0 0 None None TASK_READY 0 0 0.
Definition zero_sem : OS_Sem := mkSem 0 empty_list.
Definition zero_mutex : OS_Mutex := mkMutex None empty_list 0 0.
Definition zero_queue : OS_Queue := mkQueue [] 0 0 0 0 0 empty_list.
Definition zero_pool : OS_Mem := mkMem 0 0 0 0 0 empty_list.

Definition boot : Kernel :=
  mkKernel 0 0 0 false (replicate 32 empty_list) empty_list None None
    {[ IdleTaskTCB := zero_tcb ]} ∅ ∅ ∅ ∅ ∅ false false.

(** Static objects of the application, placed at address [a]. *)
Definition static_tcb (a : nat) (s : Kernel) : Kernel := set_tcbs (<[a := zero_tcb]> (tcbs s)) s.
Definition static_sem (a : nat) (s : Kernel) : Kernel := set_sems (<[a := zero_sem]> (sems s)) s.
Definition static_mutex (a : nat) (s : Kernel) : Kernel := set_mutexes (<[a := zero_mutex]> (mutexes s)) s.
Definition static_queue (a : nat) (s : Kernel) : Kernel := set_queues (<[a := zero_queue]> (queues s)) s.
Definition static_pool (a : nat) (s : Kernel) : Kernel := set_pools (<[a := zero_pool]> (pools s)) s.

(** A kernel call made by task [t]: the call is made only if [t] is the
    running task, and a switch it requests is serviced when it ends. *)
Definition by_task {A} (t : nat) (m : M A) : M A :=
  cur ← gets CurrentTCB;
  OS_ASSERT (bool_decide (cur = Some t)) ;;
  r ← m;
  OS_SWI_Handler ;;
  ret r.

Definition ignore {A} (m : M A) : M unit := _ ← m; ret tt.

(** ** The lists as sequences of tasks

    A list header and the [Prev]/[Next] fields of the control blocks
    represent a sequence of tasks.  [walk] follows the [Next] pointers from
    a header; [list_repr] says that a header and the links of the nodes
    spell out a given sequence, in both directions. *)


(** [Next] and [Prev] of the block at [y], if there is one. *)
Definition next_at (h : gmap nat OS_TCB) (y : nat) : option (option nat) := Next <$> h !! y.
Definition prev_at (h : gmap nat OS_TCB) (y : nat) : option (option nat) := Prev <$> h !! y.

(** [chain nx p l q]: starting at pointer [p] and following [nx], one
    visits the nodes [l] in order and arrives at [q]. *)
Fixpoint chain (nx : nat → option (option nat)) (p : option nat) (l : list nat)
    (q : option nat) : Prop :=
  match l with
  | [] => p = q
  | y :: l' => p = Some y ∧ ∃ r, nx y = Some r ∧ chain nx r l' q
  end.

Fixpoint chainb (nx : nat → option (option nat)) (p : option nat) (l : list nat)
    (q : option nat) : bool :=
  match l with
  | [] => bool_decide (p = q)
  | y :: l' => bool_decide (p = Some y) &&
               match nx y with Some r => chainb nx r l' q | None => false end
  end.

(** The header [L] and the links in [h] spell out the sequence [l]: from
    [Head] through [Next] forwards, from [Tail] through [Prev] backwards. *)
Definition list_repr (h : gmap nat OS_TCB) (L : OS_List) (l : list nat) : Prop :=
  chain (next_at h) (Head L) l None ∧ chain (prev_at h) (Tail L) (reverse l) None.

Definition list_reprb (h : gmap nat OS_TCB) (L : OS_List) (l : list nat) : bool :=
  chainb (next_at h) (Head L) l None && chainb (prev_at h) (Tail L) (reverse l) None.

Fixpoint walk (fuel : nat) (h : gmap nat OS_TCB) (p : option nat) : list nat :=
  match fuel with
  | O => []
  | S n =>
      match p with
      | None => []
      | Some a => match h !! a with
                  | Some t => a :: walk n h (Next t)
                  | None => []
                  end
      end
  end.

(** The tasks on a list of the kernel, head first. *)
Definition contents (s : Kernel) (r : list_ref) : list nat :=
  match get_list r s with
  | Some L => walk (size (tcbs s)) (tcbs s) (Head L)
  | None => []
  end.

#[global] Instance list_ref_eq_dec : EqDecision list_ref.
Proof. solve_decision. Defined.

(** Every list the kernel state holds. *)
Definition all_refs (s : Kernel) : list list_ref :=
  map (λ p, ReadyListAt (Z.of_nat p)) (seq 0 32)
  ++ [DelayListRef]
  ++ map SemWaitList (map fst (map_to_list (sems s)))
  ++ map MutexWaitList (map fst (map_to_list (mutexes s)))
  ++ map QueueWaitReadList (map fst (map_to_list (queues s)))
  ++ map MemWaitList (map fst (map_to_list (pools s))).

(** All lists are well formed and no task is on two of them (or twice on
    one). *)
Definition lists_ok (s : Kernel) (c : list_ref → list nat) : Prop :=
  (∀ r, match get_list r s with
        | Some L => list_repr (tcbs s) L (c r)
        | None => c r = []
        end) ∧
  (∀ r, NoDup (c r)) ∧
  (∀ r r' x, x ∈ c r → x ∈ c r' → r = r').

Definition lists_okb (s : Kernel) : bool :=
  forallb (λ r, match get_list r s with
                | Some L => list_reprb (tcbs s) L (contents s r)
                | None => false
                end) (all_refs s)
  && bool_decide (NoDup (concat (map (contents s) (all_refs s)))).

Definition tcb_ok (t : OS_TCB) : bool :=
  (0 <=? Priority t) && (Priority t <? OS_MAX_PRIO)
  && (0 <=? DelayTicks t) && (DelayTicks t <? 2 ^ 32).

(** The ready list of priority [p] holds tasks of priority [p] only. *)
Definition ready_prio_okb (s : Kernel) : bool :=
  forallb (λ p, forallb (λ x, match tcbs s !! x with
                              | Some t => Priority t =? Z.of_nat p
                              | None => false
                              end) (contents s (ReadyListAt (Z.of_nat p))))
          (seq 0 32).

(** Bit [p] of the bitmap is set exactly when [ReadyList[p]] has a head. *)
Definition bitmap_okb (s : Kernel) : bool :=
  forallb (λ p, eqb (Z.testbit (g_PrioMap s) (Z.of_nat p))
                    (match get_list (ReadyListAt (Z.of_nat p)) s with
                     | Some L => negb (is_null (Head L))
                     | None => false
                     end))
          (seq 0 32).

(** The structural invariant of the kernel, as a check that can be run. *)
Definition kernel_ok (s : Kernel) : bool :=
  lists_okb s
  && bool_decide (length (ReadyList s) = 32%nat)
  && forallb (λ xt, tcb_ok (snd xt)) (map_to_list (tcbs s))
  && ready_prio_okb s
  && (0 <=? g_PrioMap s) && (g_PrioMap s <? 2 ^ 32)
  && bitmap_okb s
  && (0 <=? g_CriticalNesting s) && (g_CriticalNesting s <? 2 ^ 32 - 1).

(** The same invariant as a proposition, for a given assignment [c] of
    sequences to the lists: the part on the links, [lists_ok], and the part
    on everything else. *)
Record data_inv (s : Kernel) (c : list_ref → list nat) : Prop := {
  inv_len : length (ReadyList s) = 32%nat;
  inv_tcb : ∀ x t, tcbs s !! x = Some t →
            0 <= Priority t < 32 ∧ 0 <= DelayTicks t < 2 ^ 32;
  inv_prio : ∀ p x t, x ∈ c (ReadyListAt p) → tcbs s !! x = Some t → Priority t = p;
  inv_map_range : 0 <= g_PrioMap s < 2 ^ 32;
  inv_map : ∀ p, 0 <= p < 32 →
            Z.testbit (g_PrioMap s) p = true ↔ c (ReadyListAt p) ≠ []
}.

Record kernel_inv (s : Kernel) (c : list_ref → list nat) : Prop := {
  inv_lists : lists_ok s c;
  inv_data : data_inv s c
}.

(** The running task is on the ready list of its priority. *)
Definition current_ready (s : Kernel) : bool :=
  match CurrentTCB s with
  | Some x => match tcbs s !! x with
              | Some t => bool_decide (x ∈ contents s (ReadyListAt (Priority t)))
              | None => false
              end
  | None => false
  end.

(** The state with every link erased: what an operation that only
    relinks nodes leaves unchanged. *)
Definition strip_tcb (t : OS_TCB) : OS_TCB := set_Prev None (set_Next None t).

Definition data_of (s : Kernel) : Kernel :=
  mkKernel (g_SystemTickCount s) (g_CriticalNesting s) (g_PrioMap s) (g_OSRunning s)
    ((λ _, empty_list) <$> ReadyList s) empty_list
    (CurrentTCB s) (NextTCB s)
    (strip_tcb <$> tcbs s)
    (set_sem_WaitList empty_list <$> sems s)
    (set_mtx_WaitList empty_list <$> mutexes s)
    (set_WaitReadList empty_list <$> queues s)
    (set_mem_WaitList empty_list <$> pools s)
    (ram s) (irq_enabled s) (swi_pending s).

(** [p->field = v] as a function on states. *)
Definition upd_tcb (x : nat) (f : OS_TCB → OS_TCB) (s : Kernel) : Kernel :=
  match tcbs s !! x with
  | Some t => set_tcbs (<[x := f t]> (tcbs s)) s
  | None => s
  end.

(** Weakest precondition: [m] returns from [s], in a state and with a
    value that satisfy [Q]. *)
Definition wp {A} (m : M A) (Q : A → Kernel → Prop) (s : Kernel) : Prop :=
  match m s with
  | (Ret a, s') => Q a s'
  | (Fault _, _) => False
  end.

(** States that agree on everything the invariant reads: the list
    headers, the control blocks and the bitmap. *)
Definition same_core (s s' : Kernel) : Prop :=
  (∀ r, get_list r s' = get_list r s) ∧ tcbs s' = tcbs s ∧
  ReadyList s' = ReadyList s ∧ g_PrioMap s' = g_PrioMap s.

(** The wake-up sequence that [OS_SemPost], [OS_QueueSend] and
    [OS_MemPut] share, for the wait list [r]. *)
Definition wake_head (r : list_ref) : M unit :=
  TaskToWake ← List_PopHead r;
  store_tcb TaskToWake (set_State TASK_READY) ;;
  OS_ReadyListAdd TaskToWake ;;
  next ← FindNextTask;
  modify (set_NextTCB next) ;;
  OS_Trigger_SWI.

(** Invariant I7 of a queue and the geometry [OS_QueueInit] sets up: the
    sizes are those of [uint16_t] fields, the indices are within the
    capacity and the buffer holds [QSize] slots of [MsgSize] bytes. *)
Definition queue_ok (q : OS_Queue) : bool :=
  (0 <? MsgSize q) && (MsgSize q <? 2 ^ 16) && (0 <? QSize q) && (QSize q <? 2 ^ 16)
  && (0 <=? MsgCount q) && (MsgCount q <=? QSize q)
  && (0 <=? q_Head q) && (q_Head q <? QSize q)
  && (0 <=? q_Tail q) && (q_Tail q <? QSize q)
  && (Z.of_nat (length (Buffer q)) =? QSize q * MsgSize q).

(** The buffer after [msg_size] bytes of [msg] are copied into slot [i]. *)
Definition slot_write (q : OS_Queue) (i : Z) (msg : list Z) : list Z :=
  take (Z.to_nat (i * MsgSize q)) (Buffer q)
  ++ take (Z.to_nat (MsgSize q)) msg
  ++ drop (Z.to_nat (i * MsgSize q + MsgSize q)) (Buffer q).

(** The bytes of slot [i]. *)
Definition slot_read (q : OS_Queue) (i : Z) : list Z :=
  take (Z.to_nat (MsgSize q)) (drop (Z.to_nat (i * MsgSize q)) (Buffer q)).

(** Fields of a task, read from a state. *)
Definition state_of (s : Kernel) (x : nat) : option OS_TaskState := State <$> tcbs s !! x.
Definition prio_of (s : Kernel) (x : nat) : option Z := Priority <$> tcbs s !! x.
Definition delay_of (s : Kernel) (x : nat) : option Z := DelayTicks <$> tcbs s !! x.

(** The state in which a critical section entered from [s] leaves the
    interrupt mask. *)
Definition irq_after (s : Kernel) : bool := g_CriticalNesting s =? 0.

(** A pool as [OS_MemInit] accepts it, lying within the 32-bit address
    space, with a free count that can still grow. *)
Definition pool_ok (m : OS_Mem) : bool :=
  (0 <? Addr m) && (4 <=? BlockSize m) && (0 <? TotalBlocks m)
  && (Addr m + TotalBlocks m * BlockSize m <? 2 ^ 32)
  && (0 <=? FreeBlocks m) && (FreeBlocks m <? 2 ^ 32 - 1).

(** [base ≤ block < base + blocks·block_size]. *)
Definition in_pool (m : OS_Mem) (block : Z) : Prop :=
  Addr m <= block < Addr m + TotalBlocks m * BlockSize m.

(** [(block − base) mod block_size = 0]. *)
Definition aligned_in (m : OS_Mem) (block : Z) : Prop :=
  (block - Addr m) mod BlockSize m = 0.

(** *** [OS_QueueReceiveFromISR]

    Modelled from the spec: [OS_QueueReceiveFromISR] is declared and
    documented in [os_core.h], but its body is not among the sources.  The
    spec says: "receive_from_isr: if empty, return Resource; otherwise copy
    and advance.  Never blocks", and that interrupt-context calls do not
    enter the critical section; the header adds that null arguments give
    [OS_ERR_PARAM] and that the third parameter is reserved and unused.
    The copy and the advance are those of [OS_QueueReceive]. *)
Definition OS_QueueReceiveFromISR (p_queue : option nat) (p_msg_buffer : bool)
  : M (OS_Status * list Z) :=
  match p_queue, p_msg_buffer with
  | Some a, true =>
      q ← load_queue a;
      if MsgCount q =? 0 then ret (OS_ERR_RESOURCE, [])
      else
        match memcpy_from (Buffer q) (q_Tail q * MsgSize q) (MsgSize q) with
        | None => fail OutOfBounds
        | Some bytes =>
            (if QSize q =? 0 then fail DivideByZero
             else store_queue a (set_q_Tail (u16 ((q_Tail q + 1) mod QSize q)))) ;;
            q ← load_queue a;
            store_queue a (set_MsgCount (u16 (MsgCount q - 1))) ;;
            ret (OS_OK, bytes)
        end
  | _, _ => ret (OS_ERR_PARAM, [])
  end.

(** ** Scenarios

    Applications used to exercise the kernel: their static objects, and
    the calls their tasks make in the order the scheduler lets them run. *)

Definition task_entry : Z := 0x08001000.
Definition stack_of (t : nat) : Z := 0x20001000 + 0x400 * Z.of_nat t.
Definition create (t : nat) (prio : Z) : M unit :=
  ignore (OS_TaskCreate (Some t) task_entry 0 (stack_of t) 128 prio).

(** Four tasks, two semaphores, two mutexes, a queue and a pool. *)
Definition app_memory : Kernel :=
  static_tcb 1 (static_tcb 2 (static_tcb 3 (static_tcb 4
    (static_sem 1 (static_sem 2 (static_mutex 1 (static_mutex 2
      (static_queue 1 (static_pool 1 boot))))))))).

(** Scenario A (ready bitmap).  H (task 1, priority 5), W (task 2,
    priority 10) and L (task 3, priority 20) share mutex 1; semaphores 1
    and 2 only order the tasks.  L takes the mutex, W blocks on it and L
    hands it over; W then creates X (task 4, priority 10) and lets H run,
    which blocks on the mutex in turn. *)
Definition scenario_A_handoff : M unit :=
  OS_Init ;;
  ignore (OS_SemInit (Some 1%nat)) ;;
  ignore (OS_SemInit (Some 2%nat)) ;;
  ignore (OS_MutexInit (Some 1%nat)) ;;
  create 1 5 ;; create 2 10 ;; create 3 20 ;;
  OS_StartScheduler ;; OS_Enable_IRQ ;;
  ignore (by_task 1 (OS_SemWait (Some 1%nat))) ;;
  ignore (by_task 2 (OS_SemWait (Some 2%nat))) ;;
  ignore (by_task 3 (OS_MutexPend (Some 1%nat))) ;;
  ignore (by_task 3 (OS_SemPost (Some 2%nat))) ;;
  ignore (by_task 2 (OS_MutexPend (Some 1%nat))) ;;
  ignore (by_task 3 (OS_MutexPost (Some 1%nat))).

Definition scenario_A : M unit :=
  scenario_A_handoff ;;
  ignore (by_task 2 (OS_TaskCreate (Some 4%nat) task_entry 0 (stack_of 4) 128 10)) ;;
  ignore (by_task 2 (OS_SemPost (Some 1%nat))) ;;
  ignore (by_task 1 (OS_MutexPend (Some 1%nat))) ;;
  by_task 2 (OS_Delay 1).

(** Scenario B (priority inheritance with two mutexes).  L (task 3,
    priority 20) holds mutexes 1 and 2; H (task 1, priority 5) blocks on
    mutex 1; L releases mutex 2. *)
Definition scenario_B : M OS_Status :=
  OS_Init ;;
  ignore (OS_SemInit (Some 1%nat)) ;;
  ignore (OS_MutexInit (Some 1%nat)) ;;
  ignore (OS_MutexInit (Some 2%nat)) ;;
  create 1 5 ;; create 3 20 ;;
  OS_StartScheduler ;; OS_Enable_IRQ ;;
  ignore (by_task 1 (OS_SemWait (Some 1%nat))) ;;
  ignore (by_task 3 (OS_MutexPend (Some 1%nat))) ;;
  ignore (by_task 3 (OS_MutexPend (Some 2%nat))) ;;
  ignore (by_task 3 (OS_SemPost (Some 1%nat))) ;;
  ignore (by_task 1 (OS_MutexPend (Some 1%nat))) ;;
  by_task 3 (OS_MutexPost (Some 2%nat)).

(** Scenario C (the delay list empties).  One task sleeps for one tick. *)
Definition scenario_C : M unit :=
  OS_Init ;;
  create 1 5 ;;
  OS_StartScheduler ;; OS_Enable_IRQ ;;
  by_task 1 (OS_Delay 1).

(** [n] periods of the tick timer, each followed by the switch it may
    have requested. *)
Fixpoint ticks (n : nat) : M unit :=
  match n with
  | O => ret tt
  | S n' => OS_Tick_Handler ;; OS_SWI_Handler ;; ticks n'
  end.

(** Scenario D (delay ordering).  T1, T2 and T3 (priority 5) call
    [OS_Delay] with 50, 10 and 30 ticks, in that order, at tick 0. *)
Definition scenario_D : M unit :=
  OS_Init ;;
  create 1 5 ;; create 2 5 ;; create 3 5 ;;
  OS_StartScheduler ;; OS_Enable_IRQ ;;
  by_task 1 (OS_Delay 50) ;;
  by_task 2 (OS_Delay 10) ;;
  by_task 3 (OS_Delay 30).

(** Scenario E (queue).  R (task 1, priority 8) waits on the empty queue 1
    (two slots of four bytes); S (task 2, priority 12) is running. *)
Definition scenario_E : M unit :=
  OS_Init ;;
  OS_QueueInit (Some 1%nat) (Some (replicate 8 0)) 4 2 ;;
  create 1 8 ;; create 2 12 ;;
  OS_StartScheduler ;; OS_Enable_IRQ ;;
  ignore (by_task 1 (OS_QueueReceive (Some 1%nat) true)).

(** Scenario F (memory pool).  Pool 1 has base [0x20000000], 4 blocks of
    32 bytes; task 1 has taken two blocks. *)
Definition scenario_F : M unit :=
  OS_Init ;;
  OS_MemInit (Some 1%nat) 0x20000000 4 32 ;;
  create 1 5 ;;
  OS_StartScheduler ;; OS_Enable_IRQ ;;
  ignore (by_task 1 (OS_MemGet (Some 1%nat))) ;;
  ignore (by_task 1 (OS_MemGet (Some 1%nat))).

(** What [m] comes to from [s], a value or a fault, and the state it
    leaves: [post] speaks of both, where [wp] asks for a return. *)
Definition post {A} (m : M A) (Q : outcome A → Kernel → Prop) (s : Kernel) : Prop :=
  Q (result m s) (exec m s).

(** The longest prefix of [l] whose elements satisfy [f], and what
    follows it. *)
Fixpoint take_while {A} (f : A → bool) (l : list A) : list A :=
  match l with
  | [] => []
  | x :: l' => if f x then x :: take_while f l' else []
  end.

Fixpoint drop_while {A} (f : A → bool) (l : list A) : list A :=
  match l with
  | [] => []
  | x :: l' => if f x then drop_while f l' else l
  end.

(** The delay of task [x] has run out. *)
Definition expired (s : Kernel) (x : nat) : bool :=
  match tcbs s !! x with
  | Some t => DelayTicks t =? 0
  | None => false
  end.

(** Task [x] has priority [p]. *)
Definition has_prio (s : Kernel) (p : Z) (x : nat) : bool :=
  match tcbs s !! x with
  | Some t => Priority t =? p
  | None => false
  end.

(** The lists after the tasks [woken] have left the list [r], which keeps
    [rest], for the tails of the ready lists of their priorities. *)
Definition after_wake (s : Kernel) (c : list_ref → list nat) (r : list_ref)
    (woken rest : list nat) : list_ref → list nat :=
  λ r', match r' with
        | ReadyListAt p => c r' ++ filter (λ x, has_prio s p x = true) woken
        | _ => if decide (r' = r) then rest else c r'
        end.

(** The control block of [x] without its links. *)
Definition fields (s : Kernel) (x : nat) : option OS_TCB := strip_tcb <$> tcbs s !! x.

(** From [s] to [s'] the tasks [woken] have become ready, and no other
    field of a control block has changed. *)
Definition woke (s s' : Kernel) (woken : list nat) : Prop :=
  ∀ x, fields s' x = if bool_decide (x ∈ woken)
                     then set_State TASK_READY <$> fields s x
                     else fields s x.

(** Scenario G (two tasks wake on one tick).  Four tasks of priority 5:
    T1 and T2 sleep for 5 ticks and T3 for 9, T4 keeps running; four ticks
    have passed. *)
Definition scenario_G : M unit :=
  OS_Init ;;
  create 1 5 ;; create 2 5 ;; create 3 5 ;; create 4 5 ;;
  OS_StartScheduler ;; OS_Enable_IRQ ;;
  by_task 1 (OS_Delay 5) ;;
  by_task 2 (OS_Delay 5) ;;
  by_task 3 (OS_Delay 9) ;;
  ticks 4.

(** The priority value of task [x] is at most [p]. *)
Definition prio_le (s : Kernel) (p : Z) (x : nat) : bool :=
  match tcbs s !! x with
  | Some t => Priority t <=? p
  | None => false
  end.

(** What a state holds besides the control blocks, the links, the ready
    bitmap and the pending switch. *)
Definition rest_of (s : Kernel) : Kernel :=
  set_tcbs ∅ (set_g_PrioMap 0 (set_NextTCB None (set_swi_pending false (data_of s)))).

(** The priority value of task [x], and a list of tasks in ascending
    order of priority value: highest priority first. *)
Definition prio_val (s : Kernel) (x : nat) : Z := default 0 (prio_of s x).

Definition sorted_by_prio (s : Kernel) (l : list nat) : Prop :=
  StronglySorted Z.le (prio_val s <$> l).

(** The state of the owner [o] of a mutex agrees with the ready lists: a
    ready task is on the ready list of its priority, any other task is on
    no ready list. *)
Definition owner_ok (s : Kernel) (o : nat) : bool :=
  match tcbs s !! o with
  | Some t =>
      if State t is TASK_READY
      then bool_decide (o ∈ contents s (ReadyListAt (Priority t)))
      else forallb (λ p, bool_decide (o ∉ contents s (ReadyListAt (Z.of_nat p)))) (seq 0 32)
  | None => false
  end.

(** A task other than [x] is ready: the idle task, if no other. *)
Definition other_ready (s : Kernel) (x : nat) : bool :=
  existsb (λ p, existsb (λ y, negb (bool_decide (y = x)))
                        (contents s (ReadyListAt (Z.of_nat p))))
          (seq 0 32).

(** The priority that task [x] was created with. *)
Definition orig_val (s : Kernel) (x : nat) : Z :=
  default 0 (OriginalPrio <$> tcbs s !! x).

(** Scenario H (two waiters of one priority).  L (task 3, priority 20)
    holds mutex 1; W1 (task 2) and W2 (task 4), both of priority 10, are
    released by semaphores 1 and 2 in that order.  W1 has blocked on the
    mutex and a tick has given the processor to W2. *)
Definition scenario_H : M unit :=
  OS_Init ;;
  ignore (OS_SemInit (Some 1%nat)) ;;
  ignore (OS_SemInit (Some 2%nat)) ;;
  ignore (OS_MutexInit (Some 1%nat)) ;;
  create 2 10 ;; create 3 20 ;; create 4 10 ;;
  OS_StartScheduler ;; OS_Enable_IRQ ;;
  ignore (by_task 2 (OS_SemWait (Some 1%nat))) ;;
  ignore (by_task 4 (OS_SemWait (Some 2%nat))) ;;
  ignore (by_task 3 (OS_MutexPend (Some 1%nat))) ;;
  ignore (by_task 3 (OS_SemPost (Some 1%nat))) ;;
  ignore (by_task 2 (OS_MutexPend (Some 1%nat))) ;;
  ignore (by_task 3 (OS_SemPost (Some 2%nat))) ;;
  ticks 1.

(** W2 has blocked on the mutex as well, and L runs again. *)
Definition scenario_H_blocked : M unit :=
  scenario_H ;;
  ignore (by_task 4 (OS_MutexPend (Some 1%nat))).

(** Invariant I6 for the mutex at [a]: the priority value of its owner is
    at most that of every task on its wait list. *)
Definition I6 (s : Kernel) (a : nat) : Prop :=
  match mutexes s !! a with
  | Some m =>
      match Owner m with
      | Some o => Forall (λ w, prio_val s o <= prio_val s w) (contents s (MutexWaitList a))
      | None => True
      end
  | None => True
  end.

(** The mutex at [a] is well formed: its nesting count is that of a
    [uint8_t]; with no owner nobody waits; an owner does not wait for its
    own mutex and its state agrees with the ready lists. *)
Definition mutex_ok (s : Kernel) (a : nat) : bool :=
  match mutexes s !! a with
  | Some m =>
      (0 <=? NestCount m) && (NestCount m <? 256) &&
      match Owner m with
      | None => bool_decide (contents s (MutexWaitList a) = [])
      | Some o => owner_ok s o && bool_decide (o ∉ contents s (MutexWaitList a))
      end
  | None => false
  end.

(** ** The delay list as a delta encoding *)

(** The ticks task [x] has left, relative to its predecessor on the delay
    list. *)
Definition delay_val (s : Kernel) (x : nat) : Z := default 0 (delay_of s x).

(** The delay list with the delta of each node. *)
Definition delays (s : Kernel) : list (nat * Z) :=
  (λ x, (x, delay_val s x)) <$> contents s DelayListRef.

(** The walk of [OS_Delay] over the nodes [l] with [t] ticks to place: the
    nodes passed, the ticks left and the nodes not reached. *)
Fixpoint walk_delay (δ : nat → Z) (t : Z) (l : list nat) : list nat * Z * list nat :=
  match l with
  | [] => ([], t, [])
  | y :: l' =>
      if t >=? δ y then
        let '(a, r, b) := walk_delay δ (t - δ y) l' in (y :: a, r, b)
      else ([], t, l)
  end.

(** Insertion into a delta-encoded list, as the spec words it: walk the
    list subtracting each predecessor's delta from the remaining ticks,
    stop at the first node whose delta exceeds them or at the end, store
    the residual in the new node and take it off the successor. *)
Fixpoint delta_insert (x : nat) (t : Z) (l : list (nat * Z)) : list (nat * Z) :=
  match l with
  | [] => [(x, t)]
  | (y, d) :: l' =>
      if d >? t then (x, t) :: (y, d - t) :: l'
      else (y, d) :: delta_insert x (t - d) l'
  end.

(** The absolute wake offsets of a delta-encoded list: the running sums of
    the deltas, from [acc]. *)
Fixpoint offsets (acc : Z) (l : list (nat * Z)) : list (nat * Z) :=
  match l with
  | [] => []
  | (y, d) :: l' => (y, acc + d) :: offsets (acc + d) l'
  end.

(** Insertion of [x], due at [t], into a list of tasks with their wake
    offsets: behind the tasks due at [t] or earlier. *)
Fixpoint offset_insert (x : nat) (t : Z) (l : list (nat * Z)) : list (nat * Z) :=
  match l with
  | [] => [(x, t)]
  | (y, o) :: l' =>
      if o >? t then (x, t) :: l else (y, o) :: offset_insert x t l'
  end.

(** Scenario D before its last call: T1 and T2 sleep, T3 runs. *)
Definition scenario_D_two : M unit :=
  OS_Init ;;
  create 1 5 ;; create 2 5 ;; create 3 5 ;;
  OS_StartScheduler ;; OS_Enable_IRQ ;;
  by_task 1 (OS_Delay 50) ;;
  by_task 2 (OS_Delay 10).

(** The check of [OS_CheckStackOverflow] passes: the word at the stack
    limit of the running task is intact and its saved stack pointer lies
    above the limit. *)
Definition stack_ok (s : Kernel) : bool :=
  match CurrentTCB s with
  | Some x => match tcbs s !! x with
              | Some t => (default 0 (ram s !! stackLimit t) =? OS_STACK_MAGIC_VAL)
                          && negb (stackPtr t <=? stackLimit t)
              | None => false
              end
  | None => true
  end.

(** The ready list [l] of the running task [cur], with control block [t],
    after lines 227-233 of [OS_Tick_Handler]: a ready task has gone to the
    tail. *)
Definition rotated (cur : nat) (t : OS_TCB) (l : list nat) : list nat :=
  if State t is TASK_READY then filter (λ y, y ≠ cur) l ++ [cur] else l.

(** Task [x] is on none of the lists of the kernel. *)
Definition off_lists (s : Kernel) (x : nat) : bool :=
  forallb (λ r, bool_decide (x ∉ contents s r)) (all_refs s).

(** [n] calls of [m] in a row. *)
Fixpoint times (n : nat) (m : M unit) : M unit :=
  match n with
  | O => ret tt
  | S n' => m ;; times n' m
  end.

(** The sequence by which [OS_SemWait], [OS_QueueReceive] and [OS_MemGet]
    park the running task at the tail of the wait list [r]. *)
Definition block_on (r : list_ref) : M unit :=
  cur ← gets CurrentTCB;
  store_tcb cur (set_State TASK_BLOCKED) ;;
  OS_ReadyListRemove cur ;;
  List_InsertTail r cur ;;
  next ← FindNextTask;
  modify (set_NextTCB next) ;;
  OS_Trigger_SWI.

(** The count of the semaphore at [a]. *)
Definition count_of (s : Kernel) (a : nat) : option Z := count <$> sems s !! a.

(** Scenario S (two ready tasks of one priority).  T1 and T2, both of
    priority 5, have been created and the scheduler has started T1. *)
Definition scenario_S : M unit :=
  OS_Init ;;
  create 1 5 ;; create 2 5 ;;
  OS_StartScheduler ;; OS_Enable_IRQ.

(** [n] calls of [m] in a row, up to the first that does not return
    [OS_OK], whose status is the result. *)
Fixpoint repeat_ok (n : nat) (m : M OS_Status) : M OS_Status :=
  match n with
  | O => ret OS_OK
  | S n' => r ← m; if r is OS_OK then repeat_ok n' m else ret r
  end.

(** The state after a critical section, entered from [s], that has only
    rewritten the mutex at [a]. *)
Definition mutex_written (s : Kernel) (a : nat) (m : OS_Mutex) : Kernel :=
  set_irq_enabled (irq_after s) (set_mutexes (<[a := m]> (mutexes s)) s).

(** The state in which task [cur] holds the mutex at [a], that was [m]
    when it was free in [s], with nesting count [k]. *)
Definition mutex_held (s : Kernel) (a : nat) (m : OS_Mutex) (cur : nat) (k : nat) : Kernel :=
  mutex_written s a (set_NestCount (Z.of_nat k) (set_Owner (Some cur) m)).


(** ** The ring buffer of a queue as a sequence of messages *)

(** The queue after a message is stored and after one is taken, as
    [OS_QueueSend] and [OS_QueueReceive] write its fields. *)
Definition send_q (q : OS_Queue) (msg : list Z) : OS_Queue :=
  set_MsgCount (MsgCount q + 1)
    (set_q_Head ((q_Head q + 1) mod QSize q)
       (set_Buffer (slot_write q (q_Head q) msg) q)).

Definition recv_q (q : OS_Queue) : OS_Queue :=
  set_MsgCount (MsgCount q - 1) (set_q_Tail ((q_Tail q + 1) mod QSize q) q).

(** The messages a queue holds, oldest first: the [MsgCount] slots from
    [q_Tail] on, around the end of the buffer. *)
Definition queue_msgs (q : OS_Queue) : list (list Z) :=
  (λ i, slot_read q ((q_Tail q + Z.of_nat i) mod QSize q)) <$> seq 0 (Z.to_nat (MsgCount q)).

(** The geometry of the queue is sound and the write index is the read
    index advanced by the count. *)
Definition queue_wf (q : OS_Queue) : bool :=
  queue_ok q && (q_Head q =? (q_Tail q + MsgCount q) mod QSize q).

(** The state after a critical section, entered from [s], that has only
    rewritten the queue at [a]. *)
Definition queue_written (s : Kernel) (a : nat) (q : OS_Queue) : Kernel :=
  set_irq_enabled (irq_after s) (set_queues (<[a := q]> (queues s)) s).

(** ** The free list of a memory pool *)

(** The blocks on the free list that starts at address [p], read through
    the link in the first word of each block, up to [n] blocks and up to a
    null link. *)
Fixpoint free_chain (n : nat) (r : gmap Z Z) (p : Z) : list Z :=
  match n with
  | O => []
  | S n' => if p =? 0 then [] else p :: free_chain n' r (default 0 (r !! p))
  end.

(** The free blocks of the pool [m], the next to be handed out first. *)
Definition free_blocks (s : Kernel) (m : OS_Mem) : list Z :=
  free_chain (Z.to_nat (FreeBlocks m)) (ram s) (FreeList m).

(** The words that the loop of [OS_MemInit] and the store after it write:
    each of the [n + 1] blocks from [p] on holds the address of the next,
    the last one holds the null pointer. *)
Fixpoint link_blocks (n : nat) (p bs : Z) (r : gmap Z Z) : gmap Z Z :=
  match n with
  | O => <[p := 0]> r
  | S n' => link_blocks n' (p + bs) bs (<[p := p + bs]> r)
  end.

(** The state after a critical section, entered from [s], that has only
    rewritten the pool at [a]. *)
Definition pool_written (s : Kernel) (a : nat) (m : OS_Mem) : Kernel :=
  set_irq_enabled (irq_after s) (set_pools (<[a := m]> (pools s)) s).

(** The pool at [a] as [OS_MemInit] sets it up and the RAM it leaves,
    the blocks linked in address order. *)
Definition fresh_pool (start blocks bs : Z) : OS_Mem :=
  mkMem start start bs blocks blocks empty_list.

Definition pool_linked (s : Kernel) (a : nat) (start blocks bs : Z) : Kernel :=
  set_ram (link_blocks (Z.to_nat (blocks - 1)) start bs (ram s))
    (set_pools (<[a := fresh_pool start blocks bs]> (pools s)) s).

(** The pool record after a block is taken and after [b] is given back,
    as [OS_MemGet] and [OS_MemPut] write its fields. *)
Definition get_m (s : Kernel) (m : OS_Mem) : OS_Mem :=
  set_FreeBlocks (FreeBlocks m - 1) (set_FreeList (default 0 (ram s !! FreeList m)) m).

Definition put_m (m : OS_Mem) (b : Z) : OS_Mem :=
  set_FreeBlocks (FreeBlocks m + 1) (set_FreeList b m).

(** ** The initial stack frame of a task *)

(** The RAM after the words [ws] are pushed, the first one highest, on a
    stack that grows down from [sp]. *)
Fixpoint pushed (sp : Z) (ws : list Z) (r : gmap Z Z) : gmap Z Z :=
  match ws with
  | [] => r
  | w :: ws' => pushed (sp - 4) ws' (<[sp - 4 := w]> r)
  end.

(** The control block that [OS_TaskCreate] leaves, the links apart. *)
Definition created_tcb (sp base prio : Z) (t : OS_TCB) : OS_TCB :=
  set_OriginalPrio prio (set_Priority prio (set_State TASK_READY
    (set_DelayTicks 0 (set_stackLimit base (set_stackPtr sp t))))).

(** ** Memory before [OS_Init] *)

(** The fields of every control block are in range. *)
Definition tcbs_ok (s : Kernel) : bool :=
  forallb (λ xt, tcb_ok (snd xt)) (map_to_list (tcbs s)).

(** The wait list of every semaphore, mutex, queue and pool is empty. *)
Definition no_waiters (s : Kernel) : bool :=
  forallb (λ r, match r with
                | ReadyListAt _ | DelayListRef => true
                | _ => match get_list r s with
                       | Some L => is_null (Head L) && is_null (Tail L)
                       | None => true
                       end
                end) (all_refs s).

(** ** Mutexes after a hand-over *)

(** The structural invariant without its clause on priorities: every
    list is well formed and every bit of the bitmap says whether its ready
    list has a task, but a ready list may hold a task whose [Priority] has
    been rewritten in place. *)
Record loose_inv (s : Kernel) (c : list_ref → list nat) : Prop := {
  loose_lists : lists_ok s c;
  loose_len : length (ReadyList s) = 32%nat;
  loose_tcb : ∀ x t, tcbs s !! x = Some t →
              0 <= Priority t < 32 ∧ 0 <= DelayTicks t < 2 ^ 32;
  loose_map_range : 0 <= g_PrioMap s < 2 ^ 32;
  loose_map : ∀ p, 0 <= p < 32 →
              Z.testbit (g_PrioMap s) p = true ↔ c (ReadyListAt p) ≠ []
}.

(** An owner [o] in the state [TASK_READY] is on the ready list of its
    priority.  Nothing is asked of an owner in another state: the task
    that [OS_MutexPost] hands a mutex to is put on its ready list with the
    state it blocked in. *)
Definition owner_listed (s : Kernel) (o : nat) : bool :=
  match tcbs s !! o with
  | Some t =>
      if State t is TASK_READY
      then bool_decide (o ∈ contents s (ReadyListAt (Priority t)))
      else true
  | None => false
  end.

(** The mutex at [a] is well formed: its nesting count is that of a
    [uint8_t]; with no owner nobody waits; an owner does not wait for its
    own mutex, and is on the ready list of its priority if its state is
    [TASK_READY]. *)
Definition mutex_wf (s : Kernel) (a : nat) : bool :=
  match mutexes s !! a with
  | Some m =>
      (0 <=? NestCount m) && (NestCount m <? 256) &&
      match Owner m with
      | None => bool_decide (contents s (MutexWaitList a) = [])
      | Some o => owner_listed s o && bool_decide (o ∉ contents s (MutexWaitList a))
      end
  | None => false
  end.

(** Scenario J (a waiter that owns another mutex).  L (task 3, priority
    20) holds mutex 1, for which W1 (task 2) and W2 (task 4), both of
    priority 10, wait in this order; W2 holds mutex 2.  L then lets H
    (task 1, priority 5) run. *)
Definition scenario_J : M unit :=
  OS_Init ;;
  ignore (OS_SemInit (Some 1%nat)) ;;
  ignore (OS_SemInit (Some 2%nat)) ;;
  ignore (OS_MutexInit (Some 1%nat)) ;;
  ignore (OS_MutexInit (Some 2%nat)) ;;
  create 1 5 ;; create 2 10 ;; create 3 20 ;; create 4 10 ;;
  OS_StartScheduler ;; OS_Enable_IRQ ;;
  ignore (by_task 1 (OS_SemWait (Some 1%nat))) ;;
  ignore (by_task 2 (OS_SemWait (Some 2%nat))) ;;
  ignore (by_task 4 (OS_MutexPend (Some 2%nat))) ;;
  ignore (by_task 4 (OS_SemWait (Some 2%nat))) ;;
  ignore (by_task 3 (OS_MutexPend (Some 1%nat))) ;;
  ignore (by_task 3 (OS_SemPost (Some 2%nat))) ;;
  ignore (by_task 2 (OS_MutexPend (Some 1%nat))) ;;
  ignore (by_task 3 (OS_SemPost (Some 2%nat))) ;;
  ticks 1 ;;
  ignore (by_task 4 (OS_MutexPend (Some 1%nat))) ;;
  ignore (by_task 3 (OS_SemPost (Some 1%nat))).

(** Scenario A just after the hand-over: W (task 2) owns mutex 1 and
    stands on the ready list of priority 10 in the state it blocked in;
    it has let H (task 1, priority 5) run. *)
Definition scenario_A_stale_owner : M unit :=
  scenario_A_handoff ;;
  ignore (by_task 2 (OS_SemPost (Some 1%nat))).

(** Scenario H after the hand-over: L has released mutex 1 to W1 (task
    2), which runs while W2 (task 4) still waits for the mutex. *)
Definition scenario_H_handoff : M unit :=
  scenario_H_blocked ;;
  ignore (by_task 3 (OS_MutexPost (Some 1%nat))).

(** The owner of the mutex at [a], if it has one. *)
Definition owner_of (s : Kernel) (a : nat) : option nat := mutexes s !! a ≫= Owner.

(** [s'] has the mutexes of [s] but for the one at [a]; an operation
    [keeps] the other mutexes if it leaves them alone from every state,
    whatever it comes to. *)
Definition others_kept (a : nat) (s s' : Kernel) : Prop :=
  ∀ b, b ≠ a → mutexes s' !! b = mutexes s !! b.

Definition keeps {A} (a : nat) (m : M A) : Prop := ∀ s, others_kept a s (exec m s).

(** Scenario K (two mutexes, each with a waiter).  L (task 3, priority
    20) holds mutex 1 and X (task 4, priority 10) holds mutex 2, for which
    W (task 2, priority 10) waits; X itself waits for semaphore 2.  L has
    let H (task 1, priority 5) run. *)
Definition scenario_K : M unit :=
  OS_Init ;;
  ignore (OS_SemInit (Some 1%nat)) ;;
  ignore (OS_SemInit (Some 2%nat)) ;;
  ignore (OS_MutexInit (Some 1%nat)) ;;
  ignore (OS_MutexInit (Some 2%nat)) ;;
  create 1 5 ;; create 2 10 ;; create 3 20 ;; create 4 10 ;;
  OS_StartScheduler ;; OS_Enable_IRQ ;;
  ignore (by_task 1 (OS_SemWait (Some 1%nat))) ;;
  ignore (by_task 2 (OS_SemWait (Some 2%nat))) ;;
  ignore (by_task 4 (OS_MutexPend (Some 2%nat))) ;;
  ignore (by_task 4 (OS_SemWait (Some 2%nat))) ;;
  ignore (by_task 3 (OS_MutexPend (Some 1%nat))) ;;
  ignore (by_task 3 (OS_SemPost (Some 2%nat))) ;;
  ignore (by_task 2 (OS_MutexPend (Some 2%nat))) ;;
  ignore (by_task 3 (OS_SemPost (Some 1%nat))).

(** H has blocked on mutex 1 and L runs again, at the priority of H. *)
Definition scenario_K_blocked : M unit :=
  scenario_K ;;
  ignore (by_task 1 (OS_MutexPend (Some 1%nat))).


(** * Properties *)

(** ** The priority table and [OS_GetTopPrio] *)

Lemma MapTable_checked : forallb byte_entry_ok nonzero_bytes = true.
Proof. vm_compute. reflexivity. Qed.

Lemma MapTable_byte (b : Z) :
  0 < b < 256 →
  0 <= MapTable_at b < 8 ∧ Z.testbit b (MapTable_at b) = true ∧
  ∀ j, 0 <= j < MapTable_at b → Z.testbit b j = false.
Proof.
  intros Hb.
  assert (Hin : In b nonzero_bytes).
  { unfold nonzero_bytes. apply in_map_iff. exists (Z.to_nat b). split; [lia|].
    apply in_seq. lia. }
  pose proof (proj1 (forallb_forall _ _) MapTable_checked b Hin) as Hok.
  unfold byte_entry_ok in Hok. cbv zeta in Hok.
  apply andb_prop in Hok as [Hok Hall].
  apply andb_prop in Hok as [Hok Hbit].
  apply andb_prop in Hok as [Hlo Hhi].
  apply Z.leb_le in Hlo. apply Z.ltb_lt in Hhi.
  split; [lia|]. split; [exact Hbit|].
  intros j Hj.
  assert (Hj8 : In j [0; 1; 2; 3; 4; 5; 6; 7]) by (simpl; lia).
  pose proof (proj1 (forallb_forall _ _) Hall j Hj8) as Hjb. simpl in Hjb.
  apply orb_prop in Hjb as [Hjb | Hjb].
  - apply negb_true_iff in Hjb. exact Hjb.
  - apply Z.leb_le in Hjb. lia.
Qed.

Lemma lane_range k x : 0 <= k → 0 <= lane k x < 256.
Proof.
  intros Hk. unfold lane. change 255 with (Z.ones 8).
  rewrite Z.land_ones by lia. apply Z.mod_pos_bound. lia.
Qed.

Lemma lane_testbit k x j :
  0 <= k → 0 <= j < 8 → Z.testbit (lane k x) j = Z.testbit x (8 * k + j).
Proof.
  intros Hk Hj. unfold lane. change 255 with (Z.ones 8).
  rewrite Z.land_spec, Z.shiftr_spec by lia.
  rewrite Z.ones_spec_low by lia. rewrite andb_true_r. f_equal. lia.
Qed.

Lemma lane_testbit_high k x j : 0 <= k → 8 <= j → Z.testbit (lane k x) j = false.
Proof.
  intros Hk Hj. unfold lane. change 255 with (Z.ones 8).
  rewrite Z.land_spec. rewrite Z.ones_spec_high by lia. apply andb_false_r.
Qed.

Lemma lane_zero_iff k x :
  0 <= k → lane k x = 0 ↔ ∀ j, 0 <= j < 8 → Z.testbit x (8 * k + j) = false.
Proof.
  intros Hk. split.
  - intros H0 j Hj. rewrite <- lane_testbit by lia. rewrite H0. apply Z.bits_0.
  - intros Hbits. apply Z.bits_inj'. intros j Hj. rewrite Z.bits_0.
    destruct (Z_lt_ge_dec j 8).
    + rewrite lane_testbit by lia. apply Hbits. lia.
    + apply lane_testbit_high; lia.
Qed.

(** The masks the code tests select exactly one lane each. *)
Lemma mask_lane_zero k x :
  0 <= k → Z.land x (Z.shiftl 0xFF (8 * k)) = 0 ↔ lane k x = 0.
Proof.
  intros Hk. rewrite lane_zero_iff by lia. split.
  - intros H0 j Hj.
    assert (Hb : Z.testbit (Z.land x (Z.shiftl 255 (8 * k))) (8 * k + j) = false)
      by (rewrite H0; apply Z.bits_0).
    rewrite Z.land_spec, Z.shiftl_spec in Hb by lia.
    replace (8 * k + j - 8 * k) with j in Hb by lia.
    change 255 with (Z.ones 8) in Hb. rewrite Z.ones_spec_low in Hb by lia.
    rewrite andb_true_r in Hb. exact Hb.
  - intros Hbits. apply Z.bits_inj'. intros i Hi. rewrite Z.bits_0.
    rewrite Z.land_spec.
    destruct (Z_lt_ge_dec i (8 * k)).
    + rewrite (Z.shiftl_spec_low 255) by lia. apply andb_false_r.
    + rewrite Z.shiftl_spec by lia. change 255 with (Z.ones 8).
      destruct (Z_lt_ge_dec (i - 8 * k) 8).
      * rewrite Z.ones_spec_low by lia. rewrite andb_true_r.
        replace i with (8 * k + (i - 8 * k)) by lia. apply Hbits. lia.
      * rewrite Z.ones_spec_high by lia. apply andb_false_r.
Qed.

Lemma lane_hit k x :
  0 <= k → lane k x ≠ 0 →
  (∀ j, 0 <= j < 8 * k → Z.testbit x j = false) →
  let p := 8 * k + MapTable_at (lane k x) in
  8 * k <= p < 8 * k + 8 ∧ Z.testbit x p = true ∧
  ∀ j, 0 <= j < p → Z.testbit x j = false.
Proof.
  intros Hk Hnz Hlow p.
  pose proof (lane_range k x Hk) as Hr.
  destruct (MapTable_byte (lane k x)) as (He & Hbit & Hbelow); [lia|].
  subst p. split; [lia|]. split.
  - rewrite <- lane_testbit by lia. exact Hbit.
  - intros j Hj. destruct (Z_lt_ge_dec j (8 * k)).
    + apply Hlow. lia.
    + replace j with (8 * k + (j - 8 * k)) by lia.
      rewrite <- lane_testbit by lia. apply Hbelow. lia.
Qed.

Lemma low_lanes_zero x k :
  0 <= k → (∀ i, 0 <= i < k → lane i x = 0) →
  ∀ j, 0 <= j < 8 * k → Z.testbit x j = false.
Proof.
  intros Hk Hz j Hj.
  replace j with (8 * (j / 8) + j mod 8) by (pose proof (Z.div_mod j 8); lia).
  assert (0 <= j / 8 < k) by (split; [apply Z.div_pos; lia | apply Z.div_lt_upper_bound; lia]).
  apply (proj1 (lane_zero_iff (j / 8) x ltac:(lia))).
  - apply Hz. lia.
  - apply Z.mod_pos_bound. lia.
Qed.

Lemma top_lane_nonzero x :
  0 <= x < 2 ^ 32 → x ≠ 0 →
  lane 0 x = 0 → lane 1 x = 0 → lane 2 x = 0 → lane 3 x ≠ 0.
Proof.
  intros Hx Hnz H0 H1 H2 H3. apply Hnz. apply Z.bits_inj'. intros j Hj.
  rewrite Z.bits_0. destruct (Z_lt_ge_dec j 32).
  - apply (low_lanes_zero x 4); [lia| |lia].
    intros i Hi. assert (i = 0 ∨ i = 1 ∨ i = 2 ∨ i = 3) as [->|[->|[->| ->]]] by lia; assumption.
  - destruct (Z.eq_dec x 0) as [->|Hx0]; [apply Z.bits_0|].
    apply Z.bits_above_log2; [lia|].
    assert (Z.log2 x < 32) by (apply Z.log2_lt_pow2; lia). lia.
Qed.

Lemma OS_GetTopPrio_lanes (x : Z) :
  OS_GetTopPrio x =
    if negb (lane 0 x =? 0) then MapTable_at (lane 0 x)
    else if negb (lane 1 x =? 0) then u8 (8 * 1 + MapTable_at (lane 1 x))
    else if negb (lane 2 x =? 0) then u8 (8 * 2 + MapTable_at (lane 2 x))
    else u8 (8 * 3 + MapTable_at (lane 3 x)).
Proof.
  assert (Hm : ∀ k, 0 <= k →
            (Z.land x (Z.shiftl 0xFF (8 * k)) =? 0) = (lane k x =? 0)).
  { intros k Hk. destruct (Z.eqb_spec (lane k x) 0) as [E|E].
    - apply Z.eqb_eq. apply mask_lane_zero; assumption.
    - apply Z.eqb_neq. intros E'. apply E. apply mask_lane_zero in E'; assumption. }
  unfold OS_GetTopPrio.
  change (Z.land x 255) with (Z.land x (Z.shiftl 255 (8 * 0))) at 1.
  change 65280 with (Z.shiftl 255 (8 * 1)).
  change 16711680 with (Z.shiftl 255 (8 * 2)).
  rewrite !Hm by lia.
  unfold lane. rewrite Z.shiftr_0_r. reflexivity.
Qed.

Lemma OS_GetTopPrio_correct (PrioMap : Z) :
  0 <= PrioMap < 2 ^ 32 → PrioMap ≠ 0 →
  length OS_MapTable = 256%nat ∧
  lowest_set_bit PrioMap (OS_GetTopPrio PrioMap) ∧
  OS_GetTopPrio PrioMap < 32 ∧
  ∃ k, 0 <= k < 4 ∧ lane k PrioMap ≠ 0 ∧ (∀ i, 0 <= i < k → lane i PrioMap = 0) ∧
       OS_GetTopPrio PrioMap = 8 * k + MapTable_at (lane k PrioMap).
Proof.
  intros Hx Hnz. split; [reflexivity|].
  assert (Hk : ∃ k, 0 <= k < 4 ∧ lane k PrioMap ≠ 0 ∧
                    (∀ i, 0 <= i < k → lane i PrioMap = 0) ∧
                    OS_GetTopPrio PrioMap = 8 * k + MapTable_at (lane k PrioMap)).
  { rewrite OS_GetTopPrio_lanes.
    assert (Hu : ∀ k, 0 <= k < 4 → lane k PrioMap ≠ 0 →
                 u8 (8 * k + MapTable_at (lane k PrioMap)) = 8 * k + MapTable_at (lane k PrioMap)).
    { intros k Hk Hl. pose proof (lane_range k PrioMap ltac:(lia)).
      destruct (MapTable_byte (lane k PrioMap)) as (He & _); [lia|].
      unfold u8. apply Z.mod_small. lia. }
    destruct (Z.eqb_spec (lane 0 PrioMap) 0) as [E0|E0]; cbn [negb].
    2:{ exists 0. split; [lia|]. split; [assumption|]. split; [intros; lia|]. lia. }
    destruct (Z.eqb_spec (lane 1 PrioMap) 0) as [E1|E1]; cbn [negb].
    2:{ exists 1. split; [lia|]. split; [assumption|]. split; [|apply Hu; [lia|assumption]].
        intros i Hi. replace i with 0 by lia. assumption. }
    destruct (Z.eqb_spec (lane 2 PrioMap) 0) as [E2|E2]; cbn [negb].
    2:{ exists 2. split; [lia|]. split; [assumption|]. split; [|apply Hu; [lia|assumption]].
        intros i Hi. assert (i = 0 ∨ i = 1) as [->| ->] by lia; assumption. }
    pose proof (top_lane_nonzero PrioMap Hx Hnz E0 E1 E2) as E3.
    exists 3. split; [lia|]. split; [assumption|]. split; [|apply Hu; [lia|assumption]].
    intros i Hi. assert (i = 0 ∨ i = 1 ∨ i = 2) as [->|[->| ->]] by lia; assumption. }
  destruct Hk as (k & Hk & Hl & Hz & Heq).
  pose proof (lane_hit k PrioMap ltac:(lia) Hl
                (low_lanes_zero PrioMap k ltac:(lia) Hz)) as (Hp & Hbit & Hbelow).
  rewrite <- Heq in Hp, Hbit, Hbelow.
  split; [|split].
  - unfold lowest_set_bit. split; [lia|]. split; assumption.
  - lia.
  - exists k. repeat split; try lia; assumption.
Qed.

(** ** Reasoning about monadic code *)

Section wp_rules.
Context {A B : Type}.
Implicit Types (s : Kernel).

Lemma wp_ret (a : A) (Q : A → Kernel → Prop) s : Q a s → wp (ret a) Q s.
Proof. intros H. exact H. Qed.

Lemma wp_bind (m : M A) (k : A → M B) (Q : B → Kernel → Prop) s :
  wp m (λ a s', wp (k a) Q s') s → wp (bind m k) Q s.
Proof. unfold wp, bind. destruct (m s) as [[a|f] s']; auto. Qed.

Lemma wp_gets (f : Kernel → A) (Q : A → Kernel → Prop) s : Q (f s) s → wp (gets f) Q s.
Proof. intros H. exact H. Qed.

Lemma wp_mono (m : M A) (Q Q' : A → Kernel → Prop) s :
  wp m Q s → (∀ a s', Q a s' → Q' a s') → wp m Q' s.
Proof. unfold wp. destruct (m s) as [[a|f] s']; auto. Qed.

Lemma wp_elim (m : M A) (Q : A → Kernel → Prop) s :
  wp m Q s → ∃ a s', m s = (Ret a, s') ∧ Q a s'.
Proof. unfold wp. destruct (m s) as [[a|f] s']; [eauto | tauto]. Qed.

Lemma wp_intro (m : M A) (Q : A → Kernel → Prop) s a s' :
  m s = (Ret a, s') → Q a s' → wp m Q s.
Proof. unfold wp. intros ->. auto. Qed.
End wp_rules.

Lemma wp_modify (f : Kernel → Kernel) (Q : unit → Kernel → Prop) s :
  Q tt (f s) → wp (modify f) Q s.
Proof. intros H. exact H. Qed.

Lemma wp_ASSERT (b : bool) (Q : unit → Kernel → Prop) s :
  b = true → Q tt s → wp (OS_ASSERT b) Q s.
Proof. intros -> H. exact H. Qed.

Lemma wp_load_tcb x t (Q : OS_TCB → Kernel → Prop) s :
  tcbs s !! x = Some t → Q t s → wp (load_tcb (Some x)) Q s.
Proof. intros E H. unfold wp, load_tcb. rewrite E. exact H. Qed.

Lemma wp_store_tcb x t f (Q : unit → Kernel → Prop) s :
  tcbs s !! x = Some t → Q tt (set_tcbs (<[x := f t]> (tcbs s)) s) →
  wp (store_tcb (Some x) f) Q s.
Proof. intros E H. unfold wp, store_tcb. rewrite E. exact H. Qed.

Lemma wp_load_list r L (Q : OS_List → Kernel → Prop) s :
  get_list r s = Some L → Q L s → wp (load_list r) Q s.
Proof. intros E H. unfold wp, load_list. rewrite E. exact H. Qed.

Lemma wp_store_list r L f (Q : unit → Kernel → Prop) s :
  get_list r s = Some L → Q tt (set_list r (f L) s) → wp (store_list r f) Q s.
Proof. intros E H. unfold wp, store_list. rewrite E. exact H. Qed.

(** ** List headers *)

Lemma get_list_set_tcbs r h s : get_list r (set_tcbs h s) = get_list r s.
Proof. destruct r; reflexivity. Qed.

Lemma tcbs_set_list r v s : tcbs (set_list r v s) = tcbs s.
Proof. destruct r; try reflexivity. simpl. destruct (_ && _); reflexivity. Qed.

Lemma get_set_list r v L s :
  get_list r s = Some L → get_list r (set_list r v s) = Some v.
Proof.
  destruct r as [p|  |a|a|a|a]; unfold get_list, set_list.
  - destruct ((0 <=? p) && (p <? OS_MAX_PRIO)) eqn:Hp; [|discriminate].
    cbn [ReadyList set_ReadyList].
    intros E. apply list_lookup_insert_eq. apply lookup_lt_is_Some. eauto.
  - reflexivity.
  - cbn [sems set_sems]. rewrite lookup_alter_eq.
    destruct (sems s !! a); [reflexivity|discriminate].
  - cbn [mutexes set_mutexes]. rewrite lookup_alter_eq.
    destruct (mutexes s !! a); [reflexivity|discriminate].
  - cbn [queues set_queues]. rewrite lookup_alter_eq.
    destruct (queues s !! a); [reflexivity|discriminate].
  - cbn [pools set_pools]. rewrite lookup_alter_eq.
    destruct (pools s !! a); [reflexivity|discriminate].
Qed.

Lemma get_set_list_ne r r' v s :
  r ≠ r' → get_list r' (set_list r v s) = get_list r' s.
Proof.
  intros Hne.
  destruct r as [p|  |a|a|a|a], r' as [p'|  |a'|a'|a'|a'];
    unfold get_list, set_list; try reflexivity;
    try (destruct ((0 <=? p) && (p <? OS_MAX_PRIO)); reflexivity).
  - destruct ((0 <=? p) && (p <? OS_MAX_PRIO)) eqn:Hp; [|reflexivity].
    destruct ((0 <=? p') && (p' <? OS_MAX_PRIO)) eqn:Hp'; [|reflexivity].
    cbn [ReadyList set_ReadyList].
    apply list_lookup_insert_ne. intros E. apply Hne. f_equal.
    apply andb_prop in Hp as [H1 _]. apply andb_prop in Hp' as [H2 _].
    apply Z.leb_le in H1, H2. lia.
  - congruence.
  - cbn [sems set_sems]. rewrite lookup_alter_ne; [reflexivity|congruence].
  - cbn [mutexes set_mutexes]. rewrite lookup_alter_ne; [reflexivity|congruence].
  - cbn [queues set_queues]. rewrite lookup_alter_ne; [reflexivity|congruence].
  - cbn [pools set_pools]. rewrite lookup_alter_ne; [reflexivity|congruence].
Qed.

Lemma get_list_in_all_refs r L s : get_list r s = Some L → r ∈ all_refs s.
Proof.
  assert (Hk : ∀ (V : Type) (m : gmap nat V) a, is_Some (m !! a) →
               a ∈ map fst (map_to_list m)).
  { intros V m a [v Hv]. apply list_elem_of_In, in_map_iff. exists (a, v).
    split; [reflexivity|]. apply list_elem_of_In, elem_of_map_to_list. exact Hv. }
  unfold all_refs. destruct r as [p|  |a|a|a|a]; unfold get_list; intros E.
  - destruct ((0 <=? p) && (p <? OS_MAX_PRIO)) eqn:Hp; [|discriminate].
    apply andb_prop in Hp as [H1 H2]. apply Z.leb_le in H1. apply Z.ltb_lt in H2.
    unfold OS_MAX_PRIO in H2.
    apply elem_of_app. left. apply list_elem_of_In, in_map_iff.
    exists (Z.to_nat p). split; [f_equal; lia|]. apply in_seq. lia.
  - apply elem_of_app. right. apply list_elem_of_here.
  - do 2 (apply elem_of_app; right). apply elem_of_app. left.
    apply list_elem_of_In, in_map, list_elem_of_In, Hk.
    destruct (sems s !! a); [eauto|discriminate].
  - do 3 (apply elem_of_app; right). apply elem_of_app. left.
    apply list_elem_of_In, in_map, list_elem_of_In, Hk.
    destruct (mutexes s !! a); [eauto|discriminate].
  - do 4 (apply elem_of_app; right). apply elem_of_app. left.
    apply list_elem_of_In, in_map, list_elem_of_In, Hk.
    destruct (queues s !! a); [eauto|discriminate].
  - do 5 (apply elem_of_app; right).
    apply list_elem_of_In, in_map, list_elem_of_In, Hk.
    destruct (pools s !! a); [eauto|discriminate].
Qed.

(** ** Sequences and their representation *)

Lemma chainb_sound nx p l q : chainb nx p l q = true → chain nx p l q.
Proof.
  revert p. induction l as [|y l IH]; simpl; intros p H.
  - apply bool_decide_eq_true_1 in H. exact H.
  - apply andb_prop in H as [H1 H2]. apply bool_decide_eq_true_1 in H1.
    split; [exact H1|]. destruct (nx y) as [r|]; [|discriminate]. eauto.
Qed.

Lemma list_reprb_sound h L l : list_reprb h L l = true → list_repr h L l.
Proof.
  unfold list_reprb, list_repr. intros H. apply andb_prop in H as [H1 H2].
  split; apply chainb_sound; assumption.
Qed.

Lemma chain_app nx p l1 l2 q :
  chain nx p (l1 ++ l2) q ↔ ∃ r, chain nx p l1 r ∧ chain nx r l2 q.
Proof.
  revert p. induction l1 as [|y l1 IH]; simpl; intros p.
  - split; [intros H; eauto | intros (r & -> & H); exact H].
  - split.
    + intros (-> & r & Hy & H). apply IH in H as (r' & H1 & H2).
      exists r'. split; [|exact H2]. split; [reflexivity|]. eauto.
    + intros (r' & (-> & r & Hy & H1) & H2). split; [reflexivity|].
      exists r. split; [exact Hy|]. apply IH. eauto.
Qed.

Lemma chain_frame nx nx' p l q :
  (∀ y, y ∈ l → nx' y = nx y) → chain nx p l q → chain nx' p l q.
Proof.
  revert p. induction l as [|y l IH]; simpl; intros p Hf H; [exact H|].
  destruct H as (-> & r & Hy & H). split; [reflexivity|]. exists r. split.
  - rewrite Hf; [exact Hy|]. apply list_elem_of_here.
  - apply IH; [|exact H]. intros z Hz. apply Hf. apply list_elem_of_further. exact Hz.
Qed.

Lemma chain_start nx p l : chain nx p l None → p = head l.
Proof. destruct l; simpl; [auto | intros (-> & _); reflexivity]. Qed.

Lemma chain_in nx p l q y : chain nx p l q → y ∈ l → is_Some (nx y).
Proof.
  revert p. induction l as [|z l IH]; simpl; intros p H Hy.
  - exfalso. eapply not_elem_of_nil; eauto.
  - destruct H as (-> & r & Hz & H). apply elem_of_cons in Hy as [->|Hy]; eauto.
Qed.

(** The last node of a chain can be pointed somewhere else. *)
Lemma chain_retarget nx nx' p l y q q' :
  chain nx p (l ++ [y]) q → y ∉ l →
  (∀ z, z ∈ l → nx' z = nx z) → nx' y = Some q' →
  chain nx' p (l ++ [y]) q'.
Proof.
  intros H Hy Hf Hy'. apply chain_app in H as (r & H1 & H2).
  apply chain_app. exists r. split; [eapply chain_frame; eauto|].
  simpl in *. destruct H2 as (-> & _). split; [reflexivity|]. eauto.
Qed.

(** From a node of a chain, its successor starts the rest. *)
Lemma chain_split nx p l1 y l2 :
  chain nx p (l1 ++ y :: l2) None → nx y = Some (head l2).
Proof.
  intros H. apply chain_app in H as (r & _ & H). simpl in H.
  destruct H as (-> & r' & Hy & H). apply chain_start in H. congruence.
Qed.

Lemma repr_head h L l : list_repr h L l → Head L = head l.
Proof. intros [H _]. eapply chain_start; eauto. Qed.

Lemma repr_tail h L l : list_repr h L l → Tail L = last l.
Proof.
  intros [_ H]. apply chain_start in H. rewrite H. apply head_reverse.
Qed.

Lemma repr_in_heap h L l y : list_repr h L l → y ∈ l → is_Some (h !! y).
Proof.
  intros [H _] Hy. destruct (chain_in _ _ _ _ _ H Hy) as [r Hr].
  unfold next_at in Hr. destruct (h !! y); [eauto|discriminate].
Qed.

(** The links of the node between [l1] and [l2]. *)
Lemma repr_links h L l1 y l2 :
  list_repr h L (l1 ++ y :: l2) →
  ∃ t, h !! y = Some t ∧ Next t = head l2 ∧ Prev t = last l1.
Proof.
  intros [Hf Hb]. apply chain_split in Hf.
  rewrite reverse_app, reverse_cons, <- app_assoc in Hb. simpl in Hb.
  apply chain_split in Hb. rewrite head_reverse in Hb. unfold next_at, prev_at in *.
  destruct (h !! y) as [t|]; [|discriminate]. simpl in *.
  exists t. split; [reflexivity|]. split; congruence.
Qed.

Lemma repr_frame h h' L l :
  (∀ y, y ∈ l → h' !! y = h !! y) → list_repr h L l → list_repr h' L l.
Proof.
  intros Hf [H1 H2]. split.
  - eapply chain_frame; [|exact H1]. intros y Hy. unfold next_at. rewrite Hf; auto.
  - eapply chain_frame; [|exact H2]. intros y Hy. unfold prev_at. rewrite Hf; auto.
    apply elem_of_reverse. exact Hy.
Qed.

Lemma walk_chain h fuel p l :
  chain (next_at h) p l None → (length l ≤ fuel)%nat → walk fuel h p = l.
Proof.
  revert p l. induction fuel as [|n IH]; intros p l H Hlen.
  - destruct l; [reflexivity|simpl in Hlen; lia].
  - destruct l as [|y l]; simpl in *.
    + subst p. reflexivity.
    + destruct H as (-> & r & Hy & H). unfold next_at in Hy.
      destruct (h !! y) as [t|]; [|discriminate]. simpl in Hy. inversion Hy; subst r.
      f_equal. apply IH; [exact H|lia].
Qed.

Lemma NoDup_heap_length (h : gmap nat OS_TCB) (l : list nat) :
  NoDup l → (∀ y, y ∈ l → is_Some (h !! y)) → (length l ≤ size h)%nat.
Proof.
  intros Hnd Hin.
  rewrite <- (size_list_to_set (C := gset nat) l Hnd).
  rewrite <- (size_dom (D := gset nat) h).
  apply subseteq_size. intros y Hy. apply elem_of_list_to_set in Hy.
  apply elem_of_dom. apply Hin. exact Hy.
Qed.

Lemma walk_repr h L l :
  list_repr h L l → NoDup l → walk (size h) h (Head L) = l.
Proof.
  intros Hr Hnd. apply walk_chain; [apply Hr|].
  apply NoDup_heap_length; [exact Hnd|].
  intros y Hy. eapply repr_in_heap; eauto.
Qed.

Lemma lists_ok_contents s c r : lists_ok s c → contents s r = c r.
Proof.
  intros (Hrep & Hnd & _). unfold contents. specialize (Hrep r).
  destruct (get_list r s) as [L|]; [|symmetry; exact Hrep].
  apply walk_repr; [exact Hrep|apply Hnd].
Qed.

Lemma NoDup_concat_map {X Y} (f : X → list Y) (rs : list X) :
  NoDup (concat (map f rs)) →
  (∀ r, r ∈ rs → NoDup (f r)) ∧
  (∀ r r' x, r ∈ rs → r' ∈ rs → x ∈ f r → x ∈ f r' → r = r').
Proof.
  induction rs as [|a rs IH]; simpl; intros Hnd.
  - split; intros; exfalso; eapply not_elem_of_nil; eauto.
  - apply NoDup_app in Hnd as (Ha & Hdisj & Hrest).
    destruct (IH Hrest) as [IH1 IH2]. split.
    + intros r Hr. apply elem_of_cons in Hr as [->|Hr]; auto.
    + assert (Hc : ∀ r x, r ∈ rs → x ∈ f r → x ∈ concat (map f rs)).
      { intros r x Hr Hx. apply list_elem_of_In, in_concat. exists (f r).
        split; [apply in_map, list_elem_of_In; exact Hr | apply list_elem_of_In; exact Hx]. }
      intros r r' x Hr Hr' Hx Hx'.
      apply elem_of_cons in Hr as [->|Hr]; apply elem_of_cons in Hr' as [->|Hr'].
      * reflexivity.
      * exfalso. eapply Hdisj; eauto.
      * exfalso. eapply Hdisj; eauto.
      * eapply IH2; eauto.
Qed.

Lemma lists_okb_sound s : lists_okb s = true → lists_ok s (contents s).
Proof.
  unfold lists_okb. intros H. apply andb_prop in H as [Hall Hnd].
  apply bool_decide_eq_true in Hnd.
  destruct (NoDup_concat_map _ _ Hnd) as [Hnd1 Hdisj].
  assert (Hout : ∀ r, contents s r ≠ [] → r ∈ all_refs s).
  { intros r Hne. unfold contents in Hne.
    destruct (get_list r s) as [L|] eqn:E; [|congruence].
    eapply get_list_in_all_refs; eauto. }
  split; [|split].
  - intros r. destruct (get_list r s) as [L|] eqn:E.
    + pose proof (proj1 (forallb_forall _ _) Hall r) as Hr. cbv beta in Hr.
      rewrite E in Hr.
      apply list_reprb_sound, Hr, list_elem_of_In.
      eapply get_list_in_all_refs; eauto.
    + unfold contents. rewrite E. reflexivity.
  - intros r. destruct (contents s r) as [|x l] eqn:E; [constructor|].
    rewrite <- E. apply Hnd1, Hout. rewrite E. discriminate.
  - intros r r' x Hx Hx'. eapply Hdisj; eauto; apply Hout.
    + intros E. rewrite E in Hx. eapply not_elem_of_nil; eauto.
    + intros E. rewrite E in Hx'. eapply not_elem_of_nil; eauto.
Qed.

Lemma ready_index (p : Z) L s :
  get_list (ReadyListAt p) s = Some L →
  0 <= p < 32 ∧ In (Z.to_nat p) (seq 0 32) ∧ Z.of_nat (Z.to_nat p) = p.
Proof.
  unfold get_list. destruct ((0 <=? p) && (p <? OS_MAX_PRIO)) eqn:Hp; [|discriminate].
  intros _. apply andb_prop in Hp as [H1 H2].
  apply Z.leb_le in H1. apply Z.ltb_lt in H2. unfold OS_MAX_PRIO in H2.
  split; [lia|]. split; [apply in_seq|]; lia.
Qed.

Lemma get_ready_is_Some (p : Z) s :
  length (ReadyList s) = 32%nat → 0 <= p < 32 → is_Some (get_list (ReadyListAt p) s).
Proof.
  intros Hlen Hp. unfold get_list.
  replace ((0 <=? p) && (p <? OS_MAX_PRIO)) with true
    by (symmetry; apply andb_true_intro; unfold OS_MAX_PRIO; split;
        [apply Z.leb_le | apply Z.ltb_lt]; lia).
  apply lookup_lt_is_Some. lia.
Qed.

Lemma contents_nonempty_get r s : contents s r ≠ [] → is_Some (get_list r s).
Proof. unfold contents. destruct (get_list r s); [eauto|congruence]. Qed.

Lemma repr_nonempty_head h L l : list_repr h L l → (l ≠ [] ↔ is_null (Head L) = false).
Proof.
  intros Hr. rewrite (repr_head _ _ _ Hr). destruct l; simpl; split; congruence.
Qed.

(** The executable check implies the invariant. *)
Lemma kernel_ok_sound s :
  kernel_ok s = true →
  kernel_inv s (contents s) ∧ 0 <= g_CriticalNesting s < 2 ^ 32 - 1.
Proof.
  unfold kernel_ok. intros H. rewrite !andb_true_iff in H.
  destruct H as ((((((((Hlists & Hlen) & Htcb) & Hprio) & Hm1) & Hm2) & Hbits) & Hn1) & Hn2).
  apply bool_decide_eq_true_1 in Hlen.
  apply Z.leb_le in Hm1, Hn1. apply Z.ltb_lt in Hm2, Hn2.
  pose proof (lists_okb_sound s Hlists) as Hok.
  split; [|lia]. split; [exact Hok|].
  constructor; try assumption; try lia.
  - intros x t Hx.
    pose proof (proj1 (forallb_forall _ _) Htcb (x, t)) as Ht. simpl in Ht.
    unfold tcb_ok, OS_MAX_PRIO in Ht.
    assert (Hin : In (x, t) (map_to_list (tcbs s)))
      by (apply list_elem_of_In, elem_of_map_to_list; exact Hx).
    specialize (Ht Hin). rewrite !andb_true_iff in Ht.
    destruct Ht as (((Ht1 & Ht2) & Ht3) & Ht4).
    apply Z.leb_le in Ht1, Ht3. apply Z.ltb_lt in Ht2, Ht4. lia.
  - intros p x t Hx Ht.
    assert (Hne : contents s (ReadyListAt p) ≠ [])
      by (intros E; rewrite E in Hx; eapply not_elem_of_nil; eauto).
    destruct (contents_nonempty_get _ _ Hne) as [L HL].
    destruct (ready_index _ _ _ HL) as (Hp & Hin & Hpz).
    pose proof (proj1 (forallb_forall _ _) Hprio _ Hin) as Hq. cbv beta in Hq.
    rewrite Hpz in Hq.
    pose proof (proj1 (forallb_forall _ _) Hq x) as Hqx. cbv beta in Hqx.
    rewrite Ht in Hqx. apply Z.eqb_eq in Hqx; [lia|].
    apply list_elem_of_In. exact Hx.
  - intros p Hp.
    destruct (get_ready_is_Some p s Hlen Hp) as [L HL].
    destruct (ready_index _ _ _ HL) as (_ & Hin & Hpz).
    pose proof (proj1 (forallb_forall _ _) Hbits _ Hin) as Hb. cbv beta in Hb.
    rewrite Hpz, HL in Hb. apply eqb_prop in Hb. rewrite Hb.
    destruct Hok as (Hrep & _). specialize (Hrep (ReadyListAt p)). rewrite HL in Hrep.
    rewrite (repr_nonempty_head _ _ _ Hrep).
    destruct (is_null (Head L)); simpl; split; congruence.
Qed.

Lemma current_ready_sound s :
  current_ready s = true →
  ∃ x t, CurrentTCB s = Some x ∧ tcbs s !! x = Some t ∧
         x ∈ contents s (ReadyListAt (Priority t)).
Proof.
  unfold current_ready. destruct (CurrentTCB s) as [x|]; [|discriminate].
  destruct (tcbs s !! x) as [t|] eqn:Ht; [|discriminate].
  intros H. apply bool_decide_eq_true_1 in H. exists x, t. auto.
Qed.

(** ** Relinking a sequence *)

Lemma NoDup_last_notin {X} (l : list X) (y : X) : NoDup (l ++ [y]) → y ∉ l.
Proof.
  intros H Hy. apply NoDup_app in H as (_ & Hd & _).
  apply (Hd y Hy). apply list_elem_of_here.
Qed.

Lemma NoDup_reverse {X} (l : list X) : NoDup l → NoDup (reverse l).
Proof. intros H. rewrite reverse_Permutation. exact H. Qed.

Lemma elem_of_reverse_app {X} (l1 l2 : list X) (y : X) :
  y ∈ reverse l2 ++ reverse l1 → y ∈ l1 ++ l2.
Proof.
  intros H. apply elem_of_app.
  apply elem_of_app in H as [H|H]; rewrite elem_of_reverse in H; [right|left]; exact H.
Qed.

Lemma chain_insert nx nx' p p' l1 l2 x :
  chain nx p (l1 ++ l2) None → NoDup (l1 ++ l2) →
  nx' x = Some (head l2) →
  (∀ z, last l1 = Some z → nx' z = Some (Some x)) →
  (∀ y, y ∈ l1 ++ l2 → last l1 ≠ Some y → nx' y = nx y) →
  p' = (if l1 is [] then Some x else p) →
  chain nx' p' (l1 ++ x :: l2) None.
Proof.
  intros H Hnd Hx Hlast Hother ->.
  apply chain_app in H as (r & H1 & H2).
  pose proof (chain_start _ _ _ H2) as ->.
  apply chain_app. exists (Some x). split.
  - destruct l1 as [|z l1 _] using rev_ind; [reflexivity|].
    replace (match l1 ++ [z] with [] => Some x | _ :: _ => p end) with p
      by (destruct l1; reflexivity).
    rewrite <- app_assoc in Hnd. apply NoDup_app in Hnd as (Hnd1 & Hd & Hnd2).
    eapply chain_retarget; [exact H1| | |].
    + intros Hz. apply (Hd z Hz). apply list_elem_of_here.
    + intros y Hy. apply Hother.
      * apply elem_of_app. left. apply elem_of_app. left. exact Hy.
      * rewrite last_snoc. intros E. inversion E; subst y.
        apply (Hd z Hy). apply list_elem_of_here.
    + apply Hlast. apply last_snoc.
  - simpl. split; [reflexivity|]. exists (head l2). split; [exact Hx|].
    eapply chain_frame; [|exact H2].
    intros y Hy. apply Hother; [apply elem_of_app; right; exact Hy|].
    intros E. apply last_Some_elem_of in E.
    apply NoDup_app in Hnd as (_ & Hd & _). exact (Hd y E Hy).
Qed.

Lemma chain_remove nx nx' p p' l1 x l2 :
  chain nx p (l1 ++ x :: l2) None → NoDup (l1 ++ x :: l2) →
  (∀ z, last l1 = Some z → nx' z = Some (head l2)) →
  (∀ y, y ∈ l1 ++ l2 → last l1 ≠ Some y → nx' y = nx y) →
  p' = (if l1 is [] then head l2 else p) →
  chain nx' p' (l1 ++ l2) None.
Proof.
  intros H Hnd Hlast Hother ->.
  apply chain_app in H as (r & H1 & H2). simpl in H2.
  destruct H2 as (-> & r' & Hx & H2).
  pose proof (chain_start _ _ _ H2) as ->.
  apply chain_app. exists (head l2). split.
  - destruct l1 as [|z l1 _] using rev_ind; [reflexivity|].
    replace (match l1 ++ [z] with [] => head l2 | _ :: _ => p end) with p
      by (destruct l1; reflexivity).
    rewrite <- app_assoc in Hnd. apply NoDup_app in Hnd as (Hnd1 & Hd & Hnd2).
    eapply chain_retarget; [exact H1| | |].
    + intros Hz. apply (Hd z Hz). apply list_elem_of_here.
    + intros y Hy. apply Hother.
      * apply elem_of_app. left. apply elem_of_app. left. exact Hy.
      * rewrite last_snoc. intros E. inversion E; subst y.
        apply (Hd z Hy). apply list_elem_of_here.
    + apply Hlast. apply last_snoc.
  - eapply chain_frame; [|exact H2].
    intros y Hy. apply Hother; [apply elem_of_app; right; exact Hy|].
    intros E. apply last_Some_elem_of in E.
    apply NoDup_app in Hnd as (_ & Hd & _).
    apply (Hd y E). apply list_elem_of_further. exact Hy.
Qed.

Lemma repr_insert h h' L L' l1 l2 x :
  list_repr h L (l1 ++ l2) → NoDup (l1 ++ l2) →
  next_at h' x = Some (head l2) → prev_at h' x = Some (last l1) →
  (∀ z, last l1 = Some z → next_at h' z = Some (Some x)) →
  (∀ z, head l2 = Some z → prev_at h' z = Some (Some x)) →
  (∀ y, y ∈ l1 ++ l2 → last l1 ≠ Some y → next_at h' y = next_at h y) →
  (∀ y, y ∈ l1 ++ l2 → head l2 ≠ Some y → prev_at h' y = prev_at h y) →
  Head L' = (if l1 is [] then Some x else Head L) →
  Tail L' = (if l2 is [] then Some x else Tail L) →
  list_repr h' L' (l1 ++ x :: l2).
Proof.
  intros [Hf Hb] Hnd Hxn Hxp Hn Hp Hon Hop HH HT. split.
  - eapply chain_insert; eauto.
  - rewrite reverse_app, reverse_cons, <- app_assoc. simpl.
    rewrite reverse_app in Hb.
    eapply chain_insert; [exact Hb| | | | |].
    + rewrite <- reverse_app. apply NoDup_reverse. exact Hnd.
    + rewrite head_reverse. exact Hxp.
    + intros z. rewrite last_reverse. apply Hp.
    + intros y Hy. rewrite last_reverse. apply Hop.
      apply elem_of_reverse_app. exact Hy.
    + rewrite HT. destruct l2 as [|z l2]; [reflexivity|].
      rewrite reverse_cons. destruct (reverse l2); reflexivity.
Qed.

Lemma repr_remove h h' L L' l1 x l2 :
  list_repr h L (l1 ++ x :: l2) → NoDup (l1 ++ x :: l2) →
  (∀ z, last l1 = Some z → next_at h' z = Some (head l2)) →
  (∀ z, head l2 = Some z → prev_at h' z = Some (last l1)) →
  (∀ y, y ∈ l1 ++ l2 → last l1 ≠ Some y → next_at h' y = next_at h y) →
  (∀ y, y ∈ l1 ++ l2 → head l2 ≠ Some y → prev_at h' y = prev_at h y) →
  Head L' = (if l1 is [] then head l2 else Head L) →
  Tail L' = (if l2 is [] then last l1 else Tail L) →
  list_repr h' L' (l1 ++ l2).
Proof.
  intros [Hf Hb] Hnd Hn Hp Hon Hop HH HT. split.
  - eapply chain_remove; eauto.
  - rewrite reverse_app.
    rewrite reverse_app, reverse_cons, <- app_assoc in Hb. simpl in Hb.
    eapply chain_remove; [exact Hb| | | |].
    + replace (reverse l2 ++ x :: reverse l1) with (reverse (l1 ++ x :: l2))
        by (rewrite reverse_app, reverse_cons, <- app_assoc; reflexivity).
      apply NoDup_reverse. exact Hnd.
    + intros z. rewrite last_reverse, head_reverse. apply Hp.
    + intros y Hy. rewrite last_reverse. apply Hop.
      apply elem_of_reverse_app. exact Hy.
    + rewrite HT, head_reverse. destruct l2 as [|z l2]; [reflexivity|].
      rewrite reverse_cons. destruct (reverse l2); reflexivity.
Qed.

Lemma repr_frame_links h h' L L' l :
  (∀ y, y ∈ l → next_at h' y = next_at h y ∧ prev_at h' y = prev_at h y) →
  Head L' = Head L → Tail L' = Tail L →
  list_repr h L l → list_repr h' L' l.
Proof.
  intros Hf HH HT [H1 H2]. rewrite <- HH in H1. rewrite <- HT in H2. split.
  - eapply chain_frame; [|exact H1]. intros y Hy. apply Hf. exact Hy.
  - eapply chain_frame; [|exact H2]. intros y Hy. apply Hf.
    apply elem_of_reverse. exact Hy.
Qed.

Lemma repr_nil h : list_repr h empty_list [].
Proof. split; reflexivity. Qed.

Lemma repr_nil_inv h L : list_repr h L [] → Head L = None ∧ Tail L = None.
Proof. intros [H1 H2]. simpl in *. auto. Qed.

(** ** Updating one list of the kernel *)

Lemma lists_ok_update s s' c r l' :
  lists_ok s c →
  (∀ r', r' ≠ r → get_list r' s' = get_list r' s) →
  (∀ r' y, r' ≠ r → y ∈ c r' →
     next_at (tcbs s') y = next_at (tcbs s) y ∧ prev_at (tcbs s') y = prev_at (tcbs s) y) →
  (match get_list r s' with
   | Some L' => list_repr (tcbs s') L' l'
   | None => l' = []
   end) →
  NoDup l' → (∀ y r', y ∈ l' → y ∈ c r' → r' = r) →
  lists_ok s' (<[r := l']> c).
Proof.
  intros (Hrep & Hnd & Hdisj) Hget Hframe Hr Hnd' Hdisj'. split; [|split].
  - intros r'. destruct (decide (r' = r)) as [->|Hne].
    + rewrite fn_lookup_insert. exact Hr.
    + rewrite fn_lookup_insert_ne by congruence. rewrite Hget by exact Hne.
      specialize (Hrep r'). destruct (get_list r' s) as [L|]; [|exact Hrep].
      eapply repr_frame_links; [|reflexivity|reflexivity|exact Hrep].
      intros y Hy. apply (Hframe r'); assumption.
  - intros r'. destruct (decide (r' = r)) as [->|Hne].
    + rewrite fn_lookup_insert. exact Hnd'.
    + rewrite fn_lookup_insert_ne by congruence. apply Hnd.
  - intros r1 r2 x.
    destruct (decide (r1 = r)) as [->|Hne1]; destruct (decide (r2 = r)) as [->|Hne2];
      rewrite ?fn_lookup_insert, ?fn_lookup_insert_ne by congruence; intros H1 H2.
    + reflexivity.
    + symmetry. eapply Hdisj'; eauto.
    + eapply Hdisj'; eauto.
    + eapply Hdisj; eauto.
Qed.

(** ** What relinking leaves unchanged *)

Lemma strip_set_Next v t : strip_tcb (set_Next v t) = strip_tcb t.
Proof. reflexivity. Qed.
Lemma strip_set_Prev v t : strip_tcb (set_Prev v t) = strip_tcb t.
Proof. reflexivity. Qed.

Lemma data_of_set_list r v s : data_of (set_list r v s) = data_of s.
Proof.
  assert (Hm : ∀ (V : Type) (f g : V → V) (m : gmap nat V) a,
             (∀ x, f (g x) = f x) → f <$> alter g a m = f <$> m).
  { intros V f g m a Hfg. apply map_eq. intros i. rewrite !lookup_fmap, lookup_alter.
    case_decide; [subst i|reflexivity].
    destruct (m !! a); simpl; [rewrite Hfg|]; reflexivity. }
  destruct r as [p|  |a|a|a|a]; unfold set_list.
  - destruct ((0 <=? p) && (p <? OS_MAX_PRIO)); [|reflexivity].
    unfold data_of. cbn [ReadyList set_ReadyList g_SystemTickCount g_CriticalNesting
      g_PrioMap g_OSRunning DelayList CurrentTCB NextTCB tcbs sems mutexes queues pools
      ram irq_enabled swi_pending].
    f_equal. apply list_eq. intros i. rewrite !list_lookup_fmap.
    destruct (decide (i = Z.to_nat p)) as [->|Hne].
    + destruct (ReadyList s !! Z.to_nat p) eqn:E.
      * rewrite list_lookup_insert_eq by (eapply lookup_lt_Some; eauto). reflexivity.
      * rewrite list_insert_ge by (apply lookup_ge_None; exact E). rewrite E. reflexivity.
    + rewrite list_lookup_insert_ne by congruence. reflexivity.
  - reflexivity.
  - unfold data_of. cbn. f_equal. apply Hm. reflexivity.
  - unfold data_of. cbn. f_equal. apply Hm. reflexivity.
  - unfold data_of. cbn. f_equal. apply Hm. reflexivity.
  - unfold data_of. cbn. f_equal. apply Hm. reflexivity.
Qed.

Lemma data_of_relink x t t' s :
  tcbs s !! x = Some t → strip_tcb t' = strip_tcb t →
  data_of (set_tcbs (<[x := t']> (tcbs s)) s) = data_of s.
Proof.
  intros Hx Ht. unfold data_of. cbn. f_equal.
  rewrite fmap_insert, Ht. apply insert_id. rewrite lookup_fmap, Hx. reflexivity.
Qed.

Lemma next_at_insert h a v y :
  next_at (<[a := v]> h) y = if decide (a = y) then Some (Next v) else next_at h y.
Proof.
  unfold next_at. rewrite lookup_insert. destruct (decide (a = y)); reflexivity.
Qed.

Lemma prev_at_insert h a v y :
  prev_at (<[a := v]> h) y = if decide (a = y) then Some (Prev v) else prev_at h y.
Proof.
  unfold prev_at. rewrite lookup_insert. destruct (decide (a = y)); reflexivity.
Qed.

Lemma next_at_Some h y t : h !! y = Some t → next_at h y = Some (Next t).
Proof. unfold next_at. intros ->. reflexivity. Qed.
Lemma prev_at_Some h y t : h !! y = Some t → prev_at h y = Some (Prev t).
Proof. unfold prev_at. intros ->. reflexivity. Qed.

Lemma last_snoc_inv {X} (l : list X) (z : X) : last l = Some z → ∃ l0, l = l0 ++ [z].
Proof. apply last_Some. Qed.

(** ** [List_InsertTail] and [List_Remove] *)

Ltac heap_lookup :=
  rewrite ?next_at_insert, ?prev_at_insert, ?lookup_insert;
  repeat case_decide; subst; simpl; try congruence; try reflexivity.

Lemma wp_List_InsertTail s c r L x t (Q : unit → Kernel → Prop) :
  lists_ok s c → get_list r s = Some L → tcbs s !! x = Some t →
  (∀ r', x ∉ c r') →
  (∀ s', lists_ok s' (<[r := c r ++ [x]]> c) → data_of s' = data_of s →
         (∀ y, y ∉ c r → y ≠ x → tcbs s' !! y = tcbs s !! y) →
         Q tt s') →
  wp (List_InsertTail r (Some x)) Q s.
Proof.
  intros Hok HL Hx Hfresh HQ.
  pose proof Hok as (Hrep & Hnd & Hdisj).
  pose proof (Hrep r) as Hr. rewrite HL in Hr.
  unfold List_InsertTail.
  apply wp_bind, wp_ASSERT; [reflexivity|].
  apply wp_bind. eapply wp_store_tcb; [exact Hx|].
  apply wp_bind. eapply wp_load_list; [rewrite get_list_set_tcbs; exact HL|].
  pose proof (repr_head _ _ _ Hr) as HH. pose proof (repr_tail _ _ _ Hr) as HT.
  destruct (last (c r)) as [z|] eqn:Hlast.
  - (* the list has a tail node [z] *)
    apply last_Some in Hlast as [l0 Hcr]. rewrite Hcr in *.
    assert (Hzx : z ≠ x).
    { intros ->. apply (Hfresh r). rewrite Hcr. apply elem_of_app. right.
      apply list_elem_of_here. }
    destruct (repr_in_heap _ _ _ z Hr) as [tz Hz];
      [apply elem_of_app; right; apply list_elem_of_here|].
    replace (is_null (Head L)) with false
      by (rewrite HH; destruct l0; reflexivity).
    rewrite HT.
    apply wp_bind. eapply wp_store_tcb;
      [cbn [tcbs set_tcbs]; rewrite lookup_insert_ne by congruence; exact Hz|].
    apply wp_bind. eapply wp_load_list; [rewrite !get_list_set_tcbs; exact HL|].
    apply wp_bind. eapply wp_store_tcb;
      [cbn [tcbs set_tcbs]; rewrite lookup_insert_ne by congruence; apply lookup_insert_eq|].
    eapply wp_store_list; [rewrite !get_list_set_tcbs; exact HL|].
    rewrite HT.
    apply HQ.
    + cbn [tcbs set_tcbs]. eapply lists_ok_update; [exact Hok| | | | |].
      * intros r' Hne. rewrite get_set_list_ne by congruence.
        rewrite !get_list_set_tcbs. reflexivity.
      * intros r' y Hne Hy. rewrite tcbs_set_list. cbn [tcbs set_tcbs].
        assert (y ≠ x) by (intros ->; eapply Hfresh; eauto).
        assert (y ≠ z).
        { intros ->. apply Hne. eapply Hdisj; [exact Hy|]. rewrite Hcr.
          apply elem_of_app. right. apply list_elem_of_here. }
        split; heap_lookup.
      * erewrite get_set_list by (rewrite !get_list_set_tcbs; exact HL).
        rewrite tcbs_set_list. cbn [tcbs set_tcbs].
        pose proof (Hnd r) as Hndr. rewrite Hcr in Hndr.
        pose proof (NoDup_last_notin _ _ Hndr) as Hz0.
        eapply (repr_insert _ _ L _ (l0 ++ [z]) [] x).
        -- rewrite app_nil_r. exact Hr.
        -- rewrite app_nil_r. exact Hndr.
        -- heap_lookup.
        -- rewrite last_snoc. heap_lookup.
        -- intros z'. rewrite last_snoc. intros E. inversion E; subst z'. heap_lookup.
        -- intros z' E. discriminate E.
        -- intros y Hy. rewrite last_snoc. intros Hyz.
           rewrite app_nil_r in Hy.
           assert (y ≠ x) by (intros ->; apply (Hfresh r); rewrite Hcr; exact Hy).
           heap_lookup.
        -- intros y Hy _. rewrite app_nil_r in Hy.
           assert (y ≠ x) by (intros ->; apply (Hfresh r); rewrite Hcr; exact Hy).
           heap_lookup. symmetry. apply prev_at_Some. exact Hz.
        -- destruct l0; reflexivity.
        -- reflexivity.
      * apply NoDup_app. split; [rewrite <- Hcr; apply Hnd|]. split.
        -- intros y Hy Hyx. apply list_elem_of_singleton in Hyx. subst y.
           rewrite <- Hcr in Hy. eapply Hfresh; eauto.
        -- apply NoDup_singleton.
      * intros y r' Hy Hy'.
        apply elem_of_app in Hy as [Hy|Hy].
        -- rewrite <- Hcr in Hy. eapply Hdisj; eauto.
        -- apply list_elem_of_singleton in Hy. subst y. exfalso. eapply Hfresh; eauto.
    + rewrite data_of_set_list.
      erewrite data_of_relink;
        [|cbn [tcbs set_tcbs]; rewrite lookup_insert_ne by congruence; apply lookup_insert_eq
         |reflexivity].
      erewrite data_of_relink;
        [|cbn [tcbs set_tcbs]; rewrite lookup_insert_ne by congruence; exact Hz|reflexivity].
      erewrite data_of_relink; [reflexivity|exact Hx|reflexivity].
    + intros y Hy Hyx. rewrite tcbs_set_list. cbn [tcbs set_tcbs].
      assert (y ≠ z).
      { intros ->. apply Hy. apply elem_of_app. right. apply list_elem_of_here. }
      heap_lookup.
  - (* the list was empty *)
    apply last_None in Hlast. rewrite Hlast in *. simpl in HH, HT. rewrite HH.
    cbn [is_null].
    apply wp_bind. eapply wp_store_list; [rewrite get_list_set_tcbs; exact HL|].
    apply wp_bind. eapply wp_store_list;
      [erewrite get_set_list; [reflexivity|rewrite get_list_set_tcbs; exact HL]|].
    eapply wp_store_tcb.
    { rewrite !tcbs_set_list. cbn [tcbs set_tcbs]. apply lookup_insert_eq. }
    apply HQ.
    + rewrite !tcbs_set_list. cbn [tcbs set_tcbs].
      eapply lists_ok_update; [exact Hok| | | | |].
      * intros r' Hne. rewrite get_list_set_tcbs, !get_set_list_ne by congruence.
        rewrite get_list_set_tcbs. reflexivity.
      * intros r' y Hne Hy. cbn [tcbs set_tcbs].
        assert (y ≠ x) by (intros ->; eapply Hfresh; eauto).
        split; heap_lookup.
      * rewrite get_list_set_tcbs.
        erewrite get_set_list
          by (erewrite get_set_list; [reflexivity|rewrite get_list_set_tcbs; exact HL]).
        cbn [tcbs set_tcbs]. split; simpl.
        -- split; [reflexivity|]. exists None. split; [heap_lookup|reflexivity].
        -- split; [reflexivity|]. exists None. split; [heap_lookup|reflexivity].
      * apply NoDup_singleton.
      * intros y r' Hy Hy'. apply list_elem_of_singleton in Hy. subst y.
        exfalso. eapply Hfresh; eauto.
    + erewrite data_of_relink;
        [|rewrite !tcbs_set_list; cbn [tcbs set_tcbs]; apply lookup_insert_eq|reflexivity].
      rewrite !data_of_set_list.
      erewrite data_of_relink; [reflexivity|exact Hx|reflexivity].
    + intros y _ Hyx. rewrite !tcbs_set_list. cbn [tcbs set_tcbs]. heap_lookup.
Qed.

Ltac lookup_tac :=
  rewrite ?tcbs_set_list; cbn [tcbs set_tcbs];
  repeat (rewrite lookup_insert_ne by congruence);
  first [apply lookup_insert_eq | eassumption].

Ltac data_tac :=
  repeat first
    [ rewrite data_of_set_list
    | erewrite data_of_relink; [ | solve [lookup_tac] | reflexivity ] ];
  try reflexivity.

Ltac getlist_tac :=
  repeat first
    [ rewrite get_list_set_tcbs
    | rewrite get_set_list_ne by congruence ].

Lemma wp_List_Remove s c r l1 x l2 (Q : unit → Kernel → Prop) :
  lists_ok s c → c r = l1 ++ x :: l2 →
  (∀ s', lists_ok s' (<[r := l1 ++ l2]> c) → data_of s' = data_of s →
         (∀ y, y ∉ c r → tcbs s' !! y = tcbs s !! y) →
         Q tt s') →
  wp (List_Remove r (Some x)) Q s.
Proof.
  intros Hok Hcr HQ.
  pose proof Hok as (Hrep & Hnd & Hdisj).
  pose proof (Hrep r) as Hr. pose proof (Hnd r) as Hndr. rewrite Hcr in Hndr.
  destruct (get_list r s) as [L|] eqn:HL; [|rewrite Hcr in Hr; destruct l1; discriminate].
  rewrite Hcr in Hr.
  destruct (repr_links _ _ _ _ _ Hr) as (t & Hx & Hnext & Hprev).
  pose proof (repr_head _ _ _ Hr) as HH. pose proof (repr_tail _ _ _ Hr) as HT.
  assert (Hin : ∀ y, y ∈ l1 ++ l2 → y ∈ c r ∧ y ≠ x).
  { intros y Hy. split.
    - rewrite Hcr. apply elem_of_app in Hy as [Hy|Hy]; apply elem_of_app; [left|right]; auto.
      apply list_elem_of_further. exact Hy.
    - intros ->. apply NoDup_app in Hndr as (_ & Hd & Hnd2).
      apply elem_of_app in Hy as [Hy|Hy].
      + apply (Hd x Hy). apply list_elem_of_here.
      + apply NoDup_cons in Hnd2 as [Hn _]. exact (Hn Hy). }
  assert (Hpn : ∀ p n, last l1 = Some p → head l2 = Some n → p ≠ n).
  { intros p n Hp Hn ->. apply last_Some_elem_of in Hp. apply head_Some_elem_of in Hn.
    apply NoDup_app in Hndr as (_ & Hd & _). apply (Hd n Hp).
    apply list_elem_of_further. exact Hn. }
  assert (Hother : ∀ r' y, r' ≠ r → y ∈ c r' → y ≠ x ∧ (∀ z, z ∈ l1 ++ l2 → y ≠ z)).
  { intros r' y Hne Hy. split.
    - intros ->. apply Hne. eapply Hdisj; [exact Hy|]. rewrite Hcr.
      apply elem_of_app. right. apply list_elem_of_here.
    - intros z Hz ->. apply Hne. eapply Hdisj; [exact Hy|]. apply Hin. exact Hz. }
  assert (Hnd' : NoDup (l1 ++ l2)).
  { apply NoDup_app in Hndr as (H1 & Hd & H2). apply NoDup_cons in H2 as [_ H2].
    apply NoDup_app. split; [exact H1|]. split; [|exact H2].
    intros y Hy Hy2. apply (Hd y Hy). apply list_elem_of_further. exact Hy2. }
  assert (Hdisj' : ∀ y r', y ∈ l1 ++ l2 → y ∈ c r' → r' = r).
  { intros y r' Hy Hy'. eapply Hdisj; [exact Hy'|]. apply Hin. exact Hy. }
  unfold List_Remove.
  apply wp_bind, wp_ASSERT; [reflexivity|].
  apply wp_bind. eapply wp_load_tcb; [exact Hx|].
  rewrite Hprev, Hnext.
  destruct (last l1) as [p|] eqn:Hp; cbn [is_null].
  - (* [x] has a predecessor [p] *)
    destruct (repr_in_heap _ _ _ p Hr) as [tp Htp].
    { apply elem_of_app. left. apply last_Some_elem_of. exact Hp. }
    assert (Hpx : p ≠ x).
    { apply Hin. apply elem_of_app. left. apply last_Some_elem_of. exact Hp. }
    apply wp_bind. eapply wp_store_tcb; [exact Htp|].
    apply wp_bind. eapply wp_load_tcb; [lookup_tac|].
    rewrite Hprev, Hnext.
    destruct (head l2) as [n|] eqn:Hn; cbn [is_null].
    + (* and a successor [n] *)
      destruct (repr_in_heap _ _ _ n Hr) as [tn Htn].
      { apply elem_of_app. right. apply list_elem_of_further, head_Some_elem_of. exact Hn. }
      assert (Hnx : n ≠ x).
      { apply Hin. apply elem_of_app. right. apply head_Some_elem_of. exact Hn. }
      pose proof (Hpn p n eq_refl eq_refl) as Hpn'.
      apply wp_bind. eapply wp_store_tcb; [lookup_tac|].
      apply wp_bind. eapply wp_store_tcb; [lookup_tac|].
      eapply wp_store_tcb; [lookup_tac|].
      apply HQ.
      * cbn [tcbs set_tcbs]. eapply lists_ok_update; [exact Hok| | | |exact Hnd'|exact Hdisj'].
        -- intros r' Hne. getlist_tac. reflexivity.
        -- intros r' y Hne Hy. destruct (Hother r' y Hne Hy) as [Hyx Hyz].
           assert (y ≠ p) by (apply Hyz, elem_of_app; left; apply last_Some_elem_of; exact Hp).
           assert (y ≠ n) by (apply Hyz, elem_of_app; right; apply head_Some_elem_of; exact Hn).
           cbn [tcbs set_tcbs]. split; heap_lookup.
        -- getlist_tac. rewrite HL. cbn [tcbs set_tcbs].
           eapply (repr_remove _ _ L L l1 x l2); [exact Hr|exact Hndr| | | | | |].
           ++ rewrite Hp, Hn. intros z E. inversion E; subst z. heap_lookup.
           ++ rewrite Hp, Hn. intros z E. inversion E; subst z. heap_lookup.
           ++ rewrite Hp. intros y Hy Hyp. destruct (Hin y Hy) as [_ Hyx].
              heap_lookup. symmetry. apply next_at_Some. exact Htn.
           ++ rewrite Hn. intros y Hy Hyn. destruct (Hin y Hy) as [_ Hyx].
              heap_lookup. symmetry. apply prev_at_Some. exact Htp.
           ++ destruct l1; [discriminate|reflexivity].
           ++ destruct l2; [discriminate|reflexivity].
      * data_tac.
      * intros y Hy. rewrite Hcr in Hy. cbn [tcbs set_tcbs].
        assert (y ≠ x) by (intros ->; apply Hy, elem_of_app; right; apply list_elem_of_here).
        assert (y ≠ p).
        { intros ->. apply Hy, elem_of_app. left. apply last_Some_elem_of. exact Hp. }
        assert (y ≠ n).
        { intros ->. apply Hy, elem_of_app. right.
          apply list_elem_of_further, head_Some_elem_of. exact Hn. }
        heap_lookup.
    + (* and is the tail *)
      apply wp_bind. eapply wp_store_list; [getlist_tac; exact HL|].
      apply wp_bind. eapply wp_store_tcb; [lookup_tac|].
      eapply wp_store_tcb; [lookup_tac|].
      apply HQ.
      * rewrite ?tcbs_set_list. cbn [tcbs set_tcbs].
        eapply lists_ok_update; [exact Hok| | | |exact Hnd'|exact Hdisj'].
        -- intros r' Hne. getlist_tac. reflexivity.
        -- intros r' y Hne Hy. destruct (Hother r' y Hne Hy) as [Hyx Hyz].
           assert (y ≠ p) by (apply Hyz, elem_of_app; left; apply last_Some_elem_of; exact Hp).
           rewrite ?tcbs_set_list. cbn [tcbs set_tcbs]. split; heap_lookup.
        -- getlist_tac. erewrite get_set_list by (getlist_tac; exact HL).
           rewrite ?tcbs_set_list. cbn [tcbs set_tcbs].
           eapply (repr_remove _ _ L _ l1 x l2); [exact Hr|exact Hndr| | | | | |].
           ++ rewrite Hp, Hn. intros z E. inversion E; subst z. heap_lookup.
           ++ rewrite Hn. intros z E. discriminate E.
           ++ rewrite Hp. intros y Hy Hyp. destruct (Hin y Hy) as [_ Hyx]. heap_lookup.
           ++ rewrite Hn. intros y Hy Hyn. destruct (Hin y Hy) as [_ Hyx].
              heap_lookup. symmetry. apply prev_at_Some. exact Htp.
           ++ destruct l1; [discriminate|reflexivity].
           ++ destruct l2; [|discriminate]. rewrite Hp. reflexivity.
      * data_tac.
      * intros y Hy. rewrite Hcr in Hy. rewrite ?tcbs_set_list. cbn [tcbs set_tcbs].
        assert (y ≠ x) by (intros ->; apply Hy, elem_of_app; right; apply list_elem_of_here).
        assert (y ≠ p).
        { intros ->. apply Hy, elem_of_app. left. apply last_Some_elem_of. exact Hp. }
        heap_lookup.
  - (* [x] is the head *)
    pose proof (proj1 (last_None _) Hp) as Hl1.
    apply wp_bind. eapply wp_store_list; [exact HL|].
    apply wp_bind. eapply wp_load_tcb; [lookup_tac|].
    rewrite Hprev, Hnext.
    destruct (head l2) as [n|] eqn:Hn; cbn [is_null].
    + destruct (repr_in_heap _ _ _ n Hr) as [tn Htn].
      { apply elem_of_app. right. apply list_elem_of_further, head_Some_elem_of. exact Hn. }
      assert (Hnx : n ≠ x).
      { apply Hin. apply elem_of_app. right. apply head_Some_elem_of. exact Hn. }
      apply wp_bind. eapply wp_store_tcb; [lookup_tac|].
      apply wp_bind. eapply wp_store_tcb; [lookup_tac|].
      eapply wp_store_tcb; [lookup_tac|].
      apply HQ.
      * rewrite ?tcbs_set_list. cbn [tcbs set_tcbs].
        eapply lists_ok_update; [exact Hok| | | |exact Hnd'|exact Hdisj'].
        -- intros r' Hne. getlist_tac. reflexivity.
        -- intros r' y Hne Hy. destruct (Hother r' y Hne Hy) as [Hyx Hyz].
           assert (y ≠ n) by (apply Hyz, elem_of_app; right; apply head_Some_elem_of; exact Hn).
           rewrite ?tcbs_set_list. cbn [tcbs set_tcbs]. split; heap_lookup.
        -- getlist_tac. erewrite get_set_list by exact HL.
           rewrite ?tcbs_set_list. cbn [tcbs set_tcbs].
           eapply (repr_remove _ _ L _ l1 x l2); [exact Hr|exact Hndr| | | | | |].
           ++ rewrite Hp. intros z E. discriminate E.
           ++ rewrite Hp, Hn. intros z E. inversion E; subst z. heap_lookup.
           ++ rewrite Hp. intros y Hy Hyp. destruct (Hin y Hy) as [_ Hyx].
              heap_lookup. symmetry. apply next_at_Some. exact Htn.
           ++ rewrite Hn. intros y Hy Hyn. destruct (Hin y Hy) as [_ Hyx]. heap_lookup.
           ++ destruct l1; [|discriminate Hl1]. rewrite Hn. reflexivity.
           ++ destruct l2; [discriminate|reflexivity].
      * data_tac.
      * intros y Hy. rewrite Hcr in Hy. rewrite ?tcbs_set_list. cbn [tcbs set_tcbs].
        assert (y ≠ x) by (intros ->; apply Hy, elem_of_app; right; apply list_elem_of_here).
        assert (y ≠ n).
        { intros ->. apply Hy, elem_of_app. right.
          apply list_elem_of_further, head_Some_elem_of. exact Hn. }
        heap_lookup.
    + apply wp_bind. eapply wp_store_list; [erewrite get_set_list; [reflexivity|exact HL]|].
      apply wp_bind. eapply wp_store_tcb; [lookup_tac|].
      eapply wp_store_tcb; [lookup_tac|].
      apply HQ.
      * rewrite ?tcbs_set_list. cbn [tcbs set_tcbs].
        eapply lists_ok_update; [exact Hok| | | |exact Hnd'|exact Hdisj'].
        -- intros r' Hne. getlist_tac. reflexivity.
        -- intros r' y Hne Hy. destruct (Hother r' y Hne Hy) as [Hyx Hyz].
           rewrite ?tcbs_set_list. cbn [tcbs set_tcbs]. split; heap_lookup.
        -- getlist_tac.
           erewrite get_set_list by (erewrite get_set_list; [reflexivity|exact HL]).
           rewrite ?tcbs_set_list. cbn [tcbs set_tcbs].
           eapply (repr_remove _ _ L _ l1 x l2); [exact Hr|exact Hndr| | | | | |].
           ++ rewrite Hp. intros z E. discriminate E.
           ++ rewrite Hn. intros z E. discriminate E.
           ++ rewrite Hp. intros y Hy Hyp. destruct (Hin y Hy) as [_ Hyx]. heap_lookup.
           ++ rewrite Hn. intros y Hy Hyn. destruct (Hin y Hy) as [_ Hyx]. heap_lookup.
           ++ destruct l1; [|discriminate Hl1]. rewrite Hn. reflexivity.
           ++ destruct l2; [|discriminate]. rewrite Hp. reflexivity.
      * data_tac.
      * intros y Hy. rewrite Hcr in Hy. rewrite ?tcbs_set_list. cbn [tcbs set_tcbs].
        assert (y ≠ x) by (intros ->; apply Hy, elem_of_app; right; apply list_elem_of_here).
        heap_lookup.
Qed.

(** ** The bitmap *)

Lemma bit_mask (p : Z) : 0 <= p < 32 → u32 (Z.shiftl 1 p) = 2 ^ p.
Proof.
  intros Hp. unfold u32. rewrite Z.shiftl_1_l. apply Z.mod_small.
  split; [apply Z.pow_nonneg; lia|]. apply Z.pow_lt_mono_r; lia.
Qed.

Lemma bitmap_set_range m p :
  0 <= m < 2 ^ 32 → 0 <= p < 32 → 0 <= Z.lor m (u32 (Z.shiftl 1 p)) < 2 ^ 32.
Proof.
  intros Hm Hp. rewrite bit_mask by lia.
  assert (H2 : 0 <= 2 ^ p < 2 ^ 32)
    by (split; [apply Z.pow_nonneg; lia | apply Z.pow_lt_mono_r; lia]).
  split; [apply Z.lor_nonneg; lia|].
  destruct (Z.eq_dec (Z.lor m (2 ^ p)) 0) as [->|Hnz]; [lia|].
  apply Z.log2_lt_pow2; [pose proof (Z.lor_nonneg m (2 ^ p)); lia|].
  rewrite Z.log2_lor by lia. apply Z.max_lub_lt.
  - destruct (Z.eq_dec m 0) as [->|]; [simpl; lia|]. apply Z.log2_lt_pow2; lia.
  - rewrite Z.log2_pow2; lia.
Qed.

Lemma bitmap_set_bit m p q :
  0 <= p < 32 → 0 <= q →
  Z.testbit (Z.lor m (u32 (Z.shiftl 1 p))) q = Z.testbit m q || (q =? p).
Proof.
  intros Hp Hq. rewrite bit_mask by lia. rewrite Z.lor_spec, Z.pow2_bits_eqb by lia.
  f_equal. apply Z.eqb_sym.
Qed.

Lemma bitmap_clear_bit m p q :
  0 <= p < 32 → 0 <= q < 32 →
  Z.testbit (Z.land m (not32 (u32 (Z.shiftl 1 p)))) q = Z.testbit m q && negb (q =? p).
Proof.
  intros Hp Hq. rewrite bit_mask by lia. unfold not32.
  rewrite Z.land_spec, Z.lxor_spec, Z.pow2_bits_eqb, Z.ones_spec_low by lia.
  rewrite xorb_true_r. f_equal. f_equal. apply Z.eqb_sym.
Qed.

Lemma bitmap_clear_range m p :
  0 <= m < 2 ^ 32 → 0 <= Z.land m (not32 (u32 (Z.shiftl 1 p))) < 2 ^ 32.
Proof.
  intros Hm.
  assert (H0 : 0 <= Z.land m (not32 (u32 (Z.shiftl 1 p)))) by (apply Z.land_nonneg; lia).
  split; [exact H0|].
  destruct (Z.eq_dec (Z.land m (not32 (u32 (Z.shiftl 1 p)))) 0) as [->|Hnz]; [lia|].
  apply Z.log2_lt_pow2; [lia|].
  destruct (Z.eq_dec m 0) as [->|Hm0]; [rewrite Z.land_0_l in Hnz; congruence|].
  eapply Z.le_lt_trans; [apply Z.log2_land; [lia|]|].
  - unfold not32. apply Z.lxor_nonneg. unfold u32.
    pose proof (Z.mod_pos_bound (Z.shiftl 1 p) (2 ^ 32) ltac:(lia)).
    change (Z.ones 32) with 4294967295. lia.
  - apply Z.min_lt_iff. left. apply Z.log2_lt_pow2; lia.
Qed.

Lemma bitmap_nonzero m p : 0 <= p → Z.testbit m p = true → m ≠ 0.
Proof. intros Hp Hb ->. rewrite Z.bits_0 in Hb. discriminate. Qed.

(** ** The part of the invariant that does not depend on the links *)

Lemma data_of_tcb s s' x :
  data_of s' = data_of s → strip_tcb <$> tcbs s' !! x = strip_tcb <$> tcbs s !! x.
Proof.
  intros E. apply (f_equal tcbs) in E. cbn in E.
  rewrite <- !lookup_fmap. rewrite E. reflexivity.
Qed.

Lemma data_of_tcb_Some s s' x t' :
  data_of s' = data_of s → tcbs s' !! x = Some t' →
  ∃ t, tcbs s !! x = Some t ∧ strip_tcb t = strip_tcb t'.
Proof.
  intros E Hx. pose proof (data_of_tcb s s' x E) as H. rewrite Hx in H.
  destruct (tcbs s !! x) as [t|]; [|discriminate]. simpl in H.
  exists t. split; [reflexivity|]. congruence.
Qed.

Lemma strip_Priority t t' : strip_tcb t = strip_tcb t' → Priority t = Priority t'.
Proof. intros E. apply (f_equal Priority) in E. exact E. Qed.
Lemma strip_DelayTicks t t' : strip_tcb t = strip_tcb t' → DelayTicks t = DelayTicks t'.
Proof. intros E. apply (f_equal DelayTicks) in E. exact E. Qed.
Lemma strip_State t t' : strip_tcb t = strip_tcb t' → State t = State t'.
Proof. intros E. apply (f_equal State) in E. exact E. Qed.
Lemma strip_OriginalPrio t t' : strip_tcb t = strip_tcb t' → OriginalPrio t = OriginalPrio t'.
Proof. intros E. apply (f_equal OriginalPrio) in E. exact E. Qed.

Lemma data_inv_ext s s' c : data_of s' = data_of s → data_inv s c → data_inv s' c.
Proof.
  intros E [Hlen Htcb Hprio Hmr Hmap].
  pose proof (f_equal g_PrioMap E) as Emap. cbn in Emap.
  constructor.
  - pose proof (f_equal (λ k, length (ReadyList k)) E) as El. cbn in El.
    rewrite !length_fmap in El. congruence.
  - intros x t' Hx. destruct (data_of_tcb_Some _ _ _ _ E Hx) as (t & Ht & Hs).
    rewrite <- (strip_Priority _ _ Hs), <- (strip_DelayTicks _ _ Hs). eauto.
  - intros p x t' Hin Hx. destruct (data_of_tcb_Some _ _ _ _ E Hx) as (t & Ht & Hs).
    rewrite <- (strip_Priority _ _ Hs). eauto.
  - rewrite Emap. exact Hmr.
  - intros p Hp. rewrite Emap. apply Hmap. exact Hp.
Qed.

Lemma lists_ok_ext s s' c :
  (∀ r, get_list r s' = get_list r s) → tcbs s' = tcbs s →
  lists_ok s c → lists_ok s' c.
Proof.
  intros Hg Ht (Hrep & Hnd & Hdisj). split; [|split; assumption].
  intros r. rewrite Hg, Ht. apply Hrep.
Qed.

Lemma lists_ok_fresh s c x r :
  lists_ok s c → tcbs s !! x = None → x ∉ c r.
Proof.
  intros (Hrep & _) Hx Hin. specialize (Hrep r).
  destruct (get_list r s) as [L|].
  - destruct (repr_in_heap _ _ _ x Hrep Hin) as [t Ht]. congruence.
  - rewrite Hrep in Hin. eapply not_elem_of_nil; eauto.
Qed.

Lemma lists_ok_in_heap s c x r : lists_ok s c → x ∈ c r → is_Some (tcbs s !! x).
Proof.
  intros Hok Hin. destruct (tcbs s !! x) eqn:E; [eauto|].
  exfalso. eapply lists_ok_fresh; eauto.
Qed.

Lemma ready_ref_ne p q : p ≠ q → ReadyListAt p ≠ ReadyListAt q.
Proof. congruence. Qed.

(** Updates of the data commute with erasing the links. *)
Lemma data_of_set_g_PrioMap m s : data_of (set_g_PrioMap m s) = set_g_PrioMap m (data_of s).
Proof. reflexivity. Qed.

(** ** The ready set *)

Lemma wp_OS_ReadyListAdd s c x t (Q : unit → Kernel → Prop) :
  kernel_inv s c → tcbs s !! x = Some t → (∀ r', x ∉ c r') →
  (∀ s', kernel_inv s' (<[ReadyListAt (Priority t) := c (ReadyListAt (Priority t)) ++ [x]]> c) →
         data_of s' = data_of (set_g_PrioMap
                                 (Z.lor (g_PrioMap s) (u32 (Z.shiftl 1 (Priority t)))) s) →
         (∀ y, y ∉ c (ReadyListAt (Priority t)) → y ≠ x → tcbs s' !! y = tcbs s !! y) →
         Q tt s') →
  wp (OS_ReadyListAdd (Some x)) Q s.
Proof.
  intros [Hok Hd] Hx Hfresh HQ. pose proof Hd as [Hlen Htcb Hprio Hmr Hmap].
  destruct (Htcb x t Hx) as [Hp _].
  unfold OS_ReadyListAdd.
  apply wp_bind, wp_ASSERT; [reflexivity|].
  apply wp_bind. eapply wp_load_tcb; [exact Hx|].
  apply wp_bind, wp_modify.
  apply wp_bind. eapply wp_load_tcb; [exact Hx|].
  set (s1 := set_g_PrioMap _ s).
  destruct (get_ready_is_Some (Priority t) s Hlen Hp) as [L HL].
  eapply (wp_List_InsertTail s1 c); [| |exact Hx|exact Hfresh|].
  - eapply lists_ok_ext; [| |exact Hok]; [intros r; destruct r|]; reflexivity.
  - exact HL.
  - intros s' Hok' Hdata Hframe. apply HQ; [|exact Hdata|exact Hframe].
    split; [exact Hok'|]. eapply data_inv_ext; [exact Hdata|].
    constructor; cbn.
    + exact Hlen.
    + exact Htcb.
    + intros q y ty Hy Hty. destruct (decide (q = Priority t)) as [->|Hne].
      * rewrite fn_lookup_insert in Hy. apply elem_of_app in Hy as [Hy|Hy]; [eauto|].
        apply list_elem_of_singleton in Hy. subst y. congruence.
      * rewrite fn_lookup_insert_ne in Hy by congruence. eauto.
    + apply bitmap_set_range; assumption.
    + intros q Hq. rewrite bitmap_set_bit by lia.
      destruct (decide (q = Priority t)) as [->|Hne].
      * rewrite fn_lookup_insert, Z.eqb_refl, orb_true_r.
        split; [intros _|reflexivity]. destruct (c (ReadyListAt (Priority t))); discriminate.
      * rewrite fn_lookup_insert_ne by congruence.
        replace (q =? Priority t) with false by (symmetry; apply Z.eqb_neq; exact Hne).
        rewrite orb_false_r. apply Hmap. exact Hq.
Qed.

Lemma filter_ne_nil_app {X} (l1 l2 : list X) : l1 ++ l2 = [] → l1 = [] ∧ l2 = [].
Proof. destruct l1; [simpl; auto|discriminate]. Qed.

Lemma wp_OS_ReadyListRemove s c x t l1 l2 (Q : unit → Kernel → Prop) :
  kernel_inv s c → tcbs s !! x = Some t →
  c (ReadyListAt (Priority t)) = l1 ++ x :: l2 →
  (∀ s', kernel_inv s' (<[ReadyListAt (Priority t) := l1 ++ l2]> c) →
         data_of s' = data_of (set_g_PrioMap
                                 (if l1 ++ l2 is [] then
                                    Z.land (g_PrioMap s) (not32 (u32 (Z.shiftl 1 (Priority t))))
                                  else g_PrioMap s) s) →
         (∀ y, y ∉ c (ReadyListAt (Priority t)) → tcbs s' !! y = tcbs s !! y) →
         Q tt s') →
  wp (OS_ReadyListRemove (Some x)) Q s.
Proof.
  intros [Hok Hd] Hx Hcr HQ. pose proof Hd as [Hlen Htcb Hprio Hmr Hmap].
  destruct (Htcb x t Hx) as [Hp _].
  unfold OS_ReadyListRemove.
  apply wp_bind, wp_ASSERT; [reflexivity|].
  apply wp_bind. eapply wp_load_tcb; [exact Hx|].
  apply wp_bind. eapply wp_List_Remove; [exact Hok|exact Hcr|].
  intros s1 Hok1 Hdata1 Hframe1.
  destruct (data_of_tcb_Some _ _ _ _ (eq_sym Hdata1) Hx) as (t1 & Hx1 & Hs1).
  pose proof (strip_Priority _ _ Hs1) as Hp1.
  apply wp_bind. eapply wp_load_tcb; [exact Hx1|]. rewrite Hp1.
  assert (Hlen1 : length (ReadyList s1) = 32%nat).
  { pose proof (f_equal (λ k, length (ReadyList k)) Hdata1) as El. cbn in El.
    rewrite !length_fmap in El. congruence. }
  destruct (get_ready_is_Some (Priority t) s1 Hlen1 Hp) as [L1 HL1].
  apply wp_bind. eapply wp_load_list; [exact HL1|].
  pose proof Hok1 as (Hrep1 & _). specialize (Hrep1 (ReadyListAt (Priority t))).
  rewrite HL1, fn_lookup_insert in Hrep1.
  pose proof (repr_head _ _ _ Hrep1) as HH1.
  assert (Hinv : ∀ m', 
            (0 <= m' < 2 ^ 32) →
            (∀ q, 0 <= q < 32 → Z.testbit m' q = true ↔
                    <[ReadyListAt (Priority t) := l1 ++ l2]> c (ReadyListAt q) ≠ []) →
            data_inv (set_g_PrioMap m' s) (<[ReadyListAt (Priority t) := l1 ++ l2]> c)).
  { intros m' Hr' Hm'. constructor; cbn; try assumption.
    intros q y ty Hy Hty. destruct (decide (q = Priority t)) as [->|Hne].
    - rewrite fn_lookup_insert in Hy. eapply Hprio; [|exact Hty]. rewrite Hcr.
      apply elem_of_app in Hy as [Hy|Hy]; apply elem_of_app; [left|right]; auto.
      apply list_elem_of_further. exact Hy.
    - rewrite fn_lookup_insert_ne in Hy by congruence. eauto. }
  destruct (l1 ++ l2) as [|z l] eqn:Hl.
  - (* the list is now empty: the bit is cleared *)
    simpl in HH1. rewrite HH1. cbn [is_null].
    apply wp_bind. eapply wp_load_tcb; [exact Hx1|]. rewrite Hp1.
    apply wp_modify.
    assert (Hdata' : data_of
              (set_g_PrioMap (Z.land (g_PrioMap s1) (not32 (u32 (Z.shiftl 1 (Priority t))))) s1)
            = data_of (set_g_PrioMap
                         (Z.land (g_PrioMap s) (not32 (u32 (Z.shiftl 1 (Priority t))))) s)).
    { pose proof (f_equal g_PrioMap Hdata1) as Em. cbn in Em. rewrite Em.
      rewrite !data_of_set_g_PrioMap, Hdata1. reflexivity. }
    apply HQ; [|exact Hdata'|].
    + split.
      * eapply lists_ok_ext; [| |exact Hok1]; [intros r; destruct r|]; reflexivity.
      * eapply data_inv_ext; [exact Hdata'|]. apply Hinv.
        -- apply bitmap_clear_range. exact Hmr.
        -- intros q Hq. rewrite bitmap_clear_bit by lia.
           destruct (decide (q = Priority t)) as [->|Hne].
           ++ rewrite fn_lookup_insert, Z.eqb_refl, andb_false_r. split; congruence.
           ++ rewrite fn_lookup_insert_ne by congruence.
              replace (q =? Priority t) with false by (symmetry; apply Z.eqb_neq; exact Hne).
              rewrite andb_true_r. apply Hmap. exact Hq.
    + exact Hframe1.
  - simpl in HH1. rewrite HH1. cbn [is_null]. apply wp_ret.
    assert (Hdata' : data_of s1 = data_of (set_g_PrioMap (g_PrioMap s) s)).
    { rewrite data_of_set_g_PrioMap, Hdata1. reflexivity. }
    apply HQ; [|exact Hdata'|exact Hframe1].
    split; [exact Hok1|].
    eapply data_inv_ext; [exact Hdata'|]. apply Hinv; [exact Hmr|].
    intros q Hq. destruct (decide (q = Priority t)) as [->|Hne].
    + rewrite fn_lookup_insert. rewrite (Hmap _ Hq), Hcr.
      split; intros _; [discriminate|]. destruct l1; discriminate.
    + rewrite fn_lookup_insert_ne by congruence. apply Hmap. exact Hq.
Qed.

(** ** Scheduling and the critical section *)

Lemma wp_FindNextTask s c (Q : option nat → Kernel → Prop) :
  kernel_inv s c → g_PrioMap s ≠ 0 →
  (∀ x, head (c (ReadyListAt (OS_GetTopPrio (g_PrioMap s)))) = Some x → Q (Some x) s) →
  wp FindNextTask Q s.
Proof.
  intros [Hok Hd] Hnz HQ. pose proof Hd as [Hlen Htcb Hprio Hmr Hmap].
  destruct (OS_GetTopPrio_correct (g_PrioMap s) Hmr Hnz) as (_ & (Hp0 & Hbit & _) & Hp32 & _).
  unfold FindNextTask.
  apply wp_bind, wp_gets.
  apply wp_bind, wp_ASSERT; [apply negb_true_iff, Z.eqb_neq; exact Hnz|].
  apply wp_bind, wp_gets.
  assert (Hp : 0 <= OS_GetTopPrio (g_PrioMap s) < 32) by (split; assumption).
  destruct (get_ready_is_Some (OS_GetTopPrio (g_PrioMap s)) s Hlen Hp) as [L HL].
  apply wp_bind. eapply wp_load_list; [exact HL|].
  pose proof Hok as (Hrep & _). specialize (Hrep (ReadyListAt (OS_GetTopPrio (g_PrioMap s)))).
  rewrite HL in Hrep. pose proof (repr_head _ _ _ Hrep) as HH.
  apply (proj1 (Hmap _ Hp)) in Hbit.
  destruct (c (ReadyListAt (OS_GetTopPrio (g_PrioMap s)))) as [|x l] eqn:E; [congruence|].
  simpl in HH. rewrite HH.
  apply wp_bind, wp_ASSERT; [reflexivity|].
  apply wp_ret. apply HQ. reflexivity.
Qed.

Lemma wp_List_PopHead s c r x l (Q : option nat → Kernel → Prop) :
  lists_ok s c → c r = x :: l →
  (∀ s', lists_ok s' (<[r := l]> c) → data_of s' = data_of s →
         (∀ y, y ∉ c r → tcbs s' !! y = tcbs s !! y) →
         Q (Some x) s') →
  wp (List_PopHead r) Q s.
Proof.
  intros Hok Hcr HQ. pose proof Hok as (Hrep & _). specialize (Hrep r).
  destruct (get_list r s) as [L|] eqn:HL; [|rewrite Hcr in Hrep; discriminate].
  pose proof (repr_head _ _ _ Hrep) as HH. rewrite Hcr in HH. simpl in HH.
  unfold List_PopHead.
  apply wp_bind. eapply wp_load_list; [exact HL|]. rewrite HH. cbn [is_null].
  apply wp_bind. eapply (wp_List_Remove s c r [] x l); [exact Hok|exact Hcr|].
  intros s' Hok' Hdata Hframe. apply wp_ret. apply HQ; assumption.
Qed.

Lemma wp_OS_EnterCritical (Q : unit → Kernel → Prop) s :
  Q tt (set_g_CriticalNesting (u32 (g_CriticalNesting s + 1)) (set_irq_enabled false s)) →
  wp OS_EnterCritical Q s.
Proof. intros H. exact H. Qed.

Lemma wp_OS_ExitCritical (Q : unit → Kernel → Prop) s :
  g_CriticalNesting s ≠ 0 →
  Q tt (let n := u32 (g_CriticalNesting s - 1) in
        if n =? 0 then set_irq_enabled true (set_g_CriticalNesting n s)
        else set_g_CriticalNesting n s) →
  wp OS_ExitCritical Q s.
Proof.
  intros Hn H. unfold wp, OS_ExitCritical, bind, gets, OS_ASSERT, modify, OS_Enable_IRQ, ret.
  cbn. replace (g_CriticalNesting s =? 0) with false by (symmetry; apply Z.eqb_neq; exact Hn).
  cbn. cbv zeta in H. destruct (u32 (g_CriticalNesting s - 1) =? 0); exact H.
Qed.

Lemma enter_exit_nesting n : 0 <= n < 2 ^ 32 - 1 → u32 (n + 1) ≠ 0 ∧ u32 (u32 (n + 1) - 1) = n.
Proof.
  intros Hn. unfold u32. rewrite (Z.mod_small (n + 1)) by lia.
  split; [lia|]. replace (n + 1 - 1) with n by lia. apply Z.mod_small. lia.
Qed.

Lemma same_core_refl s : same_core s s.
Proof. repeat split; reflexivity. Qed.

Lemma same_core_trans s1 s2 s3 : same_core s1 s2 → same_core s2 s3 → same_core s1 s3.
Proof.
  intros (H1 & H2 & H3 & H4) (H1' & H2' & H3' & H4').
  split; [intros r; rewrite H1'; apply H1|]. repeat split; congruence.
Qed.

Lemma same_core_get_list s s' r : same_core s s' → get_list r s' = get_list r s.
Proof. intros (H1 & _). apply H1. Qed.

Lemma same_core_lists_ok s s' c : same_core s s' → lists_ok s c → lists_ok s' c.
Proof.
  intros Hc. apply lists_ok_ext; [intros r; apply same_core_get_list; exact Hc|apply Hc].
Qed.

Lemma same_core_inv s s' c : same_core s s' → kernel_inv s c → kernel_inv s' c.
Proof.
  intros Hc [Hok [Hlen Htcb Hprio Hmr Hmap]].
  pose proof Hc as (H1 & H2 & H3 & H4).
  split; [eapply same_core_lists_ok; eauto|].
  constructor; rewrite ?H2, ?H3, ?H4; assumption.
Qed.

Lemma same_core_contents s s' r : same_core s s' → contents s' r = contents s r.
Proof.
  intros Hc. unfold contents. rewrite (same_core_get_list _ _ _ Hc).
  destruct Hc as (_ & -> & _). reflexivity.
Qed.

Ltac same_core_tac := split; [intros [] | repeat split]; reflexivity.

(** Writing fields other than the links of a control block. *)
Lemma lists_ok_store s c x t t' :
  lists_ok s c → tcbs s !! x = Some t → Prev t' = Prev t → Next t' = Next t →
  lists_ok (set_tcbs (<[x := t']> (tcbs s)) s) c.
Proof.
  intros (Hrep & Hnd & Hdisj) Hx Hp Hn. split; [|split; assumption].
  intros r. rewrite get_list_set_tcbs. specialize (Hrep r).
  destruct (get_list r s) as [L|]; [|exact Hrep]. cbn [tcbs set_tcbs].
  eapply repr_frame_links; [|reflexivity|reflexivity|exact Hrep].
  intros y _. rewrite next_at_insert, prev_at_insert.
  destruct (decide (x = y)) as [->|]; [|auto].
  rewrite (next_at_Some _ _ _ Hx), (prev_at_Some _ _ _ Hx). split; congruence.
Qed.

Lemma kernel_inv_store s c x t t' :
  kernel_inv s c → tcbs s !! x = Some t → Prev t' = Prev t → Next t' = Next t →
  0 <= Priority t' < 32 → 0 <= DelayTicks t' < 2 ^ 32 →
  (Priority t' = Priority t ∨ ∀ p, x ∉ c (ReadyListAt p)) →
  kernel_inv (set_tcbs (<[x := t']> (tcbs s)) s) c.
Proof.
  intros [Hok [Hlen Htcb Hprio Hmr Hmap]] Hx Hp Hn Hpr Hdt Hor.
  split; [eapply lists_ok_store; eauto|].
  constructor; cbn [tcbs set_tcbs ReadyList g_PrioMap]; try assumption.
  - intros y ty. rewrite lookup_insert. case_decide; [|apply Htcb].
    intros E. inversion E; subst. auto.
  - intros p y ty Hy. rewrite lookup_insert. case_decide; [|apply Hprio; exact Hy].
    subst y. intros E. inversion E; subst ty.
    destruct Hor as [E'|Hnot]; [rewrite E'; eapply Hprio; eauto|].
    exfalso. eapply Hnot; eauto.
Qed.

(** ** Memory pools *)

Lemma pool_ok_elim m :
  pool_ok m = true →
  0 < Addr m ∧ 4 <= BlockSize m ∧ 0 < TotalBlocks m ∧
  Addr m + TotalBlocks m * BlockSize m < 2 ^ 32 ∧ 0 <= FreeBlocks m < 2 ^ 32 - 1.
Proof.
  unfold pool_ok. rewrite !andb_true_iff.
  rewrite !Z.ltb_lt, !Z.leb_le. tauto.
Qed.

Lemma same_core_store_pool s a m m' :
  pools s !! a = Some m → mem_WaitList m' = mem_WaitList m →
  same_core s (set_pools (<[a := m']> (pools s)) s).
Proof.
  intros Hm Hw. split; [|repeat split; reflexivity].
  intros [p|  |b|b|b|b]; try reflexivity.
  unfold get_list. cbn [pools set_pools]. rewrite lookup_insert.
  case_decide; [subst b|reflexivity]. rewrite Hm. cbn. congruence.
Qed.

Lemma data_of_pool s s' a m :
  data_of s' = data_of s → pools s !! a = Some m →
  ∃ m', pools s' !! a = Some m' ∧
        set_mem_WaitList empty_list m' = set_mem_WaitList empty_list m.
Proof.
  intros E Hm. apply (f_equal pools) in E. cbn in E.
  pose proof (f_equal (λ k, k !! a) E) as Ea. cbn in Ea.
  rewrite !lookup_fmap, Hm in Ea.
  destruct (pools s' !! a) as [m'|]; [|discriminate]. cbn in Ea.
  exists m'. split; [reflexivity|]. congruence.
Qed.

Lemma critical_roundtrip s :
  0 <= g_CriticalNesting s < 2 ^ 32 - 1 →
  let s1 := set_g_CriticalNesting (u32 (g_CriticalNesting s + 1)) (set_irq_enabled false s) in
  (let n := u32 (g_CriticalNesting s1 - 1) in
   if n =? 0 then set_irq_enabled true (set_g_CriticalNesting n s1)
   else set_g_CriticalNesting n s1) = set_irq_enabled (irq_after s) s.
Proof.
  intros Hn. destruct (enter_exit_nesting _ Hn) as [Hn1 Hn2].
  cbv zeta. cbn [g_CriticalNesting set_g_CriticalNesting set_irq_enabled].
  rewrite Hn2. unfold irq_after.
  destruct s; cbn. destruct (g_CriticalNesting0 =? 0); reflexivity.
Qed.

(** ** Data updates commute with erasing the links *)

Lemma data_of_upd_tcb x f s :
  (∀ t, strip_tcb (f t) = f (strip_tcb t)) →
  data_of (upd_tcb x f s) = upd_tcb x f (data_of s).
Proof.
  intros Hf. unfold upd_tcb. cbn [tcbs data_of]. rewrite lookup_fmap.
  destruct (tcbs s !! x) as [t|]; cbn [fmap option_fmap option_map]; [|reflexivity].
  unfold data_of. cbn. f_equal. rewrite fmap_insert, Hf. reflexivity.
Qed.

Lemma upd_tcb_Some x f s t :
  tcbs s !! x = Some t → upd_tcb x f s = set_tcbs (<[x := f t]> (tcbs s)) s.
Proof. unfold upd_tcb. intros ->. reflexivity. Qed.

Lemma data_of_eq_upd_tcb x f s s' :
  (∀ t, strip_tcb (f t) = f (strip_tcb t)) →
  data_of s' = data_of s → data_of (upd_tcb x f s') = data_of (upd_tcb x f s).
Proof. intros Hf E. rewrite !data_of_upd_tcb by exact Hf. rewrite E. reflexivity. Qed.

Lemma data_inv_insert_other s c r l :
  (∀ p, r ≠ ReadyListAt p) → data_inv s c → data_inv s (<[r := l]> c).
Proof.
  intros Hr [Hlen Htcb Hprio Hmr Hmap]. constructor; try assumption.
  - intros p x t. rewrite fn_lookup_insert_ne by apply Hr. apply Hprio.
  - intros p Hp. rewrite fn_lookup_insert_ne by apply Hr. apply Hmap. exact Hp.
Qed.

Lemma kernel_inv_nonzero s c p x :
  kernel_inv s c → 0 <= p < 32 → x ∈ c (ReadyListAt p) → g_PrioMap s ≠ 0.
Proof.
  intros [_ [_ _ _ _ Hmap]] Hp Hx. eapply (bitmap_nonzero _ p); [lia|].
  apply Hmap; [exact Hp|]. intros E. rewrite E in Hx. eapply not_elem_of_nil; eauto.
Qed.

Lemma wp_load_queue a q (Q : OS_Queue → Kernel → Prop) s :
  queues s !! a = Some q → Q q s → wp (load_queue a) Q s.
Proof. intros E H. unfold wp, load_queue. rewrite E. exact H. Qed.

Lemma wp_store_queue a q f (Q : unit → Kernel → Prop) s :
  queues s !! a = Some q → Q tt (set_queues (<[a := f q]> (queues s)) s) →
  wp (store_queue a f) Q s.
Proof. intros E H. unfold wp, store_queue. rewrite E. exact H. Qed.

Lemma wp_load_pool a m (Q : OS_Mem → Kernel → Prop) s :
  pools s !! a = Some m → Q m s → wp (load_pool a) Q s.
Proof. intros E H. unfold wp, load_pool. rewrite E. exact H. Qed.

Lemma wp_store_pool a m f (Q : unit → Kernel → Prop) s :
  pools s !! a = Some m → Q tt (set_pools (<[a := f m]> (pools s)) s) →
  wp (store_pool a f) Q s.
Proof. intros E H. unfold wp, store_pool. rewrite E. exact H. Qed.

Lemma wp_load_mutex a m (Q : OS_Mutex → Kernel → Prop) s :
  mutexes s !! a = Some m → Q m s → wp (load_mutex a) Q s.
Proof. intros E H. unfold wp, load_mutex. rewrite E. exact H. Qed.

Lemma wp_store_mutex a m f (Q : unit → Kernel → Prop) s :
  mutexes s !! a = Some m → Q tt (set_mutexes (<[a := f m]> (mutexes s)) s) →
  wp (store_mutex a f) Q s.
Proof. intros E H. unfold wp, store_mutex. rewrite E. exact H. Qed.

(** ** Waking the head of a wait list *)

Lemma wp_wake_head s c r w rest tw (Q : unit → Kernel → Prop) :
  kernel_inv s c → c r = w :: rest → (∀ p, r ≠ ReadyListAt p) →
  tcbs s !! w = Some tw →
  (∀ s', let pw := Priority tw in
         let c' := <[ReadyListAt pw := c (ReadyListAt pw) ++ [w]]> (<[r := rest]> c) in
         let m' := Z.lor (g_PrioMap s) (u32 (Z.shiftl 1 pw)) in
         kernel_inv s' c' →
         data_of s' = data_of (set_swi_pending true (set_NextTCB (NextTCB s')
                        (set_g_PrioMap m' (upd_tcb w (set_State TASK_READY) s)))) →
         NextTCB s' = head (c' (ReadyListAt (OS_GetTopPrio m'))) →
         (∀ y, y ∉ c r → y ∉ c (ReadyListAt pw) → tcbs s' !! y = tcbs s !! y) →
         Q tt s') →
  wp (wake_head r) Q s.
Proof.
  intros Hinv Hcr Hr Hw HQ. pose proof Hinv as [Hok Hd].
  pose proof Hok as (Hrep & Hnd & Hdisj).
  destruct (inv_tcb _ _ Hd w tw Hw) as [Hpw Hdw].
  unfold wake_head.
  apply wp_bind. eapply wp_List_PopHead; [exact Hok|exact Hcr|].
  intros s1 Hok1 Hdata1 Hframe1.
  assert (Hinv1 : kernel_inv s1 (<[r := rest]> c)).
  { split; [exact Hok1|]. eapply data_inv_ext; [exact Hdata1|].
    apply data_inv_insert_other; assumption. }
  destruct (data_of_tcb_Some _ _ _ _ (eq_sym Hdata1) Hw) as (tw1 & Hw1 & Hs1).
  apply wp_bind. eapply wp_store_tcb; [exact Hw1|].
  rewrite <- (upd_tcb_Some w (set_State TASK_READY) s1 tw1 Hw1).
  assert (Hinv2 : kernel_inv (upd_tcb w (set_State TASK_READY) s1) (<[r := rest]> c)).
  { rewrite (upd_tcb_Some _ _ _ _ Hw1).
    eapply kernel_inv_store; [exact Hinv1|exact Hw1|reflexivity|reflexivity| | |left; reflexivity].
    - cbn. rewrite (strip_Priority _ _ Hs1). exact Hpw.
    - cbn. rewrite (strip_DelayTicks _ _ Hs1). exact Hdw. }
  assert (Hw2 : tcbs (upd_tcb w (set_State TASK_READY) s1) !! w
                = Some (set_State TASK_READY tw1)).
  { rewrite (upd_tcb_Some _ _ _ _ Hw1). cbn. apply lookup_insert_eq. }
  assert (Hwnot : ∀ r', w ∉ <[r := rest]> c r').
  { intros r'. destruct (decide (r' = r)) as [->|Hne].
    - rewrite fn_lookup_insert. pose proof (Hnd r) as Hn. rewrite Hcr in Hn.
      apply NoDup_cons in Hn as [Hn _]. exact Hn.
    - rewrite fn_lookup_insert_ne by congruence. intros Hin. apply Hne.
      eapply Hdisj; [exact Hin|]. rewrite Hcr. apply list_elem_of_here. }
  apply wp_bind. eapply wp_OS_ReadyListAdd; [exact Hinv2|exact Hw2|exact Hwnot|].
  cbn [Priority set_State]. rewrite (strip_Priority _ _ Hs1).
  assert (Ec : <[r := rest]> c (ReadyListAt (Priority tw)) = c (ReadyListAt (Priority tw)))
    by (apply fn_lookup_insert_ne, Hr).
  rewrite Ec.
  intros s3 Hinv3 Hdata3 Hframe3.
  assert (Hnz : g_PrioMap s3 ≠ 0).
  { eapply (kernel_inv_nonzero _ _ (Priority tw) w); [exact Hinv3|exact Hpw|].
    rewrite fn_lookup_insert. apply elem_of_app. right. apply list_elem_of_here. }
  assert (Hm1 : g_PrioMap (upd_tcb w (set_State TASK_READY) s1) = g_PrioMap s).
  { rewrite (upd_tcb_Some _ _ _ _ Hw1). cbn.
    pose proof (f_equal g_PrioMap Hdata1) as E. exact E. }
  rewrite Hm1 in Hdata3.
  assert (Hm3 : g_PrioMap s3 = Z.lor (g_PrioMap s) (u32 (Z.shiftl 1 (Priority tw)))).
  { pose proof (f_equal g_PrioMap Hdata3) as E. exact E. }
  apply wp_bind. eapply wp_FindNextTask; [exact Hinv3|exact Hnz|].
  intros x Hx.
  apply wp_bind, wp_modify. apply wp_modify.
  apply HQ.
  - eapply same_core_inv; [|exact Hinv3]. same_core_tac.
  - cbn [NextTCB set_swi_pending set_NextTCB].
    change (set_swi_pending true (set_NextTCB (Some x) (data_of s3))
            = set_swi_pending true (set_NextTCB (Some x)
                (data_of (set_g_PrioMap (Z.lor (g_PrioMap s) (u32 (Z.shiftl 1 (Priority tw))))
                   (upd_tcb w (set_State TASK_READY) s))))).
    rewrite Hdata3, !data_of_set_g_PrioMap.
    rewrite (data_of_eq_upd_tcb w (set_State TASK_READY) s s1); [reflexivity| |exact Hdata1].
    intros t. reflexivity.
  - cbn [NextTCB set_swi_pending set_NextTCB]. rewrite <- Hm3. symmetry. exact Hx.
  - intros y Hy1 Hy2. cbn [tcbs set_swi_pending set_NextTCB].
    assert (Hyw : y ≠ w) by (intros ->; apply Hy1; rewrite Hcr; apply list_elem_of_here).
    rewrite Hframe3; [|exact Hy2|exact Hyw].
    rewrite (upd_tcb_Some _ _ _ _ Hw1). cbn. rewrite lookup_insert_ne by congruence.
    apply Hframe1. exact Hy1.
Qed.

(** ** Message queues *)

Lemma queue_ok_elim q :
  queue_ok q = true →
  0 < MsgSize q < 2 ^ 16 ∧ 0 < QSize q < 2 ^ 16 ∧ 0 <= MsgCount q <= QSize q ∧
  0 <= q_Head q < QSize q ∧ 0 <= q_Tail q < QSize q ∧
  Z.of_nat (length (Buffer q)) = QSize q * MsgSize q.
Proof.
  unfold queue_ok. rewrite !andb_true_iff.
  rewrite !Z.ltb_lt, !Z.leb_le, Z.eqb_eq. tauto.
Qed.

Lemma memcpy_to_slot q i msg :
  queue_ok q = true → 0 <= i < QSize q → MsgSize q <= Z.of_nat (length msg) →
  memcpy_to (Buffer q) (i * MsgSize q) msg (MsgSize q) = Some (slot_write q i msg).
Proof.
  intros Hq Hi Hmsg. apply queue_ok_elim in Hq as (Hm & Hs & _ & _ & _ & Hb).
  unfold memcpy_to, slot_write.
  replace ((0 <=? i * MsgSize q) && (0 <=? MsgSize q)
           && (i * MsgSize q + MsgSize q <=? Z.of_nat (length (Buffer q)))
           && (MsgSize q <=? Z.of_nat (length msg))) with true; [reflexivity|].
  symmetry. rewrite !andb_true_iff, !Z.leb_le. rewrite Hb. nia.
Qed.

Lemma memcpy_from_slot q i :
  queue_ok q = true → 0 <= i < QSize q →
  memcpy_from (Buffer q) (i * MsgSize q) (MsgSize q) = Some (slot_read q i).
Proof.
  intros Hq Hi. apply queue_ok_elim in Hq as (Hm & Hs & _ & _ & _ & Hb).
  unfold memcpy_from, slot_read.
  replace ((0 <=? i * MsgSize q) && (0 <=? MsgSize q)
           && (i * MsgSize q + MsgSize q <=? Z.of_nat (length (Buffer q)))) with true;
    [reflexivity|].
  symmetry. rewrite !andb_true_iff, !Z.leb_le. rewrite Hb. nia.
Qed.

Lemma same_core_store_queue s a q q' :
  queues s !! a = Some q → WaitReadList q' = WaitReadList q →
  same_core s (set_queues (<[a := q']> (queues s)) s).
Proof.
  intros Hq Hw. split; [|repeat split; reflexivity].
  intros [p|  |b|b|b|b]; try reflexivity.
  unfold get_list. cbn [queues set_queues]. rewrite lookup_insert.
  case_decide; [subst b|reflexivity]. rewrite Hq. cbn. congruence.
Qed.

Lemma queues_upd_tcb x f s : queues (upd_tcb x f s) = queues s.
Proof. unfold upd_tcb. destruct (tcbs s !! x); reflexivity. Qed.

Lemma data_of_queue s s' a q :
  data_of s' = data_of s → queues s !! a = Some q →
  ∃ q', queues s' !! a = Some q' ∧
        set_WaitReadList empty_list q' = set_WaitReadList empty_list q.
Proof.
  intros E Hq. apply (f_equal queues) in E. cbn in E.
  pose proof (f_equal (λ m, m !! a) E) as Ea. cbn in Ea.
  rewrite !lookup_fmap, Hq in Ea.
  destruct (queues s' !! a) as [q'|]; [|discriminate]. cbn in Ea.
  exists q'. split; [reflexivity|]. congruence.
Qed.

Lemma data_of_tcb_fields s s' x t :
  data_of s' = data_of s → tcbs s !! x = Some t →
  ∃ t', tcbs s' !! x = Some t' ∧ State t' = State t ∧ Priority t' = Priority t ∧
        DelayTicks t' = DelayTicks t ∧ OriginalPrio t' = OriginalPrio t.
Proof.
  intros E Hx. destruct (data_of_tcb_Some s' s x t (eq_sym E) Hx) as (t' & Hx' & Hs).
  exists t'. split; [exact Hx'|].
  rewrite (strip_State _ _ Hs), (strip_Priority _ _ Hs), (strip_DelayTicks _ _ Hs),
    (strip_OriginalPrio _ _ Hs). auto.
Qed.

Lemma current_ready_intro s c x t :
  lists_ok s c → CurrentTCB s = Some x → tcbs s !! x = Some t →
  x ∈ c (ReadyListAt (Priority t)) → current_ready s = true.
Proof.
  intros Hok Hc Hx Hin. unfold current_ready. rewrite Hc, Hx.
  apply bool_decide_eq_true_2. rewrite (lists_ok_contents _ _ _ Hok). exact Hin.
Qed.

(** ** Outcomes *)

Lemma post_bind {A B} (m : M A) (k : A → M B) (Q : outcome B → Kernel → Prop) s :
  wp m (λ a s', post (k a) Q s') s → post (bind m k) Q s.
Proof.
  unfold wp, post, result, exec, bind. destruct (m s) as [[a|f] s']; [auto|tauto].
Qed.

Lemma post_ret {A} (a : A) (Q : outcome A → Kernel → Prop) s : Q (Ret a) s → post (ret a) Q s.
Proof. intros H. exact H. Qed.

Lemma post_mono {A} (m : M A) (Q Q' : outcome A → Kernel → Prop) s :
  post m Q s → (∀ o s', Q o s' → Q' o s') → post m Q' s.
Proof. unfold post. auto. Qed.

Lemma lists_ok_pointwise s c c' : (∀ r, c r = c' r) → lists_ok s c → lists_ok s c'.
Proof.
  intros E (Hrep & Hnd & Hdisj). split; [|split].
  - intros r. rewrite <- E. apply Hrep.
  - intros r. rewrite <- E. apply Hnd.
  - intros r r' x. rewrite <- !E. apply Hdisj.
Qed.

Lemma kernel_inv_pointwise s c c' : (∀ r, c r = c' r) → kernel_inv s c → kernel_inv s c'.
Proof.
  intros E [Hok [H1 H2 H3 H4 H5]]. split; [eapply lists_ok_pointwise; eauto|].
  split; try assumption.
  - intros p x t. rewrite <- E. apply H3.
  - intros p Hp. rewrite <- E. apply H5, Hp.
Qed.

(** One task leaves the head of a wait list for its ready list:
    [List_PopHead], [State = TASK_READY], [OS_ReadyListAdd]. *)
Lemma post_wake_steps {A} (K : M A) (Q : outcome A → Kernel → Prop) s c r w rest tw :
  kernel_inv s c → c r = w :: rest → (∀ p, r ≠ ReadyListAt p) →
  tcbs s !! w = Some tw →
  (∀ s', let pw := Priority tw in
         kernel_inv s' (<[ReadyListAt pw := c (ReadyListAt pw) ++ [w]]> (<[r := rest]> c)) →
         data_of s' = data_of (set_g_PrioMap (Z.lor (g_PrioMap s) (u32 (Z.shiftl 1 pw)))
                                 (upd_tcb w (set_State TASK_READY) s)) →
         post K Q s') →
  post (tcb ← List_PopHead r;
        store_tcb tcb (set_State TASK_READY) ;; OS_ReadyListAdd tcb ;; K) Q s.
Proof.
  intros Hinv Hcr Hr Hw HQ. pose proof Hinv as [Hok Hd].
  pose proof Hok as (Hrep & Hnd & Hdisj).
  destruct (inv_tcb _ _ Hd w tw Hw) as [Hpw Hdw].
  apply post_bind. eapply wp_List_PopHead; [exact Hok|exact Hcr|].
  intros s1 Hok1 Hdata1 Hframe1.
  assert (Hinv1 : kernel_inv s1 (<[r := rest]> c)).
  { split; [exact Hok1|]. eapply data_inv_ext; [exact Hdata1|].
    apply data_inv_insert_other; assumption. }
  destruct (data_of_tcb_Some _ _ _ _ (eq_sym Hdata1) Hw) as (tw1 & Hw1 & Hs1).
  apply post_bind. eapply wp_store_tcb; [exact Hw1|].
  rewrite <- (upd_tcb_Some w (set_State TASK_READY) s1 tw1 Hw1).
  assert (Hinv2 : kernel_inv (upd_tcb w (set_State TASK_READY) s1) (<[r := rest]> c)).
  { rewrite (upd_tcb_Some _ _ _ _ Hw1).
    eapply kernel_inv_store; [exact Hinv1|exact Hw1|reflexivity|reflexivity| | |left; reflexivity].
    - cbn. rewrite (strip_Priority _ _ Hs1). exact Hpw.
    - cbn. rewrite (strip_DelayTicks _ _ Hs1). exact Hdw. }
  assert (Hw2 : tcbs (upd_tcb w (set_State TASK_READY) s1) !! w
                = Some (set_State TASK_READY tw1)).
  { rewrite (upd_tcb_Some _ _ _ _ Hw1). cbn. apply lookup_insert_eq. }
  assert (Hwnot : ∀ r', w ∉ <[r := rest]> c r').
  { intros r'. destruct (decide (r' = r)) as [->|Hne].
    - rewrite fn_lookup_insert. pose proof (Hnd r) as Hn. rewrite Hcr in Hn.
      apply NoDup_cons in Hn as [Hn _]. exact Hn.
    - rewrite fn_lookup_insert_ne by congruence. intros Hin. apply Hne.
      eapply Hdisj; [exact Hin|]. rewrite Hcr. apply list_elem_of_here. }
  apply post_bind. eapply wp_OS_ReadyListAdd; [exact Hinv2|exact Hw2|exact Hwnot|].
  cbn [Priority set_State]. rewrite (strip_Priority _ _ Hs1).
  assert (Ec : <[r := rest]> c (ReadyListAt (Priority tw)) = c (ReadyListAt (Priority tw)))
    by (apply fn_lookup_insert_ne, Hr).
  rewrite Ec.
  intros s3 Hinv3 Hdata3 Hframe3.
  assert (Hm1 : g_PrioMap (upd_tcb w (set_State TASK_READY) s1) = g_PrioMap s).
  { rewrite (upd_tcb_Some _ _ _ _ Hw1). cbn.
    pose proof (f_equal g_PrioMap Hdata1) as E. exact E. }
  rewrite Hm1 in Hdata3.
  apply HQ; [exact Hinv3|].
  rewrite Hdata3, !data_of_set_g_PrioMap.
  rewrite (data_of_eq_upd_tcb w (set_State TASK_READY) s s1); [reflexivity| |exact Hdata1].
  intros t. reflexivity.
Qed.

(** ** The delay list on a tick *)

Lemma lookup_upd_tcb x f s y :
  tcbs (upd_tcb x f s) !! y = if decide (y = x) then f <$> tcbs s !! x else tcbs s !! y.
Proof.
  unfold upd_tcb. destruct (tcbs s !! x) as [t|] eqn:E.
  - cbn [tcbs set_tcbs]. destruct (decide (y = x)) as [->|Hne].
    + rewrite lookup_insert_eq. reflexivity.
    + rewrite lookup_insert_ne by congruence. reflexivity.
  - destruct (decide (y = x)) as [->|Hne]; [exact E|reflexivity].
Qed.

Lemma fields_wake s s1 w m :
  data_of s1 = data_of (set_g_PrioMap m (upd_tcb w (set_State TASK_READY) s)) →
  woke s s1 [w].
Proof.
  intros Hdata x. unfold fields.
  rewrite (data_of_tcb _ _ x Hdata). cbn [tcbs set_g_PrioMap].
  rewrite lookup_upd_tcb.
  destruct (decide (x = w)) as [->|Hne].
  - rewrite bool_decide_eq_true_2 by apply list_elem_of_here.
    destruct (tcbs s !! w); reflexivity.
  - rewrite bool_decide_eq_false_2; [reflexivity|].
    intros Hin. apply list_elem_of_singleton in Hin. contradiction.
Qed.

Lemma woke_nil s : woke s s [].
Proof. intros x. rewrite bool_decide_eq_false_2; [reflexivity|apply not_elem_of_nil]. Qed.

Lemma woke_cons s s1 s' w l : woke s s1 [w] → woke s1 s' l → woke s s' (w :: l).
Proof.
  intros H1 H2 x. rewrite (H2 x), (H1 x).
  destruct (decide (x = w)) as [->|Hne].
  - rewrite (bool_decide_eq_true_2 (w ∈ [w])) by apply list_elem_of_here.
    rewrite (bool_decide_eq_true_2 (w ∈ w :: l)) by apply list_elem_of_here.
    destruct (bool_decide (w ∈ l)); destruct (fields s w); reflexivity.
  - rewrite (bool_decide_eq_false_2 (x ∈ [w]))
      by (intros Hin; apply list_elem_of_singleton in Hin; contradiction).
    destruct (decide (x ∈ l)) as [Hin|Hnin].
    + rewrite !bool_decide_eq_true_2; [reflexivity|apply list_elem_of_further, Hin|exact Hin].
    + rewrite !bool_decide_eq_false_2; [reflexivity| |exact Hnin].
      intros Hin. apply elem_of_cons in Hin as [?|?]; contradiction.
Qed.

Lemma woke_expired s s' l x : woke s s' l → expired s' x = expired s x.
Proof.
  intros H. specialize (H x). unfold fields in H. unfold expired.
  destruct (bool_decide (x ∈ l)), (tcbs s' !! x) as [t'|], (tcbs s !! x) as [t|];
    try discriminate; try reflexivity;
    apply (f_equal (fmap (M:=option) DelayTicks)) in H; cbn in H; injection H as H;
    rewrite H; reflexivity.
Qed.

Lemma woke_has_prio s s' l p x : woke s s' l → has_prio s' p x = has_prio s p x.
Proof.
  intros H. specialize (H x). unfold fields in H. unfold has_prio.
  destruct (bool_decide (x ∈ l)), (tcbs s' !! x) as [t'|], (tcbs s !! x) as [t|];
    try discriminate; try reflexivity;
    apply (f_equal (fmap (M:=option) Priority)) in H; cbn in H; injection H as H;
    rewrite H; reflexivity.
Qed.

Lemma take_while_ext {A} (f g : A → bool) l : (∀ x, f x = g x) → take_while f l = take_while g l.
Proof. intros E. induction l as [|x l IH]; [reflexivity|]. cbn. rewrite E, IH. reflexivity. Qed.

Lemma drop_while_ext {A} (f g : A → bool) l : (∀ x, f x = g x) → drop_while f l = drop_while g l.
Proof. intros E. induction l as [|x l IH]; [reflexivity|]. cbn. rewrite E, IH. reflexivity. Qed.

Lemma take_drop_while {A} (f : A → bool) l : take_while f l ++ drop_while f l = l.
Proof. induction l as [|x l IH]; [reflexivity|]. cbn. destruct (f x); [cbn; rewrite IH|]; reflexivity. Qed.

Lemma after_wake_nil s c r l : c r = l → ∀ r', after_wake s c r [] l r' = c r'.
Proof.
  intros <- r'. unfold after_wake.
  destruct r' as [p| |a|a|a|a]; try (case_decide; congruence).
  rewrite filter_nil. apply app_nil_r.
Qed.

Lemma after_wake_cons s s1 c r l' w tw woken rest :
  (∀ p, r ≠ ReadyListAt p) → tcbs s !! w = Some tw → woke s s1 [w] →
  ∀ r', after_wake s1 (<[ReadyListAt (Priority tw) := c (ReadyListAt (Priority tw)) ++ [w]]>
                         (<[r := l']> c)) r woken rest r'
        = after_wake s c r (w :: woken) rest r'.
Proof.
  intros Hr Hw Hwoke r'. unfold after_wake.
  destruct (decide (r' = r)) as [->|Hne].
  { destruct r as [p| |a|a|a|a]; try reflexivity. destruct (Hr p). reflexivity. }
  assert (Hins : <[r := l']> c r' = c r') by (apply fn_lookup_insert_ne; congruence).
  destruct r' as [p| |a|a|a|a];
    try (rewrite fn_lookup_insert_ne by discriminate; rewrite Hins; reflexivity).
  rewrite filter_cons.
  rewrite (list_filter_iff _ (λ x, has_prio s p x = true) woken)
    by (intros x; rewrite (woke_has_prio s s1 [w] p x Hwoke); reflexivity).
  assert (Ew : has_prio s p w = (Priority tw =? p)) by (unfold has_prio; rewrite Hw; reflexivity).
  destruct (decide (p = Priority tw)) as [->|Hne'].
  - rewrite fn_lookup_insert. rewrite Z.eqb_refl in Ew.
    rewrite decide_True by exact Ew. rewrite <- app_assoc. reflexivity.
  - rewrite fn_lookup_insert_ne by congruence. rewrite Hins.
    replace (Priority tw =? p) with false in Ew by (symmetry; apply Z.eqb_neq; congruence).
    rewrite decide_False by (rewrite Ew; discriminate). reflexivity.
Qed.

Lemma get_DelayList s : get_list DelayListRef s = Some (DelayList s).
Proof. reflexivity. Qed.

(** The wake loop: it moves the expired tasks at the front of the delay
    list to their ready lists, and ends by reading the head of what is
    left; when nothing is left, that is a null pointer. *)
Lemma post_Tick_WakeLoop fuel : ∀ s c,
  kernel_inv s c → (length (c DelayListRef) ≤ fuel)%nat →
  post (Tick_WakeLoop fuel) (λ o s',
    let woken := take_while (expired s) (c DelayListRef) in
    let rest := drop_while (expired s) (c DelayListRef) in
    o = (if decide (rest = []) then Fault NullPointer else Ret tt) ∧
    kernel_inv s' (after_wake s c DelayListRef woken rest) ∧
    woke s s' woken) s.
Proof.
  induction fuel as [|fuel IH]; intros s c Hinv Hlen.
  - destruct (c DelayListRef) as [|h t] eqn:Hc; [|cbn in Hlen; lia].
    pose proof (inv_lists _ _ Hinv) as (Hrep & _). specialize (Hrep DelayListRef).
    rewrite get_DelayList, Hc in Hrep. apply repr_head in Hrep. cbn in Hrep.
    unfold post, result, exec, Tick_WakeLoop, bind, gets, load_tcb. rewrite Hrep. cbn.
    split; [reflexivity|]. split; [|apply woke_nil].
    eapply kernel_inv_pointwise; [|exact Hinv].
    intros r. symmetry. apply after_wake_nil. exact Hc.
  - pose proof (inv_lists _ _ Hinv) as Hok. pose proof Hok as (Hrep & _).
    specialize (Hrep DelayListRef). rewrite get_DelayList in Hrep.
    pose proof (repr_head _ _ _ Hrep) as HH.
    destruct (c DelayListRef) as [|h t] eqn:Hc.
    + cbn in HH.
      unfold post, result, exec, Tick_WakeLoop, bind, gets, load_tcb. rewrite HH. cbn.
      split; [reflexivity|]. split; [|apply woke_nil].
      eapply kernel_inv_pointwise; [|exact Hinv].
      intros r. symmetry. apply after_wake_nil. exact Hc.
    + cbn in HH.
      destruct (lists_ok_in_heap s c h DelayListRef Hok) as [th Hth];
        [rewrite Hc; apply list_elem_of_here|].
      cbn [Tick_WakeLoop].
      apply post_bind, wp_gets. rewrite HH.
      apply post_bind. eapply wp_load_tcb; [exact Hth|].
      apply post_bind, wp_gets. rewrite HH. cbn [is_null negb].
      assert (Eh : expired s h = (DelayTicks th =? 0))
        by (unfold expired; rewrite Hth; reflexivity).
      cbn [take_while drop_while]. rewrite Eh.
      destruct (DelayTicks th =? 0) eqn:Hz; cbn [andb].
      * eapply post_wake_steps; [exact Hinv|exact Hc|discriminate|exact Hth|].
        intros s1 pw Hinv1 Hdata1.
        pose proof (fields_wake _ _ _ _ Hdata1) as Hwoke1.
        eapply post_mono.
        { apply IH; [exact Hinv1|].
          rewrite fn_lookup_insert_ne by discriminate. rewrite fn_lookup_insert.
          cbn in Hlen. lia. }
        cbv beta zeta. rewrite fn_lookup_insert_ne by discriminate. rewrite fn_lookup_insert.
        rewrite (take_while_ext (expired s1) (expired s))
          by (intros x; apply (woke_expired s s1 [h]); exact Hwoke1).
        rewrite (drop_while_ext (expired s1) (expired s))
          by (intros x; apply (woke_expired s s1 [h]); exact Hwoke1).
        intros o s' (Ho & Hinv' & Hwoke'). split; [exact Ho|]. split.
        -- eapply kernel_inv_pointwise; [|exact Hinv'].
           intros r. apply (after_wake_cons s s1 c DelayListRef t h th);
             [discriminate|exact Hth|exact Hwoke1].
        -- eapply woke_cons; eassumption.
      * apply post_ret. split; [reflexivity|]. split; [|apply woke_nil].
        eapply kernel_inv_pointwise; [|exact Hinv].
        intros r. symmetry. apply after_wake_nil. exact Hc.
Qed.

Lemma woke_delay_of s s' l x : woke s s' l → delay_of s' x = delay_of s x.
Proof.
  intros H. specialize (H x). unfold fields in H. unfold delay_of.
  apply (f_equal (fmap (M:=option) DelayTicks)) in H.
  destruct (bool_decide (x ∈ l)), (tcbs s' !! x) as [t'|], (tcbs s !! x) as [t|];
    try discriminate; try reflexivity; exact H.
Qed.

Lemma woke_prio_of s s' l x : woke s s' l → prio_of s' x = prio_of s x.
Proof.
  intros H. specialize (H x). unfold fields in H. unfold prio_of.
  apply (f_equal (fmap (M:=option) Priority)) in H.
  destruct (bool_decide (x ∈ l)), (tcbs s' !! x) as [t'|], (tcbs s !! x) as [t|];
    try discriminate; try reflexivity; exact H.
Qed.

Lemma woke_state_of s s' l x :
  woke s s' l →
  state_of s' x = if bool_decide (x ∈ l) then (λ _, TASK_READY) <$> state_of s x
                  else state_of s x.
Proof.
  intros H. specialize (H x). unfold fields in H. unfold state_of.
  apply (f_equal (fmap (M:=option) State)) in H.
  destruct (bool_decide (x ∈ l)), (tcbs s' !! x) as [t'|], (tcbs s !! x) as [t|];
    try discriminate; try reflexivity; exact H.
Qed.

Lemma take_while_subseteq {A} (f : A → bool) l x : x ∈ take_while f l → x ∈ l.
Proof.
  intros H. rewrite <- (take_drop_while f l). apply elem_of_app. left. exact H.
Qed.

(** ** Insertion of a node anywhere in a list *)

(** The state [s'] differs from [s] in that [x], which was on no list, is
    linked between [l1] and [l2] on the list [r]. *)
Lemma lists_ok_insert s s' c r L L' l1 l2 x :
  lists_ok s c → c r = l1 ++ l2 → (∀ r', x ∉ c r') →
  get_list r s = Some L → get_list r s' = Some L' →
  (∀ r', r' ≠ r → get_list r' s' = get_list r' s) →
  next_at (tcbs s') x = Some (head l2) → prev_at (tcbs s') x = Some (last l1) →
  (∀ z, last l1 = Some z → next_at (tcbs s') z = Some (Some x)) →
  (∀ z, head l2 = Some z → prev_at (tcbs s') z = Some (Some x)) →
  (∀ y, y ≠ x → last l1 ≠ Some y → next_at (tcbs s') y = next_at (tcbs s) y) →
  (∀ y, y ≠ x → head l2 ≠ Some y → prev_at (tcbs s') y = prev_at (tcbs s) y) →
  Head L' = (if l1 is [] then Some x else Head L) →
  Tail L' = (if l2 is [] then Some x else Tail L) →
  lists_ok s' (<[r := l1 ++ x :: l2]> c).
Proof.
  intros Hok Hcr Hfresh HL HL' Hget Hnx Hpx Hnz Hpz Hnf Hpf HH HT.
  pose proof Hok as (Hrep & Hnd & Hdisj).
  pose proof (Hrep r) as Hr. rewrite HL, Hcr in Hr.
  pose proof (Hnd r) as Hndr. rewrite Hcr in Hndr.
  assert (Hxl : x ∉ l1 ++ l2) by (rewrite <- Hcr; apply Hfresh).
  eapply lists_ok_update; [exact Hok|exact Hget| | | |].
  - intros r' y Hne Hy.
    assert (y ≠ x) by (intros ->; eapply Hfresh; eauto).
    assert (Hyr : y ∉ l1 ++ l2).
    { rewrite <- Hcr. intros Hin. apply Hne. eapply Hdisj; eauto. }
    split; [apply Hnf|apply Hpf]; try assumption.
    + intros E. apply Hyr, elem_of_app. left.
      apply last_Some in E as [l0 ->]. apply elem_of_app. right. apply list_elem_of_here.
    + intros E. apply Hyr, elem_of_app. right.
      destruct l2; [discriminate|]. injection E as ->. apply list_elem_of_here.
  - rewrite HL'. eapply (repr_insert _ _ L L' l1 l2 x); try eassumption.
    + intros y Hy Hne. apply Hnf; [|exact Hne]. intros ->. contradiction.
    + intros y Hy Hne. apply Hpf; [|exact Hne]. intros ->. contradiction.
  - apply NoDup_app in Hndr as (N1 & N2 & N3).
    apply NoDup_app. split; [exact N1|]. split.
    + intros y Hy Hy'. apply elem_of_cons in Hy' as [->|Hy'].
      * apply Hxl, elem_of_app. left. exact Hy.
      * eapply N2; eauto.
    + apply NoDup_cons. split; [|exact N3].
      intros Hin. apply Hxl, elem_of_app. right. exact Hin.
  - intros y r' Hy Hy'.
    assert (Hyx : y ≠ x) by (intros ->; eapply Hfresh; eauto).
    eapply (Hdisj r' r); [exact Hy'|]. rewrite Hcr.
    apply elem_of_app in Hy as [Hy|Hy]; apply elem_of_app; [left; exact Hy|right].
    apply elem_of_cons in Hy as [->|Hy]; [contradiction|exact Hy].
Qed.

(** ** The wait list of a mutex *)

Lemma last_cons_default {X} (i n : X) (l : list X) :
  default i (last (n :: l)) = default n (last l).
Proof.
  destruct l as [|y l]; [reflexivity|]. cbn [last].
  destruct (last (y :: l)) eqn:E; [reflexivity|]. apply last_None in E. discriminate.
Qed.

(** The walk of [OS_MutexPend] along the wait list, from the node [i]: it
    stops at the last node of the run of nodes after [i] whose priority
    value is at most that of the caller, and changes nothing. *)
Lemma MutexPend_Walk_spec s c r cur tc : ∀ l2 l1 i fuel,
  lists_ok s c → c r = l1 ++ i :: l2 →
  CurrentTCB s = Some cur → tcbs s !! cur = Some tc →
  (length l2 ≤ fuel)%nat →
  MutexPend_Walk fuel (Some i) s
  = (Ret (Some (default i (last (take_while (prio_le s (Priority tc)) l2)))), s).
Proof.
  induction l2 as [|n l2 IH]; intros l1 i fuel Hok Hcr Hcur Htc Hlen.
  - pose proof Hok as (Hrep & _). specialize (Hrep r).
    destruct (get_list r s) as [L|]; [|rewrite Hcr in Hrep; destruct l1; discriminate].
    rewrite Hcr in Hrep. destruct (repr_links _ _ _ _ _ Hrep) as (ti & Hi & Hn & _).
    destruct fuel; cbn [MutexPend_Walk]; unfold bind, load_tcb; rewrite Hi, Hn; reflexivity.
  - pose proof Hok as (Hrep & _). specialize (Hrep r).
    destruct (get_list r s) as [L|]; [|rewrite Hcr in Hrep; destruct l1; discriminate].
    rewrite Hcr in Hrep. destruct (repr_links _ _ _ _ _ Hrep) as (ti & Hi & Hn & _).
    destruct (repr_in_heap _ _ _ n Hrep) as [tn Htn].
    { apply elem_of_app. right. apply list_elem_of_further, list_elem_of_here. }
    cbn [take_while]. unfold prio_le at 1. rewrite Htn.
    destruct fuel as [|fuel]; [cbn in Hlen; lia|].
    cbn [MutexPend_Walk]. unfold bind at 1, load_tcb at 1. rewrite Hi, Hn. cbn [head is_null].
    unfold bind at 1, load_tcb at 1. rewrite Htn.
    unfold bind at 1, gets. rewrite Hcur.
    unfold bind at 1, load_tcb at 1. rewrite Htc.
    destruct (Priority tn <=? Priority tc) eqn:Hle.
    + rewrite last_cons_default.
      apply (IH (l1 ++ [i]) n fuel); try assumption.
      * rewrite <- app_assoc. exact Hcr.
      * cbn in Hlen. lia.
    + reflexivity.
Qed.

Lemma last_cons_Some {X} (i : X) (l : list X) : last (i :: l) = Some (default i (last l)).
Proof.
  destruct l as [|y l]; [reflexivity|]. cbn [last].
  destruct (last (y :: l)) eqn:E; [reflexivity|]. apply last_None in E. discriminate.
Qed.

Lemma get_MutexWaitList s a m :
  mutexes s !! a = Some m → get_list (MutexWaitList a) s = Some (mtx_WaitList m).
Proof. intros E. unfold get_list. rewrite E. reflexivity. Qed.

(** Lines 433-465 of [OS_MutexPend]: the caller goes behind the waiters
    at the front of the list whose priority value is at most its own. *)
Lemma wp_MutexPend_Enqueue s c a cur tc m (Q : unit → Kernel → Prop) :
  lists_ok s c → CurrentTCB s = Some cur → tcbs s !! cur = Some tc →
  (∀ r, cur ∉ c r) → mutexes s !! a = Some m →
  (∀ s', let le := prio_le s (Priority tc) in
         let l := c (MutexWaitList a) in
         lists_ok s' (<[MutexWaitList a := take_while le l ++ cur :: drop_while le l]> c) →
         data_of s' = data_of s →
         Q tt s') →
  wp (MutexPend_Enqueue a) Q s.
Proof.
  intros Hok Hcur Htc Hfresh Hm HQ.
  pose proof (get_MutexWaitList s a m Hm) as HL.
  pose proof Hok as (Hrep & Hnd & Hdisj).
  pose proof (Hrep (MutexWaitList a)) as Hr. rewrite HL in Hr.
  pose proof (repr_head _ _ _ Hr) as HH.
  unfold MutexPend_Enqueue.
  apply wp_bind, wp_gets. rewrite Hcur.
  apply wp_bind. eapply wp_load_mutex; [exact Hm|]. rewrite HH.
  destruct (c (MutexWaitList a)) as [|h t] eqn:Hc; cbn [head is_null].
  - (* empty wait list *)
    eapply wp_List_InsertTail; [exact Hok|exact HL|exact Htc|exact Hfresh|].
    intros s' Hok' Hdata' _. apply HQ; [|exact Hdata'].
    cbv zeta. rewrite Hc in *. exact Hok'.
  - destruct (repr_in_heap _ _ _ h Hr) as [th Hth]; [apply list_elem_of_here|].
    assert (Hhc : h ≠ cur).
    { intros ->. apply (Hfresh (MutexWaitList a)). rewrite Hc. apply list_elem_of_here. }
    apply wp_bind. eapply wp_load_tcb; [exact Hth|].
    apply wp_bind. eapply wp_load_tcb; [exact Htc|].
    assert (Hle : prio_le s (Priority tc) h = negb (Priority th >? Priority tc)).
    { unfold prio_le. rewrite Hth. rewrite Z.gtb_ltb, Z.leb_antisym. reflexivity. }
    destruct (Priority th >? Priority tc) eqn:Hgt; cbn [negb] in Hle.
    + (* before the head *)
      apply wp_bind. eapply wp_store_tcb; [exact Htc|].
      apply wp_bind. eapply wp_store_tcb; [lookup_tac|].
      apply wp_bind. eapply wp_store_tcb; [lookup_tac|].
      eapply wp_store_list; [getlist_tac; exact HL|].
      apply HQ; [|data_tac].
      cbv zeta. cbn [take_while drop_while]. rewrite Hle. cbn [app].
      eapply (lists_ok_insert s _ c (MutexWaitList a) _ _ [] (h :: t) cur);
        [exact Hok|exact Hc|exact Hfresh|exact HL
        |erewrite get_set_list; [reflexivity|getlist_tac; exact HL]
        |intros r' Hne; getlist_tac; reflexivity
        | | | | | | | | ]; rewrite ?tcbs_set_list; cbn [tcbs set_tcbs head last].
      * heap_lookup.
      * heap_lookup.
      * intros z E. discriminate E.
      * intros z E. injection E as <-. heap_lookup.
      * intros y Hy _. heap_lookup. symmetry. apply next_at_Some. exact Hth.
      * intros y Hy Hyh. heap_lookup.
      * reflexivity.
      * reflexivity.
    + (* behind the waiters of the same or a higher priority *)
      apply wp_bind. unfold walk_fuel. apply wp_gets.
      apply wp_bind. eapply wp_intro.
      { apply (MutexPend_Walk_spec s c (MutexWaitList a) cur tc t [] h);
          [exact Hok|exact Hc|exact Hcur|exact Htc|].
        pose proof (NoDup_heap_length (tcbs s) (h :: t)) as Hlen.
        cbn in Hlen. specialize (Hlen ltac:(rewrite <- Hc; apply Hnd)
                                      ltac:(intros y Hy; eapply repr_in_heap; eauto)).
        lia. }
      set (le := prio_le s (Priority tc)) in *.
      set (iter := default h (last (take_while le t))).
      assert (Hsplit : h :: t = (take_while le (h :: t)) ++ drop_while le (h :: t))
        by (symmetry; apply take_drop_while).
      assert (Hlast : last (take_while le (h :: t)) = Some iter).
      { cbn [take_while]. rewrite Hle. apply last_cons_Some. }
      destruct (proj1 (last_Some _ _) Hlast) as [l0 Hl0].
      set (l2 := drop_while le (h :: t)) in *.
      rewrite Hl0 in Hsplit. rewrite <- app_assoc in Hsplit. cbn [app] in Hsplit.
      rewrite Hsplit in Hr.
      destruct (repr_links _ _ _ _ _ Hr) as (ti & Hti & Hni & Hpi).
      assert (Hic : iter ≠ cur).
      { intros E. apply (Hfresh (MutexWaitList a)). rewrite Hc, Hsplit, <- E.
        apply elem_of_app. right. apply list_elem_of_here. }
      pose proof (Hnd (MutexWaitList a)) as Hndr. rewrite Hc, Hsplit in Hndr.
      apply wp_bind. eapply wp_load_tcb; [exact Hti|].
      apply wp_bind. eapply wp_store_tcb; [exact Htc|].
      apply wp_bind. eapply wp_store_tcb; [lookup_tac|].
      apply wp_bind. eapply wp_load_tcb; [lookup_tac|].
      rewrite Hni.
      assert (Hgoal : ∀ s', 
        get_list (MutexWaitList a) s'
        = Some (if l2 is [] then set_Tail (Some cur) (mtx_WaitList m) else mtx_WaitList m) →
        (∀ r', r' ≠ MutexWaitList a → get_list r' s' = get_list r' s) →
        data_of s' = data_of s →
        next_at (tcbs s') cur = Some (head l2) → prev_at (tcbs s') cur = Some (Some iter) →
        next_at (tcbs s') iter = Some (Some cur) →
        (∀ z, head l2 = Some z → prev_at (tcbs s') z = Some (Some cur)) →
        (∀ y, y ≠ cur → y ≠ iter → next_at (tcbs s') y = next_at (tcbs s) y) →
        (∀ y, y ≠ cur → head l2 ≠ Some y → prev_at (tcbs s') y = prev_at (tcbs s) y) →
        Q tt s').
      { intros s' G1 G2 G3 G4 G5 G6 G7 G8 G9. apply HQ; [|exact G3].
        cbv zeta. fold le. fold l2. rewrite Hl0.
        eapply (lists_ok_insert s s' c (MutexWaitList a) _ _ (l0 ++ [iter]) l2 cur);
          [exact Hok|rewrite Hc, Hsplit, <- app_assoc; reflexivity|exact Hfresh|exact HL
          |exact G1|exact G2|exact G4|rewrite last_snoc; exact G5| | | | | | ].
        - intros z. rewrite last_snoc. intros E. injection E as <-. exact G6.
        - exact G7.
        - intros y Hy. rewrite last_snoc. intros Hne. apply G8; congruence.
        - exact G9.
        - destruct l2; cbn; destruct l0; reflexivity.
        - destruct l2; reflexivity. }
      destruct l2 as [|n l2'] eqn:El2; cbn [head is_null negb].
      * apply wp_bind. eapply wp_store_list; [getlist_tac; exact HL|].
        eapply wp_store_tcb; [lookup_tac|].
        apply Hgoal; [| |data_tac| | | | | |]; rewrite ?tcbs_set_list; cbn [tcbs set_tcbs head].
        -- getlist_tac. erewrite get_set_list; [reflexivity|getlist_tac; exact HL].
        -- intros r' Hne. getlist_tac. reflexivity.
        -- heap_lookup.
        -- heap_lookup.
        -- heap_lookup.
        -- intros z E. discriminate E.
        -- intros y H1 H2. heap_lookup.
        -- intros y H1 H2. heap_lookup. symmetry. apply prev_at_Some. exact Hti.
      * assert (Hn : n ∈ l0 ++ iter :: n :: l2')
          by (apply elem_of_app; right; apply list_elem_of_further, list_elem_of_here).
        destruct (repr_in_heap _ _ _ n Hr Hn) as [tn Htn].
        assert (Hnc : n ≠ cur).
        { intros E. apply (Hfresh (MutexWaitList a)). rewrite Hc, Hsplit, <- E. exact Hn. }
        assert (Hni' : n ≠ iter).
        { intros E. apply NoDup_app in Hndr as (_ & _ & Hnd2).
          apply NoDup_cons in Hnd2 as [Hnd2 _]. apply Hnd2. rewrite E.
          apply list_elem_of_here. }
        apply wp_bind. eapply wp_store_tcb; [lookup_tac|].
        eapply wp_store_tcb; [lookup_tac|].
        apply Hgoal; [| |data_tac| | | | | |]; rewrite ?tcbs_set_list; cbn [tcbs set_tcbs head].
        -- getlist_tac. exact HL.
        -- intros r' Hne. getlist_tac. reflexivity.
        -- heap_lookup.
        -- heap_lookup.
        -- heap_lookup.
        -- intros z E. injection E as <-. heap_lookup.
        -- intros y H1 H2. heap_lookup. symmetry. apply next_at_Some. exact Htn.
        -- intros y H1 H2. heap_lookup. symmetry. apply prev_at_Some. exact Hti.
Qed.

(** ** Fields of the control blocks across a call *)

Lemma fields_data s s' x : data_of s' = data_of s → fields s' x = fields s x.
Proof. intros E. apply data_of_tcb. exact E. Qed.

Lemma rest_of_data s s' : data_of s' = data_of s → rest_of s' = rest_of s.
Proof. unfold rest_of. intros ->. reflexivity. Qed.

Lemma fields_upd_tcb y f s x :
  (∀ t, strip_tcb (f t) = f (strip_tcb t)) →
  fields (upd_tcb y f s) x = if decide (x = y) then f <$> fields s x else fields s x.
Proof.
  intros Hf. unfold fields. rewrite lookup_upd_tcb.
  destruct (decide (x = y)) as [->|]; [|reflexivity].
  destruct (tcbs s !! y); cbn; [rewrite Hf|]; reflexivity.
Qed.

Lemma fields_store s x t f y :
  tcbs s !! x = Some t → (∀ t, strip_tcb (f t) = f (strip_tcb t)) →
  fields (set_tcbs (<[x := f t]> (tcbs s)) s) y
  = if decide (y = x) then f <$> fields s y else fields s y.
Proof.
  intros Hx Hf. rewrite <- (upd_tcb_Some x f s t Hx). apply fields_upd_tcb, Hf.
Qed.

Lemma fields_prio_of s s' x : fields s' x = fields s x → prio_of s' x = prio_of s x.
Proof.
  unfold fields, prio_of. intros E. apply (f_equal (fmap (M:=option) Priority)) in E.
  destruct (tcbs s' !! x), (tcbs s !! x); try discriminate; try reflexivity; exact E.
Qed.

Lemma fields_state_of s s' x : fields s' x = fields s x → state_of s' x = state_of s x.
Proof.
  unfold fields, state_of. intros E. apply (f_equal (fmap (M:=option) State)) in E.
  destruct (tcbs s' !! x), (tcbs s !! x); try discriminate; try reflexivity; exact E.
Qed.

Lemma fields_Some s x t : tcbs s !! x = Some t → fields s x = Some (strip_tcb t).
Proof. unfold fields. intros ->. reflexivity. Qed.

Lemma fields_lookup s x ft :
  fields s x = Some ft → ∃ t, tcbs s !! x = Some t ∧ strip_tcb t = ft.
Proof.
  unfold fields. destruct (tcbs s !! x) as [t|]; [|discriminate].
  intros E. injection E as E. eauto.
Qed.

(** ** Priority inheritance *)

(** The boost of [OS_MutexPend]: the owner [o] takes the priority of the
    caller when that is the higher one.  A ready owner changes ready
    list; a blocked owner has its priority rewritten where it is. *)
Lemma wp_MutexPend_boost s c cur tc o to (Q : unit → Kernel → Prop) :
  kernel_inv s c → tcbs s !! cur = Some tc → tcbs s !! o = Some to → o ≠ cur →
  cur ∈ c (ReadyListAt (Priority tc)) →
  (if State to is TASK_READY then o ∈ c (ReadyListAt (Priority to))
   else ∀ p, o ∉ c (ReadyListAt p)) →
  (∀ s1 c1,
     kernel_inv s1 c1 →
     (∀ r, (∀ p, r ≠ ReadyListAt p) → c1 r = c r) →
     (∀ x p, x ∈ c (ReadyListAt p) → x ≠ o → x ∈ c1 (ReadyListAt p)) →
     (∀ p, o ∈ c (ReadyListAt p) →
           o ∈ c1 (ReadyListAt (Z.min (Priority tc) (Priority to)))) →
     (∀ p, o ∈ c1 (ReadyListAt p) → ∃ p', o ∈ c (ReadyListAt p')) →
     (∀ x, fields s1 x = if decide (x = o)
                         then set_Priority (Z.min (Priority tc) (Priority to)) <$> fields s x
                         else fields s x) →
     rest_of s1 = rest_of s →
     Q tt s1) →
  wp (if Priority tc <? Priority to then
        if (if State to is TASK_READY then true else false) then
          OS_ReadyListRemove (Some o) ;;
          c ← load_tcb (Some cur);
          store_tcb (Some o) (set_Priority (Priority c)) ;;
          OS_ReadyListAdd (Some o)
        else store_tcb (Some o) (set_Priority (Priority tc))
      else ret tt) Q s.
Proof.
  intros Hinv Htc Hto Hoc Hcin Hcons HQ.
  pose proof (inv_data _ _ Hinv) as Hd.
  destruct (inv_tcb _ _ Hd cur tc Htc) as [Hpc Hdc].
  destruct (inv_tcb _ _ Hd o to Hto) as [Hpo Hdo].
  assert (Heta : ∀ ft : option OS_TCB, ∀ t, ft = Some (strip_tcb t) →
            set_Priority (Priority t) <$> ft = ft).
  { intros ft t ->. reflexivity. }
  destruct (Priority tc <? Priority to) eqn:Hlt.
  - apply Z.ltb_lt in Hlt.
    assert (Emin : Z.min (Priority tc) (Priority to) = Priority tc) by lia.
    rewrite Emin in HQ.
    destruct (State to) eqn:Hst; cbn [negb].
    + (* a ready owner moves to the ready list of the caller's priority *)
      destruct (list_elem_of_split _ _ Hcons) as (l1 & l2 & Hsplit).
      apply wp_bind.
      eapply (wp_OS_ReadyListRemove s c o to l1 l2); [exact Hinv|exact Hto|exact Hsplit|].
      intros s1 Hinv1 Hdata1 Hframe1.
      pose proof (inv_lists _ _ Hinv) as (_ & Hnd & Hdisj).
      assert (Hcur1 : tcbs s1 !! cur = Some tc).
      { rewrite Hframe1; [exact Htc|]. intros Hin.
        pose proof (Hdisj _ _ _ Hin Hcin) as E. injection E as E. lia. }
      apply wp_bind. eapply wp_load_tcb; [exact Hcur1|].
      destruct (data_of_tcb_Some _ _ _ _ (eq_sym Hdata1) Hto) as (to1 & Hto1 & Hs1).
      apply wp_bind. eapply wp_store_tcb; [exact Hto1|].
      set (c1 := <[ReadyListAt (Priority to) := l1 ++ l2]> c) in *.
      assert (Hofree : ∀ r, o ∉ c1 r).
      { intros r. unfold c1. destruct (decide (r = ReadyListAt (Priority to))) as [->|Hne].
        - rewrite fn_lookup_insert. pose proof (Hnd (ReadyListAt (Priority to))) as N.
          rewrite Hsplit in N. apply NoDup_app in N as (_ & N2 & N3).
          apply NoDup_cons in N3 as [N3 _]. intros Hin. apply elem_of_app in Hin as [Hin|Hin].
          + eapply N2; [exact Hin|apply list_elem_of_here].
          + contradiction.
        - rewrite fn_lookup_insert_ne by congruence. intros Hin. apply Hne.
          symmetry. eapply Hdisj; [exact Hcons|exact Hin]. }
      assert (Hinv2 : kernel_inv (set_tcbs (<[o := set_Priority (Priority tc) to1]> (tcbs s1)) s1) c1).
      { eapply kernel_inv_store; [exact Hinv1|exact Hto1|reflexivity|reflexivity| | |right].
        - exact Hpc.
        - cbn. rewrite (strip_DelayTicks _ _ Hs1). exact Hdo.
        - intros p. apply Hofree. }
      eapply wp_OS_ReadyListAdd; [exact Hinv2|cbn; apply lookup_insert_eq|exact Hofree|].
      cbn [Priority set_Priority].
      intros s3 Hinv3 Hdata3 _.
      apply (HQ s3 _ Hinv3).
      * intros r Hr. rewrite fn_lookup_insert_ne by (intros E; eapply Hr; symmetry; exact E).
        unfold c1. rewrite fn_lookup_insert_ne by (intros E; eapply Hr; symmetry; exact E).
        reflexivity.
      * intros x p Hx Hxo.
        assert (Hx1 : x ∈ c1 (ReadyListAt p)).
        { unfold c1. destruct (decide (p = Priority to)) as [->|Hne].
          - rewrite fn_lookup_insert. rewrite Hsplit in Hx.
            apply elem_of_app in Hx as [Hx|Hx]; apply elem_of_app; [left; exact Hx|right].
            apply elem_of_cons in Hx as [->|Hx]; [contradiction|exact Hx].
          - rewrite fn_lookup_insert_ne by congruence. exact Hx. }
        destruct (decide (p = Priority tc)) as [->|Hne].
        -- rewrite fn_lookup_insert. apply elem_of_app. left. exact Hx1.
        -- rewrite fn_lookup_insert_ne by congruence. exact Hx1.
      * intros p _. rewrite fn_lookup_insert. apply elem_of_app. right. apply list_elem_of_here.
      * intros p _. eauto.
      * intros x. rewrite (fields_data _ _ x Hdata3).
        change (fields (set_g_PrioMap _ ?s') x) with (fields s' x).
        rewrite (fields_store s1 o to1 (set_Priority (Priority tc)) x Hto1) by reflexivity.
        rewrite (fields_data _ _ x Hdata1). reflexivity.
      * rewrite (rest_of_data _ _ Hdata3).
        transitivity (rest_of s1); [reflexivity|]. apply (rest_of_data _ _ Hdata1).
    + (* a blocked owner *)
      eapply wp_store_tcb; [exact Hto|].
      assert (Hinv1 : kernel_inv (set_tcbs (<[o := set_Priority (Priority tc) to]> (tcbs s)) s) c).
      { eapply kernel_inv_store; [exact Hinv|exact Hto|reflexivity|reflexivity| | |right].
        - exact Hpc.
        - exact Hdo.
        - exact Hcons. }
      apply (HQ _ c Hinv1).
      * reflexivity.
      * auto.
      * intros p Hin. destruct (Hcons p Hin).
      * intros p Hin. eauto.
      * intros x. apply (fields_store s o to (set_Priority (Priority tc)) x Hto). reflexivity.
      * reflexivity.
    + eapply wp_store_tcb; [exact Hto|].
      assert (Hinv1 : kernel_inv (set_tcbs (<[o := set_Priority (Priority tc) to]> (tcbs s)) s) c).
      { eapply kernel_inv_store; [exact Hinv|exact Hto|reflexivity|reflexivity| | |right].
        - exact Hpc.
        - exact Hdo.
        - exact Hcons. }
      apply (HQ _ c Hinv1).
      * reflexivity.
      * auto.
      * intros p Hin. destruct (Hcons p Hin).
      * intros p Hin. eauto.
      * intros x. apply (fields_store s o to (set_Priority (Priority tc)) x Hto). reflexivity.
      * reflexivity.
  - apply Z.ltb_ge in Hlt.
    assert (Emin : Z.min (Priority tc) (Priority to) = Priority to) by lia.
    rewrite Emin in HQ.
    apply wp_ret. apply (HQ s c Hinv).
    + reflexivity.
    + auto.
    + intros p Hin. destruct (State to) eqn:Hst.
      * exact Hcons.
      * destruct (Hcons p Hin).
      * destruct (Hcons p Hin).
    + intros p Hin. eauto.
    + intros x. destruct (decide (x = o)) as [->|]; [|reflexivity].
      symmetry. apply Heta. apply fields_Some. exact Hto.
    + reflexivity.
Qed.

Lemma rest_of_mutex s s' a m :
  rest_of s' = rest_of s → mutexes s !! a = Some m →
  ∃ m', mutexes s' !! a = Some m' ∧ Owner m' = Owner m ∧ NestCount m' = NestCount m ∧
        mtx_OriginalPrio m' = mtx_OriginalPrio m.
Proof.
  intros E Hm. apply (f_equal mutexes) in E. cbn in E.
  pose proof (f_equal (λ m, m !! a) E) as Ea. cbn in Ea.
  rewrite !lookup_fmap, Hm in Ea.
  destruct (mutexes s' !! a) as [m'|]; [|discriminate]. cbn in Ea.
  exists m'. split; [reflexivity|]. injection Ea as E1 E2 E3. auto.
Qed.

Lemma rest_of_CurrentTCB s s' : rest_of s' = rest_of s → CurrentTCB s' = CurrentTCB s.
Proof. intros E. exact (f_equal CurrentTCB E). Qed.

Lemma rest_of_nesting s s' :
  rest_of s' = rest_of s → g_CriticalNesting s' = g_CriticalNesting s.
Proof. intros E. exact (f_equal g_CriticalNesting E). Qed.

Lemma prio_le_fields s s' p x : fields s' x = fields s x → prio_le s' p x = prio_le s p x.
Proof.
  intros E. apply fields_prio_of in E. unfold prio_of in E. unfold prio_le.
  destruct (tcbs s' !! x), (tcbs s !! x); try discriminate; [|reflexivity].
  cbn in E. injection E as ->. reflexivity.
Qed.

Lemma take_while_ext_in {A} (f g : A → bool) l :
  (∀ x, x ∈ l → f x = g x) → take_while f l = take_while g l.
Proof.
  induction l as [|x l IH]; intros E; [reflexivity|]. cbn.
  rewrite (E x) by apply list_elem_of_here.
  rewrite IH by (intros y Hy; apply E, list_elem_of_further, Hy). reflexivity.
Qed.

Lemma drop_while_ext_in {A} (f g : A → bool) l :
  (∀ x, x ∈ l → f x = g x) → drop_while f l = drop_while g l.
Proof.
  induction l as [|x l IH]; intros E; [reflexivity|]. cbn.
  rewrite (E x) by apply list_elem_of_here.
  rewrite IH by (intros y Hy; apply E, list_elem_of_further, Hy). reflexivity.
Qed.

Lemma rest_of_exit s s4 k b nx :
  rest_of s4 = rest_of (set_g_CriticalNesting k (set_irq_enabled false s)) →
  rest_of (if g_CriticalNesting s =? 0
           then set_irq_enabled true
                  (set_g_CriticalNesting (g_CriticalNesting s)
                     (set_swi_pending b (set_NextTCB nx s4)))
           else set_g_CriticalNesting (g_CriticalNesting s)
                  (set_swi_pending b (set_NextTCB nx s4)))
  = rest_of (set_irq_enabled (irq_after s) s).
Proof.
  intros E. unfold irq_after. destruct (g_CriticalNesting s =? 0).
  - change (set_irq_enabled true (set_g_CriticalNesting (g_CriticalNesting s) (rest_of s4))
            = rest_of (set_irq_enabled true s)).
    rewrite E. destruct s; reflexivity.
  - change (set_g_CriticalNesting (g_CriticalNesting s) (rest_of s4)
            = rest_of (set_irq_enabled false s)).
    rewrite E. destruct s; reflexivity.
Qed.

(** [OS_MutexPend] on a mutex that another task owns. *)
Lemma wp_MutexPend_contended s c a m cur tc o to :
  kernel_inv s c → 0 <= g_CriticalNesting s < 2 ^ 32 - 1 →
  CurrentTCB s = Some cur → tcbs s !! cur = Some tc →
  cur ∈ c (ReadyListAt (Priority tc)) →
  mutexes s !! a = Some m → Owner m = Some o → o ≠ cur → tcbs s !! o = Some to →
  (if State to is TASK_READY then o ∈ c (ReadyListAt (Priority to))
   else ∀ p, o ∉ c (ReadyListAt p)) →
  (∃ x p, x ≠ cur ∧ x ∈ c (ReadyListAt p)) →
  wp (OS_MutexPend (Some a)) (λ r s',
    r = OS_OK ∧
    ∃ c', kernel_inv s' c' ∧
      c' (MutexWaitList a)
      = take_while (prio_le s' (Priority tc)) (c (MutexWaitList a))
        ++ cur :: drop_while (prio_le s' (Priority tc)) (c (MutexWaitList a)) ∧
      (∀ r, (∀ p, r ≠ ReadyListAt p) → r ≠ MutexWaitList a → c' r = c r) ∧
      (∀ x, fields s' x
            = if decide (x = o)
              then set_Priority (Z.min (Priority tc) (Priority to)) <$> fields s x
              else if decide (x = cur) then set_State TASK_BLOCKED <$> fields s x
              else fields s x) ∧
      rest_of s' = rest_of (set_irq_enabled (irq_after s) s) ∧
      swi_pending s' = true ∧
      NextTCB s' = head (c' (ReadyListAt (OS_GetTopPrio (g_PrioMap s')))) ∧
      (if State to is TASK_READY
       then o ∈ c' (ReadyListAt (Z.min (Priority tc) (Priority to)))
       else ∀ p, o ∉ c' (ReadyListAt p))) s.
Proof.
  intros Hinv Hn Hcur Htc Hcin Hm Ho Hoc Hto Hcons (x0 & p0 & Hx0 & Hx0in).
  destruct (enter_exit_nesting _ Hn) as [Hn1 Hn2].
  unfold OS_MutexPend.
  apply wp_bind, wp_OS_EnterCritical.
  set (s0 := set_g_CriticalNesting _ _).
  assert (Hinv0 : kernel_inv s0 c) by (eapply same_core_inv; [|exact Hinv]; same_core_tac).
  apply wp_bind. eapply wp_load_mutex; [exact Hm|].
  apply wp_bind, wp_gets. cbn [CurrentTCB s0 set_g_CriticalNesting set_irq_enabled].
  rewrite Hcur, Ho. cbn [is_null].
  rewrite bool_decide_eq_false_2 by congruence.
  apply wp_bind. eapply wp_load_tcb; [exact Htc|].
  apply wp_bind. eapply wp_load_tcb; [exact Hto|].
  apply wp_bind.
  eapply (wp_MutexPend_boost s0 c cur tc o to); try eassumption.
  intros s1 c1 Hinv1 Hc1 Hkeep Hown Hback Hf1 Hr1.
  (* the caller blocks *)
  assert (Hfc1 : fields s1 cur = fields s cur)
    by (rewrite Hf1, decide_False by congruence; reflexivity).
  rewrite (fields_Some _ _ _ Htc) in Hfc1.
  destruct (fields_lookup _ _ _ Hfc1) as (tc1 & Htc1 & Hs1).
  pose proof (strip_Priority _ _ Hs1) as Hp1.
  destruct (inv_tcb _ _ (inv_data _ _ Hinv) cur tc Htc) as [Hpc Hdc].
  apply wp_bind. eapply wp_store_tcb; [exact Htc1|].
  set (s2 := set_tcbs _ s1).
  assert (Hinv2 : kernel_inv s2 c1).
  { eapply kernel_inv_store; [exact Hinv1|exact Htc1|reflexivity|reflexivity| | |left; reflexivity].
    - cbn. rewrite Hp1. exact Hpc.
    - cbn. rewrite (strip_DelayTicks _ _ Hs1). exact Hdc. }
  assert (Hcin1 : cur ∈ c1 (ReadyListAt (Priority tc))) by (apply Hkeep; [exact Hcin|congruence]).
  destruct (list_elem_of_split _ _ Hcin1) as (l1 & l2 & Hsplit).
  apply wp_bind.
  eapply (wp_OS_ReadyListRemove s2 c1 cur (set_State TASK_BLOCKED tc1) l1 l2);
    [exact Hinv2|apply lookup_insert_eq|cbn [Priority set_State]; rewrite Hp1; exact Hsplit|].
  cbn [Priority set_State]. rewrite Hp1.
  intros s3 Hinv3 Hdata3 _.
  set (c3 := <[ReadyListAt (Priority tc) := l1 ++ l2]> c1) in *.
  pose proof (inv_lists _ _ Hinv1) as (_ & Hnd1 & Hdisj1).
  assert (Hfree3 : ∀ r, cur ∉ c3 r).
  { intros r. unfold c3. destruct (decide (r = ReadyListAt (Priority tc))) as [->|Hne].
    - rewrite fn_lookup_insert. pose proof (Hnd1 (ReadyListAt (Priority tc))) as N.
      rewrite Hsplit in N. apply NoDup_app in N as (_ & N2 & N3).
      apply NoDup_cons in N3 as [N3 _]. intros Hin. apply elem_of_app in Hin as [Hin|Hin].
      + eapply N2; [exact Hin|apply list_elem_of_here].
      + contradiction.
    - rewrite fn_lookup_insert_ne by congruence. intros Hin. apply Hne.
      symmetry. eapply Hdisj1; [exact Hcin1|exact Hin]. }
  assert (Hf3 : ∀ x, fields s3 x
                     = if decide (x = cur) then set_State TASK_BLOCKED <$> fields s1 x
                       else fields s1 x).
  { intros x. rewrite (fields_data _ _ x Hdata3).
    change (fields (set_g_PrioMap _ ?s') x) with (fields s' x).
    apply (fields_store s1 cur tc1 (set_State TASK_BLOCKED) x Htc1). reflexivity. }
  assert (Hr3 : rest_of s3 = rest_of s0).
  { rewrite (rest_of_data _ _ Hdata3). transitivity (rest_of s1); [reflexivity|exact Hr1]. }
  assert (Hcur3 : CurrentTCB s3 = Some cur)
    by (rewrite (rest_of_CurrentTCB _ _ Hr3); exact Hcur).
  destruct (rest_of_mutex _ _ a m Hr3 Hm) as (m3 & Hm3 & _).
  assert (Hfc3 : fields s3 cur = Some (set_State TASK_BLOCKED (strip_tcb tc))).
  { rewrite Hf3, decide_True by reflexivity. rewrite Hfc1. reflexivity. }
  destruct (fields_lookup _ _ _ Hfc3) as (tc3 & Htc3 & Hs3).
  assert (Hp3 : Priority tc3 = Priority tc) by exact (f_equal Priority Hs3).
  apply wp_bind.
  eapply (wp_MutexPend_Enqueue s3 c3 a cur tc3 m3);
    [exact (inv_lists _ _ Hinv3)|exact Hcur3|exact Htc3|exact Hfree3|exact Hm3|].
  cbv zeta. rewrite Hp3. intros s4 Hok4 Hdata4.
  set (c4 := <[MutexWaitList a := _]> c3) in *.
  assert (Hinv4 : kernel_inv s4 c4).
  { split; [exact Hok4|]. eapply data_inv_ext; [exact Hdata4|].
    apply data_inv_insert_other; [discriminate|exact (inv_data _ _ Hinv3)]. }
  (* somebody else is ready *)
  assert (Hother : ∃ x p, x ∈ c4 (ReadyListAt p) ∧ 0 <= p < 32).
  { assert (H1 : ∃ x p, x ≠ cur ∧ x ∈ c1 (ReadyListAt p)).
    { destruct (decide (x0 = o)) as [->|Hne].
      - exists o, (Z.min (Priority tc) (Priority to)). split; [exact Hoc|]. eapply Hown, Hx0in.
      - exists x0, p0. split; [exact Hx0|]. apply Hkeep; assumption. }
    destruct H1 as (x & p & Hxc & Hxin). exists x, p.
    assert (Hx4 : x ∈ c4 (ReadyListAt p)).
    { unfold c4. rewrite fn_lookup_insert_ne by discriminate. unfold c3.
      destruct (decide (p = Priority tc)) as [->|Hne].
      - rewrite fn_lookup_insert. rewrite Hsplit in Hxin.
        apply elem_of_app in Hxin as [Hxin|Hxin]; apply elem_of_app; [left; exact Hxin|right].
        apply elem_of_cons in Hxin as [->|Hxin]; [contradiction|exact Hxin].
      - rewrite fn_lookup_insert_ne by congruence. exact Hxin. }
    split; [exact Hx4|].
    destruct (lists_ok_in_heap _ _ _ _ Hok4 Hx4) as [tx Htx].
    rewrite <- (inv_prio _ _ (inv_data _ _ Hinv4) p x tx Hx4 Htx).
    apply (inv_tcb _ _ (inv_data _ _ Hinv4) x tx Htx). }
  destruct Hother as (x1 & p1 & Hx1 & Hp1r).
  apply wp_bind. eapply wp_FindNextTask;
    [exact Hinv4|eapply kernel_inv_nonzero; [exact Hinv4|exact Hp1r|exact Hx1]|].
  intros nx Hnx.
  apply wp_bind, wp_modify. apply wp_bind, wp_modify.
  assert (Hn4 : g_CriticalNesting s4 = u32 (g_CriticalNesting s + 1)).
  { rewrite (rest_of_nesting s0 s4); [reflexivity|].
    rewrite (rest_of_data _ _ Hdata4). exact Hr3. }
  apply wp_bind. apply wp_OS_ExitCritical;
    [cbn [g_CriticalNesting set_swi_pending set_NextTCB]; rewrite Hn4; exact Hn1|].
  cbv zeta. apply wp_ret.
  cbn [g_CriticalNesting set_swi_pending set_NextTCB]. rewrite Hn4, Hn2.
  split; [reflexivity|]. exists c4.
  match goal with |- kernel_inv ?s' _ ∧ _ => set (s5 := s') end.
  assert (Hcore5 : same_core s4 s5) by (subst s5; destruct (_ =? 0); same_core_tac).
  assert (Hf5 : ∀ x, fields s5 x = fields s4 x)
    by (intros x; subst s5; destruct (_ =? 0); reflexivity).
  assert (Hf : ∀ x, fields s5 x
            = if decide (x = o)
              then set_Priority (Z.min (Priority tc) (Priority to)) <$> fields s x
              else if decide (x = cur) then set_State TASK_BLOCKED <$> fields s x
              else fields s x).
  { intros x. rewrite Hf5, (fields_data _ _ x Hdata4), Hf3, Hf1.
    change (fields s0 x) with (fields s x).
    destruct (decide (x = cur)) as [->|]; [|reflexivity].
    rewrite !decide_False by congruence. reflexivity. }
  split; [eapply same_core_inv; eauto|].
  split.
  { unfold c4. rewrite fn_lookup_insert. unfold c3.
    rewrite fn_lookup_insert_ne by discriminate. rewrite Hc1 by discriminate.
    assert (Hle : ∀ x, prio_le s5 (Priority tc) x = prio_le s3 (Priority tc) x).
    { intros x. apply prio_le_fields. rewrite Hf5. apply fields_data, Hdata4. }
    rewrite (take_while_ext _ _ _ Hle), (drop_while_ext _ _ _ Hle). reflexivity. }
  split.
  { intros r Hr Hra. unfold c4. rewrite fn_lookup_insert_ne by congruence.
    unfold c3. rewrite fn_lookup_insert_ne by (intros E; eapply Hr; symmetry; exact E).
    apply Hc1, Hr. }
  split; [exact Hf|].
  split.
  { apply rest_of_exit with (k := u32 (g_CriticalNesting s + 1)).
    rewrite (rest_of_data _ _ Hdata4). exact Hr3. }
  split; [subst s5; destruct (_ =? 0); reflexivity|].
  split.
  { replace (NextTCB s5) with (Some nx) by (subst s5; destruct (_ =? 0); reflexivity).
    replace (g_PrioMap s5) with (g_PrioMap s4) by (subst s5; destruct (_ =? 0); reflexivity).
    symmetry. exact Hnx. }
  assert (H41 : ∀ x p, x ≠ cur → x ∈ c4 (ReadyListAt p) ↔ x ∈ c1 (ReadyListAt p)).
  { intros x p Hxc. unfold c4. rewrite fn_lookup_insert_ne by discriminate. unfold c3.
    destruct (decide (p = Priority tc)) as [->|Hne].
    - rewrite fn_lookup_insert, Hsplit, !elem_of_app, elem_of_cons. tauto.
    - rewrite fn_lookup_insert_ne by congruence. tauto. }
  destruct (State to) eqn:Hst.
  - apply H41; [exact Hoc|]. eapply Hown, Hcons.
  - intros p Hin. apply H41 in Hin; [|exact Hoc].
    destruct (Hback p Hin) as [p' Hp']. exact (Hcons p' Hp').
  - intros p Hin. apply H41 in Hin; [|exact Hoc].
    destruct (Hback p Hin) as [p' Hp']. exact (Hcons p' Hp').
Qed.

(** The final release of [OS_MutexPost]: the caller returns to the ready
    list of its original priority when it had inherited another one. *)
Lemma wp_MutexPost_restore s c cur tc (Q : unit → Kernel → Prop) :
  kernel_inv s c → tcbs s !! cur = Some tc →
  cur ∈ c (ReadyListAt (Priority tc)) → 0 <= OriginalPrio tc < 32 →
  (∀ s1 c1,
     kernel_inv s1 c1 →
     (∀ r, (∀ p, r ≠ ReadyListAt p) → c1 r = c r) →
     (∀ x p, x ≠ cur → x ∈ c1 (ReadyListAt p) ↔ x ∈ c (ReadyListAt p)) →
     cur ∈ c1 (ReadyListAt (OriginalPrio tc)) →
     (∀ x, fields s1 x = if decide (x = cur)
                         then set_Priority (OriginalPrio tc) <$> fields s x
                         else fields s x) →
     rest_of s1 = rest_of s →
     Q tt s1) →
  wp (if negb (Priority tc =? OriginalPrio tc) then
        OS_ReadyListRemove (Some cur) ;;
        c ← load_tcb (Some cur);
        store_tcb (Some cur) (set_Priority (OriginalPrio c)) ;;
        OS_ReadyListAdd (Some cur)
      else ret tt) Q s.
Proof.
  intros Hinv Htc Hcin Hor HQ.
  pose proof (inv_data _ _ Hinv) as Hd.
  destruct (inv_tcb _ _ Hd cur tc Htc) as [Hpc Hdc].
  destruct (Z.eqb_spec (Priority tc) (OriginalPrio tc)) as [Heq|Hne]; cbn [negb].
  - apply wp_ret. apply (HQ s c Hinv).
    + reflexivity.
    + tauto.
    + rewrite <- Heq. exact Hcin.
    + intros x. destruct (decide (x = cur)) as [->|]; [|reflexivity].
      rewrite (fields_Some _ _ _ Htc). cbn. rewrite <- Heq. reflexivity.
    + reflexivity.
  - destruct (list_elem_of_split _ _ Hcin) as (l1 & l2 & Hsplit).
    apply wp_bind.
    eapply (wp_OS_ReadyListRemove s c cur tc l1 l2); [exact Hinv|exact Htc|exact Hsplit|].
    intros s1 Hinv1 Hdata1 _.
    pose proof (inv_lists _ _ Hinv) as (_ & Hnd & Hdisj).
    destruct (data_of_tcb_Some _ _ _ _ (eq_sym Hdata1) Htc) as (tc1 & Htc1 & Hs1).
    apply wp_bind. eapply wp_load_tcb; [exact Htc1|].
    apply wp_bind. eapply wp_store_tcb; [exact Htc1|].
    assert (Hor1 : OriginalPrio tc1 = OriginalPrio tc) by exact (f_equal OriginalPrio Hs1).
    rewrite Hor1.
    set (c1 := <[ReadyListAt (Priority tc) := l1 ++ l2]> c) in *.
    assert (Hfree : ∀ r, cur ∉ c1 r).
    { intros r. unfold c1. destruct (decide (r = ReadyListAt (Priority tc))) as [->|Hner].
      - rewrite fn_lookup_insert. pose proof (Hnd (ReadyListAt (Priority tc))) as N.
        rewrite Hsplit in N. apply NoDup_app in N as (_ & N2 & N3).
        apply NoDup_cons in N3 as [N3 _]. intros Hin. apply elem_of_app in Hin as [Hin|Hin].
        + eapply N2; [exact Hin|apply list_elem_of_here].
        + contradiction.
      - rewrite fn_lookup_insert_ne by congruence. intros Hin. apply Hner.
        symmetry. eapply Hdisj; [exact Hcin|exact Hin]. }
    assert (Hinv2 : kernel_inv (set_tcbs (<[cur := set_Priority (OriginalPrio tc) tc1]> (tcbs s1)) s1) c1).
    { eapply kernel_inv_store; [exact Hinv1|exact Htc1|reflexivity|reflexivity| | |right].
      - exact Hor.
      - cbn. rewrite (strip_DelayTicks _ _ Hs1). exact Hdc.
      - intros p. apply Hfree. }
    eapply wp_OS_ReadyListAdd; [exact Hinv2|cbn; apply lookup_insert_eq|exact Hfree|].
    cbn [Priority set_Priority].
    intros s3 Hinv3 Hdata3 _.
    apply (HQ s3 _ Hinv3).
    + intros r Hr. rewrite fn_lookup_insert_ne by (intros E; eapply Hr; symmetry; exact E).
      unfold c1. rewrite fn_lookup_insert_ne by (intros E; eapply Hr; symmetry; exact E).
      reflexivity.
    + intros x p Hxc.
      assert (H1 : x ∈ c1 (ReadyListAt p) ↔ x ∈ c (ReadyListAt p)).
      { unfold c1. destruct (decide (p = Priority tc)) as [->|Hnep].
        - rewrite fn_lookup_insert, Hsplit, !elem_of_app, elem_of_cons. tauto.
        - rewrite fn_lookup_insert_ne by congruence. tauto. }
      destruct (decide (p = OriginalPrio tc)) as [->|Hnep].
      * rewrite fn_lookup_insert, elem_of_app, list_elem_of_singleton. tauto.
      * rewrite fn_lookup_insert_ne by congruence. exact H1.
    + rewrite fn_lookup_insert. apply elem_of_app. right. apply list_elem_of_here.
    + intros x. rewrite (fields_data _ _ x Hdata3).
      change (fields (set_g_PrioMap _ ?s') x) with (fields s' x).
      rewrite (fields_store s1 cur tc1 (set_Priority (OriginalPrio tc)) x Htc1) by reflexivity.
      rewrite (fields_data _ _ x Hdata1). reflexivity.
    + rewrite (rest_of_data _ _ Hdata3).
      transitivity (rest_of s1); [reflexivity|]. apply (rest_of_data _ _ Hdata1).
Qed.

Lemma same_core_store_mutex s a m m' :
  mutexes s !! a = Some m → mtx_WaitList m' = mtx_WaitList m →
  same_core s (set_mutexes (<[a := m']> (mutexes s)) s).
Proof.
  intros Hm Hw. split; [|repeat split; reflexivity].
  intros [p|  |b|b|b|b]; try reflexivity.
  unfold get_list. cbn [mutexes set_mutexes]. rewrite lookup_insert.
  case_decide; [subst b|reflexivity]. rewrite Hm. cbn. congruence.
Qed.

Lemma data_of_mutex s s' a m :
  data_of s' = data_of s → mutexes s !! a = Some m →
  ∃ m', mutexes s' !! a = Some m' ∧ Owner m' = Owner m ∧ NestCount m' = NestCount m.
Proof.
  intros E Hm. apply (f_equal mutexes) in E. cbn in E.
  pose proof (f_equal (λ m, m !! a) E) as Ea. cbn in Ea.
  rewrite !lookup_fmap, Hm in Ea.
  destruct (mutexes s' !! a) as [m'|]; [|discriminate]. cbn in Ea.
  exists m'. split; [reflexivity|]. injection Ea as E1 E2 E3. auto.
Qed.

(** [OS_MutexPost], final release, with a task waiting: the head of the
    wait list becomes the owner and goes to the tail of its ready list. *)
Lemma wp_MutexPost_handoff s c a m cur tc w rest tw :
  kernel_inv s c → 0 <= g_CriticalNesting s < 2 ^ 32 - 1 →
  CurrentTCB s = Some cur → tcbs s !! cur = Some tc →
  cur ∈ c (ReadyListAt (Priority tc)) → 0 <= OriginalPrio tc < 32 →
  mutexes s !! a = Some m → Owner m = Some cur → NestCount m = 1 →
  c (MutexWaitList a) = w :: rest → tcbs s !! w = Some tw →
  wp (OS_MutexPost (Some a)) (λ r s',
    r = OS_OK ∧
    ∃ c', kernel_inv s' c' ∧
      c' (MutexWaitList a) = rest ∧
      (∃ l, c' (ReadyListAt (Priority tw)) = l ++ [w]) ∧
      (∀ r, (∀ p, r ≠ ReadyListAt p) → r ≠ MutexWaitList a → c' r = c r) ∧
      (∀ x, fields s' x = if decide (x = cur)
                          then set_Priority (OriginalPrio tc) <$> fields s x
                          else fields s x) ∧
      (∃ m', mutexes s' !! a = Some m' ∧ Owner m' = Some w ∧ NestCount m' = 1) ∧
      CurrentTCB s' = Some cur ∧
      swi_pending s' = true ∧
      NextTCB s' = head (c' (ReadyListAt (OS_GetTopPrio (g_PrioMap s'))))) s.
Proof.
  intros Hinv Hn Hcur Htc Hcin Hor Hm Ho Hnest Hwl Htw.
  destruct (enter_exit_nesting _ Hn) as [Hn1 Hn2].
  pose proof (inv_lists _ _ Hinv) as (_ & Hnd & Hdisj).
  assert (Hwin : w ∈ c (MutexWaitList a)) by (rewrite Hwl; apply list_elem_of_here).
  assert (Hwc : w ≠ cur).
  { intros ->. pose proof (Hdisj _ _ _ Hwin Hcin) as E. discriminate E. }
  unfold OS_MutexPost.
  apply wp_bind, wp_OS_EnterCritical.
  set (s0 := set_g_CriticalNesting _ _).
  assert (Hinv0 : kernel_inv s0 c) by (eapply same_core_inv; [|exact Hinv]; same_core_tac).
  apply wp_bind. eapply wp_load_mutex; [exact Hm|].
  apply wp_bind, wp_gets. cbn [CurrentTCB s0 set_g_CriticalNesting set_irq_enabled].
  rewrite Hcur, Ho. rewrite bool_decide_eq_true_2 by reflexivity. cbn [negb].
  apply wp_bind. eapply wp_store_mutex; [exact Hm|].
  set (s1 := set_mutexes _ s0).
  assert (Hm1 : mutexes s1 !! a = Some (set_NestCount (u8 (NestCount m - 1)) m))
    by apply lookup_insert_eq.
  assert (Hinv1 : kernel_inv s1 c).
  { eapply same_core_inv; [|exact Hinv0].
    apply (same_core_store_mutex s0 a m); [exact Hm|reflexivity]. }
  apply wp_bind. eapply wp_load_mutex; [exact Hm1|].
  cbn [NestCount set_NestCount]. rewrite Hnest. change (u8 (1 - 1) >? 0) with false.
  cbv iota.
  apply wp_bind. eapply wp_load_tcb; [exact Htc|].
  apply wp_bind.
  eapply (wp_MutexPost_restore s1 c cur tc); try eassumption.
  intros s2 c2 Hinv2 Hc2 Hkeep Hcin2 Hf2 Hr2.
  destruct (rest_of_mutex _ _ a _ Hr2 Hm1) as (m2 & Hm2 & _).
  apply wp_bind. eapply wp_load_mutex; [exact Hm2|].
  assert (Hwl2 : c2 (MutexWaitList a) = w :: rest) by (rewrite Hc2 by discriminate; exact Hwl).
  pose proof (proj1 (inv_lists _ _ Hinv2) (MutexWaitList a)) as Hrep2.
  rewrite (get_MutexWaitList _ _ _ Hm2), Hwl2 in Hrep2.
  rewrite (repr_head _ _ _ Hrep2). cbn [head is_null].
  apply wp_bind. eapply wp_List_PopHead; [exact (inv_lists _ _ Hinv2)|exact Hwl2|].
  intros s3 Hok3 Hdata3 _.
  set (c3 := <[MutexWaitList a := rest]> c2) in *.
  assert (Hinv3 : kernel_inv s3 c3).
  { split; [exact Hok3|]. eapply data_inv_ext; [exact Hdata3|].
    apply data_inv_insert_other; [discriminate|exact (inv_data _ _ Hinv2)]. }
  destruct (data_of_mutex _ _ a _ Hdata3 Hm2) as (m3 & Hm3 & _).
  apply wp_bind. eapply wp_store_mutex; [exact Hm3|].
  apply wp_bind. eapply wp_store_mutex; [apply lookup_insert_eq|].
  cbn [mutexes set_mutexes]. rewrite insert_insert_eq.
  set (m5 := set_NestCount 1 (set_Owner (Some w) m3)).
  set (s5 := set_mutexes _ (set_mutexes _ s3)).
  assert (Hinv5 : kernel_inv s5 c3).
  { eapply same_core_inv; [|exact Hinv3].
    eapply same_core_trans.
    - apply (same_core_store_mutex s3 a m3 (set_Owner (Some w) m3)); [exact Hm3|reflexivity].
    - split; [|repeat split; reflexivity].
      intros [p|  |b|b|b|b]; try reflexivity.
      unfold get_list. cbn [mutexes set_mutexes s5]. rewrite !lookup_insert.
      case_decide; reflexivity. }
  assert (Hf5 : ∀ x, fields s5 x = fields s2 x)
    by (intros x; apply (fields_data s2 s3 x Hdata3)).
  assert (Hfw : fields s5 w = Some (strip_tcb tw)).
  { rewrite Hf5, Hf2, decide_False by exact Hwc. apply fields_Some. exact Htw. }
  destruct (fields_lookup _ _ _ Hfw) as (tw5 & Htw5 & Hsw).
  assert (Hpw : Priority tw5 = Priority tw) by exact (f_equal Priority Hsw).
  pose proof (inv_lists _ _ Hinv2) as (_ & Hnd2 & Hdisj2).
  assert (Hwfree : ∀ r, w ∉ c3 r).
  { intros r. unfold c3. destruct (decide (r = MutexWaitList a)) as [->|Hne].
    - rewrite fn_lookup_insert. pose proof (Hnd2 (MutexWaitList a)) as N.
      rewrite Hwl2 in N. apply NoDup_cons in N as [N _]. exact N.
    - rewrite fn_lookup_insert_ne by congruence. intros Hin. apply Hne.
      eapply Hdisj2; [exact Hin|]. rewrite Hwl2. apply list_elem_of_here. }
  apply wp_bind. eapply wp_OS_ReadyListAdd; [exact Hinv5|exact Htw5|exact Hwfree|].
  rewrite Hpw. intros s6 Hinv6 Hdata6 _.
  set (c6 := <[ReadyListAt (Priority tw) := _]> c3) in *.
  destruct (inv_tcb _ _ (inv_data _ _ Hinv) w tw Htw) as [Hpwr _].
  apply wp_bind. eapply wp_FindNextTask; [exact Hinv6| |].
  { eapply (kernel_inv_nonzero _ _ (Priority tw) w); [exact Hinv6|exact Hpwr|].
    unfold c6. rewrite fn_lookup_insert. apply elem_of_app. right. apply list_elem_of_here. }
  intros nx Hnx.
  apply wp_bind, wp_modify. apply wp_bind, wp_modify.
  assert (Hr6 : rest_of s6 = rest_of s5) by (rewrite (rest_of_data _ _ Hdata6); reflexivity).
  assert (Hn6 : g_CriticalNesting s6 = u32 (g_CriticalNesting s + 1)).
  { rewrite (rest_of_nesting _ _ Hr6).
    change (g_CriticalNesting s5) with (g_CriticalNesting s3).
    rewrite (rest_of_nesting _ _ (rest_of_data _ _ Hdata3)).
    rewrite (rest_of_nesting _ _ Hr2). reflexivity. }
  assert (Hcur6 : CurrentTCB s6 = Some cur).
  { rewrite (rest_of_CurrentTCB _ _ Hr6).
    change (CurrentTCB s5) with (CurrentTCB s3).
    rewrite (rest_of_CurrentTCB _ _ (rest_of_data _ _ Hdata3)).
    rewrite (rest_of_CurrentTCB _ _ Hr2). exact Hcur. }
  destruct (rest_of_mutex s5 s6 a m5 Hr6) as (m6 & Hm6 & Ho6 & Hn6' & _);
    [apply lookup_insert_eq|].
  apply wp_bind. apply wp_OS_ExitCritical;
    [cbn [g_CriticalNesting set_swi_pending set_NextTCB]; rewrite Hn6; exact Hn1|].
  cbv zeta. apply wp_ret.
  cbn [g_CriticalNesting set_swi_pending set_NextTCB]. rewrite Hn6, Hn2.
  split; [reflexivity|]. exists c6.
  match goal with |- kernel_inv ?s' _ ∧ _ => set (s7 := s') end.
  assert (Hcore7 : same_core s6 s7) by (subst s7; destruct (_ =? 0); same_core_tac).
  split; [eapply same_core_inv; eauto|].
  split.
  { unfold c6. rewrite fn_lookup_insert_ne by discriminate. unfold c3.
    apply fn_lookup_insert. }
  split; [eexists; unfold c6; apply fn_lookup_insert|].
  split.
  { intros r Hr Hra. unfold c6.
    rewrite fn_lookup_insert_ne by (intros E; eapply Hr; symmetry; exact E).
    unfold c3. rewrite fn_lookup_insert_ne by congruence. apply Hc2, Hr. }
  split.
  { intros x. transitivity (fields s6 x); [subst s7; destruct (_ =? 0); reflexivity|].
    rewrite (fields_data _ _ x Hdata6).
    change (fields (set_g_PrioMap _ s5) x) with (fields s5 x).
    rewrite Hf5. apply Hf2. }
  split.
  { exists m6. split; [subst s7; destruct (_ =? 0); exact Hm6|]. split; assumption. }
  split; [subst s7; destruct (_ =? 0); exact Hcur6|].
  split; [subst s7; destruct (_ =? 0); reflexivity|].
  replace (NextTCB s7) with (Some nx) by (subst s7; destruct (_ =? 0); reflexivity).
  replace (g_PrioMap s7) with (g_PrioMap s6) by (subst s7; destruct (_ =? 0); reflexivity).
  symmetry. exact Hnx.
Qed.

(** ** Insertion into a list sorted by priority *)

Section sorted_insert.
Context {X : Type} (f : X → Z) (pc : Z).
Let le (x : X) : bool := f x <=? pc.

Lemma take_while_le_bound l x : x ∈ take_while le l → f x <= pc.
Proof.
  induction l as [|y l IH]; cbn; [intros H; inversion H|].
  destruct (le y) eqn:E; [|intros H; inversion H].
  intros H. apply elem_of_cons in H as [->|H]; [apply Z.leb_le, E|apply IH, H].
Qed.

Lemma drop_while_sorted_bound l x :
  StronglySorted Z.le (f <$> l) → x ∈ drop_while le l → pc < f x.
Proof.
  induction l as [|y l IH]; cbn; [intros _ H; inversion H|].
  intros Hs. apply StronglySorted_inv in Hs as [Hs Hy].
  destruct (le y) eqn:E; [apply IH, Hs|].
  apply Z.leb_gt in E. intros H. apply elem_of_cons in H as [->|H]; [exact E|].
  rewrite Forall_forall in Hy.
  assert (f y <= f x); [|lia].
  apply Hy. apply list_elem_of_fmap. eauto.
Qed.

Lemma insert_sorted l x :
  f x = pc → StronglySorted Z.le (f <$> l) →
  StronglySorted Z.le (f <$> (take_while le l ++ x :: drop_while le l)).
Proof.
  intros Hx. induction l as [|y l IH]; cbn; intros Hs.
  - repeat constructor.
  - apply StronglySorted_inv in Hs as [Hs Hy].
    destruct (le y) eqn:E; cbn.
    + constructor; [apply IH, Hs|].
      rewrite fmap_app, fmap_cons. apply Forall_app. split; [|constructor].
      * rewrite Forall_forall in Hy |- *. intros z Hz. apply Hy.
        apply list_elem_of_fmap in Hz as (u & -> & Hu).
        apply list_elem_of_fmap. exists u. split; [reflexivity|].
        rewrite <- (take_drop_while le l). apply elem_of_app. left. exact Hu.
      * rewrite Hx. apply Z.leb_le, E.
      * rewrite Forall_forall in Hy |- *. intros z Hz. apply Hy.
        apply list_elem_of_fmap in Hz as (u & -> & Hu).
        apply list_elem_of_fmap. exists u. split; [reflexivity|].
        rewrite <- (take_drop_while le l). apply elem_of_app. right. exact Hu.
    + apply Z.leb_gt in E. constructor; [constructor; assumption|].
      constructor; [rewrite Hx; lia|].
      rewrite Forall_forall in Hy |- *. intros z Hz. rewrite Hx.
      specialize (Hy z Hz). lia.
Qed.
End sorted_insert.

Lemma contents_out_of_range s p : ¬ (0 <= p < 32) → contents s (ReadyListAt p) = [].
Proof.
  intros Hp. unfold contents, get_list.
  replace ((0 <=? p) && (p <? OS_MAX_PRIO)) with false; [reflexivity|].
  symmetry. apply andb_false_iff. unfold OS_MAX_PRIO.
  destruct (Z.leb_spec 0 p); [right; apply Z.ltb_ge; lia|left; reflexivity].
Qed.

Lemma owner_ok_sound s o :
  owner_ok s o = true →
  ∃ to, tcbs s !! o = Some to ∧
        if State to is TASK_READY then o ∈ contents s (ReadyListAt (Priority to))
        else ∀ p, o ∉ contents s (ReadyListAt p).
Proof.
  unfold owner_ok. destruct (tcbs s !! o) as [to|]; [|discriminate].
  intros H. exists to. split; [reflexivity|].
  assert (Hall : forallb (λ p, bool_decide (o ∉ contents s (ReadyListAt (Z.of_nat p))))
                   (seq 0 32) = true → ∀ p, o ∉ contents s (ReadyListAt p)).
  { intros Hf p. destruct (decide (0 <= p < 32)) as [Hp|Hp].
    - rewrite forallb_forall in Hf. specialize (Hf (Z.to_nat p)).
      rewrite Z2Nat.id in Hf by lia.
      eapply bool_decide_eq_true_1. apply Hf. apply in_seq. lia.
    - rewrite (contents_out_of_range s p Hp). apply not_elem_of_nil. }
  destruct (State to); [eapply bool_decide_eq_true_1; exact H|apply Hall, H|apply Hall, H].
Qed.

Lemma other_ready_sound s x :
  other_ready s x = true → ∃ y p, y ≠ x ∧ y ∈ contents s (ReadyListAt p).
Proof.
  unfold other_ready. intros H. apply existsb_exists in H as (p & _ & H).
  apply existsb_exists in H as (y & Hy & Hne).
  exists y, (Z.of_nat p). split.
  - intros ->. rewrite bool_decide_eq_true_2 in Hne by reflexivity. discriminate.
  - apply list_elem_of_In. exact Hy.
Qed.

Lemma prio_le_val s p x : is_Some (tcbs s !! x) → prio_le s p x = (prio_val s x <=? p).
Proof.
  intros [t Ht]. unfold prio_le, prio_val, prio_of. rewrite Ht. reflexivity.
Qed.

Lemma prio_val_fields s s' x : fields s' x = fields s x → prio_val s' x = prio_val s x.
Proof. intros E. unfold prio_val. rewrite (fields_prio_of _ _ _ E). reflexivity. Qed.

Lemma prio_val_set_Priority s s' x p :
  is_Some (tcbs s !! x) → fields s' x = set_Priority p <$> fields s x → prio_val s' x = p.
Proof.
  intros [t Ht] E. unfold prio_val, prio_of.
  rewrite (fields_Some _ _ _ Ht) in E. destruct (fields_lookup _ _ _ E) as (t' & Ht' & Hs).
  rewrite Ht'. cbn. exact (f_equal Priority Hs).
Qed.

Lemma state_of_set_State s s' x v :
  is_Some (tcbs s !! x) → fields s' x = set_State v <$> fields s x → state_of s' x = Some v.
Proof.
  intros [t Ht] E. unfold state_of.
  rewrite (fields_Some _ _ _ Ht) in E. destruct (fields_lookup _ _ _ E) as (t' & Ht' & Hs).
  rewrite Ht'. cbn. f_equal. exact (f_equal State Hs).
Qed.

Lemma prio_val_set_State s s' x v :
  fields s' x = set_State v <$> fields s x → prio_val s' x = prio_val s x.
Proof.
  unfold fields, prio_val, prio_of. intros E.
  apply (f_equal (fmap (M:=option) Priority)) in E.
  destruct (tcbs s' !! x), (tcbs s !! x); try discriminate; [|reflexivity].
  cbn in E |- *. congruence.
Qed.

(** [OS_MutexPend] by the running task [cur] on a mutex that [o] owns. *)
Lemma MutexPend_contended_run s a m cur o :
  kernel_ok s = true → current_ready s = true → CurrentTCB s = Some cur →
  mutexes s !! a = Some m → Owner m = Some o → o ≠ cur →
  owner_ok s o = true → o ∉ contents s (MutexWaitList a) → other_ready s cur = true →
  ∃ s', OS_MutexPend (Some a) s = (Ret OS_OK, s') ∧
    kernel_inv s' (contents s') ∧
    (let l := contents s (MutexWaitList a) in
     let le := λ x, prio_val s x <=? prio_val s cur in
     contents s' (MutexWaitList a) = take_while le l ++ cur :: drop_while le l) ∧
    (∀ x, x ≠ o → prio_val s' x = prio_val s x) ∧
    prio_val s' o = Z.min (prio_val s cur) (prio_val s o) ∧
    (∃ m', mutexes s' !! a = Some m' ∧ Owner m' = Some o ∧ NestCount m' = NestCount m) ∧
    state_of s' cur = Some TASK_BLOCKED ∧
    (∀ x, x ≠ cur → state_of s' x = state_of s x) ∧
    CurrentTCB s' = Some cur ∧ swi_pending s' = true ∧
    NextTCB s' = head (contents s' (ReadyListAt (OS_GetTopPrio (g_PrioMap s')))) ∧
    (∃ to, tcbs s' !! o = Some to ∧
           if State to is TASK_READY then o ∈ contents s' (ReadyListAt (Priority to))
           else ∀ p, o ∉ contents s' (ReadyListAt p)).
Proof.
  intros Hk Hcr Hcur Hm Ho Hoc Hown Hnotin Hother.
  destruct (kernel_ok_sound s Hk) as [Hinv Hn].
  destruct (current_ready_sound s Hcr) as (cur' & tc & Hcur' & Htc & Hcin).
  rewrite Hcur in Hcur'. injection Hcur' as <-.
  destruct (owner_ok_sound s o Hown) as (to & Hto & Hcons).
  pose proof (wp_MutexPend_contended s (contents s) a m cur tc o to Hinv Hn Hcur Htc Hcin
                Hm Ho Hoc Hto Hcons (other_ready_sound s cur Hother)) as Hwp.
  apply wp_elim in Hwp
    as (r & s' & Hrun & -> & c' & Hinv' & Hwl & Hframe & Hf & Hrest & Hswi & Hnext & Hcons').
  pose proof (inv_lists _ _ Hinv') as Hok'.
  assert (Hcont : ∀ r, contents s' r = c' r) by (intros r; apply lists_ok_contents, Hok').
  assert (Hpc : prio_val s cur = Priority tc) by (unfold prio_val, prio_of; rewrite Htc; reflexivity).
  assert (Hpo : prio_val s o = Priority to) by (unfold prio_val, prio_of; rewrite Hto; reflexivity).
  assert (Hpv : ∀ x, x ≠ o → prio_val s' x = prio_val s x).
  { intros x Hx. specialize (Hf x). rewrite decide_False in Hf by exact Hx.
    destruct (decide (x = cur)) as [->|].
    - eapply prio_val_set_State, Hf.
    - apply prio_val_fields, Hf. }
  assert (Hfo : fields s' o = set_Priority (Z.min (Priority tc) (Priority to)) <$> fields s o)
    by (rewrite Hf, decide_True by reflexivity; reflexivity).
  exists s'. split; [exact Hrun|].
  split; [eapply kernel_inv_pointwise; [|exact Hinv']; intros r; symmetry; apply Hcont|].
  split.
  { cbv zeta. rewrite Hcont, Hwl. rewrite Hpc.
    assert (Hle : ∀ x, x ∈ contents s (MutexWaitList a) →
              prio_le s' (Priority tc) x = (prio_val s x <=? Priority tc)).
    { intros x Hx.
      assert (Hxo : x ≠ o) by (intros ->; contradiction).
      assert (Hxc : x ≠ cur).
      { intros ->. pose proof (inv_lists _ _ Hinv) as (_ & _ & Hdisj).
        pose proof (Hdisj _ _ _ Hx Hcin) as E. discriminate E. }
      rewrite <- (Hpv x Hxo). apply prio_le_val.
      destruct (lists_ok_in_heap _ _ _ _ (inv_lists _ _ Hinv) Hx) as [tx Htx].
      assert (E : fields s' x = Some (strip_tcb tx)).
      { rewrite Hf, !decide_False by assumption. apply fields_Some, Htx. }
      destruct (fields_lookup _ _ _ E) as (t' & Ht' & _). eauto. }
    rewrite (take_while_ext_in _ _ _ Hle), (drop_while_ext_in _ _ _ Hle). reflexivity. }
  split; [exact Hpv|].
  split.
  { rewrite Hpc, Hpo. eapply prio_val_set_Priority; [eauto|exact Hfo]. }
  split.
  { destruct (rest_of_mutex _ _ a m Hrest) as (m' & Hm' & Ho' & Hn' & _); [exact Hm|].
    exists m'. split; [exact Hm'|]. split; [congruence|exact Hn']. }
  split.
  { eapply state_of_set_State; [eauto|].
    rewrite Hf, decide_False by congruence. rewrite decide_True by reflexivity. reflexivity. }
  split.
  { intros x Hx. destruct (decide (x = o)) as [->|Hxo].
    - unfold state_of. rewrite Hto.
      rewrite (fields_Some _ _ _ Hto) in Hfo. destruct (fields_lookup _ _ _ Hfo) as (t' & Ht' & Hs).
      rewrite Ht'. cbn. f_equal. exact (f_equal State Hs).
    - apply fields_state_of. rewrite Hf, !decide_False by assumption. reflexivity. }
  split; [rewrite (rest_of_CurrentTCB _ _ Hrest); exact Hcur|].
  split; [exact Hswi|].
  split; [rewrite Hnext, Hcont; reflexivity|].
  rewrite (fields_Some _ _ _ Hto) in Hfo. destruct (fields_lookup _ _ _ Hfo) as (t' & Ht' & Hs).
  exists t'. split; [exact Ht'|].
  replace (State t') with (State to) by (symmetry; exact (f_equal State Hs)).
  replace (Priority t') with (Z.min (Priority tc) (Priority to))
    by (symmetry; exact (f_equal Priority Hs)).
  destruct (State to); [rewrite Hcont; exact Hcons'| |];
    intros p; rewrite Hcont; apply Hcons'.
Qed.

(** [OS_MutexPost] by the owner [cur], final release, with [w] at the head
    of the wait list. *)
Lemma MutexPost_handoff_run s a m cur w rest :
  kernel_ok s = true → current_ready s = true → CurrentTCB s = Some cur →
  mutexes s !! a = Some m → Owner m = Some cur → NestCount m = 1 →
  0 <= orig_val s cur < 32 →
  contents s (MutexWaitList a) = w :: rest →
  ∃ s', OS_MutexPost (Some a) s = (Ret OS_OK, s') ∧
    kernel_inv s' (contents s') ∧
    contents s' (MutexWaitList a) = rest ∧
    (∃ l, contents s' (ReadyListAt (prio_val s w)) = l ++ [w]) ∧
    (∃ m', mutexes s' !! a = Some m' ∧ Owner m' = Some w ∧ NestCount m' = 1) ∧
    (∀ x, x ≠ cur → prio_val s' x = prio_val s x) ∧
    prio_val s' cur = orig_val s cur ∧
    (∀ x, state_of s' x = state_of s x) ∧
    CurrentTCB s' = Some cur ∧ swi_pending s' = true ∧
    NextTCB s' = head (contents s' (ReadyListAt (OS_GetTopPrio (g_PrioMap s')))) ∧
    (∀ r, (∀ p, r ≠ ReadyListAt p) → r ≠ MutexWaitList a → contents s' r = contents s r).
Proof.
  intros Hk Hcr Hcur Hm Ho Hnest Hor Hwl.
  destruct (kernel_ok_sound s Hk) as [Hinv Hn].
  destruct (current_ready_sound s Hcr) as (cur' & tc & Hcur' & Htc & Hcin).
  rewrite Hcur in Hcur'. injection Hcur' as <-.
  assert (Hwin : w ∈ contents s (MutexWaitList a)) by (rewrite Hwl; apply list_elem_of_here).
  destruct (lists_ok_in_heap _ _ _ _ (inv_lists _ _ Hinv) Hwin) as [tw Htw].
  assert (Hor' : 0 <= OriginalPrio tc < 32)
    by (unfold orig_val in Hor; rewrite Htc in Hor; exact Hor).
  pose proof (wp_MutexPost_handoff s (contents s) a m cur tc w rest tw Hinv Hn Hcur Htc Hcin
                Hor' Hm Ho Hnest Hwl Htw) as Hwp.
  apply wp_elim in Hwp
    as (r & s' & Hrun & -> & c' & Hinv' & Hwl' & Hrl & Hframe & Hf & Hm' & Hcur' & Hswi & Hnext).
  assert (Hcont : ∀ r, contents s' r = c' r)
    by (intros r; apply lists_ok_contents, (inv_lists _ _ Hinv')).
  exists s'. split; [exact Hrun|].
  split; [eapply kernel_inv_pointwise; [|exact Hinv']; intros r; symmetry; apply Hcont|].
  split; [rewrite Hcont; exact Hwl'|].
  split.
  { replace (prio_val s w) with (Priority tw)
      by (unfold prio_val, prio_of; rewrite Htw; reflexivity).
    rewrite Hcont. exact Hrl. }
  split; [exact Hm'|].
  split.
  { intros x Hx. apply prio_val_fields. rewrite Hf, decide_False by exact Hx. reflexivity. }
  split.
  { unfold orig_val. rewrite Htc. cbn. eapply prio_val_set_Priority; [eauto|].
    rewrite Hf, decide_True by reflexivity. reflexivity. }
  split.
  { intros x. specialize (Hf x). destruct (decide (x = cur)) as [->|].
    - unfold state_of. rewrite Htc.
      rewrite (fields_Some _ _ _ Htc) in Hf. destruct (fields_lookup _ _ _ Hf) as (t' & Ht' & Hs).
      rewrite Ht'. cbn. f_equal. exact (f_equal State Hs).
    - apply fields_state_of, Hf. }
  split; [exact Hcur'|]. split; [exact Hswi|].
  split; [rewrite Hnext, Hcont; reflexivity|].
  intros r Hr Hra. rewrite Hcont. apply Hframe; assumption.
Qed.

(** ** The branches of [OS_MutexPend] and [OS_MutexPost] that link nothing *)

Lemma same_core_exit s n :
  same_core s (if n =? 0 then set_irq_enabled true (set_g_CriticalNesting n s)
               else set_g_CriticalNesting n s).
Proof. destruct (n =? 0); same_core_tac. Qed.

Lemma mutexes_exit s n :
  mutexes (if n =? 0 then set_irq_enabled true (set_g_CriticalNesting n s)
           else set_g_CriticalNesting n s) = mutexes s.
Proof. destruct (n =? 0); reflexivity. Qed.

(** [OS_MutexPend] on a free mutex. *)
Lemma MutexPend_free_run s a m cur :
  0 <= g_CriticalNesting s < 2 ^ 32 - 1 →
  CurrentTCB s = Some cur → mutexes s !! a = Some m → Owner m = None →
  ∃ s' m', OS_MutexPend (Some a) s = (Ret OS_OK, s') ∧ same_core s s' ∧
           mutexes s' !! a = Some m' ∧ Owner m' = Some cur ∧ NestCount m' = 1.
Proof.
  intros Hn Hcur Hm Ho. destruct (enter_exit_nesting _ Hn) as [Hn1 Hn2].
  enough (Hwp : wp (OS_MutexPend (Some a)) (λ r s', r = OS_OK ∧ same_core s s' ∧
           ∃ m', mutexes s' !! a = Some m' ∧ Owner m' = Some cur ∧ NestCount m' = 1) s).
  { apply wp_elim in Hwp as (r & s' & Hrun & -> & Hcore & m' & Hm').
    exists s', m'. auto. }
  unfold OS_MutexPend.
  apply wp_bind, wp_OS_EnterCritical.
  apply wp_bind. eapply wp_load_mutex; [exact Hm|].
  apply wp_bind, wp_gets. cbn [CurrentTCB set_g_CriticalNesting set_irq_enabled].
  rewrite Hcur, Ho. cbn [is_null].
  apply wp_bind. eapply wp_store_mutex; [exact Hm|].
  apply wp_bind. eapply wp_store_mutex; [apply lookup_insert_eq|].
  apply wp_bind. apply wp_OS_ExitCritical; [exact Hn1|].
  apply wp_ret. split; [reflexivity|]. cbv zeta.
  split.
  + eapply same_core_trans; [|apply same_core_exit].
    split; [|repeat split; reflexivity].
    intros [p|  |b|b|b|b]; try reflexivity.
    unfold get_list. cbn [mutexes set_mutexes set_g_CriticalNesting set_irq_enabled].
    rewrite !lookup_insert. case_decide; [subst b; rewrite Hm|]; reflexivity.
  + rewrite mutexes_exit. cbn [mutexes set_mutexes]. rewrite lookup_insert_eq.
    eexists. split; [reflexivity|]. split; reflexivity.
Qed.

(** [OS_MutexPend] by the owner. *)
Lemma MutexPend_nested_run s a m cur :
  0 <= g_CriticalNesting s < 2 ^ 32 - 1 →
  CurrentTCB s = Some cur → mutexes s !! a = Some m → Owner m = Some cur →
  ∃ s' m', OS_MutexPend (Some a) s = (Ret OS_OK, s') ∧ same_core s s' ∧
           mutexes s' !! a = Some m' ∧ Owner m' = Some cur ∧
           NestCount m' = u8 (NestCount m + 1).
Proof.
  intros Hn Hcur Hm Ho. destruct (enter_exit_nesting _ Hn) as [Hn1 Hn2].
  enough (Hwp : wp (OS_MutexPend (Some a)) (λ r s', r = OS_OK ∧ same_core s s' ∧
           ∃ m', mutexes s' !! a = Some m' ∧ Owner m' = Some cur ∧
                 NestCount m' = u8 (NestCount m + 1)) s).
  { apply wp_elim in Hwp as (r & s' & Hrun & -> & Hcore & m' & Hm').
    exists s', m'. auto. }
  unfold OS_MutexPend.
  apply wp_bind, wp_OS_EnterCritical.
  apply wp_bind. eapply wp_load_mutex; [exact Hm|].
  apply wp_bind, wp_gets. cbn [CurrentTCB set_g_CriticalNesting set_irq_enabled].
  rewrite Hcur, Ho. cbn [is_null]. rewrite bool_decide_eq_true_2 by reflexivity.
  apply wp_bind. eapply wp_store_mutex; [exact Hm|].
  apply wp_bind. apply wp_OS_ExitCritical; [exact Hn1|].
  apply wp_ret. split; [reflexivity|]. cbv zeta.
  split.
  + eapply same_core_trans; [|apply same_core_exit].
    eapply same_core_trans; [|apply (same_core_store_mutex _ a m); [exact Hm|reflexivity]].
    same_core_tac.
  + rewrite mutexes_exit. cbn [mutexes set_mutexes]. rewrite lookup_insert_eq.
    eexists. split; [reflexivity|]. split; [exact Ho|reflexivity].
Qed.

(** [OS_MutexPost] by a task that does not own the mutex. *)
Lemma MutexPost_not_owner_run s a m :
  0 <= g_CriticalNesting s < 2 ^ 32 - 1 →
  mutexes s !! a = Some m → Owner m ≠ CurrentTCB s →
  OS_MutexPost (Some a) s = (Ret OS_ERR_NOT_OWNER, set_irq_enabled (irq_after s) s).
Proof.
  intros Hn Hm Ho.
  enough (Hwp : wp (OS_MutexPost (Some a))
            (λ r s', r = OS_ERR_NOT_OWNER ∧ s' = set_irq_enabled (irq_after s) s) s).
  { apply wp_elim in Hwp as (r & s' & Hrun & -> & ->). exact Hrun. }
  destruct (enter_exit_nesting _ Hn) as [Hn1 Hn2].
  unfold OS_MutexPost.
  apply wp_bind, wp_OS_EnterCritical.
  apply wp_bind. eapply wp_load_mutex; [exact Hm|].
  apply wp_bind, wp_gets. cbn [CurrentTCB set_g_CriticalNesting set_irq_enabled].
  rewrite bool_decide_eq_false_2 by exact Ho. cbn [negb].
  apply wp_bind. apply wp_OS_ExitCritical; [exact Hn1|].
  apply wp_ret. split; [reflexivity|]. apply critical_roundtrip. exact Hn.
Qed.

(** [OS_MutexPost] by the owner, not the final release. *)
Lemma MutexPost_nested_run s a m :
  0 <= g_CriticalNesting s < 2 ^ 32 - 1 →
  mutexes s !! a = Some m → Owner m = CurrentTCB s → 0 < u8 (NestCount m - 1) →
  ∃ s' m', OS_MutexPost (Some a) s = (Ret OS_OK, s') ∧ same_core s s' ∧
           mutexes s' !! a = Some m' ∧ Owner m' = Owner m ∧
           NestCount m' = u8 (NestCount m - 1).
Proof.
  intros Hn Hm Ho Hpos. destruct (enter_exit_nesting _ Hn) as [Hn1 Hn2].
  enough (Hwp : wp (OS_MutexPost (Some a)) (λ r s', r = OS_OK ∧ same_core s s' ∧
           ∃ m', mutexes s' !! a = Some m' ∧ Owner m' = Owner m ∧
                 NestCount m' = u8 (NestCount m - 1)) s).
  { apply wp_elim in Hwp as (r & s' & Hrun & -> & Hcore & m' & Hm').
    exists s', m'. auto. }
  unfold OS_MutexPost.
  apply wp_bind, wp_OS_EnterCritical.
  apply wp_bind. eapply wp_load_mutex; [exact Hm|].
  apply wp_bind, wp_gets. cbn [CurrentTCB set_g_CriticalNesting set_irq_enabled].
  rewrite bool_decide_eq_true_2 by exact Ho. cbn [negb].
  apply wp_bind. eapply wp_store_mutex; [exact Hm|].
  apply wp_bind. eapply wp_load_mutex; [apply lookup_insert_eq|].
  cbn [NestCount set_NestCount].
  replace (u8 (NestCount m - 1) >? 0) with true by (symmetry; apply Z.gtb_lt; exact Hpos).
  apply wp_bind. apply wp_OS_ExitCritical; [exact Hn1|].
  apply wp_ret. split; [reflexivity|]. cbv zeta.
  split.
  + eapply same_core_trans; [|apply same_core_exit].
    eapply same_core_trans; [|apply (same_core_store_mutex _ a m); [exact Hm|reflexivity]].
    same_core_tac.
  + rewrite mutexes_exit. cbn [mutexes set_mutexes]. rewrite lookup_insert_eq.
    eexists. split; [reflexivity|]. split; reflexivity.
Qed.

(** [OS_MutexPost] by the owner, final release, nobody waiting. *)
Lemma MutexPost_release_run s a m cur :
  kernel_ok s = true → current_ready s = true → CurrentTCB s = Some cur →
  mutexes s !! a = Some m → Owner m = Some cur → NestCount m = 1 →
  0 <= orig_val s cur < 32 →
  contents s (MutexWaitList a) = [] →
  ∃ s' m', OS_MutexPost (Some a) s = (Ret OS_OK, s') ∧
           mutexes s' !! a = Some m' ∧ Owner m' = None ∧
           contents s' (MutexWaitList a) = [] ∧ NestCount m' = 0 ∧
           (∀ x, x ≠ cur → prio_val s' x = prio_val s x) ∧
           (∀ r, (∀ p, r ≠ ReadyListAt p) → contents s' r = contents s r).
Proof.
  intros Hk Hcr Hcur Hm Ho Hnest Hor Hwl.
  destruct (kernel_ok_sound s Hk) as [Hinv Hn].
  destruct (current_ready_sound s Hcr) as (cur' & tc & Hcur' & Htc & Hcin).
  rewrite Hcur in Hcur'. injection Hcur' as <-.
  assert (Hor' : 0 <= OriginalPrio tc < 32)
    by (unfold orig_val in Hor; rewrite Htc in Hor; exact Hor).
  destruct (enter_exit_nesting _ Hn) as [Hn1 Hn2].
  enough (Hwp : wp (OS_MutexPost (Some a)) (λ r s', r = OS_OK ∧
            ∃ m', mutexes s' !! a = Some m' ∧ Owner m' = None ∧
                  contents s' (MutexWaitList a) = [] ∧ NestCount m' = 0 ∧
                  (∀ x, x ≠ cur → prio_val s' x = prio_val s x) ∧
                  (∀ r, (∀ p, r ≠ ReadyListAt p) → contents s' r = contents s r)) s).
  { apply wp_elim in Hwp as (r & s' & Hrun & -> & m' & Hm').
    exists s', m'. auto. }
  set (c := contents s) in *.
  unfold OS_MutexPost.
  apply wp_bind, wp_OS_EnterCritical.
  set (s0 := set_g_CriticalNesting _ _).
  assert (Hinv0 : kernel_inv s0 c) by (eapply same_core_inv; [|exact Hinv]; same_core_tac).
  apply wp_bind. eapply wp_load_mutex; [exact Hm|].
  apply wp_bind, wp_gets. cbn [CurrentTCB s0 set_g_CriticalNesting set_irq_enabled].
  rewrite Hcur, Ho. rewrite bool_decide_eq_true_2 by reflexivity. cbn [negb].
  apply wp_bind. eapply wp_store_mutex; [exact Hm|].
  set (s1 := set_mutexes _ s0).
  assert (Hm1 : mutexes s1 !! a = Some (set_NestCount (u8 (NestCount m - 1)) m))
    by apply lookup_insert_eq.
  assert (Hinv1 : kernel_inv s1 c).
  { eapply same_core_inv; [|exact Hinv0].
    apply (same_core_store_mutex s0 a m); [exact Hm|reflexivity]. }
  apply wp_bind. eapply wp_load_mutex; [exact Hm1|].
  cbn [NestCount set_NestCount]. rewrite Hnest. change (u8 (1 - 1) >? 0) with false.
  cbv iota.
  apply wp_bind. eapply wp_load_tcb; [exact Htc|].
  apply wp_bind.
  eapply (wp_MutexPost_restore s1 c cur tc); try eassumption.
  intros s2 c2 Hinv2 Hc2 Hkeep Hcin2 Hf2 Hr2.
  destruct (rest_of_mutex _ _ a _ Hr2 Hm1) as (m2 & Hm2 & _ & Hnc2 & _).
  apply wp_bind. eapply wp_load_mutex; [exact Hm2|].
  assert (Hwl2 : c2 (MutexWaitList a) = []) by (rewrite Hc2 by discriminate; exact Hwl).
  pose proof (proj1 (inv_lists _ _ Hinv2) (MutexWaitList a)) as Hrep2.
  rewrite (get_MutexWaitList _ _ _ Hm2), Hwl2 in Hrep2.
  rewrite (repr_head _ _ _ Hrep2). cbn [head is_null].
  apply wp_bind. eapply wp_store_mutex; [exact Hm2|].
  assert (Hn2' : g_CriticalNesting s2 = u32 (g_CriticalNesting s + 1))
    by (rewrite (rest_of_nesting _ _ Hr2); reflexivity).
  apply wp_bind. apply wp_OS_ExitCritical; [cbn [g_CriticalNesting set_mutexes]; rewrite Hn2'; exact Hn1|].
  apply wp_ret. split; [reflexivity|]. cbv zeta.
  match goal with |- ∃ m', mutexes ?s' !! _ = _ ∧ _ => set (s4 := s') end.
  set (s3 := set_mutexes (<[a := set_Owner None m2]> (mutexes s2)) s2) in *.
  assert (Hcore : same_core s2 s4).
  { eapply same_core_trans; [|apply same_core_exit].
    apply (same_core_store_mutex s2 a m2); [exact Hm2|reflexivity]. }
  exists (set_Owner None m2).
  split; [unfold s4; rewrite mutexes_exit; apply lookup_insert_eq|].
  split; [reflexivity|].
  split.
  { rewrite (same_core_contents _ _ _ Hcore).
    rewrite (lists_ok_contents _ _ _ (inv_lists _ _ Hinv2)). exact Hwl2. }
  split.
  { cbn [NestCount set_Owner]. rewrite Hnc2. cbn [NestCount set_NestCount].
    rewrite Hnest. reflexivity. }
  split.
  - intros x Hx. transitivity (prio_val s2 x).
    { pose proof Hcore as (_ & E & _). unfold prio_val, prio_of. rewrite E. reflexivity. }
    apply prio_val_fields. rewrite Hf2, decide_False by exact Hx. reflexivity.
  - intros r Hr. rewrite (same_core_contents _ _ _ Hcore).
    rewrite (lists_ok_contents _ _ _ (inv_lists _ _ Hinv2)). apply Hc2, Hr.
Qed.

(** ** Invariant I6 across one call *)

Lemma same_core_prio_val s s' x : same_core s s' → prio_val s' x = prio_val s x.
Proof. intros (_ & E & _). unfold prio_val, prio_of. rewrite E. reflexivity. Qed.

Lemma I6_same_core s s' a m m' :
  same_core s s' → mutexes s !! a = Some m → mutexes s' !! a = Some m' →
  Owner m' = Owner m → I6 s a → I6 s' a.
Proof.
  intros Hc Hm Hm' Ho. unfold I6. rewrite Hm, Hm', Ho.
  destruct (Owner m) as [o|]; [|auto].
  rewrite (same_core_contents _ _ _ Hc).
  intros H. eapply Forall_impl; [exact H|].
  intros w. cbv beta. rewrite !(same_core_prio_val _ _ _ Hc). auto.
Qed.

Lemma sorted_same_core s s' l : same_core s s' → sorted_by_prio s l → sorted_by_prio s' l.
Proof.
  intros Hc. unfold sorted_by_prio.
  rewrite (list_fmap_ext (prio_val s') (prio_val s) l); [auto|].
  intros i x _. apply same_core_prio_val, Hc.
Qed.

Lemma sorted_by_prio_ext s s' l :
  (∀ x, x ∈ l → prio_val s' x = prio_val s x) → sorted_by_prio s l → sorted_by_prio s' l.
Proof.
  intros E. unfold sorted_by_prio.
  rewrite (list_fmap_ext (prio_val s') (prio_val s) l); [auto|].
  intros i x Hix. apply E. eapply list_elem_of_lookup_2, Hix.
Qed.

Lemma mutex_ok_sound s a m :
  mutex_ok s a = true → mutexes s !! a = Some m →
  0 <= NestCount m < 256 ∧
  match Owner m with
  | None => contents s (MutexWaitList a) = []
  | Some o => owner_ok s o = true ∧ o ∉ contents s (MutexWaitList a)
  end.
Proof.
  unfold mutex_ok. intros H Hm. rewrite Hm in H.
  rewrite !andb_true_iff in H. destruct H as [[H1 H2] H3].
  split; [lia|].
  destruct (Owner m) as [o|].
  - apply andb_true_iff in H3 as [H3 H4]. split; [exact H3|].
    eapply bool_decide_eq_true_1. exact H4.
  - eapply bool_decide_eq_true_1. exact H3.
Qed.

(** ** The delta encoding of the delay list *)

(** Inserting with [delta_insert] is inserting by wake offset. *)
Lemma offsets_delta_insert x t : ∀ l acc,
  offsets acc (delta_insert x t l) = offset_insert x (acc + t) (offsets acc l).
Proof.
  intros l. revert t. induction l as [|[y d] l IH]; intros t acc; cbn.
  - reflexivity.
  - destruct (d >? t) eqn:E.
    + replace (acc + d >? acc + t) with true
        by (symmetry; apply Z.gtb_lt; apply Z.gtb_lt in E; lia).
      cbn. replace (acc + t + (d - t)) with (acc + d) by lia. reflexivity.
    + replace (acc + d >? acc + t) with false
        by (symmetry; rewrite Z.gtb_ltb in E |- *; apply Z.ltb_ge; apply Z.ltb_ge in E; lia).
      cbn. rewrite IH. replace (acc + d + (t - d)) with (acc + t) by lia. reflexivity.
Qed.

Lemma walk_delay_app δ : ∀ l t a r b, walk_delay δ t l = (a, r, b) → l = a ++ b.
Proof.
  induction l as [|y l IH]; intros t a r b; cbn.
  - intros E. injection E as <- _ <-. reflexivity.
  - destruct (t >=? δ y).
    + destruct (walk_delay δ (t - δ y) l) as [[a' r'] b'] eqn:E'.
      intros E. injection E as <- _ <-. cbn. f_equal. eapply IH. exact E'.
    + intros E. injection E as <- _ <-. reflexivity.
Qed.

Lemma walk_delay_bounds δ : ∀ l t a r b,
  (∀ y, y ∈ l → 0 <= δ y) → 0 <= t → walk_delay δ t l = (a, r, b) →
  0 <= r <= t ∧ (∀ y, head b = Some y → r < δ y).
Proof.
  induction l as [|y l IH]; intros t a r b Hδ Ht; cbn.
  - intros E. injection E as _ <- <-. split; [lia|]. intros y E. discriminate E.
  - destruct (t >=? δ y) eqn:Hge.
    + destruct (walk_delay δ (t - δ y) l) as [[a' r'] b'] eqn:E'.
      intros E. injection E as _ <- <-.
      rewrite Z.geb_leb in Hge. apply Z.leb_le in Hge.
      pose proof (Hδ y (list_elem_of_here _ _)) as Hy.
      destruct (IH (t - δ y) a' r' b') as [H1 H2];
        [intros z Hz; apply Hδ, list_elem_of_further, Hz|lia|exact E'|].
      split; [lia|exact H2].
    + intros E. injection E as _ <- <-.
      rewrite Z.geb_leb in Hge. apply Z.leb_gt in Hge.
      split; [lia|]. intros z E. injection E as <-. exact Hge.
Qed.

(** The walk and the spec's insertion agree. *)
Lemma delta_insert_walk δ x : ∀ l t a r b,
  walk_delay δ t l = (a, r, b) →
  delta_insert x t ((λ y, (y, δ y)) <$> l)
  = ((λ y, (y, δ y)) <$> a) ++ (x, r) ::
    match b with
    | [] => []
    | y :: b' => (y, δ y - r) :: ((λ y, (y, δ y)) <$> b')
    end.
Proof.
  induction l as [|y l IH]; intros t a r b; cbn.
  - intros E. injection E as <- <- <-. reflexivity.
  - rewrite Z.geb_leb, Z.gtb_ltb. destruct (Z.leb_spec (δ y) t) as [Hle|Hgt].
    + destruct (walk_delay δ (t - δ y) l) as [[a' r'] b'] eqn:E'.
      intros E. injection E as <- <- <-.
      replace (t <? δ y) with false by (symmetry; apply Z.ltb_ge; lia).
      cbn. f_equal. apply IH. exact E'.
    + intros E. injection E as <- <- <-.
      replace (t <? δ y) with true by (symmetry; apply Z.ltb_lt; lia).
      reflexivity.
Qed.

Lemma delay_val_Some s x t : tcbs s !! x = Some t → delay_val s x = DelayTicks t.
Proof. intros E. unfold delay_val, delay_of. rewrite E. reflexivity. Qed.

(** The walk of [OS_Delay] along the delay list, from the node after
    [l1]: it changes nothing and stops at the node that [walk_delay]
    says, with the ticks it says. *)
Lemma Delay_Walk_spec s c : ∀ l2 l1 fuel t,
  kernel_inv s c → c DelayListRef = l1 ++ l2 → 0 <= t < 2 ^ 32 →
  (length l2 ≤ fuel)%nat →
  Delay_Walk fuel (head l2) t s
  = (let '(a, r, b) := walk_delay (delay_val s) t l2 in (Ret (head b, r), s)).
Proof.
  induction l2 as [|y l2 IH]; intros l1 fuel t Hinv Hc Ht Hlen.
  - destruct fuel; reflexivity.
  - pose proof (inv_lists _ _ Hinv) as Hok. pose proof Hok as (Hrep & _).
    specialize (Hrep DelayListRef). rewrite get_DelayList, Hc in Hrep.
    destruct (repr_links _ _ _ _ _ Hrep) as (ty & Hy & Hny & _).
    destruct (inv_tcb _ _ (inv_data _ _ Hinv) y ty Hy) as [_ Hdy].
    cbn [walk_delay head]. rewrite (delay_val_Some _ _ _ Hy).
    destruct fuel as [|fuel]; [cbn in Hlen; lia|].
    cbn [Delay_Walk is_null]. unfold bind at 1, load_tcb at 1. rewrite Hy.
    destruct (t >=? DelayTicks ty) eqn:Hge; [|reflexivity].
    rewrite Z.geb_leb in Hge. apply Z.leb_le in Hge.
    rewrite Hny.
    replace (u32 (t - DelayTicks ty)) with (t - DelayTicks ty)
      by (unfold u32; rewrite Z.mod_small; lia).
    rewrite (IH (l1 ++ [y]) fuel (t - DelayTicks ty)); try assumption.
    + destruct (walk_delay (delay_val s) (t - DelayTicks ty) l2) as [[a r] b]. reflexivity.
    + rewrite <- app_assoc. exact Hc.
    + lia.
    + cbn in Hlen. lia.
Qed.

Lemma data_of_intro s s' :
  (∀ x, fields s' x = fields s x) →
  set_tcbs ∅ (data_of s') = set_tcbs ∅ (data_of s) →
  data_of s' = data_of s.
Proof.
  intros Hf Hr.
  assert (Ht : strip_tcb <$> tcbs s' = strip_tcb <$> tcbs s).
  { apply map_eq. intros x. rewrite !lookup_fmap. apply Hf. }
  unfold data_of in *. cbn in Hr. rewrite Ht. injection Hr as -> -> -> -> -> -> -> -> -> -> -> -> -> ->.
  reflexivity.
Qed.

(** The state of the control blocks that [OS_Delay] leaves: [r] ticks for
    the caller, and [r] ticks less for its successor. *)
Lemma kernel_inv_delay_fields s c cur tc r b :
  kernel_inv s c → tcbs s !! cur = Some tc → 0 <= r < 2 ^ 32 →
  (∀ y, head b = Some y → y ≠ cur ∧ is_Some (tcbs s !! y) ∧ r < delay_val s y) →
  let sA := upd_tcb cur (set_DelayTicks r) s in
  let sB := match b with
            | [] => sA
            | y :: _ => upd_tcb y (set_DelayTicks (delay_val s y - r)) sA
            end in
  kernel_inv sA c ∧ kernel_inv sB c.
Proof.
  intros Hinv Htc Hr Hb sA sB.
  destruct (inv_tcb _ _ (inv_data _ _ Hinv) cur tc Htc) as [Hpc _].
  assert (HA : kernel_inv sA c).
  { unfold sA. rewrite (upd_tcb_Some _ _ _ _ Htc).
    eapply kernel_inv_store; [exact Hinv|exact Htc|reflexivity|reflexivity| | |left; reflexivity].
    - exact Hpc.
    - exact Hr. }
  split; [exact HA|].
  destruct b as [|y b']; [exact HA|].
  destruct (Hb y eq_refl) as (Hyc & [ty Hy] & Hlt).
  assert (HyA : tcbs sA !! y = Some ty).
  { unfold sA. rewrite lookup_upd_tcb, decide_False by exact Hyc. exact Hy. }
  destruct (inv_tcb _ _ (inv_data _ _ Hinv) y ty Hy) as [Hpy Hdy].
  rewrite (delay_val_Some _ _ _ Hy) in *.
  unfold sB. rewrite (upd_tcb_Some _ _ _ _ HyA).
  eapply kernel_inv_store; [exact HA|exact HyA|reflexivity|reflexivity| | |left; reflexivity].
  - exact Hpy.
  - cbn [DelayTicks set_DelayTicks]. rewrite (delay_val_Some _ _ _ Hy). lia.
Qed.

Ltac lookup_in H :=
  repeat first [rewrite lookup_insert_eq in H | rewrite lookup_insert_ne in H by congruence].

Lemma data_of_upd_tcb_rest x f s :
  set_tcbs ∅ (data_of (upd_tcb x f s)) = set_tcbs ∅ (data_of s).
Proof. unfold upd_tcb. destruct (tcbs s !! x); reflexivity. Qed.

(** Lines 250-297 of [OS_Delay]: the caller [cur], which is on no list,
    is linked into the delay list where [walk_delay] stops, with the ticks
    that are left, and these are taken off its successor. *)
Lemma wp_Delay_Enqueue s c cur tc ticks (Q : unit → Kernel → Prop) :
  kernel_inv s c → tcbs s !! cur = Some tc → (∀ r, cur ∉ c r) →
  0 <= ticks < 2 ^ 32 →
  (∀ s' a r b,
     walk_delay (delay_val s) ticks (c DelayListRef) = (a, r, b) →
     lists_ok s' (<[DelayListRef := a ++ cur :: b]> c) →
     data_of s' = data_of (match b with
                           | [] => upd_tcb cur (set_DelayTicks r) s
                           | y :: _ => upd_tcb y (set_DelayTicks (delay_val s y - r))
                                         (upd_tcb cur (set_DelayTicks r) s)
                           end) →
     Q tt s') →
  wp (if is_null (Head (DelayList s)) then
        store_tcb (Some cur) (set_DelayTicks ticks) ;;
        List_InsertTail DelayListRef (Some cur)
      else
        fuel ← walk_fuel;
        found ← Delay_Walk fuel (Head (DelayList s)) ticks;
        let iter := fst found in
        let ticks := snd found in
        store_tcb (Some cur) (set_DelayTicks ticks) ;;
        s_DelayList ← gets DelayList;
        if is_null iter then List_InsertTail DelayListRef (Some cur)
        else if bool_decide (iter = Head s_DelayList) then
          i ← load_tcb iter;
          store_tcb iter (set_DelayTicks (u32 (DelayTicks i - ticks))) ;;
          store_tcb (Some cur) (set_Next iter) ;;
          store_tcb iter (set_Prev (Some cur)) ;;
          store_tcb (Some cur) (set_Prev None) ;;
          modify (λ s, set_DelayList (set_Head (Some cur) (DelayList s)) s)
        else
          i ← load_tcb iter;
          store_tcb iter (set_DelayTicks (u32 (DelayTicks i - ticks))) ;;
          store_tcb (Some cur) (set_Next iter) ;;
          i ← load_tcb iter;
          store_tcb (Some cur) (set_Prev (Prev i)) ;;
          i ← load_tcb iter;
          store_tcb (Prev i) (set_Next (Some cur)) ;;
          store_tcb iter (set_Prev (Some cur))) Q s.
Proof.
  intros Hinv Htc Hfresh Ht HQ.
  pose proof (inv_lists _ _ Hinv) as Hok. pose proof Hok as (Hrep & Hnd & Hdisj).
  pose proof (Hrep DelayListRef) as Hr. rewrite get_DelayList in Hr.
  pose proof (repr_head _ _ _ Hr) as HH.
  destruct (walk_delay (delay_val s) ticks (c DelayListRef)) as [[a r] b] eqn:Hw.
  assert (HQ' := λ s', HQ s' a r b eq_refl). clear HQ. rename HQ' into HQ.
  pose proof (walk_delay_app _ _ _ _ _ _ Hw) as Hsplit.
  assert (Hδ : ∀ y, y ∈ c DelayListRef → 0 <= delay_val s y).
  { intros y Hy. destruct (lists_ok_in_heap s c y DelayListRef Hok Hy) as [ty Hty].
    rewrite (delay_val_Some _ _ _ Hty).
    apply (inv_tcb _ _ (inv_data _ _ Hinv) y ty Hty). }
  destruct (walk_delay_bounds (delay_val s) _ _ a r b Hδ (proj1 Ht) Hw) as [Hrb Hrlt].
  assert (Hr32 : 0 <= r < 2 ^ 32) by lia.
  (* the insertion at the tail, after the caller's ticks are stored *)
  assert (Htail : b = [] →
            wp (List_InsertTail DelayListRef (Some cur)) Q
               (set_tcbs (<[cur := set_DelayTicks r tc]> (tcbs s)) s)).
  { intros ->. rewrite app_nil_r in Hsplit.
    eapply wp_List_InsertTail;
      [eapply lists_ok_store; [exact Hok|exact Htc|reflexivity|reflexivity]
      |apply get_DelayList|apply lookup_insert_eq|exact Hfresh|].
    intros s' Hok' Hdata' _. apply HQ.
    - rewrite Hsplit in Hok'. exact Hok'.
    - rewrite Hdata', (upd_tcb_Some _ _ _ _ Htc). reflexivity. }
  rewrite HH.
  destruct (c DelayListRef) as [|h t] eqn:Hc; cbn [head is_null].
  - (* empty delay list *)
    cbn in Hw. injection Hw as <- <- <-.
    apply wp_bind. eapply wp_store_tcb; [exact Htc|]. apply Htail. reflexivity.
  - apply wp_bind. unfold walk_fuel. apply wp_gets.
    apply wp_bind. eapply wp_intro.
    { change (Some h) with (head (h :: t)).
      rewrite (Delay_Walk_spec s c (h :: t) [] _ ticks Hinv Hc Ht).
      - rewrite Hw. reflexivity.
      - rewrite <- Hc. apply NoDup_heap_length; [apply Hnd|].
        intros y Hy. eapply lists_ok_in_heap; eauto. }
    cbn [fst snd].
    apply wp_bind. eapply wp_store_tcb; [exact Htc|].
    apply wp_bind, wp_gets. cbn [DelayList set_tcbs]. rewrite HH.
    destruct b as [|y b'] eqn:Hb; cbn [head is_null].
    + apply Htail. reflexivity.
    + (* before the node [y] *)
      assert (Hyin : y ∈ h :: t).
      { rewrite Hsplit. apply elem_of_app. right. apply list_elem_of_here. }
      destruct (repr_in_heap _ _ _ y Hr Hyin) as [ty Hy].
      assert (Hyc : y ≠ cur).
      { intros ->. apply (Hfresh DelayListRef). rewrite Hc. exact Hyin. }
      pose proof (Hrlt y eq_refl) as Hlt. rewrite (delay_val_Some _ _ _ Hy) in Hlt.
      destruct (inv_tcb _ _ (inv_data _ _ Hinv) y ty Hy) as [_ Hdy].
      assert (Eu : u32 (DelayTicks ty - r) = delay_val s y - r).
      { rewrite (delay_val_Some _ _ _ Hy). unfold u32. apply Z.mod_small. lia. }
      pose proof (Hnd DelayListRef) as Hndl. rewrite Hc, Hsplit in Hndl.
      rewrite Hsplit in Hr.
      destruct (repr_links _ _ _ _ _ Hr) as (ty' & Hy' & _ & Hpy).
      rewrite Hy in Hy'. injection Hy' as <-.
      (* what both ways of linking must establish *)
      assert (Hgoal : ∀ s',
        get_list DelayListRef s'
        = Some (if a is [] then set_Head (Some cur) (DelayList s) else DelayList s) →
        (∀ r', r' ≠ DelayListRef → get_list r' s' = get_list r' s) →
        set_tcbs ∅ (data_of s') = set_tcbs ∅ (data_of s) →
        (∀ x, tcbs s' !! x = None ↔ tcbs s !! x = None) →
        (∀ x tx, tcbs s' !! x = Some tx →
           DelayTicks tx = (if decide (x = y) then delay_val s y - r
                            else if decide (x = cur) then r else delay_val s x) ∧
           ∃ tx0, tcbs s !! x = Some tx0 ∧
                  set_DelayTicks 0 (strip_tcb tx) = set_DelayTicks 0 (strip_tcb tx0)) →
        next_at (tcbs s') cur = Some (Some y) → prev_at (tcbs s') cur = Some (last a) →
        (∀ z, last a = Some z → next_at (tcbs s') z = Some (Some cur)) →
        prev_at (tcbs s') y = Some (Some cur) →
        (∀ x, x ≠ cur → last a ≠ Some x → next_at (tcbs s') x = next_at (tcbs s) x) →
        (∀ x, x ≠ cur → x ≠ y → prev_at (tcbs s') x = prev_at (tcbs s) x) →
        Q tt s').
      { intros s' G1 G2 G3 G4 G5 G6 G7 G8 G9 G10 G11. apply HQ.
        - eapply (lists_ok_insert s s' c DelayListRef _ _ a (y :: b') cur);
            [exact Hok|rewrite Hc; exact Hsplit|exact Hfresh|apply get_DelayList
            |exact G1|exact G2|exact G6|exact G7|exact G8| | | | | ].
          + intros z E. injection E as <-. exact G9.
          + exact G10.
          + intros x Hx Hne. apply G11; [exact Hx|]. intros ->. apply Hne. reflexivity.
          + destruct a; [reflexivity|]. destruct (DelayList s); reflexivity.
          + destruct a; reflexivity.
        - apply data_of_intro; [|rewrite !data_of_upd_tcb_rest; exact G3].
          intros x. unfold fields. rewrite !lookup_upd_tcb.
          destruct (tcbs s' !! x) as [tx|] eqn:Hx.
          + destruct (G5 x tx Hx) as (Hd & tx0 & Hx0 & Hs).
            destruct (decide (x = y)) as [->|Hxy].
            * rewrite decide_False by exact Hyc. rewrite Hx0. cbn.
              f_equal. rewrite (delay_val_Some _ _ _ Hy) in Hd |- *.
              destruct tx, tx0. unfold strip_tcb, set_DelayTicks, set_Prev, set_Next in *. cbn in *. congruence.
            * destruct (decide (x = cur)) as [->|Hxc].
              -- rewrite Hx0. cbn. f_equal. destruct tx, tx0. unfold strip_tcb, set_DelayTicks, set_Prev, set_Next in *. cbn in *. congruence.
              -- rewrite Hx0. cbn. f_equal. rewrite (delay_val_Some _ _ _ Hx0) in Hd.
                 destruct tx, tx0. unfold strip_tcb, set_DelayTicks, set_Prev, set_Next in *. cbn in *. congruence.
          + apply G4 in Hx.
            destruct (decide (x = y)) as [->|Hxy]; [congruence|].
            destruct (decide (x = cur)) as [->|Hxc]; [congruence|].
            rewrite Hx. reflexivity. }
      assert (Hδy : delay_val s y = DelayTicks ty) by (apply delay_val_Some; exact Hy).
      destruct a as [|a0 a'] eqn:Ha.
      * (* [y] is the head of the list *)
        cbn [app] in Hsplit. injection Hsplit as -> ->.
        rewrite bool_decide_eq_true_2 by reflexivity.
        apply wp_bind. eapply wp_load_tcb; [lookup_tac|]. rewrite Eu.
        apply wp_bind. eapply wp_store_tcb; [lookup_tac|].
        apply wp_bind. eapply wp_store_tcb; [lookup_tac|].
        apply wp_bind. eapply wp_store_tcb; [lookup_tac|].
        apply wp_bind. eapply wp_store_tcb; [lookup_tac|].
        apply wp_modify.
        apply Hgoal; [reflexivity|intros [] Hne; try reflexivity; congruence|reflexivity
                     | | | | | | | | ]; cbn [tcbs set_tcbs set_DelayList last].
        -- intros x. rewrite !lookup_insert. repeat case_decide; subst; split; congruence.
        -- intros x tx Hx.
           destruct (decide (x = y)) as [->|Hxy]; [|destruct (decide (x = cur)) as [->|Hxc]];
             lookup_in Hx.
           ++ injection Hx as <-. split; [reflexivity|]. exists ty. split; [exact Hy|reflexivity].
           ++ injection Hx as <-. split; [reflexivity|]. exists tc. split; [exact Htc|reflexivity].
           ++ split; [symmetry; apply delay_val_Some, Hx|]. exists tx. split; [exact Hx|reflexivity].
        -- heap_lookup.
        -- heap_lookup.
        -- intros z E. discriminate E.
        -- heap_lookup.
        -- intros x H1 H2. heap_lookup. symmetry. apply next_at_Some. assumption.
        -- intros x H1 H2. heap_lookup.
      * (* [y] has the predecessor [z] *)
        destruct (last (a0 :: a')) as [z|] eqn:Hlast;
          [|apply last_None in Hlast; discriminate Hlast].
        assert (Hza : z ∈ a0 :: a').
        { apply last_Some in Hlast as [l0 ->]. apply elem_of_app. right. apply list_elem_of_here. }
        assert (Hzin : z ∈ h :: t) by (rewrite Hsplit; apply elem_of_app; left; exact Hza).
        destruct (repr_in_heap _ _ _ z Hr ltac:(apply elem_of_app; left; exact Hza)) as [tz Hz].
        assert (Hzc : z ≠ cur).
        { intros ->. apply (Hfresh DelayListRef). rewrite Hc. exact Hzin. }
        assert (Hya : y ∉ a0 :: a').
        { apply NoDup_app in Hndl as (_ & N & _). intros Hin. apply (N y Hin).
          apply list_elem_of_here. }
        assert (Hzy : z ≠ y) by (intros ->; contradiction).
        rewrite bool_decide_eq_false_2.
        2:{ cbn [app] in Hsplit. injection Hsplit as -> _. intros E. injection E as ->.
            apply Hya. apply list_elem_of_here. }
        apply wp_bind. eapply wp_load_tcb; [lookup_tac|]. rewrite Eu.
        apply wp_bind. eapply wp_store_tcb; [lookup_tac|].
        apply wp_bind. eapply wp_store_tcb; [lookup_tac|].
        apply wp_bind. eapply wp_load_tcb; [lookup_tac|].
        cbn [Prev set_DelayTicks]. rewrite Hpy.
        apply wp_bind. eapply wp_store_tcb; [lookup_tac|].
        apply wp_bind. eapply wp_load_tcb; [lookup_tac|].
        cbn [Prev set_DelayTicks]. rewrite Hpy.
        apply wp_bind. eapply wp_store_tcb; [lookup_tac|].
        eapply wp_store_tcb; [lookup_tac|].
        apply Hgoal; [reflexivity|intros [] Hne; reflexivity|reflexivity
                     | | | | | | | | ]; cbn [tcbs set_tcbs].
        -- intros x. rewrite !lookup_insert. repeat case_decide; subst; split; congruence.
        -- intros x tx Hx.
           destruct (decide (x = y)) as [->|Hxy]; [|destruct (decide (x = cur)) as [->|Hxc]];
             [| |destruct (decide (x = z)) as [->|Hxz]]; lookup_in Hx.
           ++ injection Hx as <-. split; [reflexivity|]. exists ty. split; [exact Hy|reflexivity].
           ++ injection Hx as <-. split; [reflexivity|]. exists tc. split; [exact Htc|reflexivity].
           ++ injection Hx as <-. split; [rewrite (delay_val_Some _ _ _ Hz); reflexivity|].
              exists tz. split; [exact Hz|reflexivity].
           ++ split; [symmetry; apply delay_val_Some, Hx|]. exists tx. split; [exact Hx|reflexivity].
        -- heap_lookup.
        -- heap_lookup.
        -- intros z' E. injection E as <-. heap_lookup.
        -- heap_lookup.
        -- intros x H1 H2. heap_lookup. symmetry. apply next_at_Some. assumption.
        -- intros x H1 H2. heap_lookup. symmetry. apply prev_at_Some. assumption.
Qed.

Lemma walk_delay_ext δ δ' : (∀ x, δ x = δ' x) → ∀ l t, walk_delay δ t l = walk_delay δ' t l.
Proof.
  intros E. induction l as [|y l IH]; intros t; cbn; [reflexivity|].
  rewrite E, IH. reflexivity.
Qed.

Lemma delay_val_fields s s' x : fields s' x = fields s x → delay_val s' x = delay_val s x.
Proof.
  unfold fields, delay_val, delay_of. intros E.
  apply (f_equal (fmap (M:=option) DelayTicks)) in E.
  destruct (tcbs s' !! x), (tcbs s !! x); try discriminate; [|reflexivity].
  cbn in E |- *. congruence.
Qed.

Lemma delay_val_set_DelayTicks s s' x d :
  is_Some (tcbs s !! x) → fields s' x = set_DelayTicks d <$> fields s x → delay_val s' x = d.
Proof.
  intros [t Ht] E. unfold delay_val, delay_of.
  rewrite (fields_Some _ _ _ Ht) in E. destruct (fields_lookup _ _ _ E) as (t' & Ht' & Hs).
  rewrite Ht'. cbn. exact (f_equal DelayTicks Hs).
Qed.

Lemma filter_all {X} (P : X → Prop) `{∀ x, Decision (P x)} (l : list X) :
  (∀ x, x ∈ l → P x) → filter P l = l.
Proof.
  induction l as [|y l IH]; intros E; [reflexivity|].
  rewrite filter_cons_True by (apply E, list_elem_of_here).
  rewrite IH by (intros x Hx; apply E, list_elem_of_further, Hx). reflexivity.
Qed.

Lemma rest_of_upd_tcb x f s : rest_of (upd_tcb x f s) = rest_of s.
Proof. unfold upd_tcb. destruct (tcbs s !! x); reflexivity. Qed.

(** [OS_Delay] by the running task [cur]. *)
Lemma wp_OS_Delay s c cur tc ticks :
  kernel_inv s c → 0 <= g_CriticalNesting s < 2 ^ 32 - 1 →
  CurrentTCB s = Some cur → tcbs s !! cur = Some tc →
  cur ∈ c (ReadyListAt (Priority tc)) →
  (∃ x p, x ≠ cur ∧ x ∈ c (ReadyListAt p)) →
  0 <= ticks < 2 ^ 32 →
  wp (OS_Delay ticks) (λ _ s',
    ∃ c' a r b,
      walk_delay (delay_val s) ticks (c DelayListRef) = (a, r, b) ∧
      kernel_inv s' c' ∧
      c' DelayListRef = a ++ cur :: b ∧
      (∀ p, c' (ReadyListAt p) = filter (λ x, x ≠ cur) (c (ReadyListAt p))) ∧
      (∀ x, fields s' x
            = if decide (x = cur)
              then set_DelayTicks r <$> (set_State TASK_BLOCKED <$> fields s x)
              else if decide (head b = Some x)
                   then set_DelayTicks (delay_val s x - r) <$> fields s x
                   else fields s x) ∧
      rest_of s' = rest_of (set_irq_enabled (irq_after s) s) ∧
      swi_pending s' = true ∧
      NextTCB s' = head (c' (ReadyListAt (OS_GetTopPrio (g_PrioMap s'))))) s.
Proof.
  intros Hinv Hn Hcur Htc Hcin (x0 & p0 & Hx0 & Hx0in) Ht.
  destruct (enter_exit_nesting _ Hn) as [Hn1 Hn2].
  destruct (inv_tcb _ _ (inv_data _ _ Hinv) cur tc Htc) as [Hpc Hdc].
  pose proof (inv_lists _ _ Hinv) as (_ & Hnd & Hdisj).
  unfold OS_Delay.
  apply wp_bind, wp_OS_EnterCritical.
  set (s0 := set_g_CriticalNesting _ _).
  assert (Hinv0 : kernel_inv s0 c) by (eapply same_core_inv; [|exact Hinv]; same_core_tac).
  apply wp_bind, wp_gets. cbn [CurrentTCB s0 set_g_CriticalNesting set_irq_enabled].
  rewrite Hcur.
  apply wp_bind. eapply wp_store_tcb; [exact Htc|].
  set (s1 := set_tcbs _ s0).
  assert (Hinv1 : kernel_inv s1 c).
  { eapply kernel_inv_store; [exact Hinv0|exact Htc|reflexivity|reflexivity| | |left; reflexivity].
    - exact Hpc.
    - exact Hdc. }
  destruct (list_elem_of_split _ _ Hcin) as (l1 & l2 & Hsplit).
  apply wp_bind.
  eapply (wp_OS_ReadyListRemove s1 c cur (set_State TASK_BLOCKED tc) l1 l2);
    [exact Hinv1|apply lookup_insert_eq|exact Hsplit|].
  cbn [Priority set_State].
  intros s2 Hinv2 Hdata2 _.
  set (c2 := <[ReadyListAt (Priority tc) := l1 ++ l2]> c) in *.
  assert (Hnotin : cur ∉ l1 ++ l2).
  { pose proof (Hnd (ReadyListAt (Priority tc))) as N.
    rewrite Hsplit in N. apply NoDup_app in N as (_ & N2 & N3).
    apply NoDup_cons in N3 as [N3 _]. intros Hin. apply elem_of_app in Hin as [Hin|Hin].
    - eapply N2; [exact Hin|apply list_elem_of_here].
    - contradiction. }
  assert (Hfree2 : ∀ r, cur ∉ c2 r).
  { intros r. unfold c2. destruct (decide (r = ReadyListAt (Priority tc))) as [->|Hne].
    - rewrite fn_lookup_insert. exact Hnotin.
    - rewrite fn_lookup_insert_ne by congruence. intros Hin. apply Hne.
      symmetry. eapply Hdisj; [exact Hcin|exact Hin]. }
  assert (Hf2 : ∀ x, fields s2 x
                     = if decide (x = cur) then set_State TASK_BLOCKED <$> fields s x
                       else fields s x).
  { intros x. rewrite (fields_data _ _ x Hdata2).
    change (fields (set_g_PrioMap _ ?s') x) with (fields s' x).
    apply (fields_store s0 cur tc (set_State TASK_BLOCKED) x Htc). reflexivity. }
  assert (Hr2 : rest_of s2 = rest_of s0) by (rewrite (rest_of_data _ _ Hdata2); reflexivity).
  assert (Hfc2 : fields s2 cur = Some (set_State TASK_BLOCKED (strip_tcb tc))).
  { rewrite Hf2, decide_True by reflexivity. rewrite (fields_Some _ _ _ Htc). reflexivity. }
  destruct (fields_lookup _ _ _ Hfc2) as (tc2 & Htc2 & Hs2).
  assert (Hδ2 : ∀ x, delay_val s2 x = delay_val s x).
  { intros x. specialize (Hf2 x). destruct (decide (x = cur)) as [->|].
    - unfold delay_val, delay_of. rewrite Htc2, Htc. cbn. exact (f_equal DelayTicks Hs2).
    - apply delay_val_fields, Hf2. }
  apply wp_bind, wp_gets.
  apply wp_bind.
  eapply (wp_Delay_Enqueue s2 c2 cur tc2 ticks); [exact Hinv2|exact Htc2|exact Hfree2|exact Ht|].
  intros s3 a r b Hw Hok3 Hdata3.
  rewrite (walk_delay_ext _ _ Hδ2) in Hw.
  unfold c2 in Hw. rewrite fn_lookup_insert_ne in Hw by discriminate.
  pose proof (walk_delay_app _ _ _ _ _ _ Hw) as Hl.
  assert (Hδ : ∀ y, y ∈ c DelayListRef → 0 <= delay_val s y).
  { intros y Hy. destruct (lists_ok_in_heap s c y DelayListRef (inv_lists _ _ Hinv) Hy) as [ty Hty].
    rewrite (delay_val_Some _ _ _ Hty).
    apply (inv_tcb _ _ (inv_data _ _ Hinv) y ty Hty). }
  destruct (walk_delay_bounds (delay_val s) _ _ a r b Hδ (proj1 Ht) Hw) as [Hrb Hrlt].
  assert (Hhead : ∀ y, head b = Some y →
            y ≠ cur ∧ is_Some (tcbs s2 !! y) ∧ r < delay_val s2 y).
  { intros y Hy.
    assert (Hyin : y ∈ c2 DelayListRef).
    { unfold c2. rewrite fn_lookup_insert_ne by discriminate. rewrite Hl.
      apply elem_of_app. right. destruct b; [discriminate|]. injection Hy as ->.
      apply list_elem_of_here. }
    split; [intros ->; exact (Hfree2 _ Hyin)|].
    split; [eapply lists_ok_in_heap; [exact (inv_lists _ _ Hinv2)|exact Hyin]|].
    rewrite Hδ2. apply Hrlt, Hy. }
  destruct (kernel_inv_delay_fields s2 c2 cur tc2 r b Hinv2 Htc2 ltac:(lia) Hhead) as [_ HinvB].
  cbv zeta in HinvB.
  set (c3 := <[DelayListRef := a ++ cur :: b]> c2) in *.
  assert (Hinv3 : kernel_inv s3 c3).
  { split; [exact Hok3|]. eapply data_inv_ext; [exact Hdata3|].
    apply data_inv_insert_other; [discriminate|].
    destruct b; exact (inv_data _ _ HinvB). }
  assert (Hc3 : ∀ p, c3 (ReadyListAt p) = filter (λ x, x ≠ cur) (c (ReadyListAt p))).
  { intros p. unfold c3. rewrite fn_lookup_insert_ne by discriminate. unfold c2.
    destruct (decide (p = Priority tc)) as [->|Hne].
    - rewrite fn_lookup_insert, Hsplit, filter_app, filter_cons, decide_False by tauto.
      rewrite <- filter_app. symmetry. apply filter_all.
      intros x Hx ->. contradiction.
    - rewrite fn_lookup_insert_ne by congruence. symmetry. apply filter_all.
      intros x Hx ->. apply Hne.
      pose proof (Hdisj _ _ _ Hx Hcin) as E. injection E as E. exact E. }
  assert (Hx3 : x0 ∈ c3 (ReadyListAt p0)).
  { rewrite Hc3. apply list_elem_of_filter. split; assumption. }
  assert (Hp0 : 0 <= p0 < 32).
  { destruct (lists_ok_in_heap _ _ _ _ (inv_lists _ _ Hinv) Hx0in) as [tx Htx].
    rewrite <- (inv_prio _ _ (inv_data _ _ Hinv) p0 x0 tx Hx0in Htx).
    apply (inv_tcb _ _ (inv_data _ _ Hinv) x0 tx Htx). }
  apply wp_bind. eapply wp_FindNextTask;
    [exact Hinv3|eapply kernel_inv_nonzero; [exact Hinv3|exact Hp0|exact Hx3]|].
  intros nx Hnx.
  apply wp_bind, wp_modify. apply wp_bind, wp_modify.
  assert (Hr3 : rest_of s3 = rest_of s0).
  { rewrite (rest_of_data _ _ Hdata3), <- Hr2.
    destruct b; rewrite !rest_of_upd_tcb; reflexivity. }
  assert (Hn3 : g_CriticalNesting s3 = u32 (g_CriticalNesting s + 1))
    by (rewrite (rest_of_nesting _ _ Hr3); reflexivity).
  apply wp_OS_ExitCritical;
    [cbn [g_CriticalNesting set_swi_pending set_NextTCB]; rewrite Hn3; exact Hn1|].
  cbv zeta. cbn [g_CriticalNesting set_swi_pending set_NextTCB]. rewrite Hn3, Hn2.
  exists c3, a, r, b. split; [exact Hw|].
  match goal with |- kernel_inv ?s' _ ∧ _ => set (s5 := s') end.
  assert (Hcore5 : same_core s3 s5) by (subst s5; destruct (_ =? 0); same_core_tac).
  split; [eapply same_core_inv; eauto|].
  split; [unfold c3; apply fn_lookup_insert|].
  split; [exact Hc3|].
  split.
  { intros x. transitivity (fields s3 x); [subst s5; destruct (_ =? 0); reflexivity|].
    rewrite (fields_data _ _ x Hdata3).
    assert (HfA : ∀ z, fields (upd_tcb cur (set_DelayTicks r) s2) z
                      = if decide (z = cur)
                        then set_DelayTicks r <$> (set_State TASK_BLOCKED <$> fields s z)
                        else fields s z).
    { intros z. rewrite fields_upd_tcb by reflexivity. rewrite Hf2.
      destruct (decide (z = cur)); reflexivity. }
    destruct b as [|y b'].
    - rewrite HfA. destruct (decide (x = cur)); [reflexivity|].
      rewrite decide_False by discriminate. reflexivity.
    - destruct (Hhead y eq_refl) as (Hyc & _ & _).
      rewrite fields_upd_tcb by reflexivity. rewrite HfA, Hδ2. cbn [head].
      destruct (decide (x = y)) as [->|Hxy].
      + rewrite !(decide_False (P := y = cur)) by exact Hyc.
        rewrite (decide_True (P := Some y = Some y)) by reflexivity. reflexivity.
      + destruct (decide (x = cur)); [reflexivity|].
        rewrite (decide_False (P := Some y = Some x)) by congruence. reflexivity. }
  split; [apply rest_of_exit with (k := u32 (g_CriticalNesting s + 1)); exact Hr3|].
  split; [subst s5; destruct (_ =? 0); reflexivity|].
  replace (NextTCB s5) with (Some nx) by (subst s5; destruct (_ =? 0); reflexivity).
  replace (g_PrioMap s5) with (g_PrioMap s3) by (subst s5; destruct (_ =? 0); reflexivity).
  symmetry. exact Hnx.
Qed.

(** ** The tick handler *)

(** Lines 215-225 of [OS_Tick_Handler], for a delay list [d :: rest] whose
    head has [δ] ticks left: the head's delta is decremented, the expired
    tasks at the front of the list become ready in list order, and the
    loop ends by reading the head of what is left. *)
Lemma Tick_DelayList_run s d rest δ :
  kernel_inv s (contents s) →
  contents s DelayListRef = d :: rest →
  delay_of s d = Some δ →
  let s0 := upd_tcb d (set_DelayTicks (Z.max 0 (δ - 1))) s in
  let woken := take_while (expired s0) (d :: rest) in
  let left := drop_while (expired s0) (d :: rest) in
  let s' := exec Tick_DelayList s in
  result Tick_DelayList s = (if decide (left = []) then Fault NullPointer else Ret tt) ∧
  delay_of s' d = Some (Z.max 0 (δ - 1)) ∧
  (∀ x, x ≠ d → delay_of s' x = delay_of s x) ∧
  contents s' DelayListRef = left ∧
  (∀ x, x ∈ woken → state_of s' x = Some TASK_READY) ∧
  (∀ p, contents s' (ReadyListAt p)
        = contents s (ReadyListAt p) ++ filter (λ x, has_prio s p x = true) woken) ∧
  (∀ x, x ∉ woken → state_of s' x = state_of s x) ∧
  (∀ x, prio_of s' x = prio_of s x) ∧
  kernel_inv s' (contents s').
Proof.
  intros Hinv Hc Hδ s0 woken left s'.
  set (c := contents s) in *.
  pose proof (inv_lists _ _ Hinv) as Hok. pose proof Hok as (Hrep & _).
  specialize (Hrep DelayListRef). rewrite get_DelayList in Hrep.
  pose proof (repr_head _ _ _ Hrep) as HH. rewrite Hc in HH. cbn in HH.
  unfold delay_of in Hδ. destruct (tcbs s !! d) as [td|] eqn:Htd; [|discriminate].
  cbn in Hδ. injection Hδ as Hδ.
  destruct (inv_tcb _ _ (inv_data _ _ Hinv) d td Htd) as [Hp Hdt].
  assert (Hs0 : ∀ x, tcbs s0 !! x
                     = if decide (x = d) then Some (set_DelayTicks (Z.max 0 (δ - 1)) td)
                       else tcbs s !! x).
  { intros x. unfold s0. rewrite lookup_upd_tcb, Htd. reflexivity. }
  (* the state in which the loop starts *)
  assert (Hdec : wp (if DelayTicks td >? 0
                     then store_tcb (Some d) (set_DelayTicks (u32 (DelayTicks td - 1)))
                     else ret tt)
                    (λ _ s1, kernel_inv s1 c ∧ (∀ x, tcbs s1 !! x = tcbs s0 !! x)) s).
  { destruct (DelayTicks td >? 0) eqn:Hpos.
    - apply Z.gtb_lt in Hpos. eapply wp_store_tcb; [exact Htd|].
      assert (Eu : u32 (DelayTicks td - 1) = Z.max 0 (δ - 1))
        by (unfold u32; rewrite Z.mod_small by lia; lia).
      rewrite Eu. split.
      + eapply kernel_inv_store; [exact Hinv|exact Htd|reflexivity|reflexivity| | |left; reflexivity].
        * exact Hp.
        * cbn. lia.
      + intros x. rewrite Hs0. cbn [tcbs set_tcbs]. destruct (decide (x = d)) as [->|Hne].
        * apply lookup_insert_eq.
        * apply lookup_insert_ne. congruence.
    - apply wp_ret. split; [exact Hinv|].
      intros x. rewrite Hs0. destruct (decide (x = d)) as [->|Hne]; [|reflexivity].
      rewrite Htd. f_equal. assert (DelayTicks td = 0) by (rewrite Z.gtb_ltb in Hpos; apply Z.ltb_ge in Hpos; lia).
      replace (Z.max 0 (δ - 1)) with 0 by lia.
      destruct td; cbn in *; subst; reflexivity. }
  assert (Hpost : post Tick_DelayList (λ o s',
            o = (if decide (left = []) then Fault NullPointer else Ret tt) ∧
            kernel_inv s' (after_wake s c DelayListRef woken left) ∧
            ∃ s1, (∀ x, tcbs s1 !! x = tcbs s0 !! x) ∧ woke s1 s' woken) s).
  { unfold Tick_DelayList.
    apply post_bind, wp_gets. rewrite HH. cbn [is_null negb].
    apply post_bind. eapply wp_load_tcb; [exact Htd|].
    apply post_bind. eapply wp_mono; [exact Hdec|]. intros _ s1 [Hinv1 Hs1].
    assert (Hexp : ∀ x, expired s1 x = expired s0 x)
      by (intros x; unfold expired; rewrite Hs1; reflexivity).
    apply post_bind. unfold walk_fuel. apply wp_gets.
    eapply post_mono.
    { apply post_Tick_WakeLoop; [exact Hinv1|].
      apply NoDup_heap_length; [apply (inv_lists _ _ Hinv1)|].
      intros y Hy. eapply lists_ok_in_heap; [apply (inv_lists _ _ Hinv1)|exact Hy]. }
    cbv beta zeta. rewrite Hc.
    rewrite (take_while_ext _ _ (d :: rest) Hexp), (drop_while_ext _ _ (d :: rest) Hexp).
    fold woken left.
    intros o s2 (Ho & Hinv2 & Hwoke). split; [exact Ho|]. split; [|exists s1; auto].
    eapply kernel_inv_pointwise; [|exact Hinv2].
    intros r. unfold after_wake. destruct r; try reflexivity.
    f_equal. apply list_filter_iff. intros x. unfold has_prio. rewrite Hs1, Hs0.
    destruct (decide (x = d)) as [->|Hne]; [rewrite Htd|]; reflexivity. }
  unfold post in Hpost. fold s' in Hpost.
  destruct Hpost as (Ho & Hinv' & s1 & Hs1 & Hwoke).
  assert (Hcont : ∀ r, contents s' r = after_wake s c DelayListRef woken left r)
    by (intros r; apply lists_ok_contents, (inv_lists _ _ Hinv')).
  assert (Hd1 : ∀ x, delay_of s1 x
                     = if decide (x = d) then Some (Z.max 0 (δ - 1)) else delay_of s x).
  { intros x. unfold delay_of. rewrite Hs1, Hs0.
    destruct (decide (x = d)); reflexivity. }
  assert (Hst1 : ∀ x, state_of s1 x = state_of s x).
  { intros x. unfold state_of. rewrite Hs1, Hs0.
    destruct (decide (x = d)) as [->|]; [rewrite Htd|]; reflexivity. }
  assert (Hpr1 : ∀ x, prio_of s1 x = prio_of s x).
  { intros x. unfold prio_of. rewrite Hs1, Hs0.
    destruct (decide (x = d)) as [->|]; [rewrite Htd|]; reflexivity. }
  split; [exact Ho|].
  split; [rewrite (woke_delay_of _ _ _ d Hwoke), Hd1, decide_True by reflexivity; reflexivity|].
  split; [intros x Hx; rewrite (woke_delay_of _ _ _ x Hwoke), Hd1, decide_False by exact Hx;
          reflexivity|].
  split; [rewrite Hcont; reflexivity|].
  split.
  { intros x Hx. rewrite (woke_state_of _ _ _ x Hwoke), bool_decide_eq_true_2 by exact Hx.
    rewrite Hst1.
    destruct (lists_ok_in_heap s c x DelayListRef Hok) as [tx Htx].
    - rewrite Hc. eapply take_while_subseteq. exact Hx.
    - unfold state_of. rewrite Htx. reflexivity. }
  split; [intros p; rewrite Hcont; reflexivity|].
  split.
  { intros x Hx. rewrite (woke_state_of _ _ _ x Hwoke), bool_decide_eq_false_2 by exact Hx.
    apply Hst1. }
  split; [intros x; rewrite (woke_prio_of _ _ _ x Hwoke); apply Hpr1|].
  eapply kernel_inv_pointwise; [|exact Hinv']. intros r. symmetry. apply Hcont.
Qed.
(** The wake loop changes nothing but control blocks, lists and bitmap. *)
Lemma Tick_WakeLoop_rest fuel : ∀ s c,
  kernel_inv s c → (length (c DelayListRef) ≤ fuel)%nat →
  rest_of (exec (Tick_WakeLoop fuel) s) = rest_of s.
Proof.
  enough (H : ∀ s c, kernel_inv s c → (length (c DelayListRef) ≤ fuel)%nat →
                post (Tick_WakeLoop fuel) (λ _ s', rest_of s' = rest_of s) s)
    by exact H.
  induction fuel as [|fuel IH]; intros s c Hinv Hlen.
  - destruct (c DelayListRef) as [|h t] eqn:Hc; [|cbn in Hlen; lia].
    pose proof (inv_lists _ _ Hinv) as (Hrep & _). specialize (Hrep DelayListRef).
    rewrite get_DelayList, Hc in Hrep. apply repr_head in Hrep. cbn in Hrep.
    unfold post, result, exec, Tick_WakeLoop, bind, gets, load_tcb. rewrite Hrep. reflexivity.
  - pose proof (inv_lists _ _ Hinv) as Hok. pose proof Hok as (Hrep & _).
    specialize (Hrep DelayListRef). rewrite get_DelayList in Hrep.
    pose proof (repr_head _ _ _ Hrep) as HH.
    destruct (c DelayListRef) as [|h t] eqn:Hc.
    + cbn in HH.
      unfold post, result, exec, Tick_WakeLoop, bind, gets, load_tcb. rewrite HH. reflexivity.
    + cbn in HH.
      destruct (lists_ok_in_heap s c h DelayListRef Hok) as [th Hth];
        [rewrite Hc; apply list_elem_of_here|].
      cbn [Tick_WakeLoop].
      apply post_bind, wp_gets. rewrite HH.
      apply post_bind. eapply wp_load_tcb; [exact Hth|].
      apply post_bind, wp_gets. rewrite HH. cbn [is_null negb].
      destruct (DelayTicks th =? 0); cbn [andb]; [|apply post_ret; reflexivity].
      eapply post_wake_steps; [exact Hinv|exact Hc|discriminate|exact Hth|].
      intros s1 pw Hinv1 Hdata1.
      eapply post_mono.
      { apply (IH s1 _ Hinv1).
        rewrite fn_lookup_insert_ne by discriminate. rewrite fn_lookup_insert.
        cbn in Hlen. lia. }
      cbv beta. intros _ s' ->. rewrite (rest_of_data _ _ Hdata1).
      transitivity (rest_of (upd_tcb h (set_State TASK_READY) s)); [reflexivity|].
      apply rest_of_upd_tcb.
Qed.

Lemma Tick_DelayList_rest s c :
  kernel_inv s c → rest_of (exec Tick_DelayList s) = rest_of s.
Proof.
  intros Hinv.
  enough (H : post Tick_DelayList (λ _ s', rest_of s' = rest_of s) s) by exact H.
  pose proof (inv_lists _ _ Hinv) as Hok. pose proof Hok as (Hrep & _).
  specialize (Hrep DelayListRef). rewrite get_DelayList in Hrep.
  pose proof (repr_head _ _ _ Hrep) as HH.
  unfold Tick_DelayList.
  apply post_bind, wp_gets. rewrite HH.
  destruct (c DelayListRef) as [|d rest] eqn:Hc; cbn [head is_null negb].
  { apply post_ret. reflexivity. }
  destruct (lists_ok_in_heap s c d DelayListRef Hok) as [td Htd];
    [rewrite Hc; apply list_elem_of_here|].
  destruct (inv_tcb _ _ (inv_data _ _ Hinv) d td Htd) as [Hp Hdt].
  apply post_bind. eapply wp_load_tcb; [exact Htd|].
  apply post_bind.
  apply wp_mono with (Q := λ _ s1, kernel_inv s1 c ∧ rest_of s1 = rest_of s).
  { destruct (DelayTicks td >? 0) eqn:Hpos.
    - apply Z.gtb_lt in Hpos. eapply wp_store_tcb; [exact Htd|]. split; [|reflexivity].
      eapply kernel_inv_store; [exact Hinv|exact Htd|reflexivity|reflexivity| | |left; reflexivity].
      + exact Hp.
      + cbn. unfold u32. rewrite Z.mod_small by lia. lia.
    - apply wp_ret. split; [exact Hinv|reflexivity]. }
  intros _ s1 [Hinv1 Hr1].
  apply post_bind. unfold walk_fuel. apply wp_gets.
  unfold post. rewrite (Tick_WakeLoop_rest _ s1 c Hinv1); [exact Hr1|].
  apply NoDup_heap_length; [apply (inv_lists _ _ Hinv1)|].
  intros y Hy. eapply lists_ok_in_heap; [apply (inv_lists _ _ Hinv1)|exact Hy].
Qed.

Lemma nonempty_elem {X} (l : list X) : l ≠ [] ↔ ∃ x, x ∈ l.
Proof.
  destruct l as [|x l]; split.
  - congruence.
  - intros [x H]. inversion H.
  - intros _. exists x. apply list_elem_of_here.
  - discriminate.
Qed.

(** The part of the invariant on the ready lists reads them as sets. *)
Lemma data_inv_members s c c' :
  (∀ p x, x ∈ c' (ReadyListAt p) ↔ x ∈ c (ReadyListAt p)) → data_inv s c → data_inv s c'.
Proof.
  intros E [H1 H2 H3 H4 H5]. split; try assumption.
  - intros p x t Hx. apply H3. apply E, Hx.
  - intros p Hp. rewrite (H5 p Hp), !nonempty_elem.
    split; intros [x Hx]; exists x; apply E, Hx.
Qed.

Lemma NoDup_head_last {X} (l1 l2 : list X) (x : X) :
  NoDup (l1 ++ x :: l2) → l1 ++ l2 ≠ [] → head (l1 ++ x :: l2) ≠ last (l1 ++ x :: l2).
Proof.
  intros N Hne E.
  apply NoDup_app in N as (N1 & N2 & N3). apply NoDup_cons in N3 as [N3 N4].
  induction l2 as [|w l2 _] using rev_ind.
  - rewrite last_snoc in E. destruct l1 as [|y l1]; [apply Hne; reflexivity|].
    cbn [app head] in E. injection E as ->.
    apply (N2 x); apply list_elem_of_here.
  - assert (Hw : w ∈ l2 ++ [w]) by (apply elem_of_app; right; apply list_elem_of_here).
    replace (l1 ++ x :: l2 ++ [w]) with ((l1 ++ x :: l2) ++ [w]) in E
      by (rewrite <- app_assoc; reflexivity).
    rewrite last_snoc in E. destruct l1 as [|y l1]; cbn [app head] in E; injection E as ->.
    + contradiction.
    + apply (N2 w); [apply list_elem_of_here|]. apply list_elem_of_further. exact Hw.
Qed.

Lemma filter_ne_split (l1 l2 : list nat) (x : nat) :
  NoDup (l1 ++ x :: l2) → filter (λ y, y ≠ x) (l1 ++ x :: l2) = l1 ++ l2.
Proof.
  intros N. apply NoDup_app in N as (N1 & N2 & N3). apply NoDup_cons in N3 as [N3 N4].
  rewrite filter_app, filter_cons_False by tauto.
  rewrite !filter_all; [reflexivity| |].
  - intros y Hy ->. contradiction.
  - intros y Hy ->. apply (N2 x Hy). apply list_elem_of_here.
Qed.

(** Lines 227-233 of [OS_Tick_Handler]: a running task in the ready state
    goes to the tail of the ready list of its priority; nothing else
    changes. *)
Lemma wp_Tick_RoundRobin s c cur tc (Q : unit → Kernel → Prop) :
  kernel_inv s c → CurrentTCB s = Some cur → tcbs s !! cur = Some tc →
  cur ∈ c (ReadyListAt (Priority tc)) →
  (∀ s',
     kernel_inv s'
       (if State tc is TASK_READY
        then <[ReadyListAt (Priority tc) :=
                 filter (λ y, y ≠ cur) (c (ReadyListAt (Priority tc))) ++ [cur]]> c
        else c) →
     data_of s' = data_of s →
     Q tt s') →
  wp Tick_RoundRobin Q s.
Proof.
  intros Hinv Hcur Htc Hcin HQ.
  pose proof (inv_lists _ _ Hinv) as Hok. pose proof Hok as (Hrep & Hnd & Hdisj).
  destruct (inv_tcb _ _ (inv_data _ _ Hinv) cur tc Htc) as [Hpc _].
  destruct (get_ready_is_Some (Priority tc) s (inv_len _ _ (inv_data _ _ Hinv)) Hpc) as [L HL].
  pose proof (Hrep (ReadyListAt (Priority tc))) as Hr. rewrite HL in Hr.
  destruct (list_elem_of_split _ _ Hcin) as (l1 & l2 & Hsplit).
  pose proof (Hnd (ReadyListAt (Priority tc))) as N. rewrite Hsplit in N.
  unfold Tick_RoundRobin.
  apply wp_bind, wp_gets. rewrite Hcur.
  apply wp_bind. eapply wp_load_tcb; [exact Htc|].
  apply wp_bind. eapply wp_load_list; [exact HL|].
  rewrite (repr_head _ _ _ Hr), (repr_tail _ _ _ Hr), Hsplit.
  (* the list after a rotation, which is the list itself when it has one node *)
  assert (Hsame : l1 ++ l2 = [] →
            ∀ r, <[ReadyListAt (Priority tc) :=
                     filter (λ y, y ≠ cur) (c (ReadyListAt (Priority tc))) ++ [cur]]> c r = c r).
  { intros E r. destruct (decide (r = ReadyListAt (Priority tc))) as [->|Hne].
    - rewrite fn_lookup_insert, Hsplit, (filter_ne_split _ _ _ N), E.
      apply app_eq_nil in E as [-> ->]. reflexivity.
    - apply fn_lookup_insert_ne. congruence. }
  destruct (State tc) eqn:Hst; cbn [andb];
    try (apply wp_ret; apply HQ; [exact Hinv|reflexivity]).
  destruct (decide (l1 ++ l2 = [])) as [Hone|Hmore].
  - (* alone in its priority band *)
    rewrite bool_decide_eq_true_2.
    2:{ apply app_eq_nil in Hone as [-> ->]. reflexivity. }
    cbn [negb]. apply wp_ret. apply HQ; [|reflexivity].
    eapply kernel_inv_pointwise; [|exact Hinv]. intros r. symmetry. apply Hsame, Hone.
  - rewrite bool_decide_eq_false_2 by (apply NoDup_head_last; assumption).
    cbn [negb].
    apply wp_bind. eapply wp_List_Remove; [exact Hok|exact Hsplit|].
    intros s1 Hok1 Hdata1 _.
    set (c1 := <[ReadyListAt (Priority tc) := l1 ++ l2]> c) in *.
    destruct (data_of_tcb_Some _ _ _ _ (eq_sym Hdata1) Htc) as (tc1 & Htc1 & _).
    assert (Hlen1 : length (ReadyList s1) = 32%nat).
    { pose proof (f_equal (λ k, length (ReadyList k)) Hdata1) as El. cbn in El.
      rewrite !length_fmap in El. rewrite El. apply (inv_len _ _ (inv_data _ _ Hinv)). }
    destruct (get_ready_is_Some (Priority tc) s1 Hlen1 Hpc) as [L1 HL1].
    assert (Hfree1 : ∀ r, cur ∉ c1 r).
    { intros r. unfold c1. destruct (decide (r = ReadyListAt (Priority tc))) as [->|Hne].
      - rewrite fn_lookup_insert. rewrite <- (filter_ne_split _ _ _ N).
        intros Hin. apply list_elem_of_filter in Hin as [Hin _]. apply Hin. reflexivity.
      - rewrite fn_lookup_insert_ne by congruence. intros Hin. apply Hne.
        symmetry. eapply Hdisj; [exact Hcin|exact Hin]. }
    eapply wp_List_InsertTail; [exact Hok1|exact HL1|exact Htc1|exact Hfree1|].
    intros s2 Hok2 Hdata2 _.
    unfold c1 in Hok2. rewrite fn_lookup_insert in Hok2.
    assert (Ec : ∀ r, <[ReadyListAt (Priority tc) := (l1 ++ l2) ++ [cur]]>
                        (<[ReadyListAt (Priority tc) := l1 ++ l2]> c) r
                      = <[ReadyListAt (Priority tc) :=
                            filter (λ y, y ≠ cur) (c (ReadyListAt (Priority tc))) ++ [cur]]> c r).
    { intros r. destruct (decide (r = ReadyListAt (Priority tc))) as [->|Hne].
      - rewrite !fn_lookup_insert, Hsplit, (filter_ne_split _ _ _ N). reflexivity.
      - rewrite !fn_lookup_insert_ne by congruence. reflexivity. }
    apply HQ; [|rewrite Hdata2; exact Hdata1].
    split; [eapply lists_ok_pointwise; [exact Ec|exact Hok2]|].
    eapply data_inv_ext; [rewrite Hdata2; exact Hdata1|].
    eapply data_inv_members; [|exact (inv_data _ _ Hinv)].
    intros p x. destruct (decide (p = Priority tc)) as [->|Hne].
    + rewrite fn_lookup_insert, Hsplit, (filter_ne_split _ _ _ N).
      rewrite !elem_of_app, !elem_of_cons, elem_of_nil. tauto.
    + rewrite fn_lookup_insert_ne by congruence. tauto.
Qed.

Lemma post_bind_run {A B} (m : M A) (k : A → M B) (Q : outcome B → Kernel → Prop) s :
  match result m s with
  | Ret a => post (k a) Q (exec m s)
  | Fault f => Q (Fault f) (exec m s)
  end →
  post (bind m k) Q s.
Proof. unfold post, result, exec, bind. destruct (m s) as [[a|f] s']; auto. Qed.

Lemma wp_OS_CheckStackOverflow s (Q : unit → Kernel → Prop) :
  stack_ok s = true → Q tt s → wp OS_CheckStackOverflow Q s.
Proof.
  unfold stack_ok, OS_CheckStackOverflow. intros Hs HQ.
  apply wp_bind, wp_gets.
  destruct (CurrentTCB s) as [x|]; cbn [is_null]; [|apply wp_ret; exact HQ].
  destruct (tcbs s !! x) as [t|] eqn:Ht; [|discriminate].
  apply wp_bind. eapply wp_load_tcb; [exact Ht|].
  apply wp_bind. unfold load_word. apply wp_gets.
  apply andb_true_iff in Hs as [H1 H2]. apply negb_true_iff in H2.
  rewrite H1, H2. cbn [negb orb]. apply wp_ret, HQ.
Qed.

Lemma filter_none {X} (P : X → Prop) `{∀ x, Decision (P x)} (l : list X) :
  (∀ x, x ∈ l → ¬ P x) → filter P l = [].
Proof.
  induction l as [|y l IH]; intros E; [reflexivity|].
  rewrite filter_cons_False by (apply E, list_elem_of_here).
  apply IH. intros x Hx. apply E, list_elem_of_further, Hx.
Qed.

Lemma fields_delay_of s s' x : fields s' x = fields s x → delay_of s' x = delay_of s x.
Proof.
  unfold fields, delay_of. intros E. apply (f_equal (fmap (M:=option) DelayTicks)) in E.
  destruct (tcbs s' !! x), (tcbs s !! x); try discriminate; try reflexivity; exact E.
Qed.

(** The tasks that wake keep their order in the ready list, also after the
    running task has gone to its tail. *)
Lemma woken_order (cur : nat) (t : OS_TCB) (woken a w : list nat) :
  (∀ x, x ∈ a → x ∉ woken) → (∀ x, x ∈ w → x ∈ woken) → cur ∉ woken →
  filter (λ x, x ∈ woken) (a ++ w) = w ∧
  filter (λ x, x ∈ woken) (rotated cur t (a ++ w)) = w.
Proof.
  intros Ha Hw Hcur.
  assert (E : filter (λ x, x ∈ woken) (a ++ w) = w).
  { rewrite filter_app, (filter_none _ a Ha), (filter_all _ w Hw). reflexivity. }
  split; [exact E|]. unfold rotated. destruct (State t); try exact E.
  rewrite !filter_app.
  rewrite (filter_none _ (filter _ a)).
  2:{ intros x Hx. apply list_elem_of_filter in Hx as [_ Hx]. apply Ha, Hx. }
  rewrite (filter_all (λ y, y ≠ cur) w).
  2:{ intros x Hx ->. apply Hcur, Hw, Hx. }
  rewrite (filter_all _ w Hw), filter_cons_False by exact Hcur.
  rewrite filter_nil, app_nil_r. reflexivity.
Qed.

(** ** The invariant without its clause on priorities *)

Lemma loose_of_inv s c : kernel_inv s c → loose_inv s c.
Proof. intros [Hok [Hlen Htcb _ Hmr Hmap]]. constructor; assumption. Qed.

Lemma loose_ext s s' c c' :
  lists_ok s' c' → (∀ p, c' (ReadyListAt p) = c (ReadyListAt p)) →
  data_of s' = data_of s → loose_inv s c → loose_inv s' c'.
Proof.
  intros Hok Hc E [_ Hlen Htcb Hmr Hmap].
  pose proof (f_equal g_PrioMap E) as Emap. cbn in Emap.
  constructor.
  - exact Hok.
  - pose proof (f_equal (λ k, length (ReadyList k)) E) as El. cbn in El.
    rewrite !length_fmap in El. congruence.
  - intros x t' Hx. destruct (data_of_tcb_Some _ _ _ _ E Hx) as (t & Ht & Hs).
    rewrite <- (strip_Priority _ _ Hs), <- (strip_DelayTicks _ _ Hs). eauto.
  - rewrite Emap. exact Hmr.
  - intros p Hp. rewrite Emap, Hc. apply Hmap. exact Hp.
Qed.

Lemma loose_same_core s s' c : same_core s s' → loose_inv s c → loose_inv s' c.
Proof.
  intros Hc [Hok Hlen Htcb Hmr Hmap]. pose proof Hc as (H1 & H2 & H3 & H4).
  constructor.
  - eapply same_core_lists_ok; eauto.
  - rewrite H3. exact Hlen.
  - rewrite H2. exact Htcb.
  - rewrite H4. exact Hmr.
  - rewrite H4. exact Hmap.
Qed.

Lemma loose_store s c x t t' :
  loose_inv s c → tcbs s !! x = Some t → Prev t' = Prev t → Next t' = Next t →
  0 <= Priority t' < 32 → 0 <= DelayTicks t' < 2 ^ 32 →
  loose_inv (set_tcbs (<[x := t']> (tcbs s)) s) c.
Proof.
  intros [Hok Hlen Htcb Hmr Hmap] Hx Hp Hn Hpr Hdt.
  constructor; cbn [tcbs set_tcbs ReadyList g_PrioMap]; try assumption.
  - eapply lists_ok_store; eauto.
  - intros y ty. rewrite lookup_insert. case_decide; [|apply Htcb].
    intros E. inversion E; subst. auto.
Qed.

Lemma lists_ok_ready_range s c p x : lists_ok s c → x ∈ c (ReadyListAt p) → 0 <= p < 32.
Proof.
  intros (Hrep & _) Hx. specialize (Hrep (ReadyListAt p)). unfold get_list in Hrep.
  destruct ((0 <=? p) && (p <? OS_MAX_PRIO)) eqn:E.
  - apply andb_prop in E as [E1 E2]. apply Z.leb_le in E1. apply Z.ltb_lt in E2.
    unfold OS_MAX_PRIO in E2. lia.
  - rewrite Hrep in Hx. exfalso. eapply not_elem_of_nil, Hx.
Qed.

Lemma loose_nonzero s c p x : loose_inv s c → x ∈ c (ReadyListAt p) → g_PrioMap s ≠ 0.
Proof.
  intros Hl Hx. pose proof (lists_ok_ready_range _ _ _ _ (loose_lists _ _ Hl) Hx) as Hp.
  eapply (bitmap_nonzero _ p); [lia|].
  apply (loose_map _ _ Hl); [exact Hp|]. intros E. rewrite E in Hx.
  eapply not_elem_of_nil; eauto.
Qed.

Lemma wp_OS_ReadyListRemove_loose s c x t l1 l2 (Q : unit → Kernel → Prop) :
  loose_inv s c → tcbs s !! x = Some t →
  c (ReadyListAt (Priority t)) = l1 ++ x :: l2 →
  (∀ s', loose_inv s' (<[ReadyListAt (Priority t) := l1 ++ l2]> c) →
         data_of s' = data_of (set_g_PrioMap
                                 (if l1 ++ l2 is [] then
                                    Z.land (g_PrioMap s) (not32 (u32 (Z.shiftl 1 (Priority t))))
                                  else g_PrioMap s) s) →
         Q tt s') →
  wp (OS_ReadyListRemove (Some x)) Q s.
Proof.
  intros Hl Hx Hcr HQ. pose proof Hl as [Hok Hlen Htcb Hmr Hmap].
  destruct (Htcb x t Hx) as [Hp _].
  unfold OS_ReadyListRemove.
  apply wp_bind, wp_ASSERT; [reflexivity|].
  apply wp_bind. eapply wp_load_tcb; [exact Hx|].
  apply wp_bind. eapply wp_List_Remove; [exact Hok|exact Hcr|].
  intros s1 Hok1 Hdata1 Hframe1.
  destruct (data_of_tcb_Some _ _ _ _ (eq_sym Hdata1) Hx) as (t1 & Hx1 & Hs1).
  pose proof (strip_Priority _ _ Hs1) as Hp1.
  apply wp_bind. eapply wp_load_tcb; [exact Hx1|]. rewrite Hp1.
  assert (Hlen1 : length (ReadyList s1) = 32%nat).
  { pose proof (f_equal (λ k, length (ReadyList k)) Hdata1) as El. cbn in El.
    rewrite !length_fmap in El. congruence. }
  destruct (get_ready_is_Some (Priority t) s1 Hlen1 Hp) as [L1 HL1].
  apply wp_bind. eapply wp_load_list; [exact HL1|].
  pose proof Hok1 as (Hrep1 & _). specialize (Hrep1 (ReadyListAt (Priority t))).
  rewrite HL1, fn_lookup_insert in Hrep1.
  pose proof (repr_head _ _ _ Hrep1) as HH1.
  assert (Hinv : ∀ m' s2,
            lists_ok s2 (<[ReadyListAt (Priority t) := l1 ++ l2]> c) →
            data_of s2 = data_of (set_g_PrioMap m' s) →
            (0 <= m' < 2 ^ 32) →
            (∀ q, 0 <= q < 32 → Z.testbit m' q = true ↔
                    <[ReadyListAt (Priority t) := l1 ++ l2]> c (ReadyListAt q) ≠ []) →
            loose_inv s2 (<[ReadyListAt (Priority t) := l1 ++ l2]> c)).
  { intros m' s2 Hok2 Hd2 Hr' Hm'.
    pose proof (f_equal g_PrioMap Hd2) as Emap. cbn in Emap.
    constructor.
    - exact Hok2.
    - pose proof (f_equal (λ k, length (ReadyList k)) Hd2) as El. cbn in El.
      rewrite !length_fmap in El. congruence.
    - intros y ty Hy. destruct (data_of_tcb_Some _ _ _ _ Hd2 Hy) as (ty0 & Hy0 & Hs).
      cbn in Hy0. rewrite <- (strip_Priority _ _ Hs), <- (strip_DelayTicks _ _ Hs). eauto.
    - rewrite Emap. exact Hr'.
    - intros q Hq. rewrite Emap. apply Hm'. exact Hq. }
  destruct (l1 ++ l2) as [|z l] eqn:Hl12.
  - simpl in HH1. rewrite HH1. cbn [is_null].
    apply wp_bind. eapply wp_load_tcb; [exact Hx1|]. rewrite Hp1.
    apply wp_modify.
    assert (Hdata' : data_of
              (set_g_PrioMap (Z.land (g_PrioMap s1) (not32 (u32 (Z.shiftl 1 (Priority t))))) s1)
            = data_of (set_g_PrioMap
                         (Z.land (g_PrioMap s) (not32 (u32 (Z.shiftl 1 (Priority t))))) s)).
    { pose proof (f_equal g_PrioMap Hdata1) as Em. cbn in Em. rewrite Em.
      rewrite !data_of_set_g_PrioMap, Hdata1. reflexivity. }
    apply HQ; [|exact Hdata'].
    eapply Hinv; [|exact Hdata'| |].
    + eapply lists_ok_ext; [| |exact Hok1]; [intros r; destruct r|]; reflexivity.
    + apply bitmap_clear_range. exact Hmr.
    + intros q Hq. rewrite bitmap_clear_bit by lia.
      destruct (decide (q = Priority t)) as [->|Hne].
      * rewrite fn_lookup_insert, Z.eqb_refl, andb_false_r. split; congruence.
      * rewrite fn_lookup_insert_ne by congruence.
        replace (q =? Priority t) with false by (symmetry; apply Z.eqb_neq; exact Hne).
        rewrite andb_true_r. apply Hmap. exact Hq.
  - simpl in HH1. rewrite HH1. cbn [is_null]. apply wp_ret.
    assert (Hdata' : data_of s1 = data_of (set_g_PrioMap (g_PrioMap s) s)).
    { rewrite data_of_set_g_PrioMap, Hdata1. reflexivity. }
    apply HQ; [|exact Hdata'].
    eapply Hinv; [exact Hok1|exact Hdata'|exact Hmr|].
    intros q Hq. destruct (decide (q = Priority t)) as [->|Hne].
    + rewrite fn_lookup_insert. rewrite (Hmap _ Hq), Hcr.
      split; intros _; [discriminate|]. destruct l1; discriminate.
    + rewrite fn_lookup_insert_ne by congruence. apply Hmap. exact Hq.
Qed.

Lemma wp_FindNextTask_loose s c (Q : option nat → Kernel → Prop) :
  loose_inv s c → g_PrioMap s ≠ 0 →
  (∀ x, head (c (ReadyListAt (OS_GetTopPrio (g_PrioMap s)))) = Some x → Q (Some x) s) →
  wp FindNextTask Q s.
Proof.
  intros [Hok Hlen Htcb Hmr Hmap] Hnz HQ.
  destruct (OS_GetTopPrio_correct (g_PrioMap s) Hmr Hnz) as (_ & (Hp0 & Hbit & _) & Hp32 & _).
  unfold FindNextTask.
  apply wp_bind, wp_gets.
  apply wp_bind, wp_ASSERT; [apply negb_true_iff, Z.eqb_neq; exact Hnz|].
  apply wp_bind, wp_gets.
  assert (Hp : 0 <= OS_GetTopPrio (g_PrioMap s) < 32) by (split; assumption).
  destruct (get_ready_is_Some (OS_GetTopPrio (g_PrioMap s)) s Hlen Hp) as [L HL].
  apply wp_bind. eapply wp_load_list; [exact HL|].
  pose proof Hok as (Hrep & _). specialize (Hrep (ReadyListAt (OS_GetTopPrio (g_PrioMap s)))).
  rewrite HL in Hrep. pose proof (repr_head _ _ _ Hrep) as HH.
  apply (proj1 (Hmap _ Hp)) in Hbit.
  destruct (c (ReadyListAt (OS_GetTopPrio (g_PrioMap s)))) as [|x l] eqn:E; [congruence|].
  simpl in HH. rewrite HH.
  apply wp_bind, wp_ASSERT; [reflexivity|].
  apply wp_ret. apply HQ. reflexivity.
Qed.

(** ** [OS_MutexPend] on a held mutex, whatever the owner's state *)

(** The inheritance step (lines 418-431).  An owner in the state
    [TASK_READY] must be on its ready list; of one in another state
    nothing is asked, and its priority is rewritten where it stands. *)
Lemma wp_MutexPend_boost_loose s c cur tc o to (Q : unit → Kernel → Prop) :
  kernel_inv s c → tcbs s !! cur = Some tc → tcbs s !! o = Some to → o ≠ cur →
  cur ∈ c (ReadyListAt (Priority tc)) →
  (State to = TASK_READY → o ∈ c (ReadyListAt (Priority to))) →
  (∀ s1 c1,
     loose_inv s1 c1 →
     (∀ r, (∀ p, r ≠ ReadyListAt p) → c1 r = c r) →
     (∀ x p, x ∈ c (ReadyListAt p) → x ≠ o → x ∈ c1 (ReadyListAt p)) →
     (∀ p, o ∈ c (ReadyListAt p) → ∃ p', o ∈ c1 (ReadyListAt p')) →
     (State to = TASK_READY → o ∈ c1 (ReadyListAt (Z.min (Priority tc) (Priority to)))) →
     (∀ x, fields s1 x = if decide (x = o)
                         then set_Priority (Z.min (Priority tc) (Priority to)) <$> fields s x
                         else fields s x) →
     rest_of s1 = rest_of s →
     Q tt s1) →
  wp (if Priority tc <? Priority to then
        if (if State to is TASK_READY then true else false) then
          OS_ReadyListRemove (Some o) ;;
          c ← load_tcb (Some cur);
          store_tcb (Some o) (set_Priority (Priority c)) ;;
          OS_ReadyListAdd (Some o)
        else store_tcb (Some o) (set_Priority (Priority tc))
      else ret tt) Q s.
Proof.
  intros Hinv Htc Hto Hoc Hcin Hcons HQ.
  assert (Hdec : State to = TASK_READY ∨ State to ≠ TASK_READY)
    by (destruct (State to); [left; reflexivity|right; discriminate|right; discriminate]).
  destruct Hdec as [Hst|Hst].
  - (* the owner is ready and on its list *)
    eapply (wp_MutexPend_boost s c cur tc o to); [exact Hinv|exact Htc|exact Hto|exact Hoc|
                                                  exact Hcin| |].
    { rewrite Hst. exact (Hcons Hst). }
    intros s1 c1 Hinv1 Hc1 Hkeep Hown Hback Hf1 Hr1.
    apply (HQ s1 c1); try assumption.
    + apply loose_of_inv, Hinv1.
    + intros p Hp. eexists. eapply Hown, Hp.
    + intros _. eapply Hown, (Hcons Hst).
  - (* the owner is in another state *)
    pose proof (inv_data _ _ Hinv) as Hd.
    destruct (inv_tcb _ _ Hd cur tc Htc) as [Hpc Hdc].
    destruct (inv_tcb _ _ Hd o to Hto) as [Hpo Hdo].
    assert (Hb : (if State to is TASK_READY then true else false) = false)
      by (destruct (State to); [contradiction|reflexivity|reflexivity]).
    rewrite Hb.
    destruct (Priority tc <? Priority to) eqn:Hlt.
    + apply Z.ltb_lt in Hlt.
      assert (Emin : Z.min (Priority tc) (Priority to) = Priority tc) by lia.
      rewrite Emin in HQ.
      eapply wp_store_tcb; [exact Hto|].
      apply (HQ _ c).
      * eapply loose_store; [apply loose_of_inv, Hinv|exact Hto|reflexivity|reflexivity| |].
        -- exact Hpc.
        -- exact Hdo.
      * reflexivity.
      * auto.
      * eauto.
      * intros E. contradiction.
      * intros x. apply (fields_store s o to (set_Priority (Priority tc)) x Hto). reflexivity.
      * reflexivity.
    + apply Z.ltb_ge in Hlt.
      assert (Emin : Z.min (Priority tc) (Priority to) = Priority to) by lia.
      rewrite Emin in HQ.
      apply wp_ret. apply (HQ s c).
      * apply loose_of_inv, Hinv.
      * reflexivity.
      * auto.
      * eauto.
      * intros E. contradiction.
      * intros x. destruct (decide (x = o)) as [->|]; [|reflexivity].
        rewrite (fields_Some _ _ _ Hto). reflexivity.
      * reflexivity.
Qed.

Lemma wp_MutexPend_contended_loose s c a m cur tc o to :
  kernel_inv s c → 0 <= g_CriticalNesting s < 2 ^ 32 - 1 →
  CurrentTCB s = Some cur → tcbs s !! cur = Some tc →
  cur ∈ c (ReadyListAt (Priority tc)) →
  mutexes s !! a = Some m → Owner m = Some o → o ≠ cur → tcbs s !! o = Some to →
  (State to = TASK_READY → o ∈ c (ReadyListAt (Priority to))) →
  (∃ x p, x ≠ cur ∧ x ∈ c (ReadyListAt p)) →
  wp (OS_MutexPend (Some a)) (λ r s',
    r = OS_OK ∧
    ∃ c', loose_inv s' c' ∧
      c' (MutexWaitList a)
      = take_while (prio_le s' (Priority tc)) (c (MutexWaitList a))
        ++ cur :: drop_while (prio_le s' (Priority tc)) (c (MutexWaitList a)) ∧
      (∀ r, (∀ p, r ≠ ReadyListAt p) → r ≠ MutexWaitList a → c' r = c r) ∧
      (∀ p, cur ∉ c' (ReadyListAt p)) ∧
      (∀ x, fields s' x
            = if decide (x = o)
              then set_Priority (Z.min (Priority tc) (Priority to)) <$> fields s x
              else if decide (x = cur) then set_State TASK_BLOCKED <$> fields s x
              else fields s x) ∧
      rest_of s' = rest_of (set_irq_enabled (irq_after s) s) ∧
      swi_pending s' = true ∧
      NextTCB s' = head (c' (ReadyListAt (OS_GetTopPrio (g_PrioMap s')))) ∧
      (State to = TASK_READY →
       o ∈ c' (ReadyListAt (Z.min (Priority tc) (Priority to))))) s.
Proof.
  intros Hinv Hn Hcur Htc Hcin Hm Ho Hoc Hto Hcons (x0 & p0 & Hx0 & Hx0in).
  destruct (enter_exit_nesting _ Hn) as [Hn1 Hn2].
  unfold OS_MutexPend.
  apply wp_bind, wp_OS_EnterCritical.
  set (s0 := set_g_CriticalNesting _ _).
  assert (Hinv0 : kernel_inv s0 c) by (eapply same_core_inv; [|exact Hinv]; same_core_tac).
  apply wp_bind. eapply wp_load_mutex; [exact Hm|].
  apply wp_bind, wp_gets. cbn [CurrentTCB s0 set_g_CriticalNesting set_irq_enabled].
  rewrite Hcur, Ho. cbn [is_null].
  rewrite bool_decide_eq_false_2 by congruence.
  apply wp_bind. eapply wp_load_tcb; [exact Htc|].
  apply wp_bind. eapply wp_load_tcb; [exact Hto|].
  apply wp_bind.
  eapply (wp_MutexPend_boost_loose s0 c cur tc o to); try eassumption.
  intros s1 c1 Hl1 Hc1 Hkeep Hsome Hown Hf1 Hr1.
  (* the caller blocks *)
  assert (Hfc1 : fields s1 cur = fields s cur)
    by (rewrite Hf1, decide_False by congruence; reflexivity).
  rewrite (fields_Some _ _ _ Htc) in Hfc1.
  destruct (fields_lookup _ _ _ Hfc1) as (tc1 & Htc1 & Hs1).
  pose proof (strip_Priority _ _ Hs1) as Hp1.
  destruct (inv_tcb _ _ (inv_data _ _ Hinv) cur tc Htc) as [Hpc Hdc].
  apply wp_bind. eapply wp_store_tcb; [exact Htc1|].
  set (s2 := set_tcbs _ s1).
  assert (Hl2 : loose_inv s2 c1).
  { eapply loose_store; [exact Hl1|exact Htc1|reflexivity|reflexivity| |].
    - cbn. rewrite Hp1. exact Hpc.
    - cbn. rewrite (strip_DelayTicks _ _ Hs1). exact Hdc. }
  assert (Hcin1 : cur ∈ c1 (ReadyListAt (Priority tc))) by (apply Hkeep; [exact Hcin|congruence]).
  destruct (list_elem_of_split _ _ Hcin1) as (l1 & l2 & Hsplit).
  apply wp_bind.
  eapply (wp_OS_ReadyListRemove_loose s2 c1 cur (set_State TASK_BLOCKED tc1) l1 l2);
    [exact Hl2|apply lookup_insert_eq|cbn [Priority set_State]; rewrite Hp1; exact Hsplit|].
  cbn [Priority set_State]. rewrite Hp1.
  intros s3 Hl3 Hdata3.
  set (c3 := <[ReadyListAt (Priority tc) := l1 ++ l2]> c1) in *.
  pose proof (loose_lists _ _ Hl1) as (_ & Hnd1 & Hdisj1).
  assert (Hfree3 : ∀ r, cur ∉ c3 r).
  { intros r. unfold c3. destruct (decide (r = ReadyListAt (Priority tc))) as [->|Hne].
    - rewrite fn_lookup_insert. pose proof (Hnd1 (ReadyListAt (Priority tc))) as N.
      rewrite Hsplit in N. apply NoDup_app in N as (_ & N2 & N3).
      apply NoDup_cons in N3 as [N3 _]. intros Hin. apply elem_of_app in Hin as [Hin|Hin].
      + eapply N2; [exact Hin|apply list_elem_of_here].
      + contradiction.
    - rewrite fn_lookup_insert_ne by congruence. intros Hin. apply Hne.
      symmetry. eapply Hdisj1; [exact Hcin1|exact Hin]. }
  assert (Hf3 : ∀ x, fields s3 x
                     = if decide (x = cur) then set_State TASK_BLOCKED <$> fields s1 x
                       else fields s1 x).
  { intros x. rewrite (fields_data _ _ x Hdata3).
    change (fields (set_g_PrioMap _ ?s') x) with (fields s' x).
    apply (fields_store s1 cur tc1 (set_State TASK_BLOCKED) x Htc1). reflexivity. }
  assert (Hr3 : rest_of s3 = rest_of s0).
  { rewrite (rest_of_data _ _ Hdata3). transitivity (rest_of s1); [reflexivity|exact Hr1]. }
  assert (Hcur3 : CurrentTCB s3 = Some cur)
    by (rewrite (rest_of_CurrentTCB _ _ Hr3); exact Hcur).
  destruct (rest_of_mutex _ _ a m Hr3 Hm) as (m3 & Hm3 & _).
  assert (Hfc3 : fields s3 cur = Some (set_State TASK_BLOCKED (strip_tcb tc))).
  { rewrite Hf3, decide_True by reflexivity. rewrite Hfc1. reflexivity. }
  destruct (fields_lookup _ _ _ Hfc3) as (tc3 & Htc3 & Hs3).
  assert (Hp3 : Priority tc3 = Priority tc) by exact (f_equal Priority Hs3).
  apply wp_bind.
  eapply (wp_MutexPend_Enqueue s3 c3 a cur tc3 m3);
    [exact (loose_lists _ _ Hl3)|exact Hcur3|exact Htc3|exact Hfree3|exact Hm3|].
  cbv zeta. rewrite Hp3. intros s4 Hok4 Hdata4.
  set (c4 := <[MutexWaitList a := _]> c3) in *.
  assert (Hl4 : loose_inv s4 c4).
  { eapply loose_ext; [exact Hok4| |exact Hdata4|exact Hl3].
    intros p. unfold c4. apply fn_lookup_insert_ne. discriminate. }
  (* somebody else is ready *)
  assert (H41 : ∀ x p, x ≠ cur → x ∈ c4 (ReadyListAt p) ↔ x ∈ c1 (ReadyListAt p)).
  { intros x p Hxc. unfold c4. rewrite fn_lookup_insert_ne by discriminate. unfold c3.
    destruct (decide (p = Priority tc)) as [->|Hne].
    - rewrite fn_lookup_insert, Hsplit, !elem_of_app, elem_of_cons. tauto.
    - rewrite fn_lookup_insert_ne by congruence. tauto. }
  assert (Hother : ∃ x p, x ∈ c4 (ReadyListAt p)).
  { assert (H1 : ∃ x p, x ≠ cur ∧ x ∈ c1 (ReadyListAt p)).
    { destruct (decide (x0 = o)) as [->|Hne].
      - destruct (Hsome p0 Hx0in) as [p' Hp']. exists o, p'. split; [exact Hoc|exact Hp'].
      - exists x0, p0. split; [exact Hx0|]. apply Hkeep; assumption. }
    destruct H1 as (x & p & Hxc & Hxin). exists x, p. apply H41; assumption. }
  destruct Hother as (x1 & p1 & Hx1).
  apply wp_bind. eapply wp_FindNextTask_loose;
    [exact Hl4|eapply loose_nonzero; [exact Hl4|exact Hx1]|].
  intros nx Hnx.
  apply wp_bind, wp_modify. apply wp_bind, wp_modify.
  assert (Hn4 : g_CriticalNesting s4 = u32 (g_CriticalNesting s + 1)).
  { rewrite (rest_of_nesting s0 s4); [reflexivity|].
    rewrite (rest_of_data _ _ Hdata4). exact Hr3. }
  apply wp_bind. apply wp_OS_ExitCritical;
    [cbn [g_CriticalNesting set_swi_pending set_NextTCB]; rewrite Hn4; exact Hn1|].
  cbv zeta. apply wp_ret.
  cbn [g_CriticalNesting set_swi_pending set_NextTCB]. rewrite Hn4, Hn2.
  split; [reflexivity|]. exists c4.
  match goal with |- loose_inv ?s' _ ∧ _ => set (s5 := s') end.
  assert (Hcore5 : same_core s4 s5) by (subst s5; destruct (_ =? 0); same_core_tac).
  assert (Hf5 : ∀ x, fields s5 x = fields s4 x)
    by (intros x; subst s5; destruct (_ =? 0); reflexivity).
  assert (Hf : ∀ x, fields s5 x
            = if decide (x = o)
              then set_Priority (Z.min (Priority tc) (Priority to)) <$> fields s x
              else if decide (x = cur) then set_State TASK_BLOCKED <$> fields s x
              else fields s x).
  { intros x. rewrite Hf5, (fields_data _ _ x Hdata4), Hf3, Hf1.
    change (fields s0 x) with (fields s x).
    destruct (decide (x = cur)) as [->|]; [|reflexivity].
    rewrite !decide_False by congruence. reflexivity. }
  split; [eapply loose_same_core; eauto|].
  split.
  { unfold c4. rewrite fn_lookup_insert. unfold c3.
    rewrite fn_lookup_insert_ne by discriminate. rewrite Hc1 by discriminate.
    assert (Hle : ∀ x, prio_le s5 (Priority tc) x = prio_le s3 (Priority tc) x).
    { intros x. apply prio_le_fields. rewrite Hf5. apply fields_data, Hdata4. }
    rewrite (take_while_ext _ _ _ Hle), (drop_while_ext _ _ _ Hle). reflexivity. }
  split.
  { intros r Hr Hra. unfold c4. rewrite fn_lookup_insert_ne by congruence.
    unfold c3. rewrite fn_lookup_insert_ne by (intros E; eapply Hr; symmetry; exact E).
    apply Hc1, Hr. }
  split.
  { intros p. unfold c4. rewrite fn_lookup_insert_ne by discriminate. apply Hfree3. }
  split; [exact Hf|].
  split.
  { apply rest_of_exit with (k := u32 (g_CriticalNesting s + 1)).
    rewrite (rest_of_data _ _ Hdata4). exact Hr3. }
  split; [subst s5; destruct (_ =? 0); reflexivity|].
  split.
  { replace (NextTCB s5) with (Some nx) by (subst s5; destruct (_ =? 0); reflexivity).
    replace (g_PrioMap s5) with (g_PrioMap s4) by (subst s5; destruct (_ =? 0); reflexivity).
    symmetry. exact Hnx. }
  intros Hst. apply H41; [exact Hoc|]. exact (Hown Hst).
Qed.

Lemma owner_listed_sound s o :
  owner_listed s o = true →
  ∃ to, tcbs s !! o = Some to ∧
        (State to = TASK_READY → o ∈ contents s (ReadyListAt (Priority to))).
Proof.
  unfold owner_listed. destruct (tcbs s !! o) as [to|]; [|discriminate].
  intros H. exists to. split; [reflexivity|]. intros Hst. rewrite Hst in H.
  eapply bool_decide_eq_true_1. exact H.
Qed.

Lemma owner_listed_intro s o to :
  tcbs s !! o = Some to →
  (State to = TASK_READY → o ∈ contents s (ReadyListAt (Priority to))) →
  owner_listed s o = true.
Proof.
  intros Hto H. unfold owner_listed. rewrite Hto.
  destruct (State to); [|reflexivity|reflexivity].
  apply bool_decide_eq_true_2, H. reflexivity.
Qed.

Lemma owner_listed_same_core s s' o :
  same_core s s' → owner_listed s' o = owner_listed s o.
Proof.
  intros Hc. unfold owner_listed. pose proof Hc as (_ & E & _). rewrite E.
  destruct (tcbs s !! o) as [to|]; [|reflexivity].
  rewrite (same_core_contents _ _ _ Hc). reflexivity.
Qed.

Lemma mutex_wf_sound s a m :
  mutex_wf s a = true → mutexes s !! a = Some m →
  0 <= NestCount m < 256 ∧
  match Owner m with
  | None => contents s (MutexWaitList a) = []
  | Some o => owner_listed s o = true ∧ o ∉ contents s (MutexWaitList a)
  end.
Proof.
  unfold mutex_wf. intros H Hm. rewrite Hm in H.
  rewrite !andb_true_iff in H. destruct H as [[H1 H2] H3].
  split; [lia|].
  destruct (Owner m) as [o|].
  - apply andb_true_iff in H3 as [H3 H4]. split; [exact H3|].
    eapply bool_decide_eq_true_1. exact H4.
  - eapply bool_decide_eq_true_1. exact H3.
Qed.

Lemma mutex_wf_intro s a m :
  mutexes s !! a = Some m → 0 <= NestCount m < 256 →
  match Owner m with
  | None => contents s (MutexWaitList a) = []
  | Some o => owner_listed s o = true ∧ o ∉ contents s (MutexWaitList a)
  end →
  mutex_wf s a = true.
Proof.
  intros Hm Hn H. unfold mutex_wf. rewrite Hm.
  apply andb_true_intro. split.
  - apply andb_true_intro. split; [apply Z.leb_le|apply Z.ltb_lt]; lia.
  - destruct (Owner m) as [o|].
    + destruct H as [H1 H2]. rewrite H1. apply bool_decide_eq_true_2, H2.
    + apply bool_decide_eq_true_2, H.
Qed.

(** [OS_MutexPend] on a mutex that another task owns, whether the owner
    is ready, blocked, or stands on a ready list in the state it blocked
    in. *)
Lemma MutexPend_contended_any_run s a m cur o :
  kernel_ok s = true → current_ready s = true → CurrentTCB s = Some cur →
  mutexes s !! a = Some m → Owner m = Some o → o ≠ cur →
  owner_listed s o = true → o ∉ contents s (MutexWaitList a) → other_ready s cur = true →
  ∃ s', OS_MutexPend (Some a) s = (Ret OS_OK, s') ∧
    loose_inv s' (contents s') ∧
    (let l := contents s (MutexWaitList a) in
     let le := λ x, prio_val s x <=? prio_val s cur in
     contents s' (MutexWaitList a) = take_while le l ++ cur :: drop_while le l) ∧
    (∀ x, x ≠ o → prio_val s' x = prio_val s x) ∧
    prio_val s' o = Z.min (prio_val s cur) (prio_val s o) ∧
    (∃ m', mutexes s' !! a = Some m' ∧ Owner m' = Some o ∧ NestCount m' = NestCount m) ∧
    state_of s' cur = Some TASK_BLOCKED ∧
    (∀ x, x ≠ cur → state_of s' x = state_of s x) ∧
    (∀ p, cur ∉ contents s' (ReadyListAt p)) ∧
    CurrentTCB s' = Some cur ∧ swi_pending s' = true ∧
    NextTCB s' = head (contents s' (ReadyListAt (OS_GetTopPrio (g_PrioMap s')))) ∧
    owner_listed s' o = true ∧
    (∀ r, (∀ p, r ≠ ReadyListAt p) → r ≠ MutexWaitList a → contents s' r = contents s r).
Proof.
  intros Hk Hcr Hcur Hm Ho Hoc Hown Hnotin Hother.
  destruct (kernel_ok_sound s Hk) as [Hinv Hn].
  destruct (current_ready_sound s Hcr) as (cur' & tc & Hcur' & Htc & Hcin).
  rewrite Hcur in Hcur'. injection Hcur' as <-.
  destruct (owner_listed_sound s o Hown) as (to & Hto & Hcons).
  pose proof (wp_MutexPend_contended_loose s (contents s) a m cur tc o to Hinv Hn Hcur Htc Hcin
                Hm Ho Hoc Hto Hcons (other_ready_sound s cur Hother)) as Hwp.
  apply wp_elim in Hwp
    as (r & s' & Hrun & -> & c' & Hl' & Hwl & Hframe & Hcoff & Hf & Hrest & Hswi & Hnext & Hcons').
  pose proof (loose_lists _ _ Hl') as Hok'.
  assert (Hcont : ∀ r, contents s' r = c' r) by (intros r; apply lists_ok_contents, Hok').
  assert (Hpc : prio_val s cur = Priority tc) by (unfold prio_val, prio_of; rewrite Htc; reflexivity).
  assert (Hpo : prio_val s o = Priority to) by (unfold prio_val, prio_of; rewrite Hto; reflexivity).
  assert (Hpv : ∀ x, x ≠ o → prio_val s' x = prio_val s x).
  { intros x Hx. specialize (Hf x). rewrite decide_False in Hf by exact Hx.
    destruct (decide (x = cur)) as [->|].
    - eapply prio_val_set_State, Hf.
    - apply prio_val_fields, Hf. }
  assert (Hfo : fields s' o = set_Priority (Z.min (Priority tc) (Priority to)) <$> fields s o)
    by (rewrite Hf, decide_True by reflexivity; reflexivity).
  exists s'. split; [exact Hrun|].
  split.
  { destruct Hl' as [H1 H2 H3 H4 H5]. constructor; try assumption.
    - eapply lists_ok_pointwise; [|exact H1]. intros r. symmetry. apply Hcont.
    - intros p Hp. rewrite Hcont. apply H5, Hp. }
  split.
  { cbv zeta. rewrite Hcont, Hwl. rewrite Hpc.
    assert (Hle : ∀ x, x ∈ contents s (MutexWaitList a) →
              prio_le s' (Priority tc) x = (prio_val s x <=? Priority tc)).
    { intros x Hx.
      assert (Hxo : x ≠ o) by (intros ->; contradiction).
      assert (Hxc : x ≠ cur).
      { intros ->. pose proof (inv_lists _ _ Hinv) as (_ & _ & Hdisj).
        pose proof (Hdisj _ _ _ Hx Hcin) as E. discriminate E. }
      rewrite <- (Hpv x Hxo). apply prio_le_val.
      destruct (lists_ok_in_heap _ _ _ _ (inv_lists _ _ Hinv) Hx) as [tx Htx].
      assert (E : fields s' x = Some (strip_tcb tx)).
      { rewrite Hf, !decide_False by assumption. apply fields_Some, Htx. }
      destruct (fields_lookup _ _ _ E) as (t' & Ht' & _). eauto. }
    rewrite (take_while_ext_in _ _ _ Hle), (drop_while_ext_in _ _ _ Hle). reflexivity. }
  split; [exact Hpv|].
  split.
  { rewrite Hpc, Hpo. eapply prio_val_set_Priority; [eauto|exact Hfo]. }
  split.
  { destruct (rest_of_mutex _ _ a m Hrest) as (m' & Hm' & Ho' & Hn' & _); [exact Hm|].
    exists m'. split; [exact Hm'|]. split; [congruence|exact Hn']. }
  split.
  { eapply state_of_set_State; [eauto|].
    rewrite Hf, decide_False by congruence. rewrite decide_True by reflexivity. reflexivity. }
  split.
  { intros x Hx. destruct (decide (x = o)) as [->|Hxo].
    - unfold state_of. rewrite Hto.
      rewrite (fields_Some _ _ _ Hto) in Hfo. destruct (fields_lookup _ _ _ Hfo) as (t' & Ht' & Hs).
      rewrite Ht'. cbn. f_equal. exact (f_equal State Hs).
    - apply fields_state_of. rewrite Hf, !decide_False by assumption. reflexivity. }
  split; [intros p; rewrite Hcont; apply Hcoff|].
  split; [rewrite (rest_of_CurrentTCB _ _ Hrest); exact Hcur|].
  split; [exact Hswi|].
  split; [rewrite Hnext, Hcont; reflexivity|].
  split; [|intros r Hr Hra; rewrite Hcont; apply Hframe; assumption].
  rewrite (fields_Some _ _ _ Hto) in Hfo. destruct (fields_lookup _ _ _ Hfo) as (t' & Ht' & Hs).
  apply (owner_listed_intro s' o t' Ht').
  replace (State t') with (State to) by (symmetry; exact (f_equal State Hs)).
  replace (Priority t') with (Z.min (Priority tc) (Priority to))
    by (symmetry; exact (f_equal Priority Hs)).
  intros Hst. rewrite Hcont. exact (Hcons' Hst).
Qed.

Lemma owner_listed_vals s o :
  is_Some (tcbs s !! o) →
  (state_of s o = Some TASK_READY → o ∈ contents s (ReadyListAt (prio_val s o))) →
  owner_listed s o = true.
Proof.
  intros [to Hto] H. apply (owner_listed_intro s o to Hto). intros Hst.
  unfold state_of, prio_val, prio_of in H. rewrite Hto in H. cbn in H.
  apply H. rewrite Hst. reflexivity.
Qed.

Lemma mutex_wf_same_core s s' a m m' :
  same_core s s' → mutexes s !! a = Some m → mutexes s' !! a = Some m' →
  Owner m' = Owner m → 0 <= NestCount m' < 256 →
  mutex_wf s a = true → mutex_wf s' a = true.
Proof.
  intros Hc Hm Hm' Ho Hn Hwf.
  destruct (mutex_wf_sound s a m Hwf Hm) as [_ H].
  apply (mutex_wf_intro s' a m' Hm' Hn). rewrite Ho.
  rewrite (same_core_contents _ _ _ Hc).
  destruct (Owner m) as [o|]; [|exact H].
  rewrite (owner_listed_same_core _ _ _ Hc). exact H.
Qed.

Lemma u8_range x : 0 <= u8 x < 256.
Proof. unfold u8. apply Z.mod_pos_bound. lia. Qed.

(** ** A call on one mutex leaves the other mutexes alone *)

Lemma others_kept_refl a s : others_kept a s s.
Proof. intros b _. reflexivity. Qed.

Lemma others_kept_trans a s1 s2 s3 :
  others_kept a s1 s2 → others_kept a s2 s3 → others_kept a s1 s3.
Proof. intros H1 H2 b Hb. rewrite (H2 b Hb). apply H1, Hb. Qed.

Lemma keeps_ret {A} a (x : A) : keeps a (ret x).
Proof. intros s. apply others_kept_refl. Qed.

Lemma keeps_fail {A} a f : keeps a (fail (A := A) f).
Proof. intros s. apply others_kept_refl. Qed.

Lemma keeps_gets {A} a (f : Kernel → A) : keeps a (gets f).
Proof. intros s. apply others_kept_refl. Qed.

Lemma keeps_modify a f : (∀ s, mutexes (f s) = mutexes s) → keeps a (modify f).
Proof. intros H s b _. unfold exec, modify. cbn. rewrite H. reflexivity. Qed.

Lemma keeps_bind {A B} a (m : M A) (k : A → M B) :
  keeps a m → (∀ x, keeps a (k x)) → keeps a (bind m k).
Proof.
  intros Hm Hk s. specialize (Hm s). unfold exec, bind in *.
  destruct (m s) as [[x|f] s1]; cbn in *; [|exact Hm].
  eapply others_kept_trans; [exact Hm|apply Hk].
Qed.

Lemma keeps_load_tcb a p : keeps a (load_tcb p).
Proof.
  intros s. unfold exec, load_tcb. destruct p as [x|]; [|apply others_kept_refl].
  destruct (tcbs s !! x); apply others_kept_refl.
Qed.

Lemma keeps_store_tcb a p f : keeps a (store_tcb p f).
Proof.
  intros s. unfold exec, store_tcb. destruct p as [x|]; [|apply others_kept_refl].
  destruct (tcbs s !! x); [|apply others_kept_refl]. intros b _. reflexivity.
Qed.

Lemma keeps_load_list a r : keeps a (load_list r).
Proof. intros s. unfold exec, load_list. destruct (get_list r s); apply others_kept_refl. Qed.

Lemma keeps_store_list a r f :
  (∀ b, b ≠ a → r ≠ MutexWaitList b) → keeps a (store_list r f).
Proof.
  intros Hr s. unfold exec, store_list.
  destruct (get_list r s) as [v|]; [|apply others_kept_refl]. cbn.
  intros b Hb. destruct r as [p| |x|x|x|x]; cbn; try reflexivity.
  - destruct ((0 <=? p) && (p <? OS_MAX_PRIO)); reflexivity.
  - apply lookup_alter_ne. intros ->. exact (Hr b Hb eq_refl).
Qed.

Lemma keeps_load_mutex a x : keeps a (load_mutex x).
Proof. intros s. unfold exec, load_mutex. destruct (mutexes s !! x); apply others_kept_refl. Qed.

Lemma keeps_store_mutex a f : keeps a (store_mutex a f).
Proof.
  intros s. unfold exec, store_mutex.
  destruct (mutexes s !! a); [|apply others_kept_refl]. cbn.
  intros b Hb. apply lookup_insert_ne. congruence.
Qed.

Ltac keeps_step :=
  lazymatch goal with
  | |- keeps _ (bind _ _) => apply keeps_bind; [|intros ?]
  | |- keeps _ (ret _) => apply keeps_ret
  | |- keeps _ (fail _) => apply keeps_fail
  | |- keeps _ (gets _) => apply keeps_gets
  | |- keeps _ (modify _) => apply keeps_modify; intros ?; reflexivity
  | |- keeps _ (load_tcb _) => apply keeps_load_tcb
  | |- keeps _ (store_tcb _ _) => apply keeps_store_tcb
  | |- keeps _ (load_list _) => apply keeps_load_list
  | |- keeps _ (load_mutex _) => apply keeps_load_mutex
  | |- keeps ?a (store_mutex ?a _) => apply keeps_store_mutex
  | |- keeps _ (store_list _ _) => apply keeps_store_list; assumption
  | |- keeps _ (if ?b then _ else _) => destruct b
  | |- keeps _ (match ?x with _ => _ end) => destruct x
  | |- keeps _ (let _ := _ in _) => cbv zeta
  end.

Lemma keeps_OS_ASSERT a x : keeps a (OS_ASSERT x).
Proof.
  unfold OS_ASSERT, OS_AssertFailed, OS_Disable_IRQ. repeat keeps_step.
Qed.

Lemma keeps_OS_EnterCritical a : keeps a OS_EnterCritical.
Proof. unfold OS_EnterCritical, OS_Disable_IRQ. repeat keeps_step. Qed.

Lemma keeps_OS_ExitCritical a : keeps a OS_ExitCritical.
Proof.
  unfold OS_ExitCritical, OS_Enable_IRQ.
  repeat first [apply keeps_OS_ASSERT | keeps_step].
Qed.

Lemma keeps_List_InsertTail a r x :
  (∀ b, b ≠ a → r ≠ MutexWaitList b) → keeps a (List_InsertTail r x).
Proof.
  intros Hr. unfold List_InsertTail.
  repeat first [apply keeps_OS_ASSERT | keeps_step].
Qed.

Lemma keeps_List_Remove a r x :
  (∀ b, b ≠ a → r ≠ MutexWaitList b) → keeps a (List_Remove r x).
Proof.
  intros Hr. unfold List_Remove.
  repeat first [apply keeps_OS_ASSERT | keeps_step].
Qed.

Lemma keeps_List_PopHead a r :
  (∀ b, b ≠ a → r ≠ MutexWaitList b) → keeps a (List_PopHead r).
Proof.
  intros Hr. unfold List_PopHead.
  repeat first [apply keeps_List_Remove; assumption | keeps_step].
Qed.

Lemma ready_not_wait a p : ∀ b : nat, b ≠ a → ReadyListAt p ≠ MutexWaitList b.
Proof. intros b _. discriminate. Qed.

Lemma wait_not_other a : ∀ b : nat, b ≠ a → MutexWaitList a ≠ MutexWaitList b.
Proof. intros b Hb E. injection E as ->. exact (Hb eq_refl). Qed.

Lemma keeps_OS_ReadyListAdd a x : keeps a (OS_ReadyListAdd x).
Proof.
  unfold OS_ReadyListAdd.
  repeat first [apply keeps_OS_ASSERT | apply keeps_List_InsertTail, ready_not_wait
               | keeps_step].
Qed.

Lemma keeps_OS_ReadyListRemove a x : keeps a (OS_ReadyListRemove x).
Proof.
  unfold OS_ReadyListRemove.
  repeat first [apply keeps_OS_ASSERT | apply keeps_List_Remove, ready_not_wait
               | keeps_step].
Qed.

Lemma keeps_FindNextTask a : keeps a FindNextTask.
Proof.
  unfold FindNextTask. repeat first [apply keeps_OS_ASSERT | keeps_step].
Qed.

Lemma keeps_MutexPend_Walk a fuel : ∀ iter, keeps a (MutexPend_Walk fuel iter).
Proof.
  induction fuel as [|fuel IH]; intros iter; cbn [MutexPend_Walk];
    repeat first [apply IH | keeps_step].
Qed.

Lemma keeps_MutexPend_Enqueue a : keeps a (MutexPend_Enqueue a).
Proof.
  pose proof (wait_not_other a) as Hr.
  unfold MutexPend_Enqueue, walk_fuel.
  repeat first [apply keeps_List_InsertTail; assumption | apply keeps_MutexPend_Walk
               | keeps_step].
Qed.

Ltac keeps_tac :=
  repeat first
    [ apply keeps_OS_EnterCritical | apply keeps_OS_ExitCritical
    | apply keeps_OS_ReadyListAdd | apply keeps_OS_ReadyListRemove
    | apply keeps_FindNextTask | apply keeps_MutexPend_Enqueue
    | apply keeps_List_PopHead, wait_not_other
    | apply keeps_modify; intros ?; reflexivity
    | keeps_step ].

(** [OS_MutexPend] and [OS_MutexPost] on the mutex at [a] write to no
    other mutex. *)
Lemma keeps_OS_MutexPend a : keeps a (OS_MutexPend (Some a)).
Proof. unfold OS_MutexPend, OS_Trigger_SWI. keeps_tac. Qed.

Lemma keeps_OS_MutexPost a : keeps a (OS_MutexPost (Some a)).
Proof. unfold OS_MutexPost, OS_Trigger_SWI. keeps_tac. Qed.

Lemma owner_of_Some s a m : mutexes s !! a = Some m → owner_of s a = Owner m.
Proof. intros Hm. unfold owner_of. rewrite Hm. reflexivity. Qed.

Lemma exec_run {A} (m : M A) s r s' : m s = (r, s') → exec m s = s'.
Proof. intros E. unfold exec. rewrite E. reflexivity. Qed.

(** What a call on the mutex at [a] keeps of another mutex [b], when the
    call leaves the wait list of [b] alone and changes the priority of
    one task [y] at most, which does not wait for [b]. *)
Lemma mutex_frame s s' a b y :
  others_kept a s s' → b ≠ a →
  contents s' (MutexWaitList b) = contents s (MutexWaitList b) →
  (∀ x, x ≠ y → prio_val s' x = prio_val s x) →
  y ∉ contents s (MutexWaitList b) →
  (sorted_by_prio s (contents s (MutexWaitList b)) →
   sorted_by_prio s' (contents s' (MutexWaitList b))) ∧
  (prio_val s' y <= prio_val s y ∨ owner_of s b ≠ Some y → I6 s b → I6 s' b).
Proof.
  intros Hk Hb Hc Hp Hy.
  assert (Hw : ∀ x, x ∈ contents s (MutexWaitList b) → prio_val s' x = prio_val s x).
  { intros x Hx. apply Hp. intros ->. contradiction. }
  split.
  - intros Hs. rewrite Hc. eapply sorted_by_prio_ext; [exact Hw|exact Hs].
  - intros Hy'. unfold I6. unfold owner_of in Hy'. rewrite (Hk b Hb), Hc.
    destruct (mutexes s !! b) as [mb|]; [|auto]. cbn in Hy'.
    destruct (Owner mb) as [o|]; [|auto].
    rewrite !Forall_forall. intros H x Hx. rewrite (Hw x Hx).
    specialize (H x Hx).
    destruct (decide (o = y)) as [->|Hoy].
    + destruct Hy' as [Hle|Hne]; [lia|]. exfalso. apply Hne. reflexivity.
    + rewrite (Hp o Hoy). exact H.
Qed.

Lemma mutex_frame_same_core s s' a b :
  others_kept a s s' → b ≠ a → same_core s s' →
  (sorted_by_prio s (contents s (MutexWaitList b)) →
   sorted_by_prio s' (contents s' (MutexWaitList b))) ∧
  (I6 s b → I6 s' b).
Proof.
  intros Hk Hb Hc.
  assert (Hp : ∀ x, prio_val s' x = prio_val s x).
  { intros x. pose proof Hc as (_ & E & _). unfold prio_val, prio_of. rewrite E. reflexivity. }
  split.
  - intros Hs. rewrite (same_core_contents _ _ _ Hc).
    eapply sorted_by_prio_ext; [intros x _; apply Hp|exact Hs].
  - unfold I6. rewrite (Hk b Hb), (same_core_contents _ _ _ Hc).
    destruct (mutexes s !! b) as [mb|]; [|auto].
    destruct (Owner mb) as [o|]; [|auto].
    rewrite !Forall_forall. intros H x Hx. rewrite !Hp. exact (H x Hx).
Qed.

(** * Main results *)

(** C1 (not met by the code).  In scenario A the ready bitmap and the
    ready lists part ways.  [OS_MutexPost] hands mutex 1 to the waiter W
    (task 2) and puts it on [ReadyList[10]] without setting its state to
    [TASK_READY], which every other wake-up path does.  When H (task 1,
    priority 5) then blocks on the mutex, [OS_MutexPend] takes the owner
    for a blocked task and rewrites its priority in place, on its ready
    list.  The next call by W, [OS_Delay], therefore unlinks W from
    [ReadyList[5]]: bit 5 of [g_PrioMap] stays clear while
    [ReadyList[5].Head] points to X (task 4), and W is still the head of
    [ReadyList[10]].  Every call of the scenario returns. *)
Theorem ready_bitmap_diverges_after_mutex_handoff :
  let s1 := exec scenario_A_handoff app_memory in
  let s2 := exec scenario_A app_memory in
  result scenario_A_handoff app_memory = Ret tt ∧
  kernel_ok s1 = true ∧
  contents s1 (ReadyListAt 10) = [2%nat] ∧ state_of s1 2 = Some TASK_BLOCKED ∧
  result scenario_A app_memory = Ret tt ∧
  Z.testbit (g_PrioMap s2) 5 = false ∧
  Head <$> get_list (ReadyListAt 5) s2 = Some (Some 4%nat) ∧
  state_of s2 2 = Some TASK_BLOCKED ∧
  Head <$> get_list (ReadyListAt 10) s2 = Some (Some 2%nat).
Proof. vm_compute. repeat split; reflexivity. Qed.

(** C2, counterexample.  In scenario B task L holds mutexes 1 and 2 and has
    inherited priority 5 from H, which waits on mutex 1.  When
    [OS_MutexPost] on mutex 2 returns, L is back at priority 20 although it
    still owns mutex 1: I6 does not hold for mutex 1. *)
Lemma I6_fails_with_two_mutexes :
  let s := exec scenario_B app_memory in
  result scenario_B app_memory = Ret OS_OK ∧
  (Owner <$> mutexes s !! 1%nat) = Some (Some 3%nat) ∧
  contents s (MutexWaitList 1) = [1%nat] ∧
  prio_val s 3 = 20 ∧ prio_val s 1 = 5 ∧
  ¬ I6 s 1.
Proof.
  intros s.
  assert (Hw : contents s (MutexWaitList 1) = [1%nat]) by (vm_compute; reflexivity).
  assert (H3 : prio_val s 3 = 20) by (vm_compute; reflexivity).
  assert (H1 : prio_val s 1 = 5) by (vm_compute; reflexivity).
  split; [vm_compute; reflexivity|]. split; [vm_compute; reflexivity|].
  split; [exact Hw|]. split; [exact H3|]. split; [exact H1|].
  unfold I6.
  replace (mutexes s !! 1%nat)
    with (Some (mkMutex (Some 3%nat) (mkList (Some 1%nat) (Some 1%nat)) 1 31))
    by (vm_compute; reflexivity).
  cbn [Owner]. rewrite Hw, Forall_singleton, H3, H1. lia.
Qed.

(** C2, the second way I6 fails.  In scenario J task L owns mutex 1, for
    which W1 and W2 wait, and W2 owns mutex 2.  When H, of priority 5,
    blocks on mutex 2, [OS_MutexPend] raises W2 to priority 5 but leaves
    L, for whose mutex W2 waits, at priority 10: at the return I6 does not
    hold for mutex 1, although it held before the call. *)
Lemma I6_fails_for_waiting_owner :
  let s := exec scenario_J app_memory in
  let s' := exec (OS_MutexPend (Some 2%nat)) s in
  I6 s 1 ∧
  result (OS_MutexPend (Some 2%nat)) s = Ret OS_OK ∧
  owner_of s' 1 = Some 3%nat ∧
  contents s' (MutexWaitList 1) = [2; 4]%nat ∧
  prio_val s' 3 = 10 ∧ prio_val s' 4 = 5 ∧
  ¬ I6 s' 1.
Proof.
  intros s s'.
  assert (Hw : contents s (MutexWaitList 1) = [2; 4]%nat) by (vm_compute; reflexivity).
  assert (H2 : prio_val s 2 = 10) by (vm_compute; reflexivity).
  assert (H3 : prio_val s 3 = 10) by (vm_compute; reflexivity).
  assert (H4 : prio_val s 4 = 10) by (vm_compute; reflexivity).
  assert (Hw' : contents s' (MutexWaitList 1) = [2; 4]%nat) by (vm_compute; reflexivity).
  assert (H3' : prio_val s' 3 = 10) by (vm_compute; reflexivity).
  assert (H4' : prio_val s' 4 = 5) by (vm_compute; reflexivity).
  split.
  { unfold I6.
    replace (mutexes s !! 1%nat)
      with (Some (mkMutex (Some 3%nat) (mkList (Some 2%nat) (Some 4%nat)) 1 31))
      by (vm_compute; reflexivity).
    cbn [Owner]. rewrite Hw. apply Forall_cons. split; [rewrite H3, H2; lia|].
    apply Forall_singleton. rewrite H3, H4. lia. }
  split; [vm_compute; reflexivity|]. split; [vm_compute; reflexivity|].
  split; [exact Hw'|]. split; [exact H3'|]. split; [exact H4'|].
  unfold I6.
  replace (mutexes s' !! 1%nat)
    with (Some (mkMutex (Some 3%nat) (mkList (Some 2%nat) (Some 4%nat)) 1 31))
    by (vm_compute; reflexivity).
  cbn [Owner]. rewrite Hw'. intros Hf.
  apply Forall_cons in Hf as [_ Hf]. apply Forall_cons in Hf as [Hf _].
  rewrite H3', H4' in Hf. lia.
Qed.

(** C2 (as amended: one call, seen from every mutex).  Let the kernel
    state be well formed ([kernel_ok]) with the running task [cur] on the
    ready list of its priority, and let the mutex at [a] be well formed
    in the sense of [mutex_wf]: its nesting count is a byte, its owner
    does not wait on it, and an owner in state READY stands on the ready
    list of its priority; nothing is asked of an owner in another state,
    so the owner that a hand-over has put on a ready list without
    setting its state is included.  Let the wait list of the mutex be in
    ascending order of priority value and I6 hold for it.

    Then [OS_MutexPend] on this mutex by [cur] returns [OS_OK], provided
    that some other task is ready to run in its place, and
    [OS_MutexPost] on it returns [OS_OK] when [cur] owns the mutex and
    [OS_ERR_NOT_OWNER] otherwise, provided that the original priority of
    [cur] is one of the 32 priorities.  At either return I6 holds for
    this mutex again, its wait list is still in order and the mutex is
    well formed again.

    For another mutex [b] the call keeps I6 and the order of the wait
    list in these cases: at the return of [OS_MutexPend], if the owner of
    [a] does not wait for [b]; at the return of [OS_MutexPost], the order
    always, and I6 if [cur] does not own [b].  Outside them I6 can fail:
    the final release restores the original priority of a caller that
    still owns [b], and a pend raises an owner that waits for [b] without
    raising the owner of [b] in turn. *)
Theorem mutex_I6_step s a cur :
  kernel_ok s = true → current_ready s = true → CurrentTCB s = Some cur →
  mutex_wf s a = true →
  sorted_by_prio s (contents s (MutexWaitList a)) → I6 s a →
  (other_ready s cur = true →
   ∃ s', OS_MutexPend (Some a) s = (Ret OS_OK, s') ∧
         I6 s' a ∧ sorted_by_prio s' (contents s' (MutexWaitList a)) ∧
         mutex_wf s' a = true ∧
         ∀ b, b ≠ a →
           (∀ o, owner_of s a = Some o → o ∉ contents s (MutexWaitList b)) →
           (sorted_by_prio s (contents s (MutexWaitList b)) →
            sorted_by_prio s' (contents s' (MutexWaitList b))) ∧
           (I6 s b → I6 s' b)) ∧
  (0 <= orig_val s cur < 32 →
   ∃ r s', OS_MutexPost (Some a) s = (Ret r, s') ∧
           r = (if bool_decide (owner_of s a = Some cur) then OS_OK
                else OS_ERR_NOT_OWNER) ∧
           I6 s' a ∧ sorted_by_prio s' (contents s' (MutexWaitList a)) ∧
           mutex_wf s' a = true ∧
           ∀ b, b ≠ a →
             (sorted_by_prio s (contents s (MutexWaitList b)) →
              sorted_by_prio s' (contents s' (MutexWaitList b))) ∧
             (owner_of s b ≠ Some cur → I6 s b → I6 s' b)).
Proof.
  intros Hk Hcr Hcur Hmwf Hsorted HI6.
  destruct (kernel_ok_sound s Hk) as [Hinv Hn].
  pose proof (inv_lists _ _ Hinv) as (_ & Hnd & Hdisj).
  destruct (current_ready_sound s Hcr) as (cur' & tc & Hcur' & Htc & Hcin).
  assert (cur' = cur) by congruence. subst cur'.
  assert (Hcl : owner_listed s cur = true)
    by (apply (owner_listed_intro s cur tc Htc); intros _; exact Hcin).
  assert (Hcw : ∀ b, cur ∉ contents s (MutexWaitList b)).
  { intros b Hin. pose proof (Hdisj _ _ _ Hin Hcin) as E. discriminate E. }
  assert (Hnw : ∀ b p, MutexWaitList b ≠ ReadyListAt p) by (intros b p; discriminate).
  assert (Hab : ∀ b, b ≠ a → MutexWaitList b ≠ MutexWaitList a)
    by (intros b Hb E; injection E as ->; exact (Hb eq_refl)).
  destruct (mutexes s !! a) as [m|] eqn:Hm;
    [|unfold mutex_wf in Hmwf; rewrite Hm in Hmwf; discriminate].
  pose proof (owner_of_Some s a m Hm) as Hoa.
  destruct (mutex_wf_sound s a m Hmwf Hm) as [Hnest Hwf].
  assert (HI6' : match Owner m with
                 | Some o => Forall (λ w, prio_val s o <= prio_val s w)
                               (contents s (MutexWaitList a))
                 | None => True
                 end) by (unfold I6 in HI6; rewrite Hm in HI6; exact HI6).
  set (l := contents s (MutexWaitList a)) in *.
  split.
  - (* OS_MutexPend *)
    intros Hother.
    destruct (Owner m) as [o|] eqn:Ho.
    + destruct Hwf as [Hown Hnotin].
      destruct (decide (o = cur)) as [->|Hoc].
      * destruct (MutexPend_nested_run s a m cur Hn Hcur Hm Ho)
          as (s' & m' & Hrun & Hcore & Hm' & Ho' & Hn').
        pose proof (keeps_OS_MutexPend a s) as Hkept. rewrite (exec_run _ _ _ _ Hrun) in Hkept.
        exists s'. split; [exact Hrun|]. split; [|split; [|split]].
        -- eapply I6_same_core; [exact Hcore|exact Hm|exact Hm'|congruence|exact HI6].
        -- rewrite (same_core_contents _ _ _ Hcore). eapply sorted_same_core; eauto.
        -- eapply mutex_wf_same_core; [exact Hcore|exact Hm|exact Hm'|congruence| |exact Hmwf].
           rewrite Hn'. apply u8_range.
        -- intros b Hb _. exact (mutex_frame_same_core s s' a b Hkept Hb Hcore).
      * destruct (MutexPend_contended_any_run s a m cur o Hk Hcr Hcur Hm Ho Hoc Hown Hnotin Hother)
          as (s' & Hrun & _ & Hwl & Hpv & Hpo & (m' & Hm' & Ho' & Hn') & _ & _ & _ & _ & _ & _ & Hol & Hfr).
        pose proof (keeps_OS_MutexPend a s) as Hkept. rewrite (exec_run _ _ _ _ Hrun) in Hkept.
        cbv zeta in Hwl. fold l in Hwl.
        set (le := λ x, prio_val s x <=? prio_val s cur) in *.
        assert (Hin : ∀ x, x ∈ take_while le l ++ cur :: drop_while le l → x = cur ∨ x ∈ l).
        { intros x Hx. apply elem_of_app in Hx as [Hx|Hx].
          - right. rewrite <- (take_drop_while le l). apply elem_of_app. left. exact Hx.
          - apply elem_of_cons in Hx as [->|Hx]; [left; reflexivity|right].
            rewrite <- (take_drop_while le l). apply elem_of_app. right. exact Hx. }
        assert (Hpl : ∀ x, x ∈ take_while le l ++ cur :: drop_while le l →
                       prio_val s' x = prio_val s x).
        { intros x Hx. apply Hpv. intros ->.
          destruct (Hin _ Hx) as [E|E]; [congruence|contradiction]. }
        exists s'. split; [exact Hrun|]. split; [|split; [|split]].
        -- unfold I6. rewrite Hm', Ho', Hwl, Hpo. apply Forall_forall. intros x Hx.
           rewrite (Hpl x Hx). destruct (Hin x Hx) as [->|Hxl]; [lia|].
           rewrite Forall_forall in HI6'. specialize (HI6' x Hxl). lia.
        -- rewrite Hwl. eapply sorted_by_prio_ext; [exact Hpl|].
           apply insert_sorted; [reflexivity|exact Hsorted].
        -- apply (mutex_wf_intro s' a m' Hm'); [rewrite Hn'; exact Hnest|].
           rewrite Ho'. split; [exact Hol|]. rewrite Hwl. intros Hx.
           destruct (Hin _ Hx) as [E|E]; [congruence|contradiction].
        -- intros b Hb Hob.
           destruct (mutex_frame s s' a b o Hkept Hb (Hfr _ (Hnw b) (Hab b Hb)) Hpv
                       (Hob o Hoa)) as [Hs Hi].
           split; [exact Hs|]. apply Hi. left. rewrite Hpo. lia.
    + destruct (MutexPend_free_run s a m cur Hn Hcur Hm Ho)
        as (s' & m' & Hrun & Hcore & Hm' & Ho' & Hn').
      pose proof (keeps_OS_MutexPend a s) as Hkept. rewrite (exec_run _ _ _ _ Hrun) in Hkept.
      exists s'. split; [exact Hrun|].
      assert (Hl' : contents s' (MutexWaitList a) = [])
        by (rewrite (same_core_contents _ _ _ Hcore); exact Hwf).
      split; [|split; [|split]].
      * unfold I6. rewrite Hm', Ho', Hl'. constructor.
      * rewrite Hl'. constructor.
      * apply (mutex_wf_intro s' a m' Hm'); [rewrite Hn'; lia|].
        rewrite Ho'. split.
        -- rewrite (owner_listed_same_core _ _ _ Hcore). exact Hcl.
        -- rewrite Hl'. apply not_elem_of_nil.
      * intros b Hb _. exact (mutex_frame_same_core s s' a b Hkept Hb Hcore).
  - (* OS_MutexPost *)
    intros Hor. rewrite Hoa.
    destruct (decide (Owner m = Some cur)) as [Ho|Ho].
    + rewrite Ho in Hwf, HI6'. destruct Hwf as [_ Hnotin].
      rewrite bool_decide_eq_true_2 by exact Ho.
      destruct (decide (0 < u8 (NestCount m - 1))) as [Hpos|Hzero].
      * destruct (MutexPost_nested_run s a m Hn Hm ltac:(congruence) Hpos)
          as (s' & m' & Hrun & Hcore & Hm' & Ho' & Hn').
        pose proof (keeps_OS_MutexPost a s) as Hkept. rewrite (exec_run _ _ _ _ Hrun) in Hkept.
        exists OS_OK, s'. split; [exact Hrun|]. split; [reflexivity|].
        split; [|split; [|split]].
        -- eapply I6_same_core; [exact Hcore|exact Hm|exact Hm'|exact Ho'|exact HI6].
        -- rewrite (same_core_contents _ _ _ Hcore). eapply sorted_same_core; eauto.
        -- eapply mutex_wf_same_core; [exact Hcore|exact Hm|exact Hm'|exact Ho'| |exact Hmwf].
           rewrite Hn'. apply u8_range.
        -- intros b Hb.
           destruct (mutex_frame_same_core s s' a b Hkept Hb Hcore) as [Hs Hi]. auto.
      * assert (Hone : NestCount m = 1).
        { unfold u8 in Hzero. destruct (decide (NestCount m = 0)) as [E|E].
          - rewrite E in Hzero. exfalso. apply Hzero. reflexivity.
          - rewrite Z.mod_small in Hzero by lia. lia. }
        destruct l as [|w rest] eqn:Hl.
        -- destruct (MutexPost_release_run s a m cur Hk Hcr Hcur Hm Ho Hone Hor Hl)
             as (s' & m' & Hrun & Hm' & Ho' & Hl' & Hn' & Hpv & Hfr).
           pose proof (keeps_OS_MutexPost a s) as Hkept.
           rewrite (exec_run _ _ _ _ Hrun) in Hkept.
           exists OS_OK, s'. split; [exact Hrun|]. split; [reflexivity|].
           split; [|split; [|split]].
           ++ unfold I6. rewrite Hm', Ho'. exact I.
           ++ rewrite Hl'. constructor.
           ++ apply (mutex_wf_intro s' a m' Hm'); [rewrite Hn'; lia|].
              rewrite Ho'. exact Hl'.
           ++ intros b Hb.
              destruct (mutex_frame s s' a b cur Hkept Hb (Hfr _ (Hnw b)) Hpv (Hcw b))
                as [Hs Hi].
              split; [exact Hs|]. intros Hne. apply Hi. right. exact Hne.
        -- destruct (MutexPost_handoff_run s a m cur w rest Hk Hcr Hcur Hm Ho Hone Hor Hl)
             as (s' & Hrun & _ & Hl' & (lw & Hrl) & (m' & Hm' & Ho' & Hn') & Hpv & _ & Hst
                 & _ & _ & _ & Hfr).
           pose proof (keeps_OS_MutexPost a s) as Hkept.
           rewrite (exec_run _ _ _ _ Hrun) in Hkept.
           pose proof (Hl : contents s (MutexWaitList a) = w :: rest) as Hl2.
           assert (Hwc : w ≠ cur).
           { intros ->. apply (Hcw a). rewrite Hl2. apply list_elem_of_here. }
           assert (Hpl : ∀ x, x ∈ w :: rest → prio_val s' x = prio_val s x).
           { intros x Hx. apply Hpv. intros ->. apply (Hcw a). rewrite Hl2. exact Hx. }
           pose proof Hsorted as Hs. unfold sorted_by_prio in Hs. rewrite fmap_cons in Hs.
           apply StronglySorted_inv in Hs as [Hs1 Hs2].
           exists OS_OK, s'. split; [exact Hrun|]. split; [reflexivity|].
           split; [|split; [|split]].
           ++ unfold I6. rewrite Hm', Ho', Hl'. apply Forall_forall. intros x Hx.
              rewrite (Hpl w) by apply list_elem_of_here.
              rewrite (Hpl x) by (apply list_elem_of_further, Hx).
              rewrite Forall_forall in Hs2. apply Hs2. apply list_elem_of_fmap. eauto.
           ++ rewrite Hl'. eapply sorted_by_prio_ext; [|exact Hs1].
              intros x Hx. apply Hpl, list_elem_of_further, Hx.
           ++ apply (mutex_wf_intro s' a m' Hm'); [rewrite Hn'; lia|].
              rewrite Ho'. split.
              ** apply owner_listed_vals.
                 { specialize (Hst w). unfold state_of in Hst.
                   assert (Hwin : w ∈ contents s (MutexWaitList a))
                     by (rewrite Hl2; apply list_elem_of_here).
                   destruct (lists_ok_in_heap _ _ _ _ (inv_lists _ _ Hinv) Hwin) as [tw Htw].
                   rewrite Htw in Hst. cbn in Hst.
                   destruct (tcbs s' !! w); [eauto|discriminate]. }
                 intros _. rewrite (Hpv w Hwc), Hrl. apply elem_of_app. right.
                 apply list_elem_of_here.
              ** rewrite Hl'. pose proof (Hnd (MutexWaitList a)) as Hnd'.
                 rewrite Hl2 in Hnd'. apply NoDup_cons in Hnd' as [Hw' _].
                 exact Hw'.
           ++ intros b Hb.
              destruct (mutex_frame s s' a b cur Hkept Hb (Hfr _ (Hnw b) (Hab b Hb)) Hpv
                          (Hcw b)) as [Hs Hi].
              split; [exact Hs|]. intros Hne. apply Hi. right. exact Hne.
    + rewrite bool_decide_eq_false_2 by exact Ho.
      assert (Hrun : OS_MutexPost (Some a) s
                     = (Ret OS_ERR_NOT_OWNER, set_irq_enabled (irq_after s) s))
        by (apply (MutexPost_not_owner_run s a m Hn Hm); congruence).
      pose proof (keeps_OS_MutexPost a s) as Hkept.
      rewrite (exec_run _ _ _ _ Hrun) in Hkept.
      exists OS_ERR_NOT_OWNER, (set_irq_enabled (irq_after s) s).
      split; [exact Hrun|]. split; [reflexivity|].
      assert (Hcore : same_core s (set_irq_enabled (irq_after s) s)) by same_core_tac.
      split; [|split; [|split]].
      * eapply I6_same_core; [exact Hcore|exact Hm|exact Hm|reflexivity|exact HI6].
      * rewrite (same_core_contents _ _ _ Hcore). eapply sorted_same_core; eauto.
      * eapply mutex_wf_same_core; [exact Hcore|exact Hm|exact Hm|reflexivity|exact Hnest|exact Hmwf].
      * intros b Hb.
        destruct (mutex_frame_same_core s _ a b Hkept Hb Hcore) as [Hs Hi]. auto.
Qed.

Lemma mutex_I6_step_witness :
  (let s := exec scenario_A_stale_owner app_memory in
   mutex_ok s 1 = false ∧ I6 s 1 ∧
   ∃ s', OS_MutexPend (Some 1%nat) s = (Ret OS_OK, s') ∧
         I6 s' 1 ∧ mutex_wf s' 1 = true) ∧
  (let s := exec scenario_H_handoff app_memory in
   mutex_ok s 1 = false ∧ I6 s 1 ∧
   ∃ s', OS_MutexPost (Some 1%nat) s = (Ret OS_OK, s') ∧
         I6 s' 1 ∧ mutex_wf s' 1 = true) ∧
  (let s := exec scenario_K app_memory in
   contents s (MutexWaitList 2) = [2%nat] ∧ I6 s 1 ∧ I6 s 2 ∧
   ∃ s', OS_MutexPend (Some 1%nat) s = (Ret OS_OK, s') ∧ I6 s' 1 ∧ I6 s' 2) ∧
  (let s := exec scenario_K_blocked app_memory in
   contents s (MutexWaitList 2) = [2%nat] ∧ I6 s 1 ∧ I6 s 2 ∧
   ∃ s', OS_MutexPost (Some 1%nat) s = (Ret OS_OK, s') ∧ I6 s' 1 ∧ I6 s' 2).
Proof.
  split; [|split; [|split]].
  - intros s.
    pose (m := default zero_mutex (mutexes s !! 1%nat)).
    assert (Hk : kernel_ok s = true) by (vm_compute; reflexivity).
    assert (Hcr : current_ready s = true) by (vm_compute; reflexivity).
    assert (Hcur : CurrentTCB s = Some 1%nat) by (vm_compute; reflexivity).
    assert (Hother : other_ready s 1 = true) by (vm_compute; reflexivity).
    assert (Hmok : mutex_ok s 1 = false) by (vm_compute; reflexivity).
    assert (Hmwf : mutex_wf s 1 = true) by (vm_compute; reflexivity).
    assert (Hm : mutexes s !! 1%nat = Some m) by (vm_compute; reflexivity).
    assert (Ho : Owner m = Some 2%nat) by (vm_compute; reflexivity).
    assert (Hwl : contents s (MutexWaitList 1) = []) by (vm_compute; reflexivity).
    assert (Hsorted : sorted_by_prio s (contents s (MutexWaitList 1))).
    { rewrite Hwl. unfold sorted_by_prio. constructor. }
    assert (HI6 : I6 s 1).
    { unfold I6. rewrite Hm, Ho, Hwl. constructor. }
    destruct (mutex_I6_step s 1 1 Hk Hcr Hcur Hmwf Hsorted HI6) as [Hpend _].
    destruct (Hpend Hother) as (s1 & Hrun1 & HI1 & _ & Hwf1 & _).
    split; [exact Hmok|]. split; [exact HI6|].
    exists s1. split; [exact Hrun1|]. split; assumption.
  - intros s.
    pose (m := default zero_mutex (mutexes s !! 1%nat)).
    assert (Hk : kernel_ok s = true) by (vm_compute; reflexivity).
    assert (Hcr : current_ready s = true) by (vm_compute; reflexivity).
    assert (Hcur : CurrentTCB s = Some 2%nat) by (vm_compute; reflexivity).
    assert (Eor : orig_val s 2 = 10) by (vm_compute; reflexivity).
    assert (Hor : 0 <= orig_val s 2 < 32) by (rewrite Eor; lia).
    assert (Hmok : mutex_ok s 1 = false) by (vm_compute; reflexivity).
    assert (Hmwf : mutex_wf s 1 = true) by (vm_compute; reflexivity).
    assert (Hm : mutexes s !! 1%nat = Some m) by (vm_compute; reflexivity).
    assert (Ho : Owner m = Some 2%nat) by (vm_compute; reflexivity).
    assert (Hoa : owner_of s 1 = Some 2%nat) by (vm_compute; reflexivity).
    assert (Hwl : contents s (MutexWaitList 1) = [4%nat]) by (vm_compute; reflexivity).
    assert (H2 : prio_val s 2 = 10) by (vm_compute; reflexivity).
    assert (H4 : prio_val s 4 = 10) by (vm_compute; reflexivity).
    assert (Hsorted : sorted_by_prio s (contents s (MutexWaitList 1))).
    { rewrite Hwl. unfold sorted_by_prio. repeat constructor. }
    assert (HI6 : I6 s 1).
    { unfold I6. rewrite Hm, Ho, Hwl. apply Forall_singleton. rewrite H2, H4. lia. }
    destruct (mutex_I6_step s 1 2 Hk Hcr Hcur Hmwf Hsorted HI6) as [_ Hpost].
    destruct (Hpost Hor) as (r & s2 & Hrun2 & Hr & HI2 & _ & Hwf2 & _).
    rewrite Hoa, bool_decide_eq_true_2 in Hr by reflexivity. subst r.
    split; [exact Hmok|]. split; [exact HI6|].
    exists s2. split; [exact Hrun2|]. split; assumption.
  - intros s.
    pose (m := default zero_mutex (mutexes s !! 1%nat)).
    pose (m2 := default zero_mutex (mutexes s !! 2%nat)).
    assert (Hk : kernel_ok s = true) by (vm_compute; reflexivity).
    assert (Hcr : current_ready s = true) by (vm_compute; reflexivity).
    assert (Hcur : CurrentTCB s = Some 1%nat) by (vm_compute; reflexivity).
    assert (Hother : other_ready s 1 = true) by (vm_compute; reflexivity).
    assert (Hmwf : mutex_wf s 1 = true) by (vm_compute; reflexivity).
    assert (Hm : mutexes s !! 1%nat = Some m) by (vm_compute; reflexivity).
    assert (Ho : Owner m = Some 3%nat) by (vm_compute; reflexivity).
    assert (Hoa : owner_of s 1 = Some 3%nat) by (vm_compute; reflexivity).
    assert (Hm2 : mutexes s !! 2%nat = Some m2) by (vm_compute; reflexivity).
    assert (Ho2 : Owner m2 = Some 4%nat) by (vm_compute; reflexivity).
    assert (Hwl : contents s (MutexWaitList 1) = []) by (vm_compute; reflexivity).
    assert (Hwl2 : contents s (MutexWaitList 2) = [2%nat]) by (vm_compute; reflexivity).
    assert (H2 : prio_val s 2 = 10) by (vm_compute; reflexivity).
    assert (H4 : prio_val s 4 = 10) by (vm_compute; reflexivity).
    assert (Hsorted : sorted_by_prio s (contents s (MutexWaitList 1))).
    { rewrite Hwl. unfold sorted_by_prio. constructor. }
    assert (HI6 : I6 s 1).
    { unfold I6. rewrite Hm, Ho, Hwl. constructor. }
    assert (HI62 : I6 s 2).
    { unfold I6. rewrite Hm2, Ho2, Hwl2. apply Forall_singleton. rewrite H2, H4. lia. }
    assert (Hfree : ∀ o, owner_of s 1 = Some o → o ∉ contents s (MutexWaitList 2)).
    { intros o Eo. rewrite Hoa in Eo. injection Eo as <-. rewrite Hwl2.
      intros H. apply list_elem_of_singleton in H. discriminate H. }
    destruct (mutex_I6_step s 1 1 Hk Hcr Hcur Hmwf Hsorted HI6) as [Hpend _].
    destruct (Hpend Hother) as (s1 & Hrun1 & HI1 & _ & _ & Hframe).
    destruct (Hframe 2%nat ltac:(discriminate) Hfree) as [_ Hkeep].
    split; [exact Hwl2|]. split; [exact HI6|]. split; [exact HI62|].
    exists s1. split; [exact Hrun1|]. split; [exact HI1|exact (Hkeep HI62)].
  - intros s.
    pose (m := default zero_mutex (mutexes s !! 1%nat)).
    pose (m2 := default zero_mutex (mutexes s !! 2%nat)).
    assert (Hk : kernel_ok s = true) by (vm_compute; reflexivity).
    assert (Hcr : current_ready s = true) by (vm_compute; reflexivity).
    assert (Hcur : CurrentTCB s = Some 3%nat) by (vm_compute; reflexivity).
    assert (Eor : orig_val s 3 = 20) by (vm_compute; reflexivity).
    assert (Hor : 0 <= orig_val s 3 < 32) by (rewrite Eor; lia).
    assert (Hmwf : mutex_wf s 1 = true) by (vm_compute; reflexivity).
    assert (Hm : mutexes s !! 1%nat = Some m) by (vm_compute; reflexivity).
    assert (Ho : Owner m = Some 3%nat) by (vm_compute; reflexivity).
    assert (Hoa : owner_of s 1 = Some 3%nat) by (vm_compute; reflexivity).
    assert (Hob : owner_of s 2 = Some 4%nat) by (vm_compute; reflexivity).
    assert (Hm2 : mutexes s !! 2%nat = Some m2) by (vm_compute; reflexivity).
    assert (Ho2 : Owner m2 = Some 4%nat) by (vm_compute; reflexivity).
    assert (Hwl : contents s (MutexWaitList 1) = [1%nat]) by (vm_compute; reflexivity).
    assert (Hwl2 : contents s (MutexWaitList 2) = [2%nat]) by (vm_compute; reflexivity).
    assert (H1 : prio_val s 1 = 5) by (vm_compute; reflexivity).
    assert (H2 : prio_val s 2 = 10) by (vm_compute; reflexivity).
    assert (H3 : prio_val s 3 = 5) by (vm_compute; reflexivity).
    assert (H4 : prio_val s 4 = 10) by (vm_compute; reflexivity).
    assert (Hsorted : sorted_by_prio s (contents s (MutexWaitList 1))).
    { rewrite Hwl. unfold sorted_by_prio. repeat constructor. }
    assert (HI6 : I6 s 1).
    { unfold I6. rewrite Hm, Ho, Hwl. apply Forall_singleton. rewrite H3, H1. lia. }
    assert (HI62 : I6 s 2).
    { unfold I6. rewrite Hm2, Ho2, Hwl2. apply Forall_singleton. rewrite H2, H4. lia. }
    assert (Hne : owner_of s 2 ≠ Some 3%nat) by (rewrite Hob; discriminate).
    destruct (mutex_I6_step s 1 3 Hk Hcr Hcur Hmwf Hsorted HI6) as [_ Hpost].
    destruct (Hpost Hor) as (r & s2 & Hrun2 & Hr & HI2 & _ & _ & Hframe).
    rewrite Hoa, bool_decide_eq_true_2 in Hr by reflexivity. subst r.
    destruct (Hframe 2%nat ltac:(discriminate)) as [_ Hkeep].
    split; [exact Hwl2|]. split; [exact HI6|]. split; [exact HI62|].
    exists s2. split; [exact Hrun2|]. split; [exact HI2|exact (Hkeep Hne HI62)].
Defined.

(** C3.  A tick with the delay list [d :: rest], whose head has [δ] ticks
    left, taken while task [cur] runs.  [OS_Tick_Handler] sets the head's
    [DelayTicks] to [max 0 (δ - 1)] and changes no other delay.  The tasks
    [woken], the longest prefix of the list whose delays are then zero,
    leave the list, in the state [TASK_READY]; each is appended to the
    ready list of its priority, so the tasks of one priority that wake on
    this tick stand in that ready list in their delay-list order.  The
    only other change to a ready list is that the running task goes to the
    tail of its own.  No other task changes state, no priority changes and
    the kernel invariant holds afterwards.  The handler returns when a
    task is left on the delay list; when the list empties, the loop
    condition reads [DelayList.Head->DelayTicks] through the null head,
    after the delay list has been processed as described. *)
Theorem OS_Tick_Handler_delay_spec s cur tc d rest δ :
  kernel_ok s = true →
  g_OSRunning s = true →
  CurrentTCB s = Some cur →
  tcbs s !! cur = Some tc →
  current_ready s = true →
  stack_ok s = true →
  contents s DelayListRef = d :: rest →
  delay_of s d = Some δ →
  let s0 := upd_tcb d (set_DelayTicks (Z.max 0 (δ - 1))) s in
  let woken := take_while (expired s0) (d :: rest) in
  let left := drop_while (expired s0) (d :: rest) in
  let ready p := contents s (ReadyListAt p) ++ filter (λ x, has_prio s p x = true) woken in
  let s' := exec OS_Tick_Handler s in
  result OS_Tick_Handler s = (if decide (left = []) then Fault NullPointer else Ret tt) ∧
  delay_of s' d = Some (Z.max 0 (δ - 1)) ∧
  (∀ x, x ≠ d → delay_of s' x = delay_of s x) ∧
  contents s' DelayListRef = left ∧
  (∀ x, x ∈ woken → state_of s' x = Some TASK_READY) ∧
  (∀ p, contents s' (ReadyListAt p)
        = if decide (left ≠ [] ∧ p = Priority tc) then rotated cur tc (ready p)
          else ready p) ∧
  (∀ p, filter (λ x, x ∈ woken) (contents s' (ReadyListAt p))
        = filter (λ x, has_prio s p x = true) woken) ∧
  (∀ x, x ∉ woken → state_of s' x = state_of s x) ∧
  (∀ x, prio_of s' x = prio_of s x) ∧
  kernel_inv s' (contents s').
Proof.
  intros Hk Hrun Hcur Htc Hcr Hstack Hc Hδ s0 woken left ready s'.
  destruct (kernel_ok_sound s Hk) as [Hinv _].
  destruct (current_ready_sound s Hcr) as (cur' & tc' & Hcur' & Htc' & Hcin).
  rewrite Hcur in Hcur'. injection Hcur' as <-.
  rewrite Htc in Htc'. injection Htc' as <-.
  destruct (inv_tcb _ _ (inv_data _ _ Hinv) cur tc Htc) as [Hpc _].
  (* the tick count *)
  set (st := set_g_SystemTickCount (u32 (g_SystemTickCount s + 1)) s).
  assert (Hcore : same_core s st) by same_core_tac.
  assert (Hinvt : kernel_inv st (contents st)).
  { eapply same_core_inv; [exact Hcore|].
    eapply kernel_inv_pointwise; [|exact Hinv].
    intros r. symmetry. apply same_core_contents, Hcore. }
  (* the delay list *)
  assert (He : ∀ x, expired (upd_tcb d (set_DelayTicks (Z.max 0 (δ - 1))) st) x = expired s0 x)
    by (intros x; unfold expired, s0; rewrite !lookup_upd_tcb; reflexivity).
  pose proof (Tick_DelayList_run st d rest δ Hinvt Hc Hδ) as Hrun1. cbv zeta in Hrun1.
  rewrite !(take_while_ext _ _ _ He), !(drop_while_ext _ _ _ He) in Hrun1.
  change (take_while (expired s0) (d :: rest)) with woken in Hrun1.
  change (drop_while (expired s0) (d :: rest)) with left in Hrun1.
  set (s1 := exec Tick_DelayList st) in *.
  destruct Hrun1 as (Hres & Hd1 & Hd1' & Hleft1 & Hst1 & Hrl1 & Hst1' & Hpr1 & Hinv1).
  change (∀ p, contents s1 (ReadyListAt p) = ready p) in Hrl1.
  (* the running task is not on the delay list *)
  pose proof (inv_lists _ _ Hinv) as Hok. pose proof Hok as (_ & _ & Hdisj).
  assert (Hnw : ∀ p x, x ∈ contents s (ReadyListAt p) → x ∉ woken).
  { intros p x Hx Hw. apply take_while_subseteq in Hw. rewrite <- Hc in Hw.
    specialize (Hdisj _ _ _ Hx Hw). discriminate. }
  assert (Hcw : cur ∉ woken) by (eapply Hnw; exact Hcin).
  assert (Hcst : CurrentTCB s1 = Some cur).
  { rewrite <- Hcur. change (CurrentTCB s) with (CurrentTCB st).
    apply rest_of_CurrentTCB. eapply Tick_DelayList_rest. exact Hinvt. }
  (* the state at the end *)
  assert (Hpost : post OS_Tick_Handler (λ o s2,
            o = (if decide (left = []) then Fault NullPointer else Ret tt) ∧
            (∀ x, fields s2 x = fields s1 x) ∧
            kernel_inv s2 (λ r, if decide (left ≠ [] ∧ r = ReadyListAt (Priority tc))
                                then rotated cur tc (contents s1 r) else contents s1 r)) s).
  { unfold OS_Tick_Handler.
    apply post_bind, wp_gets. rewrite Hrun. cbn [negb].
    apply post_bind, wp_gets. rewrite Hcur. cbn [is_null negb].
    apply post_bind. unfold OS_ASSERT. apply wp_ret.
    apply post_bind. apply wp_OS_CheckStackOverflow; [exact Hstack|].
    apply post_bind, wp_modify. fold st.
    apply post_bind_run. fold s1. rewrite Hres.
    destruct (decide (left = [])) as [Hnil|Hne].
    { split; [reflexivity|]. split; [reflexivity|].
      eapply kernel_inv_pointwise; [|exact Hinv1].
      intros r. rewrite decide_False by tauto. reflexivity. }
    destruct (tcbs s1 !! cur) as [tc1|] eqn:Htc1.
    2:{ specialize (Hpr1 cur). unfold prio_of in Hpr1.
        change (tcbs st) with (tcbs s) in Hpr1. rewrite Htc1, Htc in Hpr1. discriminate. }
    assert (Hp1 : Priority tc1 = Priority tc).
    { specialize (Hpr1 cur). unfold prio_of in Hpr1.
      change (tcbs st) with (tcbs s) in Hpr1. rewrite Htc1, Htc in Hpr1.
      cbn in Hpr1. congruence. }
    assert (Hs1 : State tc1 = State tc).
    { specialize (Hst1' cur Hcw). unfold state_of in Hst1'.
      change (tcbs st) with (tcbs s) in Hst1'. rewrite Htc1, Htc in Hst1'.
      cbn in Hst1'. congruence. }
    assert (Hcin1 : cur ∈ contents s1 (ReadyListAt (Priority tc1))).
    { rewrite Hp1, Hrl1. apply elem_of_app. left. exact Hcin. }
    apply post_bind. eapply wp_Tick_RoundRobin; [exact Hinv1|exact Hcst|exact Htc1|exact Hcin1|].
    intros s2 Hinv2 Hdata2. rewrite Hp1, Hs1 in Hinv2.
    assert (Hinv2' : kernel_inv s2
              (λ r, if decide (left ≠ [] ∧ r = ReadyListAt (Priority tc))
                    then rotated cur tc (contents s1 r) else contents s1 r)).
    { eapply kernel_inv_pointwise; [|exact Hinv2]. intros r. unfold rotated.
      destruct (decide (r = ReadyListAt (Priority tc))) as [->|Hr].
      - rewrite decide_True by tauto.
        destruct (State tc); [apply fn_lookup_insert|reflexivity|reflexivity].
      - rewrite decide_False by tauto.
        destruct (State tc); [apply fn_lookup_insert_ne; congruence|reflexivity|reflexivity]. }
    assert (Hnz : g_PrioMap s2 ≠ 0).
    { eapply (kernel_inv_nonzero _ _ (Priority tc) cur); [exact Hinv2'|exact Hpc|].
      cbv beta. rewrite decide_True by tauto. rewrite Hp1 in Hcin1.
      unfold rotated. destruct (State tc); try exact Hcin1.
      apply elem_of_app. right. apply list_elem_of_here. }
    apply post_bind. eapply wp_FindNextTask; [exact Hinv2'|exact Hnz|].
    intros nx _.
    apply post_bind, wp_modify. apply post_bind, wp_gets.
    assert (Hend : ∀ b, (∀ x, fields ((if b : bool then set_swi_pending true else id)
                                        (set_NextTCB (Some nx) s2)) x = fields s1 x) ∧
                        kernel_inv ((if b then set_swi_pending true else id)
                                      (set_NextTCB (Some nx) s2))
                          (λ r, if decide (left ≠ [] ∧ r = ReadyListAt (Priority tc))
                                then rotated cur tc (contents s1 r) else contents s1 r)).
    { intros b. split.
      - intros x. rewrite <- (fields_data _ _ x Hdata2). destruct b; reflexivity.
      - eapply same_core_inv; [|exact Hinv2']. destruct b; same_core_tac. }
    destruct (negb (bool_decide (Some nx = CurrentTCB (set_NextTCB (Some nx) s2)))).
    - split; [reflexivity|]. apply (Hend true).
    - split; [reflexivity|]. apply (Hend false). }
  unfold post in Hpost. fold s' in Hpost. destruct Hpost as (Ho & Hf & Hinv').
  assert (Hcont : ∀ r, contents s' r
                       = if decide (left ≠ [] ∧ r = ReadyListAt (Priority tc))
                         then rotated cur tc (contents s1 r) else contents s1 r)
    by (intros r; apply (lists_ok_contents _ _ r (inv_lists _ _ Hinv'))).
  assert (Hrl : ∀ p, contents s' (ReadyListAt p)
                     = if decide (left ≠ [] ∧ p = Priority tc) then rotated cur tc (ready p)
                       else ready p).
  { intros p. rewrite Hcont, Hrl1.
    destruct (decide (left ≠ [] ∧ p = Priority tc)) as [[H1 ->]|Hn].
    - rewrite decide_True by tauto. reflexivity.
    - rewrite decide_False; [reflexivity|]. intros [H1 H2]. apply Hn. split; congruence. }
  split; [exact Ho|].
  split; [rewrite (fields_delay_of _ _ _ (Hf d)); exact Hd1|].
  split; [intros x Hx; rewrite (fields_delay_of _ _ _ (Hf x)); apply Hd1', Hx|].
  split.
  { rewrite Hcont, decide_False; [exact Hleft1|]. intros [_ H]. discriminate. }
  split; [intros x Hx; rewrite (fields_state_of _ _ _ (Hf x)); apply Hst1, Hx|].
  split; [exact Hrl|].
  split.
  { intros p. rewrite Hrl.
    destruct (woken_order cur tc woken (contents s (ReadyListAt p))
                (filter (λ x, has_prio s p x = true) woken)) as [E1 E2].
    - apply Hnw.
    - intros x Hx. apply list_elem_of_filter in Hx as [_ Hx]. exact Hx.
    - exact Hcw.
    - destruct (decide (left ≠ [] ∧ p = Priority tc)); [exact E2|exact E1]. }
  split; [intros x Hx; rewrite (fields_state_of _ _ _ (Hf x)); apply Hst1', Hx|].
  split; [intros x; rewrite (fields_prio_of _ _ _ (Hf x)); apply Hpr1|].
  eapply kernel_inv_pointwise; [|exact Hinv']. intros r. symmetry. apply Hcont.
Qed.

Lemma OS_Tick_Handler_delay_spec_witness :
  let s := exec scenario_G app_memory in
  let s' := exec OS_Tick_Handler s in
  contents s DelayListRef = [1; 2; 3]%nat ∧
  contents s (ReadyListAt 5) = [4%nat] ∧
  result OS_Tick_Handler s = Ret tt ∧
  delay_of s' 1 = Some 0 ∧ delay_of s' 2 = Some 0 ∧ delay_of s' 3 = Some 4 ∧
  contents s' DelayListRef = [3%nat] ∧
  contents s' (ReadyListAt 5) = [1; 2; 4]%nat ∧
  state_of s' 1 = Some TASK_READY ∧ state_of s' 2 = Some TASK_READY.
Proof.
  intros s s'.
  assert (Hk : kernel_ok s = true) by (vm_compute; reflexivity).
  assert (Hrun : g_OSRunning s = true) by (vm_compute; reflexivity).
  assert (Hcur : CurrentTCB s = Some 4%nat) by (vm_compute; reflexivity).
  destruct (tcbs s !! 4%nat) as [tc|] eqn:Htc; [|vm_compute in Htc; congruence].
  assert (Hp : Priority tc = 5) by (vm_compute in Htc; injection Htc as <-; reflexivity).
  assert (Hs : State tc = TASK_READY) by (vm_compute in Htc; injection Htc as <-; reflexivity).
  assert (Hcr : current_ready s = true) by (vm_compute; reflexivity).
  assert (Hst : stack_ok s = true) by (vm_compute; reflexivity).
  assert (Hc : contents s DelayListRef = [1; 2; 3]%nat) by (vm_compute; reflexivity).
  assert (Hr : contents s (ReadyListAt 5) = [4%nat]) by (vm_compute; reflexivity).
  assert (Hd : delay_of s 1 = Some 1) by (vm_compute; reflexivity).
  assert (Hd2 : delay_of s 2 = Some 0) by (vm_compute; reflexivity).
  assert (Hd3 : delay_of s 3 = Some 4) by (vm_compute; reflexivity).
  assert (Hw : take_while (expired (upd_tcb 1 (set_DelayTicks (Z.max 0 (1 - 1))) s))
                 [1; 2; 3]%nat = [1; 2]%nat) by (vm_compute; reflexivity).
  assert (Hl : drop_while (expired (upd_tcb 1 (set_DelayTicks (Z.max 0 (1 - 1))) s))
                 [1; 2; 3]%nat = [3%nat]) by (vm_compute; reflexivity).
  assert (Hf : filter (λ x, has_prio s 5 x = true) [1; 2]%nat = [1; 2]%nat)
    by (vm_compute; reflexivity).
  pose proof (OS_Tick_Handler_delay_spec s 4 tc 1 [2; 3]%nat 1 Hk Hrun Hcur Htc Hcr Hst Hc Hd)
    as H.
  cbv zeta in H. rewrite Hw, Hl in H. fold s' in H.
  destruct H as (Hres & Hd1' & Hdx & Hleft & Hsx & Hrl & _).
  split; [exact Hc|]. split; [exact Hr|].
  split; [exact Hres|].
  split; [exact Hd1'|].
  split; [rewrite Hdx by lia; exact Hd2|].
  split; [rewrite Hdx by lia; exact Hd3|].
  split; [exact Hleft|].
  split.
  { rewrite (Hrl 5), Hr, Hf, Hp. unfold rotated. rewrite Hs. reflexivity. }
  split; apply Hsx.
  - apply list_elem_of_here.
  - apply list_elem_of_further, list_elem_of_here.
Defined.

(** C4 (not met by the code).  The loop condition of the wake loop is
    [DelayList.Head->DelayTicks == 0 && DelayList.Head != NULL]: the head
    is dereferenced before it is tested.  In scenario C the only delayed
    task expires on the first tick; the loop pops it, makes it ready, and
    evaluates its condition again with [DelayList.Head == NULL]: the tick
    handler stops at a null-pointer dereference. *)
Theorem tick_handler_null_dereference :
  let s := exec scenario_C app_memory in
  result scenario_C app_memory = Ret tt ∧
  kernel_ok s = true ∧
  contents s DelayListRef = [1%nat] ∧ delay_of s 1 = Some 1 ∧
  result OS_Tick_Handler s = Fault NullPointer ∧
  contents (exec OS_Tick_Handler s) DelayListRef = [] ∧
  state_of (exec OS_Tick_Handler s) 1 = Some TASK_READY.
Proof. vm_compute. repeat split; reflexivity. Qed.

(** C5.  Delta-encoded insertion into the delay list.

    [OS_Delay ticks], called by the running task [cur] while another task
    is ready, returns with [cur] blocked and off the ready lists, and the
    delay list, read with the delta of each node, is the old one with
    [cur] inserted as the spec says ([delta_insert]): the walk subtracts
    the delta of each node it passes from the remaining ticks, stops at
    the first node whose delta exceeds them or at the end, the residual
    goes to the new node and is taken off its successor.  Hence the
    running sums of the deltas, the absolute wake offsets, are those of
    the old list with [cur] inserted at offset [ticks], behind the tasks
    due at the same time or earlier: no other offset changes.

    In scenario D, [OS_Delay] with 50, 10 and 30 ticks by T1, T2 and T3
    leaves the encoding [T2:10, T3:20, T1:20]; T2 is made ready by the
    10th tick, T3 by the 30th and T1 by the 50th, and none of them by the
    tick before.  (The 50th tick empties the delay list: what
    [OS_Tick_Handler] comes to then is the matter of C4.) *)
Theorem OS_Delay_delta_encoding :
  (∀ s cur ticks,
     kernel_ok s = true → current_ready s = true → CurrentTCB s = Some cur →
     other_ready s cur = true → 0 <= ticks < 2 ^ 32 →
     ∃ s', OS_Delay ticks s = (Ret tt, s') ∧
       state_of s' cur = Some TASK_BLOCKED ∧
       (∀ p, cur ∉ contents s' (ReadyListAt p)) ∧
       delays s' = delta_insert cur ticks (delays s) ∧
       offsets 0 (delays s') = offset_insert cur ticks (offsets 0 (delays s)) ∧
       kernel_inv s' (contents s')) ∧
  (let s := exec scenario_D app_memory in
   result scenario_D app_memory = Ret tt ∧
   delays s = [(2%nat, 10); (3%nat, 20); (1%nat, 20)] ∧
   offsets 0 (delays s) = [(2%nat, 10); (3%nat, 30); (1%nat, 50)] ∧
   state_of (exec (ticks 9) s) 2 = Some TASK_BLOCKED ∧
   state_of (exec (ticks 10) s) 2 = Some TASK_READY ∧
   state_of (exec (ticks 29) s) 3 = Some TASK_BLOCKED ∧
   state_of (exec (ticks 30) s) 3 = Some TASK_READY ∧
   state_of (exec (ticks 49) s) 1 = Some TASK_BLOCKED ∧
   state_of (exec (ticks 50) s) 1 = Some TASK_READY ∧
   result (ticks 49) s = Ret tt).
Proof.
  split; [|vm_compute; repeat split; reflexivity].
  intros s cur ticks Hk Hcr Hcur Hother Ht.
  destruct (kernel_ok_sound s Hk) as [Hinv Hn].
  destruct (current_ready_sound s Hcr) as (cur' & tc & Hcur' & Htc & Hcin).
  rewrite Hcur in Hcur'. injection Hcur' as <-.
  pose proof (wp_OS_Delay s (contents s) cur tc ticks Hinv Hn Hcur Htc Hcin
                (other_ready_sound s cur Hother) Ht) as Hwp.
  apply wp_elim in Hwp
    as ([] & s' & Hrun & c' & a & r & b & Hw & Hinv' & Hdl & Hrl & Hf & _).
  assert (Hcont : ∀ r, contents s' r = c' r)
    by (intros r0; apply lists_ok_contents, (inv_lists _ _ Hinv')).
  pose proof (inv_lists _ _ Hinv) as Hok. pose proof Hok as (_ & Hnd & Hdisj).
  pose proof (walk_delay_app _ _ _ _ _ _ Hw) as Hl.
  assert (Hca : cur ∉ contents s DelayListRef).
  { intros Hin. pose proof (Hdisj _ _ _ Hin Hcin) as E. discriminate E. }
  assert (Hdelays : delays s' = delta_insert cur ticks (delays s)).
  { unfold delays. rewrite Hcont, Hdl.
    rewrite (delta_insert_walk (delay_val s) cur _ _ a r b Hw).
    pose proof (Hnd DelayListRef) as N. rewrite Hl in N, Hca.
    rewrite fmap_app, fmap_cons. f_equal.
    - apply list_fmap_ext. intros i x Hix. apply list_elem_of_lookup_2 in Hix.
      f_equal. apply delay_val_fields. rewrite Hf.
      rewrite decide_False by (intros ->; apply Hca, elem_of_app; left; exact Hix).
      rewrite decide_False; [reflexivity|].
      intros E. apply NoDup_app in N as (_ & N & _). apply (N x Hix).
      destruct b; [discriminate|]. injection E as ->. apply list_elem_of_here.
    - f_equal.
      + f_equal. eapply delay_val_set_DelayTicks with (s := upd_tcb cur (set_State TASK_BLOCKED) s).
        * rewrite lookup_upd_tcb, decide_True by reflexivity. rewrite Htc. eauto.
        * rewrite Hf, decide_True by reflexivity.
          rewrite fields_upd_tcb by reflexivity. rewrite decide_True by reflexivity.
          reflexivity.
      + destruct b as [|y b']; [reflexivity|]. rewrite fmap_cons.
        assert (Hyc : y ≠ cur)
          by (intros ->; apply Hca, elem_of_app; right; apply list_elem_of_here).
        f_equal.
        * f_equal. eapply delay_val_set_DelayTicks.
          -- eapply lists_ok_in_heap; [exact Hok|]. rewrite Hl.
             apply elem_of_app. right. apply list_elem_of_here.
          -- rewrite Hf, decide_False by exact Hyc.
             rewrite decide_True by reflexivity. reflexivity.
        * apply list_fmap_ext. intros i x Hix. apply list_elem_of_lookup_2 in Hix.
          f_equal. apply delay_val_fields. rewrite Hf.
          rewrite decide_False
            by (intros ->; apply Hca, elem_of_app; right; apply list_elem_of_further, Hix).
          rewrite decide_False; [reflexivity|].
          cbn [head]. intros E. injection E as ->.
          apply NoDup_app in N as (_ & _ & N). apply NoDup_cons in N as [N _].
          contradiction. }
  exists s'. split; [exact Hrun|].
  split.
  { eapply state_of_set_State with (s := upd_tcb cur (set_DelayTicks r) s).
    - rewrite lookup_upd_tcb, decide_True by reflexivity. rewrite Htc. eauto.
    - rewrite Hf, decide_True by reflexivity.
      rewrite fields_upd_tcb by reflexivity. rewrite decide_True by reflexivity.
      destruct (fields s cur); reflexivity. }
  split.
  { intros p. rewrite Hcont, Hrl. intros Hin. apply list_elem_of_filter in Hin as [Hne _].
    apply Hne. reflexivity. }
  split; [exact Hdelays|].
  split; [rewrite Hdelays, offsets_delta_insert; reflexivity|].
  eapply kernel_inv_pointwise; [|exact Hinv']. intros r0. symmetry. apply Hcont.
Qed.

Lemma OS_Delay_delta_encoding_witness :
  let s := exec scenario_D_two app_memory in
  delays s = [(2%nat, 10); (1%nat, 40)] ∧
  ∃ s', OS_Delay 30 s = (Ret tt, s') ∧
        delays s' = [(2%nat, 10); (3%nat, 20); (1%nat, 20)] ∧
        offsets 0 (delays s') = [(2%nat, 10); (3%nat, 30); (1%nat, 50)].
Proof.
  intros s.
  assert (Hk : kernel_ok s = true) by (vm_compute; reflexivity).
  assert (Hcr : current_ready s = true) by (vm_compute; reflexivity).
  assert (Hcur : CurrentTCB s = Some 3%nat) by (vm_compute; reflexivity).
  assert (Hother : other_ready s 3 = true) by (vm_compute; reflexivity).
  assert (Hd : delays s = [(2%nat, 10); (1%nat, 40)]) by (vm_compute; reflexivity).
  destruct OS_Delay_delta_encoding as [Hgen _].
  destruct (Hgen s 3%nat 30 Hk Hcr Hcur Hother ltac:(lia))
    as (s' & Hrun & _ & _ & Hdel & Hoff & _).
  split; [exact Hd|]. exists s'. split; [exact Hrun|].
  rewrite Hoff, Hdel, Hd. split; reflexivity.
Defined.

(** C6 (as amended: one call).  Order of the wait list of a mutex, and
    hand-over.

    Blocking.  When the running task [cur] calls [OS_MutexPend] on a mutex
    that another task [o] owns, the call returns [OS_OK] with [cur]
    blocked and linked into the wait list behind the waiters at its front
    whose priority value is at most its own, and before the others; the
    waiters keep their order and their priorities.  So a list that was in
    ascending order of priority value stays so, [cur] standing behind
    every waiter of the same or a higher priority (first in, first out
    among equals) and before every waiter of a lower one.  Of the owner
    only this is asked: it does not wait for its own mutex, and if its
    state is READY it stands on the ready list of its priority.

    The call changes no other wait list and the priority of no task but
    [o].  The wait list of another mutex [b] therefore stays in order if
    [o] does not wait for [b]; if it does, its priority is rewritten where
    it stands and the list of [b] is not sorted again.

    Hand-over.  When the owner [cur] makes the final release with
    [OS_MutexPost] and the wait list is [w :: rest], the call returns
    [OS_OK]; [w] has left the wait list, which keeps its order, and owns
    the mutex with nesting count 1; it is at the tail of the ready list
    of its priority, whose bit is set in the bitmap; a switch is requested
    and [NextTCB] is the head of the highest ready list. *)
Theorem mutex_wait_order_and_handoff s a m cur :
  kernel_ok s = true → current_ready s = true → CurrentTCB s = Some cur →
  mutexes s !! a = Some m →
  (∀ o, Owner m = Some o → o ≠ cur → owner_listed s o = true →
        o ∉ contents s (MutexWaitList a) → other_ready s cur = true →
     let l := contents s (MutexWaitList a) in
     let le := λ x, prio_val s x <=? prio_val s cur in
     ∃ s', OS_MutexPend (Some a) s = (Ret OS_OK, s') ∧
       state_of s' cur = Some TASK_BLOCKED ∧
       contents s' (MutexWaitList a) = take_while le l ++ cur :: drop_while le l ∧
       (∀ x, x ∈ cur :: l → prio_val s' x = prio_val s x) ∧
       (∀ x, x ∈ take_while le l → prio_val s x <= prio_val s cur) ∧
       (sorted_by_prio s l →
          (∀ x, x ∈ drop_while le l → prio_val s cur < prio_val s x) ∧
          sorted_by_prio s' (contents s' (MutexWaitList a))) ∧
       (∀ x, x ≠ o → prio_val s' x = prio_val s x) ∧
       (∀ b, b ≠ a →
          contents s' (MutexWaitList b) = contents s (MutexWaitList b) ∧
          (o ∉ contents s (MutexWaitList b) →
           sorted_by_prio s (contents s (MutexWaitList b)) →
           sorted_by_prio s' (contents s' (MutexWaitList b))))) ∧
  (∀ w rest, Owner m = Some cur → NestCount m = 1 → 0 <= orig_val s cur < 32 →
             contents s (MutexWaitList a) = w :: rest →
     ∃ s' m', OS_MutexPost (Some a) s = (Ret OS_OK, s') ∧
       contents s' (MutexWaitList a) = rest ∧
       mutexes s' !! a = Some m' ∧ Owner m' = Some w ∧ NestCount m' = 1 ∧
       (∃ l, contents s' (ReadyListAt (prio_val s w)) = l ++ [w]) ∧
       Z.testbit (g_PrioMap s') (prio_val s w) = true ∧
       swi_pending s' = true ∧
       NextTCB s' = head (contents s' (ReadyListAt (OS_GetTopPrio (g_PrioMap s')))) ∧
       (sorted_by_prio s (w :: rest) → sorted_by_prio s' rest)).
Proof.
  intros Hk Hcr Hcur Hm.
  assert (Hnw : ∀ b p, MutexWaitList b ≠ ReadyListAt p) by (intros b p; discriminate).
  assert (Hab : ∀ b, b ≠ a → MutexWaitList b ≠ MutexWaitList a)
    by (intros b Hb E; injection E as ->; exact (Hb eq_refl)).
  split.
  - intros o Ho Hoc Hown Hnotin Hother l le.
    destruct (MutexPend_contended_any_run s a m cur o Hk Hcr Hcur Hm Ho Hoc Hown Hnotin Hother)
      as (s' & Hrun & _ & Hwl & Hpv & _ & _ & Hst & _ & _ & _ & _ & _ & _ & Hfr).
    cbv zeta in Hwl. fold l le in Hwl.
    assert (Hpl : ∀ x, x ∈ cur :: l → prio_val s' x = prio_val s x).
    { intros x Hx. apply Hpv. intros ->.
      apply elem_of_cons in Hx as [Hx|Hx]; [congruence|contradiction]. }
    exists s'. split; [exact Hrun|]. split; [exact Hst|]. split; [exact Hwl|].
    split; [exact Hpl|].
    split; [intros x Hx; apply (take_while_le_bound (prio_val s) (prio_val s cur) l x Hx)|].
    split; [|split; [exact Hpv|]].
    + intros Hsorted. split.
      * intros x Hx.
        apply (drop_while_sorted_bound (prio_val s) (prio_val s cur) l x Hsorted Hx).
      * unfold sorted_by_prio. rewrite Hwl.
        rewrite (list_fmap_ext (prio_val s') (prio_val s)).
        -- apply insert_sorted; [reflexivity|exact Hsorted].
        -- intros i x Hix. apply Hpl.
           apply list_elem_of_lookup_2 in Hix.
           apply elem_of_app in Hix as [Hix|Hix].
           ++ apply list_elem_of_further. rewrite <- (take_drop_while le l).
              apply elem_of_app. left. exact Hix.
           ++ apply elem_of_cons in Hix as [->|Hix]; [apply list_elem_of_here|].
              apply list_elem_of_further. rewrite <- (take_drop_while le l).
              apply elem_of_app. right. exact Hix.
    + intros b Hb.
      pose proof (Hfr _ (Hnw b) (Hab b Hb)) as Hcb.
      split; [exact Hcb|]. intros Hob Hsorted. rewrite Hcb.
      eapply sorted_by_prio_ext; [|exact Hsorted].
      intros x Hx. apply Hpv. intros ->. contradiction.
  - intros w rest Ho Hnest Hor Hwl.
    destruct (MutexPost_handoff_run s a m cur w rest Hk Hcr Hcur Hm Ho Hnest Hor Hwl)
      as (s' & Hrun & Hinv' & Hwl' & Hrl & (m' & Hm' & Ho' & Hn') & Hpv & _ & _ & _
          & Hswi & Hnext & _).
    exists s', m'. repeat (split; [assumption|]).
    split; [|split; [exact Hswi|split; [exact Hnext|]]].
    + destruct Hrl as [lw Hlw].
      assert (Hwin : w ∈ contents s' (ReadyListAt (prio_val s w)))
        by (rewrite Hlw; apply elem_of_app; right; apply list_elem_of_here).
      pose proof (lists_ok_ready_range _ _ _ _ (inv_lists _ _ Hinv') Hwin) as Hrange.
      apply (inv_map _ _ (inv_data _ _ Hinv') _ Hrange).
      intros E. rewrite E in Hwin. apply elem_of_nil in Hwin. exact Hwin.
    + intros Hsorted. unfold sorted_by_prio in Hsorted. rewrite fmap_cons in Hsorted.
      apply StronglySorted_inv in Hsorted as [Hs1 _].
      eapply sorted_by_prio_ext; [|exact Hs1].
      intros x Hx. apply Hpv. intros ->.
      destruct (kernel_ok_sound s Hk) as [Hinv _].
      pose proof (inv_lists _ _ Hinv) as (_ & _ & Hdisj).
      destruct (current_ready_sound s Hcr) as (cur' & tc & Hcur' & Htc & Hcin).
      assert (cur' = cur) by congruence. subst cur'.
      assert (Hin : cur ∈ contents s (MutexWaitList a))
        by (rewrite Hwl; apply list_elem_of_further, Hx).
      pose proof (Hdisj _ _ _ Hin Hcin) as E. discriminate E.
Qed.

Lemma mutex_wait_order_and_handoff_witness :
  (let s := exec scenario_H app_memory in
   ∃ s', OS_MutexPend (Some 1%nat) s = (Ret OS_OK, s') ∧
         contents s (MutexWaitList 1) = [2%nat] ∧
         contents s' (MutexWaitList 1) = [2; 4]%nat) ∧
  (let s := exec scenario_J app_memory in
   ∃ s', OS_MutexPend (Some 1%nat) s = (Ret OS_OK, s') ∧
         contents s (MutexWaitList 1) = [2; 4]%nat ∧
         contents s' (MutexWaitList 1) = [1; 2; 4]%nat ∧
         sorted_by_prio s' (contents s' (MutexWaitList 1)) ∧
         contents s' (MutexWaitList 2) = contents s (MutexWaitList 2)) ∧
  (let s := exec scenario_A_stale_owner app_memory in
   owner_ok s 2 = false ∧
   ∃ s', OS_MutexPend (Some 1%nat) s = (Ret OS_OK, s') ∧
         contents s' (MutexWaitList 1) = [1%nat]) ∧
  (let s := exec scenario_H_blocked app_memory in
   ∃ s' m', OS_MutexPost (Some 1%nat) s = (Ret OS_OK, s') ∧
            contents s' (MutexWaitList 1) = [4%nat] ∧
            mutexes s' !! 1%nat = Some m' ∧ Owner m' = Some 2%nat ∧ NestCount m' = 1 ∧
            Z.testbit (g_PrioMap s') 10 = true).
Proof.
  split; [|split; [|split]].
  - intros s.
    pose (m := default zero_mutex (mutexes s !! 1%nat)).
    assert (Hk : kernel_ok s = true) by (vm_compute; reflexivity).
    assert (Hcr : current_ready s = true) by (vm_compute; reflexivity).
    assert (Hcur : CurrentTCB s = Some 4%nat) by (vm_compute; reflexivity).
    assert (Hm : mutexes s !! 1%nat = Some m) by (vm_compute; reflexivity).
    assert (Ho : Owner m = Some 3%nat) by (vm_compute; reflexivity).
    assert (Hown : owner_listed s 3 = true) by (vm_compute; reflexivity).
    assert (Hwl : contents s (MutexWaitList 1) = [2%nat]) by (vm_compute; reflexivity).
    assert (Hnotin : 3%nat ∉ contents s (MutexWaitList 1)).
    { rewrite Hwl. intros H. apply list_elem_of_singleton in H. discriminate H. }
    assert (Hother : other_ready s 4 = true) by (vm_compute; reflexivity).
    destruct (mutex_wait_order_and_handoff s 1 m 4 Hk Hcr Hcur Hm) as [Hpend _].
    destruct (Hpend 3%nat Ho ltac:(discriminate) Hown Hnotin Hother)
      as (s' & Hrun & _ & Hwl' & _).
    exists s'. split; [exact Hrun|]. split; [exact Hwl|].
    rewrite Hwl'. vm_compute. reflexivity.
  - intros s.
    pose (m := default zero_mutex (mutexes s !! 1%nat)).
    assert (Hk : kernel_ok s = true) by (vm_compute; reflexivity).
    assert (Hcr : current_ready s = true) by (vm_compute; reflexivity).
    assert (Hcur : CurrentTCB s = Some 1%nat) by (vm_compute; reflexivity).
    assert (Hm : mutexes s !! 1%nat = Some m) by (vm_compute; reflexivity).
    assert (Ho : Owner m = Some 3%nat) by (vm_compute; reflexivity).
    assert (Hown : owner_listed s 3 = true) by (vm_compute; reflexivity).
    assert (Hwl : contents s (MutexWaitList 1) = [2; 4]%nat) by (vm_compute; reflexivity).
    assert (H2 : prio_val s 2 = 10) by (vm_compute; reflexivity).
    assert (H4 : prio_val s 4 = 10) by (vm_compute; reflexivity).
    assert (Hnotin : 3%nat ∉ contents s (MutexWaitList 1)).
    { rewrite Hwl. intros H. apply elem_of_cons in H as [H|H]; [discriminate H|].
      apply list_elem_of_singleton in H. discriminate H. }
    assert (Hother : other_ready s 1 = true) by (vm_compute; reflexivity).
    assert (Hsorted : sorted_by_prio s (contents s (MutexWaitList 1))).
    { rewrite Hwl. unfold sorted_by_prio. cbn [fmap list_fmap]. rewrite H2, H4.
      repeat (constructor; try lia). }
    destruct (mutex_wait_order_and_handoff s 1 m 1 Hk Hcr Hcur Hm) as [Hpend _].
    destruct (Hpend 3%nat Ho ltac:(discriminate) Hown Hnotin Hother)
      as (s' & Hrun & _ & Hwl' & _ & _ & Hs' & _ & Hframe).
    destruct (Hs' Hsorted) as [_ Hsorted'].
    destruct (Hframe 2%nat ltac:(discriminate)) as [Hwl2 _].
    exists s'. split; [exact Hrun|]. split; [exact Hwl|].
    split; [rewrite Hwl'; vm_compute; reflexivity|].
    split; [exact Hsorted'|exact Hwl2].
  - intros s.
    pose (m := default zero_mutex (mutexes s !! 1%nat)).
    assert (Hk : kernel_ok s = true) by (vm_compute; reflexivity).
    assert (Hcr : current_ready s = true) by (vm_compute; reflexivity).
    assert (Hcur : CurrentTCB s = Some 1%nat) by (vm_compute; reflexivity).
    assert (Hm : mutexes s !! 1%nat = Some m) by (vm_compute; reflexivity).
    assert (Ho : Owner m = Some 2%nat) by (vm_compute; reflexivity).
    assert (Hstale : owner_ok s 2 = false) by (vm_compute; reflexivity).
    assert (Hown : owner_listed s 2 = true) by (vm_compute; reflexivity).
    assert (Hwl : contents s (MutexWaitList 1) = []) by (vm_compute; reflexivity).
    assert (Hnotin : 2%nat ∉ contents s (MutexWaitList 1)).
    { rewrite Hwl. apply not_elem_of_nil. }
    assert (Hother : other_ready s 1 = true) by (vm_compute; reflexivity).
    destruct (mutex_wait_order_and_handoff s 1 m 1 Hk Hcr Hcur Hm) as [Hpend _].
    destruct (Hpend 2%nat Ho ltac:(discriminate) Hown Hnotin Hother)
      as (s' & Hrun & _ & Hwl' & _).
    split; [exact Hstale|].
    exists s'. split; [exact Hrun|]. rewrite Hwl'. vm_compute. reflexivity.
  - intros s.
    pose (m := default zero_mutex (mutexes s !! 1%nat)).
    assert (Hk : kernel_ok s = true) by (vm_compute; reflexivity).
    assert (Hcr : current_ready s = true) by (vm_compute; reflexivity).
    assert (Hcur : CurrentTCB s = Some 3%nat) by (vm_compute; reflexivity).
    assert (Hm : mutexes s !! 1%nat = Some m) by (vm_compute; reflexivity).
    assert (Ho : Owner m = Some 3%nat) by (vm_compute; reflexivity).
    assert (Hnest : NestCount m = 1) by (vm_compute; reflexivity).
    assert (Eor : orig_val s 3 = 20) by (vm_compute; reflexivity).
    assert (Hor : 0 <= orig_val s 3 < 32) by (rewrite Eor; lia).
    assert (Hwl : contents s (MutexWaitList 1) = [2; 4]%nat) by (vm_compute; reflexivity).
    assert (H2 : prio_val s 2 = 10) by (vm_compute; reflexivity).
    destruct (mutex_wait_order_and_handoff s 1 m 3 Hk Hcr Hcur Hm) as [_ Hpost].
    destruct (Hpost 2%nat [4%nat] Ho Hnest Hor Hwl)
      as (s' & m' & Hrun & Hwl' & Hm' & Ho' & Hn' & _ & Hbit & _).
    rewrite H2 in Hbit.
    exists s', m'. repeat (split; [assumption|]). exact Hbit.
Defined.

(** C6, counterexample.  In scenario J the wait list of mutex 1 is [W1;
    W2], both of priority 10, and W2 owns mutex 2.  H, of priority 5, then
    calls [OS_MutexPend] on mutex 2: the call returns [OS_OK] and has
    written the priority of H into the control block of W2 where it
    stands, behind W1.  The kernel state is still well formed, but the
    wait list of mutex 1 is no longer in ascending order of priority
    value: W1 with 10 stands before W2 with 5. *)
Lemma wait_list_unsorted_after_inheritance :
  let s := exec scenario_J app_memory in
  let s' := exec (OS_MutexPend (Some 2%nat)) s in
  result scenario_J app_memory = Ret tt ∧
  kernel_ok s = true ∧ CurrentTCB s = Some 1%nat ∧
  owner_of s 2 = Some 4%nat ∧
  contents s (MutexWaitList 1) = [2; 4]%nat ∧
  sorted_by_prio s (contents s (MutexWaitList 1)) ∧
  result (OS_MutexPend (Some 2%nat)) s = Ret OS_OK ∧
  kernel_ok s' = true ∧
  contents s' (MutexWaitList 1) = [2; 4]%nat ∧
  prio_val s' 2 = 10 ∧ prio_val s' 4 = 5 ∧
  ¬ sorted_by_prio s' (contents s' (MutexWaitList 1)).
Proof.
  intros s s'.
  assert (Hw : contents s (MutexWaitList 1) = [2; 4]%nat) by (vm_compute; reflexivity).
  assert (H2 : prio_val s 2 = 10) by (vm_compute; reflexivity).
  assert (H4 : prio_val s 4 = 10) by (vm_compute; reflexivity).
  assert (Hw' : contents s' (MutexWaitList 1) = [2; 4]%nat) by (vm_compute; reflexivity).
  assert (H2' : prio_val s' 2 = 10) by (vm_compute; reflexivity).
  assert (H4' : prio_val s' 4 = 5) by (vm_compute; reflexivity).
  split; [vm_compute; reflexivity|]. split; [vm_compute; reflexivity|].
  split; [vm_compute; reflexivity|]. split; [vm_compute; reflexivity|].
  split; [exact Hw|].
  split.
  { rewrite Hw. unfold sorted_by_prio. cbn [fmap list_fmap]. rewrite H2, H4.
    repeat (constructor; try lia). }
  split; [vm_compute; reflexivity|]. split; [vm_compute; reflexivity|].
  split; [exact Hw'|]. split; [exact H2'|]. split; [exact H4'|].
  rewrite Hw'. unfold sorted_by_prio. cbn [fmap list_fmap]. rewrite H2', H4'.
  intros Hs. apply StronglySorted_inv in Hs as [_ Hs].
  apply Forall_cons in Hs as [Hs _]. lia.
Qed.

(** C7. For every 32-bit bitmap other than zero, [OS_GetTopPrio] returns the
    index of its lowest set bit; the result comes from the 256-entry table
    [OS_MapTable] applied to the lowest byte lane that is not zero, the lanes
    being tried from the lowest to the highest. *)
Theorem OS_GetTopPrio_lowest_set_bit (PrioMap : Z) :
  0 <= PrioMap < 2 ^ 32 → PrioMap ≠ 0 →
  length OS_MapTable = 256%nat ∧
  lowest_set_bit PrioMap (OS_GetTopPrio PrioMap) ∧
  OS_GetTopPrio PrioMap < 32 ∧
  ∃ k, 0 <= k < 4 ∧ lane k PrioMap ≠ 0 ∧ (∀ i, 0 <= i < k → lane i PrioMap = 0) ∧
       OS_GetTopPrio PrioMap = 8 * k + MapTable_at (lane k PrioMap).
Proof. apply OS_GetTopPrio_correct. Qed.

Lemma OS_GetTopPrio_lowest_set_bit_witness :
  lowest_set_bit 0x80000420 (OS_GetTopPrio 0x80000420) ∧ OS_GetTopPrio 0x80000420 = 5.
Proof.
  split.
  - apply (OS_GetTopPrio_lowest_set_bit 0x80000420); [lia | discriminate].
  - reflexivity.
Defined.

(** C8. [OS_QueueSend] never blocks and is atomic on failure.  On a queue
    whose count equals its capacity it returns [OS_ERR_Q_FULL] and leaves
    the whole kernel state as it was (the interrupt mask apart, which the
    critical section leaves as [irq_after] says), so the queue is unchanged
    and the caller still ready.  Otherwise it copies [MsgSize] bytes of the
    message into slot [q_Head], advances [q_Head] modulo the capacity,
    increments the count and, when a task waits to read, wakes the head of
    the wait list (ready state, tail of its ready list) and requests a
    switch; the caller stays the running task, in the same state and on its
    ready list. *)
Theorem OS_QueueSend_spec s a q msg cur :
  kernel_ok s = true → current_ready s = true → CurrentTCB s = Some cur →
  queues s !! a = Some q → queue_ok q = true →
  MsgSize q <= Z.of_nat (length msg) →
  if MsgCount q =? QSize q then
    OS_QueueSend (Some a) (Some msg) s
    = (Ret OS_ERR_Q_FULL, set_irq_enabled (irq_after s) s)
  else
    ∃ s' q',
      OS_QueueSend (Some a) (Some msg) s = (Ret OS_OK, s') ∧
      queues s' !! a = Some q' ∧
      Buffer q' = slot_write q (q_Head q) msg ∧
      q_Head q' = (q_Head q + 1) mod QSize q ∧
      MsgCount q' = MsgCount q + 1 ∧
      q_Tail q' = q_Tail q ∧ MsgSize q' = MsgSize q ∧ QSize q' = QSize q ∧
      CurrentTCB s' = Some cur ∧ state_of s' cur = state_of s cur ∧
      current_ready s' = true ∧
      match contents s (QueueWaitReadList a) with
      | [] =>
          (∀ r, contents s' r = contents s r) ∧ tcbs s' = tcbs s ∧
          swi_pending s' = swi_pending s ∧ NextTCB s' = NextTCB s
      | w :: rest =>
          contents s' (QueueWaitReadList a) = rest ∧
          state_of s' w = Some TASK_READY ∧
          (∃ pw, prio_of s w = Some pw ∧
                 contents s' (ReadyListAt pw) = contents s (ReadyListAt pw) ++ [w]) ∧
          swi_pending s' = true ∧
          NextTCB s' = head (contents s' (ReadyListAt (OS_GetTopPrio (g_PrioMap s'))))
      end.
Proof.
  intros Hk Hcr Hcur Hq Hqok Hmsg.
  destruct (kernel_ok_sound s Hk) as [Hinv Hn].
  destruct (current_ready_sound s Hcr) as (cur' & tc & Hcur' & Htc & Hcin).
  rewrite Hcur in Hcur'. inversion Hcur'; subst cur'. clear Hcur'.
  pose proof (queue_ok_elim q Hqok) as (Hms & Hqs & Hmc & Hqh & Hqt & Hbuf).
  destruct (enter_exit_nesting _ Hn) as [Hn1 Hn2].
  destruct (Z.eqb_spec (MsgCount q) (QSize q)) as [Hfull|Hfree].
  - (* full *)
    unfold OS_QueueSend, bind, OS_EnterCritical, OS_Disable_IRQ, modify, load_queue. cbn.
    rewrite Hq. replace (MsgCount q >=? QSize q) with true
      by (symmetry; apply Z.geb_le; lia).
    cbn. unfold OS_ExitCritical, bind, gets, OS_ASSERT, modify, OS_Enable_IRQ, ret. cbn.
    replace (u32 (g_CriticalNesting s + 1) =? 0) with false
      by (symmetry; apply Z.eqb_neq; exact Hn1).
    cbn. rewrite Hn2. unfold irq_after.
    destruct s; cbn. destruct (g_CriticalNesting0 =? 0); reflexivity.
  - (* room for one more message *)
    set (c := contents s) in *.
    set (s1 := set_g_CriticalNesting (u32 (g_CriticalNesting s + 1)) (set_irq_enabled false s)).
    set (q4 := set_MsgCount (MsgCount q + 1)
                 (set_q_Head ((q_Head q + 1) mod QSize q)
                    (set_Buffer (slot_write q (q_Head q) msg) q))).
    set (s4 := set_queues (<[a := q4]> (queues s)) s1).
    assert (Hcore : same_core s s4).
    { eapply same_core_trans; [|apply (same_core_store_queue s1 a q q4 Hq); reflexivity].
      same_core_tac. }
    assert (Hinv4 : kernel_inv s4 c) by (eapply same_core_inv; eauto).
    assert (HL : get_list (QueueWaitReadList a) s = Some (WaitReadList q))
      by (unfold get_list; rewrite Hq; reflexivity).
    pose proof (proj1 (inv_lists _ _ Hinv) (QueueWaitReadList a)) as Hrep.
    rewrite HL in Hrep. pose proof (repr_head _ _ _ Hrep) as HH. fold c in HH.
    assert (Hq4 : queues s4 !! a = Some q4) by (cbn; apply lookup_insert_eq).
    enough (Hwp : wp (OS_QueueSend (Some a) (Some msg))
              (λ r s', r = OS_OK ∧ queues s' !! a = Some (set_WaitReadList
                         (default empty_list (get_list (QueueWaitReadList a) s')) q4) ∧
                 CurrentTCB s' = Some cur ∧ state_of s' cur = state_of s cur ∧
                 current_ready s' = true ∧
                 match c (QueueWaitReadList a) with
                 | [] =>
                     (∀ r, contents s' r = c r) ∧ tcbs s' = tcbs s ∧
                     swi_pending s' = swi_pending s ∧ NextTCB s' = NextTCB s
                 | w :: rest =>
                     contents s' (QueueWaitReadList a) = rest ∧
                     state_of s' w = Some TASK_READY ∧
                     (∃ pw, prio_of s w = Some pw ∧
                            contents s' (ReadyListAt pw) = c (ReadyListAt pw) ++ [w]) ∧
                     swi_pending s' = true ∧
                     NextTCB s' = head (contents s' (ReadyListAt (OS_GetTopPrio (g_PrioMap s'))))
                 end) s).
    { apply wp_elim in Hwp as (r & s' & Hrun & -> & Hq' & Hrest).
      exists s', (set_WaitReadList (default empty_list (get_list (QueueWaitReadList a) s')) q4).
      split; [exact Hrun|]. split; [exact Hq'|].
      repeat (split; [reflexivity|]). exact Hrest. }
    unfold OS_QueueSend.
    apply wp_bind, wp_OS_EnterCritical. fold s1.
    apply wp_bind. eapply wp_load_queue; [exact Hq|].
    replace (MsgCount q >=? QSize q) with false by (symmetry; rewrite Z.geb_leb; apply Z.leb_gt; lia).
    rewrite (memcpy_to_slot q (q_Head q) msg Hqok Hqh Hmsg).
    apply wp_bind. eapply wp_store_queue; [exact Hq|].
    apply wp_bind. eapply wp_load_queue; [cbn; apply lookup_insert_eq|].
    cbn [QSize set_Buffer].
    replace (QSize q =? 0) with false by (symmetry; apply Z.eqb_neq; lia).
    apply wp_bind. eapply wp_store_queue; [cbn; apply lookup_insert_eq|].
    apply wp_bind. eapply wp_load_queue; [cbn; apply lookup_insert_eq|].
    apply wp_bind. eapply wp_store_queue; [cbn; apply lookup_insert_eq|].
    apply wp_bind. eapply wp_load_queue; [cbn; apply lookup_insert_eq|].
    cbn [queues set_queues]. rewrite !insert_insert_eq.
    cbn [q_Head MsgCount MsgSize set_Buffer set_q_Head set_MsgCount WaitReadList].
    replace (u16 ((q_Head q + 1) mod QSize q)) with ((q_Head q + 1) mod QSize q)
      by (unfold u16; symmetry; apply Z.mod_small;
          pose proof (Z.mod_pos_bound (q_Head q + 1) (QSize q)); lia).
    replace (u16 (MsgCount q + 1)) with (MsgCount q + 1)
      by (unfold u16; symmetry; apply Z.mod_small; lia).
    change (set_queues _ _) with s4.
    assert (Heta : ∀ q0 : OS_Queue, set_WaitReadList (WaitReadList q0) q0 = q0)
      by (intros []; reflexivity).
    rewrite HH. destruct (c (QueueWaitReadList a)) as [|w rest] eqn:Hwl; cbn [head is_null negb].
    + (* nobody waits *)
      apply wp_bind, wp_ret.
      apply wp_bind. apply wp_OS_ExitCritical; [exact Hn1|]. cbv zeta.
      apply wp_ret.
      match goal with |- _ ∧ queues ?s' !! _ = _ ∧ _ => set (s5 := s') end.
      assert (Hcore5 : same_core s4 s5)
        by (subst s5; destruct (_ =? 0); same_core_tac).
      assert (Hq5 : queues s5 = queues s4) by (subst s5; destruct (_ =? 0); reflexivity).
      assert (Ht5 : tcbs s5 = tcbs s) by (subst s5; destruct (_ =? 0); reflexivity).
      assert (Hc5 : ∀ r, contents s5 r = c r).
      { intros r. rewrite (same_core_contents _ _ _ Hcore5).
        apply (same_core_contents _ _ _ Hcore). }
      split; [reflexivity|]. split.
      { unfold get_list. rewrite Hq5, Hq4. reflexivity. }
      split; [subst s5; destruct (_ =? 0); exact Hcur|].
      split; [unfold state_of; rewrite Ht5; reflexivity|].
      split.
      { unfold current_ready.
        replace (CurrentTCB s5) with (Some cur) by (subst s5; destruct (_ =? 0); auto).
        rewrite Ht5, Htc, Hc5. apply bool_decide_eq_true_2. exact Hcin. }
      split; [exact Hc5|]. split; [exact Ht5|].
      split; subst s5; destruct (_ =? 0); reflexivity.
    + (* the head [w] of the wait list is woken *)
      assert (Hwin : w ∈ c (QueueWaitReadList a)) by (rewrite Hwl; apply list_elem_of_here).
      destruct (lists_ok_in_heap _ _ _ _ (inv_lists _ _ Hinv) Hwin) as [tw Htw].
      assert (Htw4 : tcbs s4 !! w = Some tw) by exact Htw.
      assert (Hcw : cur ≠ w).
      { intros ->. pose proof (inv_lists _ _ Hinv) as (_ & _ & Hdisj).
        pose proof (Hdisj _ _ _ Hcin Hwin) as E. discriminate E. }
      change (bind (List_PopHead _) _) with (wake_head (QueueWaitReadList a)).
      apply wp_bind.
      eapply (wp_wake_head s4 c _ w rest tw); [exact Hinv4|exact Hwl|discriminate|exact Htw4|].
      cbv zeta. intros s5 Hinv5 Hdata5 Hnext5 Hframe5.
      rewrite (upd_tcb_Some _ _ _ _ Htw4) in Hdata5.
      assert (Hn5 : g_CriticalNesting s5 = u32 (g_CriticalNesting s + 1))
        by exact (f_equal g_CriticalNesting Hdata5).
      assert (Hcur5 : CurrentTCB s5 = Some cur)
        by (rewrite <- Hcur; exact (f_equal CurrentTCB Hdata5)).
      assert (Hswi5 : swi_pending s5 = true) by exact (f_equal swi_pending Hdata5).
      assert (Hm5 : g_PrioMap s5
                    = Z.lor (g_PrioMap s4) (u32 (Z.shiftl 1 (Priority tw))))
        by exact (f_equal g_PrioMap Hdata5).
      apply wp_bind. apply wp_OS_ExitCritical; [rewrite Hn5; exact Hn1|]. cbv zeta.
      apply wp_ret.
      match goal with |- _ ∧ queues ?s' !! _ = _ ∧ _ => set (s6 := s') end.
      assert (Hcore6 : same_core s5 s6)
        by (subst s6; destruct (_ =? 0); same_core_tac).
      assert (Hq6 : queues s6 = queues s5) by (subst s6; destruct (_ =? 0); reflexivity).
      assert (Ht6 : tcbs s6 = tcbs s5) by (subst s6; destruct (_ =? 0); reflexivity).
      assert (Hm6 : g_PrioMap s6 = g_PrioMap s5) by (subst s6; destruct (_ =? 0); reflexivity).
      assert (Hok6 : lists_ok s6 _)
        by (eapply same_core_lists_ok; [exact Hcore6|exact (inv_lists _ _ Hinv5)]).
      destruct (data_of_queue _ _ a q4 Hdata5 Hq4) as (q5 & Hq5 & Eq5).
      destruct (data_of_tcb_fields _ s5 w (set_State TASK_READY tw) Hdata5)
        as (tw5 & Htw5 & Hst5 & _); [cbn; apply lookup_insert_eq|].
      destruct (data_of_tcb_fields _ s5 cur tc Hdata5)
        as (tc5 & Htc5 & Hsc5 & Hpc5 & _);
        [cbn; rewrite lookup_insert_ne by congruence; exact Htc|].
      split; [reflexivity|]. split.
      { unfold get_list. rewrite Hq6, Hq5. cbn. f_equal.
        destruct q5, q4. cbn in *. inversion Eq5. reflexivity. }
      split.
      { replace (CurrentTCB s6) with (CurrentTCB s5) by (subst s6; destruct (_ =? 0); auto).
        exact Hcur5. }
      split; [unfold state_of; rewrite Ht6, Htc5, Htc; cbn; congruence|].
      split.
      { eapply current_ready_intro; [exact Hok6| |rewrite Ht6; exact Htc5|].
        - replace (CurrentTCB s6) with (CurrentTCB s5) by (subst s6; destruct (_ =? 0); auto).
          exact Hcur5.
        - rewrite Hpc5. destruct (decide (Priority tc = Priority tw)) as [E|E].
          + rewrite E, fn_lookup_insert. apply elem_of_app. left. rewrite <- E. exact Hcin.
          + rewrite fn_lookup_insert_ne by congruence.
            rewrite fn_lookup_insert_ne by discriminate. exact Hcin. }
      split.
      { rewrite (lists_ok_contents _ _ _ Hok6).
        rewrite fn_lookup_insert_ne by discriminate. apply fn_lookup_insert. }
      split; [unfold state_of; rewrite Ht6, Htw5; cbn; rewrite Hst5; reflexivity|].
      split.
      { exists (Priority tw). split; [unfold prio_of; rewrite Htw; reflexivity|].
        rewrite (lists_ok_contents _ _ _ Hok6). apply fn_lookup_insert. }
      split.
      { replace (swi_pending s6) with (swi_pending s5) by (subst s6; destruct (_ =? 0); auto).
        exact Hswi5. }
      replace (NextTCB s6) with (NextTCB s5) by (subst s6; destruct (_ =? 0); auto).
      rewrite Hnext5, (lists_ok_contents _ _ _ Hok6), Hm6, Hm5. reflexivity.
Qed.

Lemma OS_QueueSend_spec_witness :
  let s := exec scenario_E app_memory in
  ∃ s', OS_QueueSend (Some 1%nat) (Some [1; 2; 3; 4]) s = (Ret OS_OK, s') ∧
        contents s (QueueWaitReadList 1) = [1%nat] ∧
        contents s' (QueueWaitReadList 1) = [] ∧
        state_of s' 1 = Some TASK_READY ∧ CurrentTCB s' = Some 2%nat.
Proof.
  intros s.
  pose (q := default zero_queue (queues s !! 1%nat)).
  assert (Hk : kernel_ok s = true) by (vm_compute; reflexivity).
  assert (Hc : current_ready s = true) by (vm_compute; reflexivity).
  assert (Hcur : CurrentTCB s = Some 2%nat) by (vm_compute; reflexivity).
  assert (Hq : queues s !! 1%nat = Some q) by (vm_compute; reflexivity).
  assert (Hok : queue_ok q = true) by (vm_compute; reflexivity).
  assert (Hlen : MsgSize q <= Z.of_nat (length [1; 2; 3; 4])) by (vm_compute; discriminate).
  pose proof (OS_QueueSend_spec s 1 q [1; 2; 3; 4] 2 Hk Hc Hcur Hq Hok Hlen) as H.
  assert (E : (MsgCount q =? QSize q) = false) by (vm_compute; reflexivity).
  rewrite E in H.
  assert (W : contents s (QueueWaitReadList 1) = [1%nat]) by (vm_compute; reflexivity).
  rewrite W in H.
  destruct H as (s' & q' & Hr & _ & _ & _ & _ & _ & _ & _ & Hcur' & _ & _ & Hw & Hst & _).
  exists s'. repeat split; assumption.
Defined.

(** C9 (as amended: for a block pointer that is not null).  On a pool that
    lies in the address space, [OS_MemPut] returns [OS_ERR_INVALID_ADDR]
    exactly when the block is outside
    [[base, base + blocks·block_size)], else [OS_ERR_NOT_ALIGN] exactly
    when [(block − base) mod block_size ≠ 0]; on either error the kernel
    state, and so the pool, is unchanged (the interrupt mask apart).
    Otherwise it stores the old free-list head in the block, makes the
    block the head, increments the free count, wakes the head of the wait
    list if there is one, and returns [OS_OK]. *)
Theorem OS_MemPut_spec s a m block :
  kernel_ok s = true → pools s !! a = Some m → pool_ok m = true →
  0 < block < 2 ^ 32 →
  ∃ r s',
    OS_MemPut (Some a) block s = (Ret r, s') ∧
    (r = OS_ERR_INVALID_ADDR ↔ ¬ in_pool m block) ∧
    (r = OS_ERR_NOT_ALIGN ↔ in_pool m block ∧ ¬ aligned_in m block) ∧
    (r = OS_OK ↔ in_pool m block ∧ aligned_in m block) ∧
    (r ≠ OS_OK → s' = set_irq_enabled (irq_after s) s) ∧
    (r = OS_OK →
       ∃ m', pools s' !! a = Some m' ∧
         ram s' !! block = Some (FreeList m) ∧
         FreeList m' = block ∧ FreeBlocks m' = FreeBlocks m + 1 ∧
         Addr m' = Addr m ∧ BlockSize m' = BlockSize m ∧ TotalBlocks m' = TotalBlocks m ∧
         match contents s (MemWaitList a) with
         | [] =>
             (∀ r, contents s' r = contents s r) ∧ tcbs s' = tcbs s ∧
             swi_pending s' = swi_pending s
         | w :: rest =>
             contents s' (MemWaitList a) = rest ∧
             state_of s' w = Some TASK_READY ∧
             (∃ pw, prio_of s w = Some pw ∧
                    contents s' (ReadyListAt pw) = contents s (ReadyListAt pw) ++ [w]) ∧
             swi_pending s' = true ∧
             NextTCB s' = head (contents s' (ReadyListAt (OS_GetTopPrio (g_PrioMap s'))))
         end).
Proof.
  intros Hk Hm Hmok Hb.
  destruct (kernel_ok_sound s Hk) as [Hinv Hn].
  pose proof (pool_ok_elim m Hmok) as (Ha & Hbs & Htb & Hend & Hfb).
  destruct (enter_exit_nesting _ Hn) as [Hn1 Hn2].
  assert (Htot : u32 (TotalBlocks m * BlockSize m) = TotalBlocks m * BlockSize m)
    by (unfold u32; apply Z.mod_small; nia).
  assert (Hlim : u32 (Addr m + TotalBlocks m * BlockSize m)
                 = Addr m + TotalBlocks m * BlockSize m)
    by (unfold u32; apply Z.mod_small; nia).
  set (c := contents s) in *.
  set (s1 := set_g_CriticalNesting (u32 (g_CriticalNesting s + 1)) (set_irq_enabled false s)).
  set (POST := λ (s' : Kernel),
     ∃ m', pools s' !! a = Some m' ∧
         ram s' !! block = Some (FreeList m) ∧
         FreeList m' = block ∧ FreeBlocks m' = FreeBlocks m + 1 ∧
         Addr m' = Addr m ∧ BlockSize m' = BlockSize m ∧ TotalBlocks m' = TotalBlocks m ∧
         match c (MemWaitList a) with
         | [] =>
             (∀ r, contents s' r = c r) ∧ tcbs s' = tcbs s ∧
             swi_pending s' = swi_pending s
         | w :: rest =>
             contents s' (MemWaitList a) = rest ∧
             state_of s' w = Some TASK_READY ∧
             (∃ pw, prio_of s w = Some pw ∧
                    contents s' (ReadyListAt pw) = c (ReadyListAt pw) ++ [w]) ∧
             swi_pending s' = true ∧
             NextTCB s' = head (contents s' (ReadyListAt (OS_GetTopPrio (g_PrioMap s'))))
         end).
  enough (Hwp : wp (OS_MemPut (Some a) block)
            (λ r s',
               (r = OS_ERR_INVALID_ADDR ∧ ¬ in_pool m block
                ∧ s' = set_irq_enabled (irq_after s) s) ∨
               (r = OS_ERR_NOT_ALIGN ∧ in_pool m block ∧ ¬ aligned_in m block
                ∧ s' = set_irq_enabled (irq_after s) s) ∨
               (r = OS_OK ∧ in_pool m block ∧ aligned_in m block ∧ POST s')) s).
  { apply wp_elim in Hwp as (r & s' & Hrun & Hcases). exists r, s'.
    split; [exact Hrun|].
    destruct Hcases as [(-> & Hout & ->)|[(-> & Hin & Hna & ->)|(-> & Hin & Hal & Hpost)]].
    - split; [tauto|]. split; [split; [discriminate|tauto]|].
      split; [split; [discriminate|tauto]|]. split; [reflexivity|discriminate].
    - split; [split; [discriminate|tauto]|]. split; [tauto|].
      split; [split; [discriminate|tauto]|]. split; [reflexivity|discriminate].
    - split; [split; [discriminate|tauto]|]. split; [split; [discriminate|tauto]|].
      split; [tauto|]. split; [congruence|]. intros _. exact Hpost. }
  unfold OS_MemPut.
  replace (block =? 0) with false by (symmetry; apply Z.eqb_neq; lia).
  apply wp_bind, wp_OS_EnterCritical. fold s1.
  apply wp_bind. eapply wp_load_pool; [exact Hm|].
  cbv zeta. rewrite Htot, Hlim.
  destruct ((block <? Addr m) || (block >=? Addr m + TotalBlocks m * BlockSize m)) eqn:Hrange.
  { (* outside the pool *)
    apply wp_bind, wp_OS_ExitCritical; [exact Hn1|]. apply wp_ret. left.
    split; [reflexivity|]. split; [|apply critical_roundtrip; exact Hn].
    unfold in_pool. apply orb_prop in Hrange as [H|H];
      [apply Z.ltb_lt in H|rewrite Z.geb_leb in H; apply Z.leb_le in H]; lia. }
  apply orb_false_elim in Hrange as [Hlo Hhi].
  apply Z.ltb_ge in Hlo. rewrite Z.geb_leb in Hhi. apply Z.leb_gt in Hhi.
  assert (Hin : in_pool m block) by (unfold in_pool; lia).
  assert (Hoff : u32 (block - Addr m) = block - Addr m)
    by (unfold u32; apply Z.mod_small; lia).
  replace (BlockSize m =? 0) with false by (symmetry; apply Z.eqb_neq; lia).
  rewrite Hoff.
  destruct (Z.eqb_spec ((block - Addr m) mod BlockSize m) 0) as [Hal|Hal]; cbn [negb].
  2:{ (* not on a block boundary *)
    apply wp_bind, wp_OS_ExitCritical; [exact Hn1|]. apply wp_ret. right. left.
    split; [reflexivity|]. split; [exact Hin|]. split; [exact Hal|].
    apply critical_roundtrip; exact Hn. }
  (* a block of the pool *)
  set (m4 := set_FreeBlocks (FreeBlocks m + 1) (set_FreeList block m)).
  set (s4 := set_pools (<[a := m4]> (pools s))
               (set_ram (<[block := FreeList m]> (ram s)) s1)).
  assert (Hcore : same_core s s4).
  { eapply same_core_trans;
      [|apply (same_core_store_pool (set_ram (<[block := FreeList m]> (ram s)) s1) a m m4 Hm);
        reflexivity].
    same_core_tac. }
  assert (Hinv4 : kernel_inv s4 c) by (eapply same_core_inv; eauto).
  assert (HL : get_list (MemWaitList a) s = Some (mem_WaitList m))
    by (unfold get_list; rewrite Hm; reflexivity).
  pose proof (proj1 (inv_lists _ _ Hinv) (MemWaitList a)) as Hrep.
  rewrite HL in Hrep. pose proof (repr_head _ _ _ Hrep) as HH. fold c in HH.
  assert (Hm4 : pools s4 !! a = Some m4) by (cbn; apply lookup_insert_eq).
  assert (Hram4 : ram s4 !! block = Some (FreeList m)) by (cbn; apply lookup_insert_eq).
  apply wp_bind, wp_modify.
  apply wp_bind. eapply wp_store_pool; [exact Hm|].
  apply wp_bind. eapply wp_load_pool; [cbn; apply lookup_insert_eq|].
  apply wp_bind. eapply wp_store_pool; [cbn; apply lookup_insert_eq|].
  apply wp_bind. eapply wp_load_pool; [cbn; apply lookup_insert_eq|].
  cbn [pools set_pools]. rewrite !insert_insert_eq.
  cbn [FreeBlocks set_FreeList set_FreeBlocks mem_WaitList].
  replace (u32 (FreeBlocks m + 1)) with (FreeBlocks m + 1)
    by (unfold u32; symmetry; apply Z.mod_small; lia).
  change (set_pools _ _) with s4.
  rewrite HH. destruct (c (MemWaitList a)) as [|w rest] eqn:Hwl; cbn [head is_null negb].
  - (* nobody waits *)
    apply wp_bind, wp_ret.
    apply wp_bind. apply wp_OS_ExitCritical; [exact Hn1|]. cbv zeta.
    apply wp_ret. right. right.
    split; [reflexivity|]. split; [exact Hin|]. split; [exact Hal|].
    match goal with |- POST ?s' => set (s5 := s') end.
    assert (Hcore5 : same_core s4 s5) by (subst s5; destruct (_ =? 0); same_core_tac).
    assert (Hp5 : pools s5 = pools s4) by (subst s5; destruct (_ =? 0); reflexivity).
    assert (Hr5 : ram s5 = ram s4) by (subst s5; destruct (_ =? 0); reflexivity).
    assert (Ht5 : tcbs s5 = tcbs s) by (subst s5; destruct (_ =? 0); reflexivity).
    exists m4. rewrite Hp5, Hr5. split; [exact Hm4|]. split; [exact Hram4|].
    repeat (split; [reflexivity|]).
    split.
    { intros r. rewrite (same_core_contents _ _ _ Hcore5).
      apply (same_core_contents _ _ _ Hcore). }
    split; [exact Ht5|]. subst s5; destruct (_ =? 0); reflexivity.
  - (* the head [w] of the wait list is woken *)
    assert (Hwin : w ∈ c (MemWaitList a)) by (rewrite Hwl; apply list_elem_of_here).
    destruct (lists_ok_in_heap _ _ _ _ (inv_lists _ _ Hinv) Hwin) as [tw Htw].
    assert (Htw4 : tcbs s4 !! w = Some tw) by exact Htw.
    change (bind (List_PopHead _) _) with (wake_head (MemWaitList a)).
    apply wp_bind.
    eapply (wp_wake_head s4 c _ w rest tw); [exact Hinv4|exact Hwl|discriminate|exact Htw4|].
    cbv zeta. intros s5 Hinv5 Hdata5 Hnext5 Hframe5.
    rewrite (upd_tcb_Some _ _ _ _ Htw4) in Hdata5.
    assert (Hn5 : g_CriticalNesting s5 = u32 (g_CriticalNesting s + 1))
      by exact (f_equal g_CriticalNesting Hdata5).
    assert (Hswi5 : swi_pending s5 = true) by exact (f_equal swi_pending Hdata5).
    assert (Hram5 : ram s5 = ram s4) by exact (f_equal ram Hdata5).
    assert (Hm5 : g_PrioMap s5 = Z.lor (g_PrioMap s4) (u32 (Z.shiftl 1 (Priority tw))))
      by exact (f_equal g_PrioMap Hdata5).
    apply wp_bind. apply wp_OS_ExitCritical; [rewrite Hn5; exact Hn1|]. cbv zeta.
    apply wp_ret. right. right.
    split; [reflexivity|]. split; [exact Hin|]. split; [exact Hal|].
    match goal with |- POST ?s' => set (s6 := s') end.
    assert (Hcore6 : same_core s5 s6) by (subst s6; destruct (_ =? 0); same_core_tac).
    assert (Hp6 : pools s6 = pools s5) by (subst s6; destruct (_ =? 0); reflexivity).
    assert (Hr6 : ram s6 = ram s5) by (subst s6; destruct (_ =? 0); reflexivity).
    assert (Ht6 : tcbs s6 = tcbs s5) by (subst s6; destruct (_ =? 0); reflexivity).
    assert (Hm6 : g_PrioMap s6 = g_PrioMap s5) by (subst s6; destruct (_ =? 0); reflexivity).
    assert (Hok6 : lists_ok s6 _)
      by (eapply same_core_lists_ok; [exact Hcore6|exact (inv_lists _ _ Hinv5)]).
    destruct (data_of_pool _ _ a m4 Hdata5 Hm4) as (m5 & Hm5' & Em5).
    destruct (data_of_tcb_fields _ s5 w (set_State TASK_READY tw) Hdata5)
      as (tw5 & Htw5 & Hst5 & _); [cbn; apply lookup_insert_eq|].
    exists m5. rewrite Hp6, Hr6, Hram5. split; [exact Hm5'|]. split; [exact Hram4|].
    assert (Ef : FreeList m5 = block ∧ FreeBlocks m5 = FreeBlocks m + 1 ∧
                 Addr m5 = Addr m ∧ BlockSize m5 = BlockSize m ∧ TotalBlocks m5 = TotalBlocks m).
    { destruct m5. cbn in Em5. inversion Em5. auto. }
    destruct Ef as (E1 & E2 & E3 & E4 & E5).
    repeat (split; [assumption|]).
    split.
    { rewrite (lists_ok_contents _ _ _ Hok6).
      rewrite fn_lookup_insert_ne by discriminate. apply fn_lookup_insert. }
    split; [unfold state_of; rewrite Ht6, Htw5; cbn; rewrite Hst5; reflexivity|].
    split.
    { exists (Priority tw). split; [unfold prio_of; rewrite Htw; reflexivity|].
      rewrite (lists_ok_contents _ _ _ Hok6). apply fn_lookup_insert. }
    split.
    { replace (swi_pending s6) with (swi_pending s5) by (subst s6; destruct (_ =? 0); auto).
      exact Hswi5. }
    replace (NextTCB s6) with (NextTCB s5) by (subst s6; destruct (_ =? 0); auto).
    rewrite Hnext5, (lists_ok_contents _ _ _ Hok6), Hm6, Hm5. reflexivity.
Qed.

(** C9, counterexample.  A null block pointer lies outside every pool, and
    [OS_MemPut] answers [OS_ERR_PARAM], not [OS_ERR_INVALID_ADDR]: the
    parameter check comes before the range check. *)
Lemma OS_MemPut_null_block :
  let s := exec scenario_F app_memory in
  ∃ m, pools s !! 1%nat = Some m ∧ ¬ in_pool m 0 ∧
       OS_MemPut (Some 1%nat) 0 s = (Ret OS_ERR_PARAM, s).
Proof.
  intros s. exists (default zero_pool (pools s !! 1%nat)).
  split; [vm_compute; reflexivity|]. split; [|vm_compute; reflexivity].
  unfold in_pool. vm_compute. intros [H _]. apply H. reflexivity.
Qed.

Lemma OS_MemPut_spec_witness :
  let s := exec scenario_F app_memory in
  result (OS_MemPut (Some 1%nat) 0x20000020) s = Ret OS_OK ∧
  result (OS_MemPut (Some 1%nat) 0x20000010) s = Ret OS_ERR_NOT_ALIGN ∧
  result (OS_MemPut (Some 1%nat) 0x20000080) s = Ret OS_ERR_INVALID_ADDR.
Proof.
  intros s.
  pose (m := default zero_pool (pools s !! 1%nat)).
  assert (Hk : kernel_ok s = true) by (vm_compute; reflexivity).
  assert (Hm : pools s !! 1%nat = Some m) by (vm_compute; reflexivity).
  assert (Hok : pool_ok m = true) by (vm_compute; reflexivity).
  assert (Ea : Addr m = 0x20000000) by (vm_compute; reflexivity).
  assert (Eb : BlockSize m = 32) by (vm_compute; reflexivity).
  assert (Et : TotalBlocks m = 4) by (vm_compute; reflexivity).
  split; [|split].
  - destruct (OS_MemPut_spec s 1 m 0x20000020 Hk Hm Hok ltac:(lia))
      as (r & s' & Hr & _ & _ & Hiff & _).
    unfold result. rewrite Hr. cbn [fst]. f_equal. apply Hiff.
    unfold in_pool, aligned_in. rewrite Ea, Eb, Et. split; [lia|reflexivity].
  - destruct (OS_MemPut_spec s 1 m 0x20000010 Hk Hm Hok ltac:(lia))
      as (r & s' & Hr & _ & Hiff & _).
    unfold result. rewrite Hr. cbn [fst]. f_equal. apply Hiff.
    unfold in_pool, aligned_in. rewrite Ea, Eb, Et. split; [lia|discriminate].
  - destruct (OS_MemPut_spec s 1 m 0x20000080 Hk Hm Hok ltac:(lia))
      as (r & s' & Hr & Hiff & _).
    unfold result. rewrite Hr. cbn [fst]. f_equal. apply Hiff.
    unfold in_pool. rewrite Ea, Et, Eb. lia.
Defined.

(** C10.  [OS_QueueReceiveFromISR], as the spec describes it: on a queue
    whose count is zero it returns [OS_ERR_RESOURCE] and changes nothing;
    otherwise it returns the bytes of slot [q_Tail], advances [q_Tail]
    modulo the capacity and decrements the count.  Nothing else of the
    kernel state changes in either case: the caller is not suspended. *)
Theorem OS_QueueReceiveFromISR_spec s a q :
  queues s !! a = Some q → queue_ok q = true →
  ∃ r s',
    OS_QueueReceiveFromISR (Some a) true s = (Ret r, s') ∧
    (if MsgCount q =? 0 then r = (OS_ERR_RESOURCE, []) ∧ s' = s
     else
       r = (OS_OK, slot_read q (q_Tail q)) ∧
       s' = set_queues
              (<[a := set_MsgCount (MsgCount q - 1)
                        (set_q_Tail ((q_Tail q + 1) mod QSize q) q)]> (queues s)) s) ∧
    tcbs s' = tcbs s ∧ CurrentTCB s' = CurrentTCB s ∧ ReadyList s' = ReadyList s ∧
    g_PrioMap s' = g_PrioMap s ∧ swi_pending s' = swi_pending s ∧
    (∀ l, get_list l s' = get_list l s).
Proof.
  intros Hq Hqok.
  pose proof (queue_ok_elim q Hqok) as (Hms & Hqs & Hmc & Hqh & Hqt & Hbuf).
  unfold OS_QueueReceiveFromISR, bind, load_queue. rewrite Hq.
  destruct (Z.eqb_spec (MsgCount q) 0) as [Hz|Hnz].
  - exists (OS_ERR_RESOURCE, []), s. repeat split; reflexivity.
  - rewrite (memcpy_from_slot q (q_Tail q) Hqok Hqt).
    replace (QSize q =? 0) with false by (symmetry; apply Z.eqb_neq; lia).
    unfold store_queue. rewrite Hq. cbn [queues set_queues].
    rewrite lookup_insert_eq. cbn [queues set_queues]. rewrite lookup_insert_eq.
    unfold ret. rewrite insert_insert_eq.
    cbn [MsgCount set_q_Tail].
    replace (u16 ((q_Tail q + 1) mod QSize q)) with ((q_Tail q + 1) mod QSize q)
      by (unfold u16; symmetry; apply Z.mod_small;
          pose proof (Z.mod_pos_bound (q_Tail q + 1) (QSize q)); lia).
    replace (u16 (MsgCount q - 1)) with (MsgCount q - 1)
      by (unfold u16; symmetry; apply Z.mod_small; lia).
    eexists _, _. split; [reflexivity|]. split; [split; reflexivity|].
    repeat (split; [reflexivity|]).
    intros l. apply same_core_get_list.
    apply (same_core_store_queue s a q); [exact Hq|reflexivity].
Qed.

Lemma OS_QueueReceiveFromISR_spec_witness :
  let s := exec (ignore (by_task 2 (OS_QueueSend (Some 1%nat) (Some [1; 2; 3; 4]))))
             (exec scenario_E app_memory) in
  ∃ s', OS_QueueReceiveFromISR (Some 1%nat) true s = (Ret (OS_OK, [1; 2; 3; 4]), s') ∧
        CurrentTCB s' = CurrentTCB s ∧
        OS_QueueReceiveFromISR (Some 1%nat) true s' = (Ret (OS_ERR_RESOURCE, []), s').
Proof.
  intros s.
  pose (q := default zero_queue (queues s !! 1%nat)).
  assert (Hq : queues s !! 1%nat = Some q) by (vm_compute; reflexivity).
  assert (Hok : queue_ok q = true) by (vm_compute; reflexivity).
  destruct (OS_QueueReceiveFromISR_spec s 1 q Hq Hok) as (r & s' & Hr & Hcase & _ & Hcur & _).
  assert (E : (MsgCount q =? 0) = false) by (vm_compute; reflexivity).
  rewrite E in Hcase. destruct Hcase as [-> Hs'].
  exists s'. split; [|split].
  - assert (Es : slot_read q (q_Tail q) = [1; 2; 3; 4]) by (vm_compute; reflexivity).
    rewrite Es in Hr. exact Hr.
  - exact Hcur.
  - rewrite Hs'. vm_compute. reflexivity.
Defined.

(** * Further properties of the kernel code *)

(** ** The intrusive lists *)

Lemma wp_run {A} (m : M A) (Q : A → Kernel → Prop) s :
  wp m Q s → ∃ a, result m s = Ret a ∧ Q a (exec m s).
Proof.
  unfold wp, result, exec. destruct (m s) as [[a|f] s']; [|tauto].
  intros H. exists a. auto.
Qed.

Lemma off_lists_sound s x : off_lists s x = true → ∀ r, x ∉ contents s r.
Proof.
  intros H r. destruct (get_list r s) as [L|] eqn:E.
  - pose proof (proj1 (forallb_forall _ _) H r) as Hr. cbv beta in Hr.
    eapply bool_decide_eq_true_1, Hr, list_elem_of_In, get_list_in_all_refs, E.
  - unfold contents. rewrite E. apply not_elem_of_nil.
Qed.

Lemma contents_insert s s' c r l :
  lists_ok s c → lists_ok s' (<[r := l]> c) →
  contents s' r = l ∧ ∀ r', r' ≠ r → contents s' r' = contents s r'.
Proof.
  intros Hok Hok'. split.
  - rewrite (lists_ok_contents _ _ _ Hok'). apply fn_lookup_insert.
  - intros r' Hne. rewrite (lists_ok_contents _ _ _ Hok'), (lists_ok_contents _ _ _ Hok).
    apply fn_lookup_insert_ne. congruence.
Qed.

Lemma lists_ok_self s c : lists_ok s c → lists_ok s (contents s).
Proof.
  intros Hok. eapply lists_ok_pointwise; [|exact Hok].
  intros r. symmetry. apply lists_ok_contents, Hok.
Qed.

(** X1.  [List_InsertTail] of a control block that is on no list, in a
    well-formed state: the block becomes the last node of the list, no
    other list changes, the lists stay well formed and nothing but links
    is written. *)
Theorem List_InsertTail_appends s r x :
  kernel_ok s = true → is_Some (get_list r s) → is_Some (tcbs s !! x) →
  off_lists s x = true →
  let s' := exec (List_InsertTail r (Some x)) s in
  result (List_InsertTail r (Some x)) s = Ret tt ∧
  contents s' r = contents s r ++ [x] ∧
  (∀ r', r' ≠ r → contents s' r' = contents s r') ∧
  lists_ok s' (contents s') ∧
  data_of s' = data_of s.
Proof.
  intros Hk [L HL] [t Ht] Hoff s'.
  destruct (kernel_ok_sound s Hk) as [[Hok _] _].
  assert (Hwp : wp (List_InsertTail r (Some x))
                  (λ _ s1, lists_ok s1 (<[r := contents s r ++ [x]]> (contents s)) ∧
                           data_of s1 = data_of s) s).
  { eapply wp_List_InsertTail; [exact Hok|exact HL|exact Ht|apply off_lists_sound, Hoff|].
    intros s1 Hok1 Hd1 _. auto. }
  apply wp_run in Hwp as ([] & Hres & Hok1 & Hd1). fold s' in Hok1, Hd1.
  destruct (contents_insert _ _ _ _ _ Hok Hok1) as [E1 E2].
  split; [exact Hres|]. split; [exact E1|]. split; [exact E2|].
  split; [eapply lists_ok_self; exact Hok1|exact Hd1].
Qed.

Lemma List_InsertTail_appends_witness :
  let s := exec scenario_D app_memory in
  let s' := exec (List_InsertTail (SemWaitList 1) (Some 4%nat)) s in
  contents s DelayListRef = [2; 3; 1]%nat ∧
  contents s' (SemWaitList 1) = [4%nat] ∧
  contents s' DelayListRef = [2; 3; 1]%nat.
Proof.
  intros s s'.
  assert (Hk : kernel_ok s = true) by (vm_compute; reflexivity).
  assert (HL : is_Some (get_list (SemWaitList 1) s)) by (vm_compute; eauto).
  assert (Ht : is_Some (tcbs s !! 4%nat)) by (vm_compute; eauto).
  assert (Ho : off_lists s 4 = true) by (vm_compute; reflexivity).
  assert (Hd : contents s DelayListRef = [2; 3; 1]%nat) by (vm_compute; reflexivity).
  assert (Hw : contents s (SemWaitList 1) = []) by (vm_compute; reflexivity).
  destruct (List_InsertTail_appends s (SemWaitList 1) 4 Hk HL Ht Ho) as (_ & E1 & E2 & _).
  split; [exact Hd|].
  split; [unfold s'; rewrite E1, Hw; reflexivity|].
  unfold s'. rewrite E2 by discriminate. exact Hd.
Defined.

Lemma lists_ok_removed s c r l1 x l2 :
  lists_ok s c → c r = l1 ++ x :: l2 →
  filter (λ y, y ≠ x) (c r) = l1 ++ l2 ∧ (x ∉ l1 ++ l2) ∧ ∀ r', r' ≠ r → x ∉ c r'.
Proof.
  intros (_ & Hnd & Hdisj) E. pose proof (Hnd r) as N. rewrite E in N.
  split; [rewrite E; apply filter_ne_split, N|]. split.
  - rewrite <- (filter_ne_split _ _ _ N). intros H.
    apply list_elem_of_filter in H as [H _]. apply H. reflexivity.
  - intros r' Hne Hin. apply Hne. eapply Hdisj; [exact Hin|].
    rewrite E. apply elem_of_app. right. apply list_elem_of_here.
Qed.

(** X2.  [List_Remove] of a node of the list, in a well-formed state: the
    node leaves the list, the order of the others is kept, no other list
    changes, and the node is then on no list at all. *)
Theorem List_Remove_unlinks s r x :
  kernel_ok s = true → x ∈ contents s r →
  let s' := exec (List_Remove r (Some x)) s in
  result (List_Remove r (Some x)) s = Ret tt ∧
  contents s' r = filter (λ y, y ≠ x) (contents s r) ∧
  (∀ r', r' ≠ r → contents s' r' = contents s r') ∧
  (∀ r', x ∉ contents s' r') ∧
  lists_ok s' (contents s') ∧
  data_of s' = data_of s.
Proof.
  intros Hk Hin s'.
  destruct (kernel_ok_sound s Hk) as [[Hok _] _].
  destruct (list_elem_of_split _ _ Hin) as (l1 & l2 & E).
  destruct (lists_ok_removed _ _ _ _ _ _ Hok E) as (Ef & Hx & Hx').
  assert (Hwp : wp (List_Remove r (Some x))
                  (λ _ s1, lists_ok s1 (<[r := l1 ++ l2]> (contents s)) ∧
                           data_of s1 = data_of s) s).
  { eapply wp_List_Remove; [exact Hok|exact E|]. intros s1 Hok1 Hd1 _. auto. }
  apply wp_run in Hwp as ([] & Hres & Hok1 & Hd1). fold s' in Hok1, Hd1.
  destruct (contents_insert _ _ _ _ _ Hok Hok1) as [E1 E2].
  split; [exact Hres|]. split; [rewrite E1, Ef; reflexivity|]. split; [exact E2|].
  split; [|split; [eapply lists_ok_self; exact Hok1|exact Hd1]].
  intros r'. destruct (decide (r' = r)) as [->|Hne].
  - rewrite E1. exact Hx.
  - rewrite E2 by exact Hne. apply Hx', Hne.
Qed.

Lemma List_Remove_unlinks_witness :
  let s := exec scenario_D app_memory in
  let s' := exec (List_Remove DelayListRef (Some 3%nat)) s in
  contents s DelayListRef = [2; 3; 1]%nat ∧
  contents s' DelayListRef = [2; 1]%nat.
Proof.
  intros s s'.
  assert (Hk : kernel_ok s = true) by (vm_compute; reflexivity).
  assert (Hd : contents s DelayListRef = [2; 3; 1]%nat) by (vm_compute; reflexivity).
  assert (Hin : 3%nat ∈ contents s DelayListRef)
    by (rewrite Hd; apply list_elem_of_further, list_elem_of_here).
  destruct (List_Remove_unlinks s DelayListRef 3 Hk Hin) as (_ & E1 & _).
  split; [exact Hd|]. unfold s'. rewrite E1, Hd. reflexivity.
Defined.

(** X3.  [List_PopHead] in a well-formed state returns the first node of
    the list and takes it off, and returns [NULL] from an empty list, which
    it leaves as it is together with the rest of the state. *)
Theorem List_PopHead_spec s r :
  kernel_ok s = true → is_Some (get_list r s) →
  let s' := exec (List_PopHead r) s in
  result (List_PopHead r) s = Ret (head (contents s r)) ∧
  contents s' r = tail (contents s r) ∧
  (∀ r', r' ≠ r → contents s' r' = contents s r') ∧
  (contents s r = [] → s' = s) ∧
  lists_ok s' (contents s') ∧
  data_of s' = data_of s.
Proof.
  intros Hk [L HL] s'.
  destruct (kernel_ok_sound s Hk) as [[Hok _] _].
  destruct (contents s r) as [|x l] eqn:E.
  - pose proof Hok as (Hrep & _). specialize (Hrep r). rewrite HL, E in Hrep.
    pose proof (repr_head _ _ _ Hrep) as HH. cbn in HH.
    assert (Hrun : List_PopHead r s = (Ret None, s)).
    { unfold List_PopHead, bind, load_list. rewrite HL, HH. reflexivity. }
    unfold s', result, exec. rewrite Hrun. cbn [fst snd head tail].
    split; [reflexivity|]. split; [exact E|]. split; [reflexivity|].
    split; [reflexivity|]. split; [exact Hok|reflexivity].
  - assert (Hwp : wp (List_PopHead r)
                    (λ a s1, a = Some x ∧ lists_ok s1 (<[r := l]> (contents s)) ∧
                             data_of s1 = data_of s) s).
    { eapply wp_List_PopHead; [exact Hok|exact E|]. intros s1 Hok1 Hd1 _. auto. }
    apply wp_run in Hwp as (a & Hres & -> & Hok1 & Hd1). fold s' in Hok1, Hd1.
    destruct (contents_insert _ _ _ _ _ Hok Hok1) as [E1 E2].
    split; [exact Hres|]. split; [exact E1|]. split; [exact E2|].
    split; [discriminate|]. split; [eapply lists_ok_self; exact Hok1|exact Hd1].
Qed.

Lemma List_PopHead_spec_witness :
  let s := exec scenario_D app_memory in
  contents s DelayListRef = [2; 3; 1]%nat ∧
  result (List_PopHead DelayListRef) s = Ret (Some 2%nat) ∧
  contents (exec (List_PopHead DelayListRef) s) DelayListRef = [3; 1]%nat ∧
  result (List_PopHead (SemWaitList 1)) s = Ret None ∧
  exec (List_PopHead (SemWaitList 1)) s = s.
Proof.
  intros s.
  assert (Hk : kernel_ok s = true) by (vm_compute; reflexivity).
  assert (Hd : contents s DelayListRef = [2; 3; 1]%nat) by (vm_compute; reflexivity).
  assert (Hw : contents s (SemWaitList 1) = []) by (vm_compute; reflexivity).
  assert (H1 : is_Some (get_list DelayListRef s)) by (vm_compute; eauto).
  assert (H2 : is_Some (get_list (SemWaitList 1) s)) by (vm_compute; eauto).
  destruct (List_PopHead_spec s DelayListRef Hk H1) as (R1 & E1 & _).
  destruct (List_PopHead_spec s (SemWaitList 1) Hk H2) as (R2 & _ & _ & E2 & _).
  rewrite Hd in R1, E1. rewrite Hw in R2.
  split; [exact Hd|]. split; [exact R1|]. split; [exact E1|].
  split; [exact R2|]. apply E2, Hw.
Defined.

(** X4.  [List_Remove] followed by [List_InsertTail] on the same list, the
    rotation the tick handler makes: the node goes to the end of the list,
    the others keep their order and no other list changes. *)
Theorem List_Remove_InsertTail_rotates s r x :
  kernel_ok s = true → x ∈ contents s r →
  let m := (List_Remove r (Some x) ;; List_InsertTail r (Some x)) in
  result m s = Ret tt ∧
  contents (exec m s) r = filter (λ y, y ≠ x) (contents s r) ++ [x] ∧
  (∀ r', r' ≠ r → contents (exec m s) r' = contents s r') ∧
  lists_ok (exec m s) (contents (exec m s)) ∧
  data_of (exec m s) = data_of s.
Proof.
  intros Hk Hin m.
  destruct (kernel_ok_sound s Hk) as [[Hok _] _].
  destruct (list_elem_of_split _ _ Hin) as (l1 & l2 & E).
  destruct (lists_ok_removed _ _ _ _ _ _ Hok E) as (Ef & Hx & Hx').
  destruct (lists_ok_in_heap _ _ _ _ Hok Hin) as [t Ht].
  assert (HL : is_Some (get_list r s)).
  { destruct (get_list r s) eqn:EL; [eauto|]. unfold contents in Hin.
    rewrite EL in Hin. inversion Hin. }
  assert (Hwp : wp m (λ _ s2, lists_ok s2 (<[r := (l1 ++ l2) ++ [x]]> (contents s)) ∧
                              data_of s2 = data_of s) s).
  { unfold m. apply wp_bind. eapply wp_List_Remove; [exact Hok|exact E|].
    intros s1 Hok1 Hd1 _.
    destruct (data_of_tcb_Some _ _ _ _ (eq_sym Hd1) Ht) as (t1 & Ht1 & _).
    destruct HL as [L HL].
    assert (HL1 : is_Some (get_list r s1)).
    { destruct (get_list r s1) as [L1|] eqn:EL; [eauto|].
      pose proof Hok1 as (Hrep1 & _). specialize (Hrep1 r). rewrite EL in Hrep1.
      rewrite fn_lookup_insert in Hrep1.
      pose proof (f_equal (λ k, get_list r k) Hd1) as Eg. cbv beta in Eg.
      destruct r; cbn in Eg, EL, HL; try discriminate.
      - destruct ((0 <=? p) && (p <? OS_MAX_PRIO)); [|discriminate].
        rewrite !list_lookup_fmap, EL, HL in Eg. discriminate.
      - rewrite !lookup_fmap in Eg. destruct (sems s1 !! a), (sems s !! a); discriminate.
      - rewrite !lookup_fmap in Eg. destruct (mutexes s1 !! a), (mutexes s !! a); discriminate.
      - rewrite !lookup_fmap in Eg. destruct (queues s1 !! a), (queues s !! a); discriminate.
      - rewrite !lookup_fmap in Eg. destruct (pools s1 !! a), (pools s !! a); discriminate. }
    destruct HL1 as [L1 HL1].
    eapply wp_List_InsertTail; [exact Hok1|exact HL1|exact Ht1| |].
    - intros r'. destruct (decide (r' = r)) as [->|Hne].
      + rewrite fn_lookup_insert. exact Hx.
      + rewrite fn_lookup_insert_ne by congruence. apply Hx', Hne.
    - intros s2 Hok2 Hd2 _. rewrite fn_lookup_insert in Hok2. split; [|congruence].
      eapply lists_ok_pointwise; [|exact Hok2]. intros r'.
      destruct (decide (r' = r)) as [->|Hne].
      + rewrite !fn_lookup_insert. reflexivity.
      + rewrite !fn_lookup_insert_ne by congruence. reflexivity. }
  apply wp_run in Hwp as ([] & Hres & Hok2 & Hd2).
  destruct (contents_insert _ _ _ _ _ Hok Hok2) as [E1 E2].
  split; [exact Hres|]. split; [rewrite E1, Ef; reflexivity|]. split; [exact E2|].
  split; [eapply lists_ok_self; exact Hok2|exact Hd2].
Qed.

Lemma List_Remove_InsertTail_rotates_witness :
  let s := exec scenario_D app_memory in
  let m := (List_Remove DelayListRef (Some 2%nat) ;; List_InsertTail DelayListRef (Some 2%nat)) in
  contents s DelayListRef = [2; 3; 1]%nat ∧
  contents (exec m s) DelayListRef = [3; 1; 2]%nat.
Proof.
  intros s m.
  assert (Hk : kernel_ok s = true) by (vm_compute; reflexivity).
  assert (Hd : contents s DelayListRef = [2; 3; 1]%nat) by (vm_compute; reflexivity).
  assert (Hin : 2%nat ∈ contents s DelayListRef) by (rewrite Hd; apply list_elem_of_here).
  destruct (List_Remove_InsertTail_rotates s DelayListRef 2 Hk Hin) as (_ & E1 & _).
  split; [exact Hd|]. unfold m. rewrite E1, Hd. reflexivity.
Defined.

(** ** The ready set *)

Lemma shift_mask (p : Z) : 0 <= p < 32 → u32 (Z.shiftl 1 p) = Z.shiftl 1 p.
Proof. intros Hp. rewrite (bit_mask p Hp), Z.shiftl_1_l. reflexivity. Qed.

Lemma prio_of_Some s x p : prio_of s x = Some p → ∃ t, tcbs s !! x = Some t ∧ Priority t = p.
Proof.
  unfold prio_of. destruct (tcbs s !! x) as [t|]; [|discriminate].
  cbn. intros E. exists t. split; congruence.
Qed.

Lemma kernel_inv_self s c : kernel_inv s c → kernel_inv s (contents s).
Proof.
  intros Hinv. eapply kernel_inv_pointwise; [|exact Hinv].
  intros r. symmetry. apply lists_ok_contents, Hinv.
Qed.

(** X5.  [OS_ReadyListAdd] of a task of priority [p] that is on no list,
    in a well-formed state: the task becomes the last of the ready list of
    priority [p], bit [p] of the bitmap is set, nothing else changes, and
    the state is well formed again: every bit of the bitmap says whether
    its ready list has a task. *)
Theorem OS_ReadyListAdd_spec s x p :
  kernel_ok s = true → prio_of s x = Some p → off_lists s x = true →
  let s' := exec (OS_ReadyListAdd (Some x)) s in
  result (OS_ReadyListAdd (Some x)) s = Ret tt ∧
  contents s' (ReadyListAt p) = contents s (ReadyListAt p) ++ [x] ∧
  (∀ r, r ≠ ReadyListAt p → contents s' r = contents s r) ∧
  g_PrioMap s' = Z.lor (g_PrioMap s) (Z.shiftl 1 p) ∧
  (∀ y, fields s' y = fields s y) ∧
  kernel_inv s' (contents s').
Proof.
  intros Hk Hp Hoff s'.
  destruct (kernel_ok_sound s Hk) as [Hinv _].
  destruct (prio_of_Some _ _ _ Hp) as (t & Ht & <-).
  destruct (inv_tcb _ _ (inv_data _ _ Hinv) x t Ht) as [Hpr _].
  assert (Hwp : wp (OS_ReadyListAdd (Some x))
            (λ _ s1,
               kernel_inv s1 (<[ReadyListAt (Priority t) :=
                                  contents s (ReadyListAt (Priority t)) ++ [x]]> (contents s)) ∧
               data_of s1 = data_of (set_g_PrioMap
                              (Z.lor (g_PrioMap s) (u32 (Z.shiftl 1 (Priority t)))) s)) s).
  { eapply wp_OS_ReadyListAdd; [exact Hinv|exact Ht|apply off_lists_sound, Hoff|].
    intros s1 Hinv1 Hd1 _. auto. }
  apply wp_run in Hwp as ([] & Hres & Hinv1 & Hd1). fold s' in Hinv1, Hd1.
  destruct (contents_insert _ _ _ _ _ (inv_lists _ _ Hinv) (inv_lists _ _ Hinv1)) as [E1 E2].
  split; [exact Hres|]. split; [exact E1|]. split; [exact E2|].
  split; [rewrite <- (shift_mask _ Hpr); exact (f_equal g_PrioMap Hd1)|].
  split; [intros y; rewrite (fields_data _ _ y Hd1); reflexivity|].
  eapply kernel_inv_self, Hinv1.
Qed.

Lemma OS_ReadyListAdd_spec_witness :
  let s := exec scenario_D app_memory in
  let s' := exec (OS_ReadyListAdd (Some 4%nat)) s in
  prio_of s 4 = Some 0 ∧ g_PrioMap s = 0x80000000 ∧
  contents s' (ReadyListAt 0) = [4%nat] ∧ g_PrioMap s' = 0x80000001.
Proof.
  intros s s'.
  assert (Hk : kernel_ok s = true) by (vm_compute; reflexivity).
  assert (Hp : prio_of s 4 = Some 0) by (vm_compute; reflexivity).
  assert (Ho : off_lists s 4 = true) by (vm_compute; reflexivity).
  assert (Hm : g_PrioMap s = 0x80000000) by (vm_compute; reflexivity).
  assert (Hr : contents s (ReadyListAt 0) = []) by (vm_compute; reflexivity).
  destruct (OS_ReadyListAdd_spec s 4 0 Hk Hp Ho) as (_ & E1 & _ & E2 & _).
  split; [exact Hp|]. split; [exact Hm|].
  split; [unfold s'; rewrite E1, Hr; reflexivity|].
  unfold s'. rewrite E2, Hm. reflexivity.
Defined.

(** X6.  [OS_ReadyListRemove] of a task that is on the ready list of its
    priority [p], in a well-formed state: the task leaves that list and is
    then on no list, bit [p] of the bitmap is cleared exactly when the list
    has become empty, nothing else changes, and the state is well formed
    again. *)
Theorem OS_ReadyListRemove_spec s x p :
  kernel_ok s = true → prio_of s x = Some p → x ∈ contents s (ReadyListAt p) →
  let s' := exec (OS_ReadyListRemove (Some x)) s in
  let left := filter (λ y, y ≠ x) (contents s (ReadyListAt p)) in
  result (OS_ReadyListRemove (Some x)) s = Ret tt ∧
  contents s' (ReadyListAt p) = left ∧
  (∀ r, r ≠ ReadyListAt p → contents s' r = contents s r) ∧
  (∀ r, x ∉ contents s' r) ∧
  g_PrioMap s' = (if decide (left = [])
                  then Z.land (g_PrioMap s) (not32 (Z.shiftl 1 p))
                  else g_PrioMap s) ∧
  (∀ y, fields s' y = fields s y) ∧
  kernel_inv s' (contents s').
Proof.
  intros Hk Hp Hin s' left.
  destruct (kernel_ok_sound s Hk) as [Hinv _].
  pose proof (inv_lists _ _ Hinv) as Hok.
  destruct (prio_of_Some _ _ _ Hp) as (t & Ht & <-).
  destruct (inv_tcb _ _ (inv_data _ _ Hinv) x t Ht) as [Hpr _].
  destruct (list_elem_of_split _ _ Hin) as (l1 & l2 & E).
  destruct (lists_ok_removed _ _ _ _ _ _ Hok E) as (Ef & Hx & Hx').
  fold left in Ef.
  assert (Hwp : wp (OS_ReadyListRemove (Some x))
            (λ _ s1,
               kernel_inv s1 (<[ReadyListAt (Priority t) := l1 ++ l2]> (contents s)) ∧
               data_of s1 = data_of (set_g_PrioMap
                              (if l1 ++ l2 is []
                               then Z.land (g_PrioMap s) (not32 (u32 (Z.shiftl 1 (Priority t))))
                               else g_PrioMap s) s)) s).
  { eapply wp_OS_ReadyListRemove; [exact Hinv|exact Ht|exact E|].
    intros s1 Hinv1 Hd1 _. auto. }
  apply wp_run in Hwp as ([] & Hres & Hinv1 & Hd1). fold s' in Hinv1, Hd1.
  destruct (contents_insert _ _ _ _ _ Hok (inv_lists _ _ Hinv1)) as [E1 E2].
  split; [exact Hres|]. split; [rewrite E1, Ef; reflexivity|]. split; [exact E2|].
  split.
  { intros r. destruct (decide (r = ReadyListAt (Priority t))) as [->|Hne].
    - rewrite E1. exact Hx.
    - rewrite E2 by exact Hne. apply Hx', Hne. }
  split.
  { pose proof (f_equal g_PrioMap Hd1) as Em. cbn in Em. rewrite Em, Ef.
    rewrite (shift_mask _ Hpr). destruct (l1 ++ l2); [rewrite decide_True by reflexivity|
      rewrite decide_False by discriminate]; reflexivity. }
  split; [intros y; rewrite (fields_data _ _ y Hd1); reflexivity|].
  eapply kernel_inv_self, Hinv1.
Qed.

Lemma OS_ReadyListRemove_spec_witness :
  let s := exec scenario_G app_memory in
  let s' := exec (OS_ReadyListRemove (Some 4%nat)) s in
  contents s (ReadyListAt 5) = [4%nat] ∧ g_PrioMap s = 0x80000020 ∧
  contents s' (ReadyListAt 5) = [] ∧ g_PrioMap s' = 0x80000000.
Proof.
  intros s s'.
  assert (Hk : kernel_ok s = true) by (vm_compute; reflexivity).
  assert (Hp : prio_of s 4 = Some 5) by (vm_compute; reflexivity).
  assert (Hm : g_PrioMap s = 0x80000020) by (vm_compute; reflexivity).
  assert (Hr : contents s (ReadyListAt 5) = [4%nat]) by (vm_compute; reflexivity).
  assert (Hin : 4%nat ∈ contents s (ReadyListAt 5)) by (rewrite Hr; apply list_elem_of_here).
  destruct (OS_ReadyListRemove_spec s 4 5 Hk Hp Hin) as (_ & E1 & _ & _ & E2 & _).
  split; [exact Hr|]. split; [exact Hm|].
  split; [unfold s'; rewrite E1, Hr; reflexivity|].
  unfold s'. rewrite E2, Hr, Hm. reflexivity.
Defined.

Lemma bitmap_zero m : 0 <= m < 2 ^ 32 → (∀ p, 0 <= p < 32 → Z.testbit m p = false) → m = 0.
Proof.
  intros Hm Hb. apply Z.bits_inj'. intros n Hn. rewrite Z.bits_0.
  destruct (Z_lt_ge_dec n 32) as [Hlt|Hge]; [apply Hb; lia|].
  destruct (Z.eq_dec m 0) as [->|Hnz]; [apply Z.bits_0|].
  apply Z.bits_above_log2; [lia|].
  assert (Z.log2 m < 32) by (apply Z.log2_lt_pow2; lia). lia.
Qed.

Lemma bitmap_set_clear m p :
  0 <= m < 2 ^ 32 → 0 <= p < 32 → Z.testbit m p = false →
  Z.land (Z.lor m (u32 (Z.shiftl 1 p))) (not32 (u32 (Z.shiftl 1 p))) = m.
Proof.
  intros Hm Hp Hb. apply Z.bits_inj'. intros q Hq.
  destruct (Z_lt_ge_dec q 32) as [Hlt|Hge].
  - rewrite bitmap_clear_bit, bitmap_set_bit by lia.
    destruct (Z.eqb_spec q p) as [->|Hne]; [rewrite Hb; reflexivity|].
    rewrite orb_false_r, andb_true_r. reflexivity.
  - rewrite Z.land_spec, Z.lor_spec.
    assert (Hhigh : ∀ k, 0 <= k < 2 ^ 32 → Z.testbit k q = false).
    { intros k Hk. destruct (Z.eq_dec k 0) as [->|Hnz]; [apply Z.bits_0|].
      apply Z.bits_above_log2; [lia|].
      assert (Z.log2 k < 32) by (apply Z.log2_lt_pow2; lia). lia. }
    rewrite (Hhigh m Hm). rewrite (Hhigh (u32 (Z.shiftl 1 p))); [reflexivity|].
    unfold u32. apply Z.mod_pos_bound. lia.
Qed.

Lemma bitmap_set_idem m p :
  0 <= p < 32 → Z.testbit m p = true → Z.lor m (u32 (Z.shiftl 1 p)) = m.
Proof.
  intros Hp Hb. apply Z.bits_inj'. intros q Hq.
  rewrite bitmap_set_bit by lia.
  destruct (Z.eqb_spec q p) as [->|Hne]; [rewrite Hb; reflexivity|apply orb_false_r].
Qed.

(** X7.  [OS_ReadyListAdd] followed by [OS_ReadyListRemove] of the same
    task, in a well-formed state in which the task is on no list: every
    list and the bitmap are as before, and so is everything else but the
    links. *)
Theorem OS_ReadyListAdd_Remove_roundtrip s x :
  kernel_ok s = true → is_Some (tcbs s !! x) → off_lists s x = true →
  let m := (OS_ReadyListAdd (Some x) ;; OS_ReadyListRemove (Some x)) in
  result m s = Ret tt ∧
  (∀ r, contents (exec m s) r = contents s r) ∧
  g_PrioMap (exec m s) = g_PrioMap s ∧
  data_of (exec m s) = data_of s.
Proof.
  intros Hk [t Ht] Hoff m.
  destruct (kernel_ok_sound s Hk) as [Hinv _].
  pose proof (inv_data _ _ Hinv) as Hd.
  destruct (inv_tcb _ _ Hd x t Ht) as [Hpr _].
  set (p := Priority t) in *. set (l := contents s (ReadyListAt p)).
  set (b := u32 (Z.shiftl 1 p)).
  assert (Hmap : (if l is [] then Z.land (Z.lor (g_PrioMap s) b) (not32 b)
                  else Z.lor (g_PrioMap s) b) = g_PrioMap s).
  { pose proof (inv_map _ _ Hd p Hpr) as Hbit. fold l in Hbit.
    destruct l as [|y l'].
    - apply bitmap_set_clear; [apply (inv_map_range _ _ Hd)|exact Hpr|].
      destruct (Z.testbit (g_PrioMap s) p); [|reflexivity].
      exfalso. apply (proj1 Hbit); reflexivity.
    - apply bitmap_set_idem; [exact Hpr|]. apply Hbit. discriminate. }
  assert (Hwp : wp m (λ _ s2, kernel_inv s2 (contents s) ∧ data_of s2 = data_of s) s).
  { unfold m. apply wp_bind.
    eapply wp_OS_ReadyListAdd; [exact Hinv|exact Ht|apply off_lists_sound, Hoff|].
    fold p l b. intros s1 Hinv1 Hd1 _.
    destruct (data_of_tcb_fields _ _ x t (eq_sym (eq_sym Hd1)) Ht) as (t1 & Ht1 & _ & Hp1 & _).
    fold p in Hp1.
    eapply (wp_OS_ReadyListRemove s1 _ x t1 l []); [exact Hinv1|exact Ht1| |].
    - rewrite Hp1. apply fn_lookup_insert.
    - rewrite Hp1, app_nil_r. intros s2 Hinv2 Hd2 _. split.
      + eapply kernel_inv_pointwise; [|exact Hinv2]. intros r.
        destruct (decide (r = ReadyListAt p)) as [->|Hne].
        * rewrite fn_lookup_insert. reflexivity.
        * rewrite !fn_lookup_insert_ne by congruence. reflexivity.
      + rewrite Hd2. pose proof (f_equal g_PrioMap Hd1) as Em. cbn in Em. rewrite Em.
        fold b. rewrite !data_of_set_g_PrioMap, Hd1, data_of_set_g_PrioMap. fold b.
        rewrite Hmap. destruct s; reflexivity. }
  apply wp_run in Hwp as ([] & Hres & Hinv2 & Hd2).
  split; [exact Hres|].
  split; [intros r; apply lists_ok_contents, Hinv2|].
  split; [exact (f_equal g_PrioMap Hd2)|exact Hd2].
Qed.

Lemma OS_ReadyListAdd_Remove_roundtrip_witness :
  let s := exec scenario_D app_memory in
  let m := (OS_ReadyListAdd (Some 4%nat) ;; OS_ReadyListRemove (Some 4%nat)) in
  g_PrioMap s = 0x80000000 ∧ g_PrioMap (exec m s) = 0x80000000.
Proof.
  intros s m.
  assert (Hk : kernel_ok s = true) by (vm_compute; reflexivity).
  assert (Ht : is_Some (tcbs s !! 4%nat)) by (vm_compute; eauto).
  assert (Ho : off_lists s 4 = true) by (vm_compute; reflexivity).
  assert (Hm : g_PrioMap s = 0x80000000) by (vm_compute; reflexivity).
  destruct (OS_ReadyListAdd_Remove_roundtrip s 4 Hk Ht Ho) as (_ & _ & E & _).
  split; [exact Hm|]. unfold m. rewrite E. exact Hm.
Defined.

(** X8.  [FindNextTask] in a well-formed state.  When a task is ready it
    returns, without changing the state, the first task of the non-empty
    ready list of the smallest priority value: the oldest of the ready
    tasks of the highest priority.  When no task is ready the assertion on
    the bitmap fails and the kernel halts with interrupts masked. *)
Theorem FindNextTask_highest_priority s :
  kernel_ok s = true →
  let ready p := contents s (ReadyListAt p) in
  ((∀ p, ready p = []) →
     FindNextTask s = (Fault AssertFailed, set_irq_enabled false s)) ∧
  (∀ p0, ready p0 ≠ [] →
     ∃ p x, FindNextTask s = (Ret (Some x), s) ∧ 0 <= p <= p0 ∧ p < 32 ∧
            head (ready p) = Some x ∧ ∀ q, q < p → ready q = []).
Proof.
  intros Hk ready.
  destruct (kernel_ok_sound s Hk) as [Hinv _].
  pose proof (inv_data _ _ Hinv) as Hd. pose proof (inv_lists _ _ Hinv) as Hok.
  split.
  - intros Hempty.
    assert (Hz : g_PrioMap s = 0).
    { apply bitmap_zero; [apply (inv_map_range _ _ Hd)|]. intros p Hp.
      destruct (Z.testbit (g_PrioMap s) p) eqn:Hb; [|reflexivity].
      exfalso. apply (proj1 (inv_map _ _ Hd p Hp) Hb), Hempty. }
    unfold FindNextTask, bind, gets. rewrite Hz. reflexivity.
  - intros p0 Hne.
    assert (Hp0 : 0 <= p0 < 32).
    { destruct (decide (0 <= p0 < 32)) as [H|H]; [exact H|].
      exfalso. apply Hne. apply contents_out_of_range, H. }
    assert (Hnz : g_PrioMap s ≠ 0).
    { destruct (proj1 (nonempty_elem _) Hne) as [y Hy].
      eapply kernel_inv_nonzero; [exact Hinv|exact Hp0|exact Hy]. }
    destruct (OS_GetTopPrio_correct (g_PrioMap s) (inv_map_range _ _ Hd) Hnz)
      as (_ & (Hp & Hbit & Hlow) & Hp32 & _).
    set (p := OS_GetTopPrio (g_PrioMap s)) in *.
    assert (Hwp : wp FindNextTask (λ a s1, s1 = s ∧ a = head (ready p)) s).
    { eapply wp_FindNextTask; [exact Hinv|exact Hnz|]. fold p. intros x Hx.
      split; [reflexivity|]. symmetry. exact Hx. }
    apply wp_elim in Hwp as (a & s1 & Hrun & -> & ->).
    assert (Hpne : ready p ≠ []) by (apply (inv_map _ _ Hd p); [lia|exact Hbit]).
    destruct (ready p) as [|x l] eqn:Er; [congruence|].
    exists p, x. split; [exact Hrun|]. split.
    { split; [exact Hp|]. destruct (Z_le_gt_dec p p0) as [H|H]; [exact H|].
      exfalso. apply Hne. fold (ready p0).
      destruct (ready p0) eqn:E0; [reflexivity|].
      assert (Hb0 : Z.testbit (g_PrioMap s) p0 = true).
      { apply (inv_map _ _ Hd p0 Hp0). fold (ready p0). rewrite E0. discriminate. }
      rewrite Hlow in Hb0 by lia. discriminate. }
    split; [exact Hp32|]. split; [rewrite Er; reflexivity|].
    intros q Hq. destruct (decide (0 <= q)) as [Hq0|Hq0].
    + destruct (ready q) eqn:Eq; [reflexivity|]. exfalso.
      assert (Hbq : Z.testbit (g_PrioMap s) q = true).
      { apply (inv_map _ _ Hd q); [lia|]. fold (ready q). rewrite Eq. discriminate. }
      rewrite Hlow in Hbq by lia. discriminate.
    + apply contents_out_of_range. lia.
Qed.

Lemma FindNextTask_highest_priority_witness :
  let s := exec scenario_G app_memory in
  contents s (ReadyListAt 5) = [4%nat] ∧ contents s (ReadyListAt 31) = [0%nat] ∧
  ∃ p x, FindNextTask s = (Ret (Some x), s) ∧ 0 <= p <= 31 ∧ p < 32 ∧
         head (contents s (ReadyListAt p)) = Some x ∧
         ∀ q, q < p → contents s (ReadyListAt q) = [].
Proof.
  intros s.
  assert (Hk : kernel_ok s = true) by (vm_compute; reflexivity).
  assert (H5 : contents s (ReadyListAt 5) = [4%nat]) by (vm_compute; reflexivity).
  assert (H31 : contents s (ReadyListAt 31) = [0%nat]) by (vm_compute; reflexivity).
  split; [exact H5|]. split; [exact H31|].
  apply (proj2 (FindNextTask_highest_priority s Hk) 31).
  rewrite H31. congruence.
Defined.

(** ** Critical sections *)

Lemma times_bind_run (m : M unit) n s s1 :
  m s = (Ret tt, s1) → times (S n) m s = times n m s1.
Proof. intros E. cbn [times]. unfold bind. rewrite E. reflexivity. Qed.

Lemma times_Enter n : ∀ s,
  0 <= g_CriticalNesting s → g_CriticalNesting s + Z.of_nat n < 2 ^ 32 → (0 < n)%nat →
  times n OS_EnterCritical s
  = (Ret tt, set_g_CriticalNesting (g_CriticalNesting s + Z.of_nat n) (set_irq_enabled false s)).
Proof.
  induction n as [|n IH]; intros s Hk Hn Hpos; [lia|].
  assert (E1 : OS_EnterCritical s
               = (Ret tt, set_g_CriticalNesting (g_CriticalNesting s + 1)
                            (set_irq_enabled false s))).
  { unfold OS_EnterCritical, OS_Disable_IRQ, bind, modify.
    cbn [g_CriticalNesting set_irq_enabled].
    unfold u32. rewrite Z.mod_small by lia. reflexivity. }
  rewrite (times_bind_run _ _ _ _ E1).
  destruct n as [|n'].
  - replace (Z.of_nat 1) with 1 by reflexivity. reflexivity.
  - rewrite IH by (cbn [g_CriticalNesting set_g_CriticalNesting]; lia).
    cbn [g_CriticalNesting set_g_CriticalNesting].
    replace (g_CriticalNesting s + Z.of_nat (S (S n')))
      with (g_CriticalNesting s + 1 + Z.of_nat (S n')) by lia.
    reflexivity.
Qed.

Lemma times_Exit n : ∀ s,
  Z.of_nat n <= g_CriticalNesting s < 2 ^ 32 →
  times n OS_ExitCritical s
  = (Ret tt,
     let k := g_CriticalNesting s - Z.of_nat n in
     if (0 <? Z.of_nat n) && (k =? 0) then set_irq_enabled true (set_g_CriticalNesting k s)
     else set_g_CriticalNesting k s).
Proof.
  induction n as [|n IH]; intros s Hk.
  - cbv zeta. replace (g_CriticalNesting s - Z.of_nat 0) with (g_CriticalNesting s) by lia.
    replace (0 <? Z.of_nat 0) with false by reflexivity.
    cbn [times andb]. unfold ret. destruct s; reflexivity.
  - assert (E1 : OS_ExitCritical s
                 = (Ret tt, if g_CriticalNesting s - 1 =? 0
                            then set_irq_enabled true
                                   (set_g_CriticalNesting (g_CriticalNesting s - 1) s)
                            else set_g_CriticalNesting (g_CriticalNesting s - 1) s)).
    { unfold OS_ExitCritical, OS_ASSERT, OS_Enable_IRQ, bind, gets, modify.
      destruct (Z.eqb_spec (g_CriticalNesting s) 0) as [E|E]; [lia|].
      cbn [negb ret g_CriticalNesting set_g_CriticalNesting].
      unfold u32. rewrite Z.mod_small by lia.
      destruct (g_CriticalNesting s - 1 =? 0); reflexivity. }
    rewrite (times_bind_run _ _ _ _ E1). cbv zeta.
    replace (0 <? Z.of_nat (S n)) with true by (symmetry; apply Z.ltb_lt; lia).
    cbn [andb].
    destruct (Z.eqb_spec (g_CriticalNesting s - 1) 0) as [E|E].
    + assert (n = 0%nat) by lia. subst n.
      replace (g_CriticalNesting s - Z.of_nat 1) with (g_CriticalNesting s - 1) by lia.
      rewrite E. reflexivity.
    + rewrite IH by (cbn [g_CriticalNesting set_g_CriticalNesting]; lia).
      cbn [g_CriticalNesting set_g_CriticalNesting]. cbv zeta.
      replace (g_CriticalNesting s - 1 - Z.of_nat n)
        with (g_CriticalNesting s - Z.of_nat (S n)) by lia.
      destruct (Z.eqb_spec (g_CriticalNesting s - Z.of_nat (S n)) 0) as [E'|E'].
      * replace (0 <? Z.of_nat n) with true by (symmetry; apply Z.ltb_lt; lia).
        reflexivity.
      * rewrite andb_false_r. reflexivity.
Qed.

(** X9.  Critical sections nest.  [n] calls of [OS_EnterCritical] mask the
    interrupts and add [n] to the nesting count; [n] calls of
    [OS_ExitCritical] after them bring the count back, and the interrupts
    are enabled again only by the call that brings the count to zero: after
    fewer calls they are still masked, and if the count was not zero at the
    start they stay masked at the end.  [OS_ExitCritical] outside a
    critical section fails its assertion: the kernel halts with interrupts
    masked. *)
Theorem critical_sections_nest :
  (∀ s n,
     0 <= g_CriticalNesting s → g_CriticalNesting s + Z.of_nat n < 2 ^ 32 → (0 < n)%nat →
     times n OS_EnterCritical s
     = (Ret tt, set_g_CriticalNesting (g_CriticalNesting s + Z.of_nat n)
                  (set_irq_enabled false s)) ∧
     (times n OS_EnterCritical ;; times n OS_ExitCritical) s
     = (Ret tt, set_irq_enabled (g_CriticalNesting s =? 0) s) ∧
     (∀ j, (j < n)%nat →
        result (times n OS_EnterCritical ;; times j OS_ExitCritical) s = Ret tt ∧
        irq_enabled (exec (times n OS_EnterCritical ;; times j OS_ExitCritical) s) = false)) ∧
  (∀ s, g_CriticalNesting s = 0 →
     OS_ExitCritical s = (Fault AssertFailed, set_irq_enabled false s)).
Proof.
  split.
  - intros s n Hk Hn Hpos.
    pose proof (times_Enter n s Hk Hn Hpos) as E1.
    assert (E2 : ∀ j, (j <= n)%nat →
              (times n OS_EnterCritical ;; times j OS_ExitCritical) s
              = (Ret tt,
                 let k := g_CriticalNesting s + Z.of_nat n - Z.of_nat j in
                 if (0 <? Z.of_nat j) && (k =? 0)
                 then set_irq_enabled true (set_g_CriticalNesting k (set_irq_enabled false s))
                 else set_g_CriticalNesting k (set_irq_enabled false s))).
    { intros j Hj. unfold bind. rewrite E1.
      rewrite times_Exit by (cbn [g_CriticalNesting set_g_CriticalNesting]; lia).
      reflexivity. }
    split; [exact E1|]. split.
    + rewrite (E2 n) by lia. cbv zeta.
      replace (g_CriticalNesting s + Z.of_nat n - Z.of_nat n) with (g_CriticalNesting s) by lia.
      replace (0 <? Z.of_nat n) with true by (symmetry; apply Z.ltb_lt; lia).
      cbn [andb]. destruct (g_CriticalNesting s =? 0); destruct s; reflexivity.
    + intros j Hj. unfold result, exec. rewrite (E2 j) by lia. cbv zeta.
      split; [reflexivity|].
      destruct (Z.eqb_spec (g_CriticalNesting s + Z.of_nat n - Z.of_nat j) 0) as [E|E]; [lia|].
      rewrite andb_false_r. reflexivity.
  - intros s Hz. unfold OS_ExitCritical, bind, gets. rewrite Hz. reflexivity.
Qed.

Lemma critical_sections_nest_witness :
  let s := exec scenario_D app_memory in
  g_CriticalNesting s = 0 ∧ irq_enabled s = true ∧
  (times 3 OS_EnterCritical ;; times 3 OS_ExitCritical) s = (Ret tt, set_irq_enabled true s) ∧
  irq_enabled (exec (times 3 OS_EnterCritical ;; times 2 OS_ExitCritical) s) = false.
Proof.
  intros s.
  assert (Hz : g_CriticalNesting s = 0) by (vm_compute; reflexivity).
  assert (Hi : irq_enabled s = true) by (vm_compute; reflexivity).
  assert (H0 : 0 <= g_CriticalNesting s) by (rewrite Hz; lia).
  assert (H1 : g_CriticalNesting s + Z.of_nat 3 < 2 ^ 32) by (rewrite Hz; lia).
  assert (H2 : (0 < 3)%nat) by lia.
  destruct (proj1 critical_sections_nest s 3%nat H0 H1 H2) as (_ & E & Hj).
  split; [exact Hz|]. split; [exact Hi|].
  split; [rewrite E, Hz; reflexivity|].
  apply (Hj 2%nat). lia.
Defined.

(** ** Blocking and waking *)

Lemma wp_block_on_then {B} r (k : M B) (Q : B → Kernel → Prop) s :
  wp (block_on r) (λ _ s', wp k Q s') s →
  wp (cur ← gets CurrentTCB;
      store_tcb cur (set_State TASK_BLOCKED) ;;
      OS_ReadyListRemove cur ;;
      List_InsertTail r cur ;;
      next ← FindNextTask;
      modify (set_NextTCB next) ;;
      OS_Trigger_SWI ;;
      k) Q s.
Proof.
  unfold block_on, wp, bind, gets, modify, OS_Trigger_SWI.
  destruct (store_tcb _ _ s) as [[[]|f] s1]; [|tauto].
  destruct (OS_ReadyListRemove _ s1) as [[[]|f] s2]; [|tauto].
  destruct (List_InsertTail _ _ s2) as [[[]|f] s3]; [|tauto].
  destruct (FindNextTask s3) as [[nx|f] s4]; tauto.
Qed.

Lemma wp_wake_head_then {B} r (k : M B) (Q : B → Kernel → Prop) s :
  wp (wake_head r) (λ _ s', wp k Q s') s →
  wp (TaskToWake ← List_PopHead r;
      store_tcb TaskToWake (set_State TASK_READY) ;;
      OS_ReadyListAdd TaskToWake ;;
      next ← FindNextTask;
      modify (set_NextTCB next) ;;
      OS_Trigger_SWI ;;
      k) Q s.
Proof.
  unfold wake_head, wp, bind, modify, OS_Trigger_SWI.
  destruct (List_PopHead r s) as [[w|f] s1]; [|tauto].
  destruct (store_tcb _ _ s1) as [[[]|f] s2]; [|tauto].
  destruct (OS_ReadyListAdd _ s2) as [[[]|f] s3]; [|tauto].
  destruct (FindNextTask s3) as [[nx|f] s4]; tauto.
Qed.

(** The running task [cur] leaves the ready set for the tail of the wait
    list [r]. *)
Lemma wp_block_on s c r L cur tc (Q : unit → Kernel → Prop) :
  kernel_inv s c → CurrentTCB s = Some cur → tcbs s !! cur = Some tc →
  cur ∈ c (ReadyListAt (Priority tc)) →
  get_list r s = Some L → (∀ p, r ≠ ReadyListAt p) →
  (∃ x p, x ≠ cur ∧ x ∈ c (ReadyListAt p)) →
  (∀ s', let p := Priority tc in
         let c' := <[r := c r ++ [cur]]>
                     (<[ReadyListAt p := filter (λ y, y ≠ cur) (c (ReadyListAt p))]> c) in
         kernel_inv s' c' →
         (∀ x, fields s' x = if decide (x = cur) then set_State TASK_BLOCKED <$> fields s x
                             else fields s x) →
         rest_of s' = rest_of s →
         swi_pending s' = true →
         NextTCB s' = head (c' (ReadyListAt (OS_GetTopPrio (g_PrioMap s')))) →
         Q tt s') →
  wp (block_on r) Q s.
Proof.
  intros Hinv Hcur Htc Hcin HL Hr (x0 & p0 & Hx0 & Hx0in) HQ.
  pose proof (inv_lists _ _ Hinv) as Hok.
  destruct (inv_tcb _ _ (inv_data _ _ Hinv) cur tc Htc) as [Hpc Hdc].
  destruct (list_elem_of_split _ _ Hcin) as (l1 & l2 & Hsplit).
  destruct (lists_ok_removed _ _ _ _ _ _ Hok Hsplit) as (Ef & Hx & Hx').
  unfold block_on. apply wp_bind, wp_gets. rewrite Hcur.
  apply wp_bind. eapply wp_store_tcb; [exact Htc|].
  set (s1 := set_tcbs _ s).
  assert (Hinv1 : kernel_inv s1 c).
  { eapply kernel_inv_store; [exact Hinv|exact Htc|reflexivity|reflexivity|exact Hpc|exact Hdc|].
    left. reflexivity. }
  apply wp_bind.
  eapply (wp_OS_ReadyListRemove s1 c cur (set_State TASK_BLOCKED tc) l1 l2);
    [exact Hinv1|apply lookup_insert_eq|exact Hsplit|].
  cbn [Priority set_State]. intros s2 Hinv2 Hdata2 _.
  set (c2 := <[ReadyListAt (Priority tc) := l1 ++ l2]> c) in *.
  assert (Hfree2 : ∀ r', cur ∉ c2 r').
  { intros r'. unfold c2. destruct (decide (r' = ReadyListAt (Priority tc))) as [->|Hne].
    - rewrite fn_lookup_insert. exact Hx.
    - rewrite fn_lookup_insert_ne by congruence. apply Hx', Hne. }
  assert (Hf2 : ∀ x, fields s2 x
                     = if decide (x = cur) then set_State TASK_BLOCKED <$> fields s x
                       else fields s x).
  { intros x. rewrite (fields_data _ _ x Hdata2).
    change (fields (set_g_PrioMap _ ?s') x) with (fields s' x).
    apply (fields_store s cur tc (set_State TASK_BLOCKED) x Htc). reflexivity. }
  assert (Hr2 : rest_of s2 = rest_of s) by (rewrite (rest_of_data _ _ Hdata2); reflexivity).
  assert (Hfc2 : fields s2 cur = Some (set_State TASK_BLOCKED (strip_tcb tc))).
  { rewrite Hf2, decide_True by reflexivity. rewrite (fields_Some _ _ _ Htc). reflexivity. }
  destruct (fields_lookup _ _ _ Hfc2) as (tc2 & Htc2 & Hs2).
  assert (HL2 : is_Some (get_list r s2)).
  { pose proof (f_equal (λ k, get_list r k) Hr2) as Eg. cbv beta in Eg.
    destruct (get_list r s2) eqn:EL; [eauto|]. exfalso.
    destruct r; cbn in Eg, EL, HL; try discriminate.
    - apply (Hr p). reflexivity.
    - rewrite !lookup_fmap in Eg. destruct (sems s2 !! a), (sems s !! a); discriminate.
    - rewrite !lookup_fmap in Eg. destruct (mutexes s2 !! a), (mutexes s !! a); discriminate.
    - rewrite !lookup_fmap in Eg. destruct (queues s2 !! a), (queues s !! a); discriminate.
    - rewrite !lookup_fmap in Eg. destruct (pools s2 !! a), (pools s !! a); discriminate. }
  destruct HL2 as [L2 HL2].
  apply wp_bind.
  eapply wp_List_InsertTail; [exact (inv_lists _ _ Hinv2)|exact HL2|exact Htc2|exact Hfree2|].
  intros s3 Hok3 Hdata3 _.
  set (c3 := <[r := c2 r ++ [cur]]> c2) in *.
  assert (Hinv3 : kernel_inv s3 c3).
  { split; [exact Hok3|]. eapply data_inv_ext; [exact Hdata3|].
    apply data_inv_insert_other; [exact Hr|exact (inv_data _ _ Hinv2)]. }
  assert (Hc3 : ∀ r', c3 r' = <[r := c r ++ [cur]]>
                     (<[ReadyListAt (Priority tc) :=
                          filter (λ y, y ≠ cur) (c (ReadyListAt (Priority tc)))]> c) r').
  { intros r'. unfold c3, c2. rewrite Ef.
    destruct (decide (r' = r)) as [->|Hne].
    - rewrite !fn_lookup_insert. rewrite fn_lookup_insert_ne; [reflexivity|].
      intros E. eapply Hr. symmetry. exact E.
    - rewrite !(fn_lookup_insert_ne _ r r') by congruence. reflexivity. }
  assert (Hx3 : ∃ x p, x ∈ c3 (ReadyListAt p) ∧ 0 <= p < 32).
  { exists x0, p0.
    assert (H3 : x0 ∈ c3 (ReadyListAt p0)).
    { unfold c3. rewrite fn_lookup_insert_ne by apply Hr.
      unfold c2. destruct (decide (p0 = Priority tc)) as [->|Hne].
      - rewrite fn_lookup_insert, <- Ef. apply list_elem_of_filter. auto.
      - rewrite fn_lookup_insert_ne by congruence. exact Hx0in. }
    split; [exact H3|].
    destruct (lists_ok_in_heap _ _ _ _ Hok3 H3) as [tx Htx].
    rewrite <- (inv_prio _ _ (inv_data _ _ Hinv3) p0 x0 tx H3 Htx).
    apply (inv_tcb _ _ (inv_data _ _ Hinv3) x0 tx Htx). }
  destruct Hx3 as (x1 & p1 & Hx1 & Hp1).
  apply wp_bind. eapply wp_FindNextTask;
    [exact Hinv3|eapply kernel_inv_nonzero; [exact Hinv3|exact Hp1|exact Hx1]|].
  intros nx Hnx.
  apply wp_bind, wp_modify. apply wp_modify.
  apply HQ.
  - eapply kernel_inv_pointwise; [exact Hc3|].
    eapply same_core_inv; [|exact Hinv3]. same_core_tac.
  - intros x. transitivity (fields s3 x); [reflexivity|].
    rewrite (fields_data _ _ x Hdata3). apply Hf2.
  - transitivity (rest_of s3); [reflexivity|]. rewrite (rest_of_data _ _ Hdata3). exact Hr2.
  - reflexivity.
  - cbn [NextTCB set_swi_pending set_NextTCB g_PrioMap]. rewrite <- Hc3. symmetry. exact Hnx.
Qed.

Lemma rest_of_leave s s1 k :
  rest_of s1 = rest_of (set_g_CriticalNesting k (set_irq_enabled false s)) →
  rest_of (if g_CriticalNesting s =? 0
           then set_irq_enabled true (set_g_CriticalNesting (g_CriticalNesting s) s1)
           else set_g_CriticalNesting (g_CriticalNesting s) s1)
  = rest_of (set_irq_enabled (irq_after s) s).
Proof.
  intros E. unfold irq_after. destruct (g_CriticalNesting s =? 0).
  - change (set_irq_enabled true (set_g_CriticalNesting (g_CriticalNesting s) (rest_of s1))
            = rest_of (set_irq_enabled true s)).
    rewrite E. destruct s; reflexivity.
  - change (set_g_CriticalNesting (g_CriticalNesting s) (rest_of s1)
            = rest_of (set_irq_enabled false s)).
    rewrite E. destruct s; reflexivity.
Qed.

(** The end of a critical section entered from [s], reached in a state
    [s1] that differs from the one after [OS_EnterCritical] in the lists
    and the control blocks only. *)
Lemma wp_leave_critical {B} s s1 c (b : B) (Q : B → Kernel → Prop) :
  0 <= g_CriticalNesting s < 2 ^ 32 - 1 →
  kernel_inv s1 c →
  rest_of s1 = rest_of (set_g_CriticalNesting (u32 (g_CriticalNesting s + 1))
                          (set_irq_enabled false s)) →
  (∀ s', kernel_inv s' c → (∀ x, fields s' x = fields s1 x) →
         rest_of s' = rest_of (set_irq_enabled (irq_after s) s) →
         swi_pending s' = swi_pending s1 → NextTCB s' = NextTCB s1 →
         g_PrioMap s' = g_PrioMap s1 →
         Q b s') →
  wp (OS_ExitCritical ;; ret b) Q s1.
Proof.
  intros Hn Hinv1 Hr1 HQ.
  destruct (enter_exit_nesting _ Hn) as [Hn1 Hn2].
  assert (Hn' : g_CriticalNesting s1 = u32 (g_CriticalNesting s + 1))
    by exact (rest_of_nesting _ _ Hr1).
  apply wp_bind. apply wp_OS_ExitCritical; [rewrite Hn'; exact Hn1|].
  cbv zeta. apply wp_ret. rewrite Hn', Hn2.
  apply HQ.
  - eapply same_core_inv; [|exact Hinv1]. destruct (_ =? 0); same_core_tac.
  - intros x. destruct (_ =? 0); reflexivity.
  - apply rest_of_leave with (k := u32 (g_CriticalNesting s + 1)). exact Hr1.
  - destruct (_ =? 0); reflexivity.
  - destruct (_ =? 0); reflexivity.
  - destruct (_ =? 0); reflexivity.
Qed.

(** A critical section, entered from [s], in which the running task
    blocks on the wait list [r]. *)
Lemma wp_block_on_exit {B} s c r L cur tc (b : B) (Q : B → Kernel → Prop) :
  kernel_inv s c → 0 <= g_CriticalNesting s < 2 ^ 32 - 1 →
  CurrentTCB s = Some cur → tcbs s !! cur = Some tc →
  cur ∈ c (ReadyListAt (Priority tc)) →
  get_list r s = Some L → (∀ p, r ≠ ReadyListAt p) →
  (∃ x p, x ≠ cur ∧ x ∈ c (ReadyListAt p)) →
  (∀ s', let p := Priority tc in
         let c' := <[r := c r ++ [cur]]>
                     (<[ReadyListAt p := filter (λ y, y ≠ cur) (c (ReadyListAt p))]> c) in
         kernel_inv s' c' →
         (∀ x, fields s' x = if decide (x = cur) then set_State TASK_BLOCKED <$> fields s x
                             else fields s x) →
         rest_of s' = rest_of (set_irq_enabled (irq_after s) s) →
         swi_pending s' = true →
         NextTCB s' = head (c' (ReadyListAt (OS_GetTopPrio (g_PrioMap s')))) →
         Q b s') →
  wp (block_on r) (λ _ s1, wp (OS_ExitCritical ;; ret b) Q s1)
     (set_g_CriticalNesting (u32 (g_CriticalNesting s + 1)) (set_irq_enabled false s)).
Proof.
  intros Hinv Hn Hcur Htc Hcin HL Hr Hother HQ.
  set (s0 := set_g_CriticalNesting _ _).
  assert (Hinv0 : kernel_inv s0 c) by (eapply same_core_inv; [|exact Hinv]; same_core_tac).
  eapply (wp_block_on s0 c r L cur tc); [exact Hinv0|exact Hcur|exact Htc|exact Hcin| |exact Hr|
                                          exact Hother|].
  { destruct r; exact HL. }
  cbv zeta. intros s1 Hinv1 Hf1 Hr1 Hswi1 Hnx1.
  eapply wp_leave_critical; [exact Hn|exact Hinv1|exact Hr1|].
  intros s' Hinv' Hf' Hr' Hswi' Hnx' Hmap'. apply HQ.
  - exact Hinv'.
  - intros x. rewrite Hf'. apply Hf1.
  - exact Hr'.
  - congruence.
  - rewrite Hnx', Hmap'. exact Hnx1.
Qed.

(** A critical section, entered from [s], in which the head of the wait
    list [r] is woken. *)
Lemma wp_wake_head_exit {B} s c r w rest tw (b : B) (Q : B → Kernel → Prop) :
  kernel_inv s c → 0 <= g_CriticalNesting s < 2 ^ 32 - 1 →
  c r = w :: rest → (∀ p, r ≠ ReadyListAt p) → tcbs s !! w = Some tw →
  (∀ s', let pw := Priority tw in
         let c' := <[ReadyListAt pw := c (ReadyListAt pw) ++ [w]]> (<[r := rest]> c) in
         kernel_inv s' c' →
         (∀ x, fields s' x = if decide (x = w) then set_State TASK_READY <$> fields s x
                             else fields s x) →
         rest_of s' = rest_of (set_irq_enabled (irq_after s) s) →
         swi_pending s' = true →
         NextTCB s' = head (c' (ReadyListAt (OS_GetTopPrio (g_PrioMap s')))) →
         Q b s') →
  wp (wake_head r) (λ _ s1, wp (OS_ExitCritical ;; ret b) Q s1)
     (set_g_CriticalNesting (u32 (g_CriticalNesting s + 1)) (set_irq_enabled false s)).
Proof.
  intros Hinv Hn Hcr Hr Hw HQ.
  set (s0 := set_g_CriticalNesting _ _).
  assert (Hinv0 : kernel_inv s0 c) by (eapply same_core_inv; [|exact Hinv]; same_core_tac).
  eapply (wp_wake_head s0 c r w rest tw); [exact Hinv0|exact Hcr|exact Hr|exact Hw|].
  cbv zeta. intros s1 Hinv1 Hd1 Hnx1 _.
  assert (Hw0 : tcbs s0 !! w = Some tw) by exact Hw.
  rewrite (upd_tcb_Some _ _ _ _ Hw0) in Hd1.
  assert (Hf1 : ∀ x, fields s1 x = if decide (x = w) then set_State TASK_READY <$> fields s x
                                   else fields s x).
  { intros x. rewrite (fields_data _ _ x Hd1).
    change (fields (set_swi_pending _ (set_NextTCB _ (set_g_PrioMap _ ?s'))) x)
      with (fields s' x).
    apply (fields_store s0 w tw (set_State TASK_READY) x Hw0). reflexivity. }
  eapply wp_leave_critical; [exact Hn|exact Hinv1| |].
  { rewrite (rest_of_data _ _ Hd1). reflexivity. }
  intros s' Hinv' Hf' Hr' Hswi' Hnx' Hmap'. apply HQ.
  - exact Hinv'.
  - intros x. rewrite Hf'. apply Hf1.
  - exact Hr'.
  - rewrite Hswi'. exact (f_equal swi_pending Hd1).
  - rewrite Hnx', Hmap'. rewrite Hnx1.
    replace (g_PrioMap s1) with (Z.lor (g_PrioMap s) (u32 (Z.shiftl 1 (Priority tw))));
      [reflexivity|]. symmetry. exact (f_equal g_PrioMap Hd1).
Qed.

(** ** Semaphores *)

Lemma wp_load_sem a x (Q : OS_Sem → Kernel → Prop) s :
  sems s !! a = Some x → Q x s → wp (load_sem a) Q s.
Proof. intros E H. unfold wp, load_sem. rewrite E. exact H. Qed.

Lemma wp_store_sem a x f (Q : unit → Kernel → Prop) s :
  sems s !! a = Some x → Q tt (set_sems (<[a := f x]> (sems s)) s) →
  wp (store_sem a f) Q s.
Proof. intros E H. unfold wp, store_sem. rewrite E. exact H. Qed.

Lemma rest_of_sem s s' a x :
  rest_of s' = rest_of s → sems s !! a = Some x →
  ∃ x', sems s' !! a = Some x' ∧ count x' = count x.
Proof.
  intros E Hx. apply (f_equal sems) in E. cbn in E.
  apply (f_equal (λ m, m !! a)) in E. rewrite !lookup_fmap, Hx in E.
  destruct (sems s' !! a) as [x'|]; [|discriminate].
  exists x'. split; [reflexivity|]. cbn in E. injection E as E. exact E.
Qed.

Lemma same_core_store_sem s a x x' :
  sems s !! a = Some x → sem_WaitList x' = sem_WaitList x →
  same_core s (set_sems (<[a := x']> (sems s)) s).
Proof.
  intros Hx Hw. split; [|repeat split; reflexivity].
  intros [p| |b|b|b|b]; try reflexivity. cbn.
  destruct (decide (b = a)) as [->|Hne].
  - rewrite lookup_insert_eq, Hx. cbn. rewrite Hw. reflexivity.
  - rewrite lookup_insert_ne by congruence. reflexivity.
Qed.

Lemma wp_run_eq {A} (m : M A) s a s' : wp m (λ r s1, r = a ∧ s1 = s') s → m s = (Ret a, s').
Proof. unfold wp. destruct (m s) as [[r|f] s1]; [|tauto]. intros [-> ->]. reflexivity. Qed.

Lemma wp_OS_SemWait_block s c a x cur tc :
  kernel_inv s c → 0 <= g_CriticalNesting s < 2 ^ 32 - 1 →
  CurrentTCB s = Some cur → tcbs s !! cur = Some tc →
  cur ∈ c (ReadyListAt (Priority tc)) →
  (∃ y p, y ≠ cur ∧ y ∈ c (ReadyListAt p)) →
  sems s !! a = Some x → count x <= 0 →
  wp (OS_SemWait (Some a)) (λ r s',
    r = OS_OK ∧
    let p := Priority tc in
    let c' := <[SemWaitList a := c (SemWaitList a) ++ [cur]]>
                (<[ReadyListAt p := filter (λ y, y ≠ cur) (c (ReadyListAt p))]> c) in
    kernel_inv s' c' ∧
    (∀ y, fields s' y = if decide (y = cur) then set_State TASK_BLOCKED <$> fields s y
                        else fields s y) ∧
    rest_of s' = rest_of (set_irq_enabled (irq_after s) s) ∧
    swi_pending s' = true ∧
    NextTCB s' = head (c' (ReadyListAt (OS_GetTopPrio (g_PrioMap s'))))) s.
Proof.
  intros Hinv Hn Hcur Htc Hcin Hother Hx Hc.
  unfold OS_SemWait.
  apply wp_bind, wp_OS_EnterCritical.
  apply wp_bind. eapply wp_load_sem; [exact Hx|].
  replace (count x >? 0) with false by (symmetry; rewrite Z.gtb_ltb; apply Z.ltb_ge; lia).
  apply wp_block_on_then.
  eapply (wp_block_on_exit s c (SemWaitList a) (sem_WaitList x) cur tc);
    [exact Hinv|exact Hn|exact Hcur|exact Htc|exact Hcin| |discriminate|exact Hother|].
  { cbn. rewrite Hx. reflexivity. }
  cbv zeta. intros s' Hinv' Hf' Hr' Hswi' Hnx'. auto 10.
Qed.

Lemma wp_OS_SemPost_wake s c a x w rest tw :
  kernel_inv s c → 0 <= g_CriticalNesting s < 2 ^ 32 - 1 →
  sems s !! a = Some x → c (SemWaitList a) = w :: rest → tcbs s !! w = Some tw →
  wp (OS_SemPost (Some a)) (λ r s',
    r = OS_OK ∧
    let pw := Priority tw in
    let c' := <[ReadyListAt pw := c (ReadyListAt pw) ++ [w]]>
                (<[SemWaitList a := rest]> c) in
    kernel_inv s' c' ∧
    (∀ y, fields s' y = if decide (y = w) then set_State TASK_READY <$> fields s y
                        else fields s y) ∧
    rest_of s' = rest_of (set_irq_enabled (irq_after s) s) ∧
    swi_pending s' = true ∧
    NextTCB s' = head (c' (ReadyListAt (OS_GetTopPrio (g_PrioMap s'))))) s.
Proof.
  intros Hinv Hn Hx Hwl Hw.
  pose proof (inv_lists _ _ Hinv) as (Hrep & _).
  specialize (Hrep (SemWaitList a)). cbn in Hrep. rewrite Hx in Hrep. cbn in Hrep.
  pose proof (repr_head _ _ _ Hrep) as HH. rewrite Hwl in HH. cbn in HH.
  unfold OS_SemPost.
  apply wp_bind, wp_OS_EnterCritical.
  apply wp_bind. eapply wp_load_sem; [exact Hx|].
  rewrite HH. cbn [is_null].
  apply wp_wake_head_then.
  eapply (wp_wake_head_exit s c (SemWaitList a) w rest tw);
    [exact Hinv|exact Hn|exact Hwl|discriminate|exact Hw|].
  cbv zeta. intros s' Hinv' Hf' Hr' Hswi' Hnx'. auto 10.
Qed.

Lemma current_task s cur :
  kernel_ok s = true → current_ready s = true → CurrentTCB s = Some cur →
  ∃ tc, tcbs s !! cur = Some tc ∧ cur ∈ contents s (ReadyListAt (Priority tc)) ∧
        prio_val s cur = Priority tc.
Proof.
  intros Hk Hcr Hcur.
  destruct (current_ready_sound s Hcr) as (cur' & tc & Hcur' & Htc & Hcin).
  rewrite Hcur in Hcur'. injection Hcur' as <-.
  exists tc. split; [exact Htc|]. split; [exact Hcin|].
  unfold prio_val, prio_of. rewrite Htc. reflexivity.
Qed.

Lemma state_of_fields_set s s' x st :
  is_Some (tcbs s !! x) → fields s' x = set_State st <$> fields s x →
  state_of s' x = Some st.
Proof.
  intros [t Ht] E. rewrite (fields_Some _ _ _ Ht) in E. cbn in E.
  destruct (fields_lookup _ _ _ E) as (t' & Ht' & Hs).
  unfold state_of. rewrite Ht'. cbn. f_equal. exact (f_equal State Hs).
Qed.

Lemma count_of_rest s s' a x :
  rest_of s' = rest_of s → sems s !! a = Some x → count_of s' a = Some (count x).
Proof.
  intros E Hx. destruct (rest_of_sem _ _ _ _ E Hx) as (x' & Hx' & Hc).
  unfold count_of. rewrite Hx'. cbn. f_equal. exact Hc.
Qed.

(** X10.  [OS_SemWait].  A null pointer gives [OS_ERR_PARAM].  With a
    token available the call takes one and returns [OS_OK]: only the count
    changes (and the interrupt mask, as at the end of any critical
    section).  With none, the running task is blocked and goes from the
    ready list of its priority to the tail of the semaphore's wait list,
    whatever its priority; the count stays zero, the highest-priority ready
    task is chosen as [NextTCB] and a switch is requested. *)
Theorem OS_SemWait_spec :
  (∀ s, OS_SemWait None s = (Ret OS_ERR_PARAM, s)) ∧
  (∀ s a x,
     0 <= g_CriticalNesting s < 2 ^ 32 - 1 → sems s !! a = Some x → 0 < count x < 2 ^ 16 →
     OS_SemWait (Some a) s
     = (Ret OS_OK, set_irq_enabled (irq_after s)
                     (set_sems (<[a := set_count (count x - 1) x]> (sems s)) s))) ∧
  (∀ s a x cur,
     kernel_ok s = true → current_ready s = true → CurrentTCB s = Some cur →
     other_ready s cur = true → sems s !! a = Some x → count x = 0 →
     let s' := exec (OS_SemWait (Some a)) s in
     let p := prio_val s cur in
     result (OS_SemWait (Some a)) s = Ret OS_OK ∧
     contents s' (SemWaitList a) = contents s (SemWaitList a) ++ [cur] ∧
     contents s' (ReadyListAt p) = filter (λ y, y ≠ cur) (contents s (ReadyListAt p)) ∧
     (∀ r, r ≠ SemWaitList a → r ≠ ReadyListAt p → contents s' r = contents s r) ∧
     state_of s' cur = Some TASK_BLOCKED ∧
     (∀ y, y ≠ cur → state_of s' y = state_of s y) ∧
     count_of s' a = Some 0 ∧
     CurrentTCB s' = Some cur ∧ swi_pending s' = true ∧
     NextTCB s' = head (contents s' (ReadyListAt (OS_GetTopPrio (g_PrioMap s')))) ∧
     kernel_inv s' (contents s')).
Proof.
  split; [reflexivity|]. split.
  - intros s a x Hn Hx Hc.
    pose proof (critical_roundtrip (set_sems (<[a := set_count (count x - 1) x]> (sems s)) s) Hn)
      as E.
    destruct (enter_exit_nesting _ Hn) as [Hn1 Hn2].
    apply wp_run_eq. unfold OS_SemWait.
    apply wp_bind, wp_OS_EnterCritical.
    apply wp_bind. eapply wp_load_sem; [exact Hx|].
    replace (count x >? 0) with true by (symmetry; apply Z.gtb_lt; lia).
    apply wp_bind. eapply wp_store_sem; [exact Hx|].
    apply wp_bind. apply wp_OS_ExitCritical; [exact Hn1|].
    apply wp_ret. split; [reflexivity|].
    unfold u16. rewrite Z.mod_small by lia. exact E.
  - intros s a x cur Hk Hcr Hcur Hother Hx Hc s' p.
    destruct (kernel_ok_sound s Hk) as [Hinv Hn].
    destruct (current_task s cur Hk Hcr Hcur) as (tc & Htc & Hcin & Hp).
    fold p in Hp.
    pose proof (wp_OS_SemWait_block s (contents s) a x cur tc Hinv Hn Hcur Htc Hcin
                  (other_ready_sound s cur Hother) Hx ltac:(lia)) as Hwp.
    apply wp_run in Hwp as (r & Hres & -> & Hinv' & Hf & Hrest & Hswi & Hnx).
    fold s' in Hinv', Hf, Hrest, Hswi, Hnx. rewrite <- Hp in Hinv', Hnx.
    pose proof (λ r, lists_ok_contents _ _ r (inv_lists _ _ Hinv')) as Hcont.
    split; [exact Hres|].
    split; [rewrite Hcont; apply fn_lookup_insert|].
    split.
    { rewrite Hcont, fn_lookup_insert_ne by discriminate. apply fn_lookup_insert. }
    split.
    { intros r Hr1 Hr2. rewrite Hcont, !fn_lookup_insert_ne by congruence. reflexivity. }
    split.
    { eapply state_of_fields_set; [eauto|]. rewrite Hf, decide_True by reflexivity. reflexivity. }
    split.
    { intros y Hy. apply fields_state_of. rewrite Hf, decide_False by exact Hy. reflexivity. }
    split; [rewrite <- Hc; eapply count_of_rest; [exact Hrest|exact Hx]|].
    split; [rewrite (rest_of_CurrentTCB _ _ Hrest); exact Hcur|].
    split; [exact Hswi|].
    split; [rewrite Hnx, Hcont; reflexivity|].
    eapply kernel_inv_self, Hinv'.
Qed.

Lemma OS_SemWait_spec_witness :
  let s := exec scenario_S app_memory in
  let s' := exec (OS_SemWait (Some 1%nat)) s in
  CurrentTCB s = Some 1%nat ∧ contents s (ReadyListAt 5) = [1; 2]%nat ∧
  contents s (SemWaitList 1) = [] ∧
  result (OS_SemWait (Some 1%nat)) s = Ret OS_OK ∧
  contents s' (SemWaitList 1) = [1%nat] ∧
  contents s' (ReadyListAt 5) = [2%nat] ∧
  state_of s' 1 = Some TASK_BLOCKED.
Proof.
  intros s s'.
  assert (Hk : kernel_ok s = true) by (vm_compute; reflexivity).
  assert (Hcr : current_ready s = true) by (vm_compute; reflexivity).
  assert (Hcur : CurrentTCB s = Some 1%nat) by (vm_compute; reflexivity).
  assert (Ho : other_ready s 1 = true) by (vm_compute; reflexivity).
  assert (Hx : sems s !! 1%nat = Some zero_sem) by (vm_compute; reflexivity).
  assert (Hc : count zero_sem = 0) by reflexivity.
  assert (Hr : contents s (ReadyListAt 5) = [1; 2]%nat) by (vm_compute; reflexivity).
  assert (Hw : contents s (SemWaitList 1) = []) by (vm_compute; reflexivity).
  assert (Hp : prio_val s 1 = 5) by (vm_compute; reflexivity).
  destruct (proj2 (proj2 OS_SemWait_spec) s 1%nat zero_sem 1%nat Hk Hcr Hcur Ho Hx Hc)
    as (R & E1 & E2 & _ & E3 & _).
  fold s' in R, E1, E2, E3. rewrite Hp, Hr in E2. rewrite Hw in E1.
  split; [exact Hcur|]. split; [exact Hr|]. split; [exact Hw|].
  split; [exact R|]. split; [exact E1|]. split; [exact E2|exact E3].
Defined.

Lemma prio_val_Some s x t : tcbs s !! x = Some t → prio_val s x = Priority t.
Proof. intros E. unfold prio_val, prio_of. rewrite E. reflexivity. Qed.

(** X11.  [OS_SemPost].  A null pointer gives [OS_ERR_PARAM].  With no
    task waiting the count goes up by one, modulo 2^16 (the field is a
    [uint16_t]: a post at 65535 brings it to 0), and nothing else changes.
    With tasks waiting, the one that has waited longest, the head of the
    wait list, whatever its priority, is made ready at the tail of the
    ready list of its priority; the count is left as it is, [NextTCB] is
    the highest-priority ready task and a switch is requested. *)
Theorem OS_SemPost_spec :
  (∀ s, OS_SemPost None s = (Ret OS_ERR_PARAM, s)) ∧
  (∀ s a x,
     kernel_ok s = true → sems s !! a = Some x → contents s (SemWaitList a) = [] →
     OS_SemPost (Some a) s
     = (Ret OS_OK, set_irq_enabled (irq_after s)
                     (set_sems (<[a := set_count ((count x + 1) mod 2 ^ 16) x]> (sems s)) s))) ∧
  (∀ s a x w rest,
     kernel_ok s = true → sems s !! a = Some x → contents s (SemWaitList a) = w :: rest →
     let s' := exec (OS_SemPost (Some a)) s in
     let pw := prio_val s w in
     result (OS_SemPost (Some a)) s = Ret OS_OK ∧
     contents s' (SemWaitList a) = rest ∧
     contents s' (ReadyListAt pw) = contents s (ReadyListAt pw) ++ [w] ∧
     (∀ r, r ≠ SemWaitList a → r ≠ ReadyListAt pw → contents s' r = contents s r) ∧
     state_of s' w = Some TASK_READY ∧
     (∀ y, y ≠ w → state_of s' y = state_of s y) ∧
     count_of s' a = Some (count x) ∧
     swi_pending s' = true ∧
     NextTCB s' = head (contents s' (ReadyListAt (OS_GetTopPrio (g_PrioMap s')))) ∧
     kernel_inv s' (contents s')).
Proof.
  split; [reflexivity|]. split.
  - intros s a x Hk Hx Hw.
    destruct (kernel_ok_sound s Hk) as [Hinv Hn].
    pose proof (inv_lists _ _ Hinv) as (Hrep & _).
    specialize (Hrep (SemWaitList a)). cbn in Hrep. rewrite Hx in Hrep. cbn in Hrep.
    pose proof (repr_head _ _ _ Hrep) as HH. rewrite Hw in HH. cbn in HH.
    pose proof (critical_roundtrip
                  (set_sems (<[a := set_count ((count x + 1) mod 2 ^ 16) x]> (sems s)) s) Hn)
      as E.
    destruct (enter_exit_nesting _ Hn) as [Hn1 Hn2].
    apply wp_run_eq. unfold OS_SemPost.
    apply wp_bind, wp_OS_EnterCritical.
    apply wp_bind. eapply wp_load_sem; [exact Hx|].
    rewrite HH. cbn [is_null].
    apply wp_bind. eapply wp_store_sem; [exact Hx|].
    apply wp_bind. apply wp_OS_ExitCritical; [exact Hn1|].
    apply wp_ret. split; [reflexivity|]. exact E.
  - intros s a x w rest Hk Hx Hwl s' pw.
    destruct (kernel_ok_sound s Hk) as [Hinv Hn].
    assert (Hwin : w ∈ contents s (SemWaitList a)) by (rewrite Hwl; apply list_elem_of_here).
    destruct (lists_ok_in_heap _ _ _ _ (inv_lists _ _ Hinv) Hwin) as [tw Htw].
    pose proof (prio_val_Some _ _ _ Htw) as Hp. fold pw in Hp.
    pose proof (wp_OS_SemPost_wake s (contents s) a x w rest tw Hinv Hn Hx Hwl Htw) as Hwp.
    apply wp_run in Hwp as (r & Hres & -> & Hinv' & Hf & Hrest & Hswi & Hnx).
    fold s' in Hinv', Hf, Hrest, Hswi, Hnx. rewrite <- Hp in Hinv', Hnx.
    pose proof (λ r, lists_ok_contents _ _ r (inv_lists _ _ Hinv')) as Hcont.
    split; [exact Hres|].
    split.
    { rewrite Hcont, fn_lookup_insert_ne by discriminate. apply fn_lookup_insert. }
    split.
    { rewrite Hcont. apply fn_lookup_insert. }
    split.
    { intros r Hr1 Hr2. rewrite Hcont, !fn_lookup_insert_ne by congruence. reflexivity. }
    split.
    { eapply state_of_fields_set; [eauto|]. rewrite Hf, decide_True by reflexivity. reflexivity. }
    split.
    { intros y Hy. apply fields_state_of. rewrite Hf, decide_False by exact Hy. reflexivity. }
    split; [eapply count_of_rest; [exact Hrest|exact Hx]|].
    split; [exact Hswi|].
    split; [rewrite Hnx, Hcont; reflexivity|].
    eapply kernel_inv_self, Hinv'.
Qed.

Lemma OS_SemPost_spec_witness :
  let s := exec (scenario_S ;; ignore (OS_SemWait (Some 1%nat))) app_memory in
  let s' := exec (OS_SemPost (Some 1%nat)) s in
  contents s (SemWaitList 1) = [1%nat] ∧ contents s (ReadyListAt 5) = [2%nat] ∧
  result (OS_SemPost (Some 1%nat)) s = Ret OS_OK ∧
  contents s' (SemWaitList 1) = [] ∧
  contents s' (ReadyListAt 5) = [2; 1]%nat ∧
  state_of s' 1 = Some TASK_READY ∧ count_of s' 1 = Some 0.
Proof.
  intros s s'.
  assert (Hk : kernel_ok s = true) by (vm_compute; reflexivity).
  assert (Hx : sems s !! 1%nat = Some (mkSem 0 (mkList (Some 1%nat) (Some 1%nat))))
    by (vm_compute; reflexivity).
  assert (Hr : contents s (ReadyListAt 5) = [2%nat]) by (vm_compute; reflexivity).
  assert (Hw : contents s (SemWaitList 1) = [1%nat]) by (vm_compute; reflexivity).
  assert (Hp : prio_val s 1 = 5) by (vm_compute; reflexivity).
  destruct (proj2 (proj2 OS_SemPost_spec) s 1%nat _ 1%nat [] Hk Hx Hw)
    as (R & E1 & E2 & _ & E3 & _ & E4 & _).
  fold s' in R, E1, E2, E3, E4. rewrite Hp, Hr in E2.
  split; [exact Hw|]. split; [exact Hr|].
  split; [exact R|]. split; [exact E1|]. split; [exact E2|]. split; [exact E3|exact E4].
Defined.

(** X12.  A wait that blocks followed by a post.  On a semaphore without
    tokens and without waiters, [OS_SemWait] by the running task and then
    [OS_SemPost] leave the count at zero and the wait list empty: the
    token goes straight to the waiter, which is ready again, now as the
    last task of the ready list of its priority; nothing else changes on
    any list. *)
Theorem OS_SemWait_SemPost_handoff s a x cur :
  kernel_ok s = true → current_ready s = true → CurrentTCB s = Some cur →
  other_ready s cur = true → sems s !! a = Some x → count x = 0 →
  contents s (SemWaitList a) = [] →
  let m := (OS_SemWait (Some a) ;; OS_SemPost (Some a)) in
  let s' := exec m s in
  let p := prio_val s cur in
  result m s = Ret OS_OK ∧
  count_of s' a = Some 0 ∧
  contents s' (SemWaitList a) = [] ∧
  contents s' (ReadyListAt p) = filter (λ y, y ≠ cur) (contents s (ReadyListAt p)) ++ [cur] ∧
  (∀ r, r ≠ ReadyListAt p → contents s' r = contents s r) ∧
  state_of s' cur = Some TASK_READY ∧
  (∀ y, y ≠ cur → state_of s' y = state_of s y) ∧
  kernel_inv s' (contents s').
Proof.
  intros Hk Hcr Hcur Hother Hx Hc Hwl m s' p.
  destruct (kernel_ok_sound s Hk) as [Hinv Hn].
  destruct (current_task s cur Hk Hcr Hcur) as (tc & Htc & Hcin & Hp). fold p in Hp.
  assert (Hwp : wp m (λ r s2,
            r = OS_OK ∧
            kernel_inv s2 (<[ReadyListAt p :=
                               filter (λ y, y ≠ cur) (contents s (ReadyListAt p)) ++ [cur]]>
                             (contents s)) ∧
            (∀ y, fields s2 y = if decide (y = cur) then set_State TASK_READY <$> fields s y
                                else fields s y) ∧
            count_of s2 a = Some 0) s).
  { unfold m. apply wp_bind.
    eapply wp_mono;
      [exact (wp_OS_SemWait_block s (contents s) a x cur tc Hinv Hn Hcur Htc Hcin
                (other_ready_sound s cur Hother) Hx ltac:(lia))|].
    cbv zeta. rewrite <- Hp, Hwl. cbn [app].
    intros r s1 (-> & Hinv1 & Hf1 & Hr1 & _).
    set (c1 := <[SemWaitList a := [cur]]> _) in *.
    destruct (rest_of_sem _ _ _ _ Hr1 Hx) as (x1 & Hx1 & Hc1).
    assert (Hn1 : 0 <= g_CriticalNesting s1 < 2 ^ 32 - 1).
    { rewrite (rest_of_nesting _ _ Hr1). exact Hn. }
    assert (Hfc1 : fields s1 cur = Some (set_State TASK_BLOCKED (strip_tcb tc))).
    { rewrite Hf1, decide_True by reflexivity. rewrite (fields_Some _ _ _ Htc). reflexivity. }
    destruct (fields_lookup _ _ _ Hfc1) as (tc1 & Htc1 & Hs1).
    assert (Hp1 : Priority tc1 = p) by (rewrite Hp; exact (f_equal Priority Hs1)).
    eapply wp_mono;
      [eapply (wp_OS_SemPost_wake s1 c1 a x1 cur [] tc1);
         [exact Hinv1|exact Hn1|exact Hx1|apply fn_lookup_insert|exact Htc1]|].
    cbv zeta. rewrite Hp1. intros r s2 (-> & Hinv2 & Hf2 & Hr2 & _).
    split; [reflexivity|]. split.
    { eapply kernel_inv_pointwise; [|exact Hinv2]. intros r. unfold c1.
      destruct (decide (r = ReadyListAt p)) as [->|Hne].
      - rewrite !fn_lookup_insert. rewrite fn_lookup_insert_ne by discriminate.
        rewrite fn_lookup_insert. reflexivity.
      - rewrite !(fn_lookup_insert_ne _ (ReadyListAt p) r) by congruence.
        destruct (decide (r = SemWaitList a)) as [->|Hne'].
        + rewrite !fn_lookup_insert. symmetry. exact Hwl.
        + rewrite !fn_lookup_insert_ne by congruence. reflexivity. }
    split.
    { intros y. rewrite Hf2, Hf1. destruct (decide (y = cur)) as [->|]; [|reflexivity].
      rewrite (fields_Some _ _ _ Htc). reflexivity. }
    rewrite <- Hc, <- Hc1. eapply count_of_rest; [exact Hr2|exact Hx1]. }
  apply wp_run in Hwp as (r & Hres & -> & Hinv' & Hf & Hcount).
  fold s' in Hinv', Hf, Hcount.
  pose proof (λ r, lists_ok_contents _ _ r (inv_lists _ _ Hinv')) as Hcont.
  split; [exact Hres|]. split; [exact Hcount|].
  split; [rewrite Hcont, fn_lookup_insert_ne by discriminate; exact Hwl|].
  split; [rewrite Hcont; apply fn_lookup_insert|].
  split; [intros r Hr; rewrite Hcont; apply fn_lookup_insert_ne; congruence|].
  split.
  { eapply state_of_fields_set; [eauto|]. rewrite Hf, decide_True by reflexivity. reflexivity. }
  split.
  { intros y Hy. apply fields_state_of. rewrite Hf, decide_False by exact Hy. reflexivity. }
  eapply kernel_inv_self, Hinv'.
Qed.

Lemma OS_SemWait_SemPost_handoff_witness :
  let s := exec scenario_S app_memory in
  let s' := exec (OS_SemWait (Some 1%nat) ;; OS_SemPost (Some 1%nat)) s in
  contents s (ReadyListAt 5) = [1; 2]%nat ∧
  contents s' (ReadyListAt 5) = [2; 1]%nat ∧
  contents s' (SemWaitList 1) = [] ∧ count_of s' 1 = Some 0.
Proof.
  intros s s'.
  assert (Hk : kernel_ok s = true) by (vm_compute; reflexivity).
  assert (Hcr : current_ready s = true) by (vm_compute; reflexivity).
  assert (Hcur : CurrentTCB s = Some 1%nat) by (vm_compute; reflexivity).
  assert (Ho : other_ready s 1 = true) by (vm_compute; reflexivity).
  assert (Hx : sems s !! 1%nat = Some zero_sem) by (vm_compute; reflexivity).
  assert (Hc : count zero_sem = 0) by reflexivity.
  assert (Hr : contents s (ReadyListAt 5) = [1; 2]%nat) by (vm_compute; reflexivity).
  assert (Hw : contents s (SemWaitList 1) = []) by (vm_compute; reflexivity).
  assert (Hp : prio_val s 1 = 5) by (vm_compute; reflexivity).
  destruct (OS_SemWait_SemPost_handoff s 1%nat zero_sem 1%nat Hk Hcr Hcur Ho Hx Hc Hw)
    as (_ & E1 & E2 & E3 & _).
  fold s' in E1, E2, E3. rewrite Hp, Hr in E3.
  split; [exact Hr|]. split; [exact E3|]. split; [exact E2|exact E1].
Defined.

(** ** Mutexes *)

Lemma repeat_ok_step (m : M OS_Status) n s s1 :
  m s = (Ret OS_OK, s1) → repeat_ok (S n) m s = repeat_ok n m s1.
Proof. intros E. cbn [repeat_ok]. unfold bind. rewrite E. reflexivity. Qed.

Lemma mutex_written_twice s a m1 m2 :
  mutex_written (mutex_written s a m1) a m2 = mutex_written s a m2.
Proof.
  unfold mutex_written, irq_after.
  cbn [mutexes set_mutexes set_irq_enabled g_CriticalNesting].
  rewrite insert_insert_eq. reflexivity.
Qed.

Lemma mutex_written_lookup s a m : mutexes (mutex_written s a m) !! a = Some m.
Proof. unfold mutex_written. cbn [mutexes set_mutexes set_irq_enabled]. apply lookup_insert_eq. Qed.

Lemma leave_mutex_written s a m :
  0 <= g_CriticalNesting s < 2 ^ 32 - 1 →
  (let s1 := set_g_CriticalNesting (u32 (g_CriticalNesting s + 1)) (set_irq_enabled false s) in
   let n := u32 (g_CriticalNesting s1 - 1) in
   if n =? 0 then set_irq_enabled true
                    (set_g_CriticalNesting n (set_mutexes (<[a := m]> (mutexes s)) s1))
   else set_g_CriticalNesting n (set_mutexes (<[a := m]> (mutexes s)) s1))
  = mutex_written s a m.
Proof.
  intros Hn. unfold mutex_written.
  rewrite <- (critical_roundtrip (set_mutexes (<[a := m]> (mutexes s)) s) Hn).
  cbv zeta. cbn [g_CriticalNesting set_g_CriticalNesting set_irq_enabled set_mutexes].
  destruct (u32 (u32 (g_CriticalNesting s + 1) - 1) =? 0); reflexivity.
Qed.

(** [OS_MutexPend] on a free mutex. *)
Lemma MutexPend_free_eq s a m cur :
  0 <= g_CriticalNesting s < 2 ^ 32 - 1 →
  CurrentTCB s = Some cur → mutexes s !! a = Some m → Owner m = None →
  OS_MutexPend (Some a) s
  = (Ret OS_OK, mutex_written s a (set_NestCount 1 (set_Owner (Some cur) m))).
Proof.
  intros Hn Hcur Hm Ho. destruct (enter_exit_nesting _ Hn) as [Hn1 Hn2].
  apply wp_run_eq. unfold OS_MutexPend.
  apply wp_bind, wp_OS_EnterCritical.
  apply wp_bind. eapply wp_load_mutex; [exact Hm|].
  apply wp_bind, wp_gets. cbn [CurrentTCB set_g_CriticalNesting set_irq_enabled].
  rewrite Hcur, Ho. cbn [is_null].
  apply wp_bind. eapply wp_store_mutex; [exact Hm|].
  apply wp_bind. eapply wp_store_mutex; [apply lookup_insert_eq|].
  apply wp_bind. apply wp_OS_ExitCritical; [exact Hn1|].
  apply wp_ret. split; [reflexivity|].
  rewrite <- (leave_mutex_written s a _ Hn).
  cbn [mutexes set_mutexes set_g_CriticalNesting set_irq_enabled g_CriticalNesting].
  rewrite insert_insert_eq. reflexivity.
Qed.

(** [OS_MutexPend] by the owner. *)
Lemma MutexPend_nested_eq s a m cur :
  0 <= g_CriticalNesting s < 2 ^ 32 - 1 →
  CurrentTCB s = Some cur → mutexes s !! a = Some m → Owner m = Some cur →
  OS_MutexPend (Some a) s
  = (Ret OS_OK, mutex_written s a (set_NestCount (u8 (NestCount m + 1)) m)).
Proof.
  intros Hn Hcur Hm Ho. destruct (enter_exit_nesting _ Hn) as [Hn1 Hn2].
  apply wp_run_eq. unfold OS_MutexPend.
  apply wp_bind, wp_OS_EnterCritical.
  apply wp_bind. eapply wp_load_mutex; [exact Hm|].
  apply wp_bind, wp_gets. cbn [CurrentTCB set_g_CriticalNesting set_irq_enabled].
  rewrite Hcur, Ho. cbn [is_null]. rewrite bool_decide_eq_true_2 by reflexivity.
  apply wp_bind. eapply wp_store_mutex; [exact Hm|].
  apply wp_bind. apply wp_OS_ExitCritical; [exact Hn1|].
  apply wp_ret. split; [reflexivity|].
  rewrite <- (leave_mutex_written s a _ Hn). reflexivity.
Qed.

(** [OS_MutexPost] by the owner, not the last of a nest. *)
Lemma MutexPost_nested_eq s a m :
  0 <= g_CriticalNesting s < 2 ^ 32 - 1 →
  mutexes s !! a = Some m → Owner m = CurrentTCB s → 0 < u8 (NestCount m - 1) →
  OS_MutexPost (Some a) s
  = (Ret OS_OK, mutex_written s a (set_NestCount (u8 (NestCount m - 1)) m)).
Proof.
  intros Hn Hm Ho Hpos. destruct (enter_exit_nesting _ Hn) as [Hn1 Hn2].
  apply wp_run_eq. unfold OS_MutexPost.
  apply wp_bind, wp_OS_EnterCritical.
  apply wp_bind. eapply wp_load_mutex; [exact Hm|].
  apply wp_bind, wp_gets. cbn [CurrentTCB set_g_CriticalNesting set_irq_enabled].
  rewrite bool_decide_eq_true_2 by exact Ho. cbn [negb].
  apply wp_bind. eapply wp_store_mutex; [exact Hm|].
  apply wp_bind. eapply wp_load_mutex; [apply lookup_insert_eq|].
  cbn [NestCount set_NestCount].
  replace (u8 (NestCount m - 1) >? 0) with true by (symmetry; apply Z.gtb_lt; exact Hpos).
  apply wp_bind. apply wp_OS_ExitCritical; [exact Hn1|].
  apply wp_ret. split; [reflexivity|].
  rewrite <- (leave_mutex_written s a _ Hn). reflexivity.
Qed.

(** The last [OS_MutexPost] of a nest, by an owner whose priority is the
    one it was created with, when no task waits. *)
Lemma MutexPost_release_eq s a m cur tc :
  0 <= g_CriticalNesting s < 2 ^ 32 - 1 →
  CurrentTCB s = Some cur → tcbs s !! cur = Some tc → Priority tc = OriginalPrio tc →
  mutexes s !! a = Some m → Owner m = Some cur → NestCount m = 1 →
  Head (mtx_WaitList m) = None →
  OS_MutexPost (Some a) s
  = (Ret OS_OK, mutex_written s a (set_Owner None (set_NestCount 0 m))).
Proof.
  intros Hn Hcur Htc Hp Hm Ho Hnest Hh. destruct (enter_exit_nesting _ Hn) as [Hn1 Hn2].
  apply wp_run_eq. unfold OS_MutexPost.
  apply wp_bind, wp_OS_EnterCritical.
  apply wp_bind. eapply wp_load_mutex; [exact Hm|].
  apply wp_bind, wp_gets. cbn [CurrentTCB set_g_CriticalNesting set_irq_enabled].
  rewrite Hcur, Ho. rewrite bool_decide_eq_true_2 by reflexivity. cbn [negb].
  apply wp_bind. eapply wp_store_mutex; [exact Hm|].
  apply wp_bind. eapply wp_load_mutex; [apply lookup_insert_eq|].
  cbn [NestCount set_NestCount]. rewrite Hnest. change (u8 (1 - 1) >? 0) with false.
  cbv iota.
  apply wp_bind. eapply wp_load_tcb; [exact Htc|].
  rewrite Hp, Z.eqb_refl. cbn [negb].
  apply wp_bind, wp_ret.
  apply wp_bind. eapply wp_load_mutex; [apply lookup_insert_eq|].
  cbn [mtx_WaitList set_NestCount]. rewrite Hh. cbn [is_null].
  apply wp_bind. eapply wp_store_mutex; [apply lookup_insert_eq|].
  apply wp_bind. apply wp_OS_ExitCritical; [exact Hn1|].
  apply wp_ret. split; [reflexivity|].
  rewrite <- (leave_mutex_written s a _ Hn).
  cbn [mutexes set_mutexes set_g_CriticalNesting set_irq_enabled g_CriticalNesting].
  rewrite insert_insert_eq. reflexivity.
Qed.

Section recursive_lock.
Variables (s : Kernel) (a : nat) (m : OS_Mutex) (cur : nat) (tc : OS_TCB).
Hypothesis Hn : 0 <= g_CriticalNesting s < 2 ^ 32 - 1.
Hypothesis Hcur : CurrentTCB s = Some cur.
Hypothesis Htc : tcbs s !! cur = Some tc.
Hypothesis Hp : Priority tc = OriginalPrio tc.
Hypothesis Hh : Head (mtx_WaitList m) = None.

Local Abbreviation held := (mutex_held s a m cur).

Lemma held_pends j : ∀ k,
  (0 < k)%nat → (k + j < 256)%nat →
  repeat_ok j (OS_MutexPend (Some a)) (held k) = (Ret OS_OK, held (k + j)).
Proof.
  induction j as [|j IH]; intros k Hk Hkj.
  - rewrite Nat.add_0_r. reflexivity.
  - assert (E : OS_MutexPend (Some a) (held k) = (Ret OS_OK, held (S k))).
    { rewrite (MutexPend_nested_eq (held k) a _ cur Hn Hcur (mutex_written_lookup _ _ _) eq_refl).
      unfold mutex_held. rewrite mutex_written_twice. cbn [NestCount set_NestCount set_Owner].
      unfold u8. rewrite Z.mod_small by lia.
      replace (Z.of_nat k + 1) with (Z.of_nat (S k)) by lia. reflexivity. }
    rewrite (repeat_ok_step _ _ _ _ E), IH by lia.
    replace (S k + j)%nat with (k + S j)%nat by lia. reflexivity.
Qed.

Lemma held_posts j : ∀ k,
  (j < k)%nat → (k < 256)%nat →
  repeat_ok j (OS_MutexPost (Some a)) (held k) = (Ret OS_OK, held (k - j)).
Proof.
  induction j as [|j IH]; intros k Hj Hk.
  - rewrite Nat.sub_0_r. reflexivity.
  - assert (E : OS_MutexPost (Some a) (held k) = (Ret OS_OK, held (k - 1))).
    { assert (Eu : u8 (Z.of_nat k - 1) = Z.of_nat (k - 1))
        by (unfold u8; rewrite Z.mod_small by lia; lia).
      rewrite (MutexPost_nested_eq (held k) a _ Hn (mutex_written_lookup _ _ _)).
      - unfold mutex_held. rewrite mutex_written_twice. cbn [NestCount set_NestCount set_Owner].
        rewrite Eu. reflexivity.
      - cbn [Owner set_NestCount set_Owner]. symmetry. exact Hcur.
      - cbn [NestCount set_NestCount]. rewrite Eu. lia. }
    rewrite (repeat_ok_step _ _ _ _ E), IH by lia.
    replace (k - 1 - j)%nat with (k - S j)%nat by lia. reflexivity.
Qed.

Lemma held_release :
  OS_MutexPost (Some a) (held 1)
  = (Ret OS_OK, mutex_written s a (set_Owner None (set_NestCount 0 m))).
Proof.
  rewrite (MutexPost_release_eq (held 1) a _ cur tc Hn Hcur Htc Hp
             (mutex_written_lookup _ _ _) eq_refl eq_refl Hh).
  unfold mutex_held. rewrite mutex_written_twice. reflexivity.
Qed.
End recursive_lock.

Lemma bind_run {A B} (m : M A) (k : A → M B) s a s1 :
  m s = (Ret a, s1) → bind m k s = k a s1.
Proof. intros E. unfold bind. rewrite E. reflexivity. Qed.

(** X13.  A mutex can be taken again by its owner.  When the running task
    takes a free mutex [n] times in a row ([n] at most 255, the nesting
    count being a [uint8_t]) every [OS_MutexPend] returns [OS_OK] without
    blocking, the task owns the mutex and the nesting count is [n].  Each
    [OS_MutexPost] of the first [n - 1] lowers the count by one and the
    task still owns the mutex; the [n]-th frees it.  Nothing but the mutex
    is written, the interrupt mask apart.  (The task runs at the priority
    it was created with and no task waits for the mutex.) *)
Theorem mutex_recursive_lock s a m cur n :
  0 <= g_CriticalNesting s < 2 ^ 32 - 1 →
  CurrentTCB s = Some cur → is_Some (tcbs s !! cur) → prio_val s cur = orig_val s cur →
  mutexes s !! a = Some m → Owner m = None → Head (mtx_WaitList m) = None →
  (0 < n < 256)%nat →
  let pend := repeat_ok n (OS_MutexPend (Some a)) in
  pend s = (Ret OS_OK, mutex_held s a m cur n) ∧
  (∀ j, (j < n)%nat →
     (pend ;; repeat_ok j (OS_MutexPost (Some a))) s
     = (Ret OS_OK, mutex_held s a m cur (n - j))) ∧
  (pend ;; repeat_ok n (OS_MutexPost (Some a))) s
  = (Ret OS_OK, mutex_written s a (set_Owner None (set_NestCount 0 m))).
Proof.
  intros Hn Hcur [tc Htc] Hp Hm Ho Hh Hrange pend.
  assert (Hp' : Priority tc = OriginalPrio tc).
  { unfold prio_val, orig_val, prio_of in Hp. rewrite Htc in Hp. exact Hp. }
  assert (E1 : OS_MutexPend (Some a) s = (Ret OS_OK, mutex_held s a m cur 1))
    by exact (MutexPend_free_eq s a m cur Hn Hcur Hm Ho).
  assert (Epend : pend s = (Ret OS_OK, mutex_held s a m cur n)).
  { unfold pend. destruct n as [|n']; [lia|].
    rewrite (repeat_ok_step _ _ _ _ E1).
    rewrite (held_pends s a m cur Hn Hcur n' 1) by lia. reflexivity. }
  split; [exact Epend|]. split.
  - intros j Hj. rewrite (bind_run _ _ _ _ _ Epend).
    apply (held_posts s a m cur Hn Hcur j n); lia.
  - rewrite (bind_run _ _ _ _ _ Epend).
    destruct n as [|n']; [lia|].
    assert (E : repeat_ok n' (OS_MutexPost (Some a)) (mutex_held s a m cur (S n'))
                = (Ret OS_OK, mutex_held s a m cur 1)).
    { rewrite (held_posts s a m cur Hn Hcur n' (S n')) by lia.
      replace (S n' - n')%nat with 1%nat by lia. reflexivity. }
    clear Epend. revert E. generalize (mutex_held s a m cur (S n')). generalize n'.
    intros k. induction k as [|k IH]; intros s0 E.
    + cbn [repeat_ok] in E. injection E as ->.
      cbn [repeat_ok]. rewrite (bind_run _ _ _ _ _ (held_release s a m cur tc Hn Hcur Htc Hp' Hh)).
      reflexivity.
    + cbn [repeat_ok] in E |- *. unfold bind in E |- *.
      destruct (OS_MutexPost (Some a) s0) as [[r|f] s1]; [|discriminate].
      destruct r; try discriminate. apply IH, E.
Qed.

Lemma mutex_recursive_lock_witness :
  let s := exec scenario_S app_memory in
  let pend := repeat_ok 3 (OS_MutexPend (Some 1%nat)) in
  mutexes s !! 1%nat = Some zero_mutex ∧
  pend s = (Ret OS_OK, mutex_written s 1 (mkMutex (Some 1%nat) empty_list 3 0)) ∧
  (pend ;; repeat_ok 2 (OS_MutexPost (Some 1%nat))) s
  = (Ret OS_OK, mutex_written s 1 (mkMutex (Some 1%nat) empty_list 1 0)) ∧
  (pend ;; repeat_ok 3 (OS_MutexPost (Some 1%nat))) s
  = (Ret OS_OK, mutex_written s 1 zero_mutex).
Proof.
  intros s pend.
  assert (Hn : 0 <= g_CriticalNesting s < 2 ^ 32 - 1) by (vm_compute; split; congruence).
  assert (Hcur : CurrentTCB s = Some 1%nat) by (vm_compute; reflexivity).
  assert (Ht : is_Some (tcbs s !! 1%nat)) by (vm_compute; eauto).
  assert (Hp : prio_val s 1 = orig_val s 1) by (vm_compute; reflexivity).
  assert (Hm : mutexes s !! 1%nat = Some zero_mutex) by (vm_compute; reflexivity).
  assert (Hr : (0 < 3 < 256)%nat) by lia.
  destruct (mutex_recursive_lock s 1%nat zero_mutex 1%nat 3%nat Hn Hcur Ht Hp Hm eq_refl eq_refl Hr)
    as (E1 & E2 & E3).
  split; [exact Hm|]. split; [exact E1|]. split; [exact (E2 2%nat ltac:(lia))|exact E3].
Defined.

(** X14.  What the mutex calls refuse.  A null pointer gives
    [OS_ERR_PARAM] from [OS_MutexInit], [OS_MutexPend] and [OS_MutexPost].
    [OS_MutexPost] by a task that does not own the mutex, which includes
    every post on a free mutex, returns [OS_ERR_NOT_OWNER] and changes
    nothing (the interrupt mask apart): the owner, the nesting count and
    the waiters stay as they are. *)
Theorem mutex_errors :
  (∀ s, OS_MutexInit None s = (Ret OS_ERR_PARAM, s)) ∧
  (∀ s, OS_MutexPend None s = (Ret OS_ERR_PARAM, s)) ∧
  (∀ s, OS_MutexPost None s = (Ret OS_ERR_PARAM, s)) ∧
  (∀ s a m,
     0 <= g_CriticalNesting s < 2 ^ 32 - 1 → mutexes s !! a = Some m →
     Owner m ≠ CurrentTCB s →
     OS_MutexPost (Some a) s = (Ret OS_ERR_NOT_OWNER, set_irq_enabled (irq_after s) s)).
Proof.
  split; [reflexivity|]. split; [reflexivity|]. split; [reflexivity|].
  intros s a m Hn Hm Ho. exact (MutexPost_not_owner_run s a m Hn Hm Ho).
Qed.

Lemma mutex_errors_witness :
  let s := exec scenario_H app_memory in
  CurrentTCB s = Some 4%nat ∧ (Owner <$> mutexes s !! 1%nat) = Some (Some 3%nat) ∧
  OS_MutexPost (Some 1%nat) s = (Ret OS_ERR_NOT_OWNER, set_irq_enabled true s).
Proof.
  intros s.
  assert (Hn : 0 <= g_CriticalNesting s < 2 ^ 32 - 1) by (vm_compute; split; congruence).
  assert (Hcur : CurrentTCB s = Some 4%nat) by (vm_compute; reflexivity).
  assert (Hm : mutexes s !! 1%nat
               = Some (mkMutex (Some 3%nat) (mkList (Some 2%nat) (Some 2%nat)) 1 31))
    by (vm_compute; reflexivity).
  assert (Ho : Owner (mkMutex (Some 3%nat) (mkList (Some 2%nat) (Some 2%nat)) 1 31)
               ≠ CurrentTCB s) by (rewrite Hcur; cbn; congruence).
  assert (Hi : irq_after s = true) by (vm_compute; reflexivity).
  split; [exact Hcur|]. split; [rewrite Hm; reflexivity|].
  rewrite (proj2 (proj2 (proj2 mutex_errors)) s 1%nat _ Hn Hm Ho), Hi. reflexivity.
Defined.

Lemma orig_val_fields s s' x : fields s' x = fields s x → orig_val s' x = orig_val s x.
Proof.
  unfold fields, orig_val. intros E.
  apply (f_equal (fmap (M:=option) OriginalPrio)) in E.
  destruct (tcbs s' !! x), (tcbs s !! x); try discriminate; [|reflexivity].
  cbn in E |- *. congruence.
Qed.





(** ** Message queues *)

Lemma slot_rw (B msg : list Z) (n i j : nat) :
  ((i + 1) * n ≤ length B)%nat → (n ≤ length msg)%nat → ((j + 1) * n ≤ length B)%nat →
  take n (drop (j * n) (take (i * n) B ++ take n msg ++ drop (i * n + n) B))
  = if decide (j = i) then take n msg else take n (drop (j * n) B).
Proof.
  intros Hi Hm Hj.
  assert (Hl1 : length (take (i * n) B) = (i * n)%nat) by (apply length_take_le; lia).
  assert (Hl2 : length (take n msg) = n) by (apply length_take_le; lia).
  destruct (decide (j = i)) as [->|Hne].
  - rewrite drop_app_length' by (symmetry; exact Hl1).
    rewrite take_app_length' by (symmetry; exact Hl2). reflexivity.
  - destruct (Nat.lt_ge_cases j i) as [Hlt|Hge].
    + assert (Hjn : (j * n + n ≤ i * n)%nat) by nia.
      rewrite drop_app_le by lia.
      rewrite take_app_le by (rewrite length_drop; lia).
      rewrite take_drop_commute, take_take.
      rewrite Nat.min_l by lia. rewrite <- take_drop_commute. reflexivity.
    + assert (Hjn : (i * n + n ≤ j * n)%nat) by nia.
      rewrite drop_app_ge by lia. rewrite Hl1.
      rewrite drop_app_ge by lia. rewrite Hl2.
      rewrite drop_drop. f_equal. f_equal. lia.
Qed.

Lemma slot_read_write q i j msg :
  queue_ok q = true → 0 <= i < QSize q → 0 <= j < QSize q →
  MsgSize q <= Z.of_nat (length msg) →
  slot_read (set_Buffer (slot_write q i msg) q) j
  = if decide (j = i) then take (Z.to_nat (MsgSize q)) msg else slot_read q j.
Proof.
  intros Hok Hi Hj Hm.
  pose proof (queue_ok_elim q Hok) as (Hms & Hqs & _ & _ & _ & Hbuf).
  unfold slot_read, slot_write. cbn [Buffer MsgSize set_Buffer].
  replace (Z.to_nat (j * MsgSize q)) with (Z.to_nat j * Z.to_nat (MsgSize q))%nat
    by (rewrite Z2Nat.inj_mul by lia; reflexivity).
  replace (Z.to_nat (i * MsgSize q)) with (Z.to_nat i * Z.to_nat (MsgSize q))%nat
    by (rewrite Z2Nat.inj_mul by lia; reflexivity).
  replace (Z.to_nat (i * MsgSize q + MsgSize q))
    with (Z.to_nat i * Z.to_nat (MsgSize q) + Z.to_nat (MsgSize q))%nat
    by (rewrite Z2Nat.inj_add, Z2Nat.inj_mul by nia; reflexivity).
  rewrite slot_rw.
  - destruct (decide (Z.to_nat j = Z.to_nat i)) as [E|E];
      destruct (decide (j = i)) as [E'|E']; try reflexivity; exfalso.
    + apply E'. apply Z2Nat.inj; lia.
    + apply E. congruence.
  - apply Nat2Z.inj_le. rewrite Hbuf. rewrite Nat2Z.inj_mul, Nat2Z.inj_add, !Z2Nat.id by lia. nia.
  - apply Nat2Z.inj_le. rewrite Z2Nat.id by lia. exact Hm.
  - apply Nat2Z.inj_le. rewrite Hbuf. rewrite Nat2Z.inj_mul, Nat2Z.inj_add, !Z2Nat.id by lia. nia.
Qed.

Lemma mod_add_inj T N i j :
  0 < N → 0 <= i < N → 0 <= j < N → (T + i) mod N = (T + j) mod N → i = j.
Proof.
  intros HN Hi Hj E.
  assert (Hd : (i - j) mod N = 0).
  { replace (i - j) with ((T + i) - (T + j)) by lia.
    rewrite Zminus_mod, E, Z.sub_diag. apply Z.mod_0_l. lia. }
  apply Z.mod_divide in Hd; [|lia]. destruct Hd as [z Hz].
  assert (z = 0); [|subst z; lia].
  destruct (Z_lt_le_dec z 1) as [H1|H1]; destruct (Z_lt_le_dec (-1) z) as [H2|H2]; nia.
Qed.

Lemma queue_wf_elim q :
  queue_wf q = true → queue_ok q = true ∧ q_Head q = (q_Tail q + MsgCount q) mod QSize q.
Proof.
  unfold queue_wf. intros H. apply andb_true_iff in H as [H1 H2].
  split; [exact H1|]. apply Z.eqb_eq, H2.
Qed.

Lemma send_q_wf q msg :
  queue_wf q = true → MsgCount q < QSize q → MsgSize q <= Z.of_nat (length msg) →
  queue_wf (send_q q msg) = true ∧
  queue_msgs (send_q q msg) = queue_msgs q ++ [take (Z.to_nat (MsgSize q)) msg].
Proof.
  intros Hwf Hroom Hm. destruct (queue_wf_elim q Hwf) as [Hok Hhead].
  pose proof (queue_ok_elim q Hok) as (Hms & Hqs & Hmc & Hqh & Hqt & Hbuf).
  split.
  - unfold queue_wf, queue_ok, send_q. cbn.
    pose proof (Z.mod_pos_bound (q_Head q + 1) (QSize q) ltac:(lia)) as Hb.
    assert (Hlen : Z.of_nat (length (slot_write q (q_Head q) msg)) = QSize q * MsgSize q).
    { unfold slot_write. rewrite !length_app, !length_take, length_drop.
      rewrite Nat2Z.inj_add, Nat2Z.inj_add. rewrite !Nat2Z.inj_min, Nat2Z.inj_sub_max.
      rewrite !Z2Nat.id by nia. rewrite Hbuf. nia. }
    rewrite Hlen.
    assert (Hh : (q_Head q + 1) mod QSize q = (q_Tail q + (MsgCount q + 1)) mod QSize q).
    { rewrite Hhead. rewrite Z.add_mod_idemp_l by lia. f_equal. lia. }
    rewrite Hh at 3. rewrite Z.eqb_refl.
    repeat (apply andb_true_iff; split); try (apply Z.ltb_lt; lia); try (apply Z.leb_le; lia);
      try (apply Z.eqb_eq; reflexivity); reflexivity.
  - unfold queue_msgs. unfold send_q at 2 3 4. cbn [MsgCount q_Tail QSize set_MsgCount set_q_Head set_Buffer].
    replace (Z.to_nat (MsgCount q + 1)) with (S (Z.to_nat (MsgCount q))) by lia.
    rewrite seq_S, fmap_app. cbn [fmap list_fmap "+"%nat]. f_equal.
    + apply list_fmap_ext. intros k i Hi.
      apply lookup_seq in Hi as [-> Hi]. cbn [plus].
      unfold send_q.
      assert (Eq : ∀ j, slot_read (set_MsgCount (MsgCount q + 1)
                          (set_q_Head ((q_Head q + 1) mod QSize q)
                             (set_Buffer (slot_write q (q_Head q) msg) q))) j
                      = slot_read (set_Buffer (slot_write q (q_Head q) msg) q) j)
        by reflexivity.
      rewrite Eq, slot_read_write; try assumption;
        [|apply Z.mod_pos_bound; lia].
      rewrite decide_False; [reflexivity|].
      rewrite Hhead. intros E.
      apply (mod_add_inj (q_Tail q) (QSize q)) in E; lia.
    + f_equal. unfold send_q.
      assert (Eq : ∀ j, slot_read (set_MsgCount (MsgCount q + 1)
                          (set_q_Head ((q_Head q + 1) mod QSize q)
                             (set_Buffer (slot_write q (q_Head q) msg) q))) j
                      = slot_read (set_Buffer (slot_write q (q_Head q) msg) q) j)
        by reflexivity.
      rewrite Eq, slot_read_write; try assumption; [|apply Z.mod_pos_bound; lia].
      rewrite decide_True; [reflexivity|]. rewrite Hhead. f_equal. lia.
Qed.

Lemma recv_q_wf q :
  queue_wf q = true → 0 < MsgCount q →
  queue_wf (recv_q q) = true ∧ queue_msgs q = slot_read q (q_Tail q) :: queue_msgs (recv_q q).
Proof.
  intros Hwf Hpos. destruct (queue_wf_elim q Hwf) as [Hok Hhead].
  pose proof (queue_ok_elim q Hok) as (Hms & Hqs & Hmc & Hqh & Hqt & Hbuf).
  pose proof (Z.mod_pos_bound (q_Tail q + 1) (QSize q) ltac:(lia)) as Hb.
  split.
  - unfold queue_wf, queue_ok, recv_q. cbn.
    assert (Hh : q_Head q = ((q_Tail q + 1) mod QSize q + (MsgCount q - 1)) mod QSize q).
    { rewrite Hhead. rewrite Z.add_mod_idemp_l by lia. f_equal. lia. }
    rewrite <- Hh, Z.eqb_refl.
    repeat (apply andb_true_iff; split); try (apply Z.ltb_lt; lia); try (apply Z.leb_le; lia);
      try (apply Z.eqb_eq; assumption); reflexivity.
  - unfold queue_msgs. cbn [MsgCount q_Tail QSize recv_q set_MsgCount set_q_Tail].
    replace (Z.to_nat (MsgCount q)) with (S (Z.to_nat (MsgCount q - 1))) by lia.
    cbn [seq fmap list_fmap]. f_equal.
    + f_equal. rewrite Z.add_0_r. apply Z.mod_small. lia.
    + rewrite <- seq_shift, <- list_fmap_compose. apply list_fmap_ext.
      intros k i Hi. cbn [compose].
      rewrite Z.add_mod_idemp_l by lia.
      change (slot_read (set_MsgCount (MsgCount q - 1)
                (set_q_Tail ((q_Tail q + 1) mod QSize q) q)))
        with (slot_read q).
      f_equal. f_equal. lia.
Qed.

Lemma queue_written_lookup s a q : queues (queue_written s a q) !! a = Some q.
Proof. unfold queue_written. cbn [queues set_queues set_irq_enabled]. apply lookup_insert_eq. Qed.

Lemma leave_queue_written s a q :
  0 <= g_CriticalNesting s < 2 ^ 32 - 1 →
  (let s1 := set_g_CriticalNesting (u32 (g_CriticalNesting s + 1)) (set_irq_enabled false s) in
   let n := u32 (g_CriticalNesting s1 - 1) in
   if n =? 0 then set_irq_enabled true
                    (set_g_CriticalNesting n (set_queues (<[a := q]> (queues s)) s1))
   else set_g_CriticalNesting n (set_queues (<[a := q]> (queues s)) s1))
  = queue_written s a q.
Proof.
  intros Hn. unfold queue_written.
  rewrite <- (critical_roundtrip (set_queues (<[a := q]> (queues s)) s) Hn).
  cbv zeta. cbn [g_CriticalNesting set_g_CriticalNesting set_irq_enabled set_queues].
  destruct (u32 (u32 (g_CriticalNesting s + 1) - 1) =? 0); reflexivity.
Qed.

Lemma rest_of_queue s s' a q :
  rest_of s' = rest_of s → queues s !! a = Some q →
  ∃ q', queues s' !! a = Some q' ∧
        set_WaitReadList empty_list q' = set_WaitReadList empty_list q.
Proof.
  intros E Hq. apply (f_equal queues) in E. cbn in E.
  pose proof (f_equal (λ m, m !! a) E) as Ea. cbn in Ea.
  rewrite !lookup_fmap, Hq in Ea.
  destruct (queues s' !! a) as [q'|]; [|discriminate]. cbn in Ea.
  exists q'. split; [reflexivity|]. congruence.
Qed.

Lemma queue_fields_eq q q' :
  set_WaitReadList empty_list q' = set_WaitReadList empty_list q →
  queue_msgs q' = queue_msgs q ∧ queue_wf q' = queue_wf q ∧
  MsgCount q' = MsgCount q ∧ QSize q' = QSize q.
Proof.
  destruct q, q'. unfold set_WaitReadList. cbn. intros E. injection E as -> -> -> -> -> ->.
  repeat split; reflexivity.
Qed.

(** [OS_QueueReceive] from a queue that holds a message. *)
Lemma QueueReceive_take_eq s a q :
  0 <= g_CriticalNesting s < 2 ^ 32 - 1 →
  queues s !! a = Some q → queue_ok q = true → 0 < MsgCount q →
  OS_QueueReceive (Some a) true s
  = (Ret (Returned (OS_OK, slot_read q (q_Tail q))), queue_written s a (recv_q q)).
Proof.
  intros Hn Hq Hok Hpos. destruct (enter_exit_nesting _ Hn) as [Hn1 Hn2].
  pose proof (queue_ok_elim q Hok) as (Hms & Hqs & Hmc & Hqh & Hqt & Hbuf).
  pose proof (Z.mod_pos_bound (q_Tail q + 1) (QSize q) ltac:(lia)) as Hb.
  apply wp_run_eq. unfold OS_QueueReceive, QueueReceive_Body.
  apply wp_bind, wp_OS_EnterCritical.
  apply wp_bind. eapply wp_load_queue; [exact Hq|].
  replace (MsgCount q =? 0) with false by (symmetry; apply Z.eqb_neq; lia).
  rewrite (memcpy_from_slot q (q_Tail q) Hok Hqt).
  replace (QSize q =? 0) with false by (symmetry; apply Z.eqb_neq; lia).
  apply wp_bind. eapply wp_store_queue; [exact Hq|].
  apply wp_bind. eapply wp_load_queue; [apply lookup_insert_eq|].
  apply wp_bind. eapply wp_store_queue; [apply lookup_insert_eq|].
  apply wp_bind. apply wp_OS_ExitCritical; [exact Hn1|].
  apply wp_ret. split; [reflexivity|].
  rewrite <- (leave_queue_written s a _ Hn).
  cbn [queues set_queues set_g_CriticalNesting set_irq_enabled g_CriticalNesting
       MsgCount set_q_Tail].
  rewrite insert_insert_eq. unfold recv_q, u16.
  rewrite !Z.mod_small by lia. reflexivity.
Qed.

(** [OS_QueueReceive] from an empty queue: the caller is parked. *)
Lemma wp_OS_QueueReceive_block s c a q cur tc :
  kernel_inv s c → 0 <= g_CriticalNesting s < 2 ^ 32 - 1 →
  CurrentTCB s = Some cur → tcbs s !! cur = Some tc →
  cur ∈ c (ReadyListAt (Priority tc)) →
  (∃ y p, y ≠ cur ∧ y ∈ c (ReadyListAt p)) →
  queues s !! a = Some q → MsgCount q = 0 →
  wp (OS_QueueReceive (Some a) true) (λ r s',
    r = Suspended ∧
    let p := Priority tc in
    let c' := <[QueueWaitReadList a := c (QueueWaitReadList a) ++ [cur]]>
                (<[ReadyListAt p := filter (λ y, y ≠ cur) (c (ReadyListAt p))]> c) in
    kernel_inv s' c' ∧
    (∀ y, fields s' y = if decide (y = cur) then set_State TASK_BLOCKED <$> fields s y
                        else fields s y) ∧
    rest_of s' = rest_of (set_irq_enabled (irq_after s) s) ∧
    swi_pending s' = true ∧
    NextTCB s' = head (c' (ReadyListAt (OS_GetTopPrio (g_PrioMap s'))))) s.
Proof.
  intros Hinv Hn Hcur Htc Hcin Hother Hq Hc.
  unfold OS_QueueReceive, QueueReceive_Body.
  apply wp_bind, wp_OS_EnterCritical.
  apply wp_bind. eapply wp_load_queue; [exact Hq|].
  rewrite Hc. cbn [Z.eqb].
  match goal with
  | |- wp ?m _ _ =>
      change m with (cur ← gets CurrentTCB;
                     store_tcb cur (set_State TASK_BLOCKED) ;;
                     OS_ReadyListRemove cur ;;
                     List_InsertTail (QueueWaitReadList a) cur ;;
                     next ← FindNextTask;
                     modify (set_NextTCB next) ;;
                     OS_Trigger_SWI ;;
                     (OS_ExitCritical ;; ret (@Suspended (OS_Status * list Z))))
  end.
  apply wp_block_on_then.
  eapply (wp_block_on_exit s c (QueueWaitReadList a) (WaitReadList q) cur tc);
    [exact Hinv|exact Hn|exact Hcur|exact Htc|exact Hcin| |discriminate|exact Hother|].
  { cbn. rewrite Hq. reflexivity. }
  cbv zeta. intros s' Hinv' Hf' Hr' Hswi' Hnx'. auto 10.
Qed.

(** [OS_QueueSend] to a full queue. *)
Lemma QueueSend_full_eq s a q msg :
  0 <= g_CriticalNesting s < 2 ^ 32 - 1 →
  queues s !! a = Some q → QSize q <= MsgCount q →
  OS_QueueSend (Some a) (Some msg) s = (Ret OS_ERR_Q_FULL, set_irq_enabled (irq_after s) s).
Proof.
  intros Hn Hq Hfull. destruct (enter_exit_nesting _ Hn) as [Hn1 Hn2].
  apply wp_run_eq. unfold OS_QueueSend.
  apply wp_bind, wp_OS_EnterCritical.
  apply wp_bind. eapply wp_load_queue; [exact Hq|].
  replace (MsgCount q >=? QSize q) with true by (symmetry; apply Z.geb_le; lia).
  apply wp_bind. apply wp_OS_ExitCritical; [exact Hn1|].
  apply wp_ret. split; [reflexivity|]. exact (critical_roundtrip s Hn).
Qed.

(** [OS_QueueSend] to a queue with room, whether or not a task waits to
    read: what becomes of the queue. *)
Lemma wp_OS_QueueSend_room s c a q msg :
  kernel_inv s c → 0 <= g_CriticalNesting s < 2 ^ 32 - 1 →
  queues s !! a = Some q → queue_ok q = true → MsgCount q < QSize q →
  MsgSize q <= Z.of_nat (length msg) →
  wp (OS_QueueSend (Some a) (Some msg)) (λ r s',
    r = OS_OK ∧
    ∃ q', queues s' !! a = Some q' ∧
          set_WaitReadList empty_list q' = set_WaitReadList empty_list (send_q q msg)) s.
Proof.
  intros Hinv Hn Hq Hok Hroom Hm. destruct (enter_exit_nesting _ Hn) as [Hn1 Hn2].
  pose proof (queue_ok_elim q Hok) as (Hms & Hqs & Hmc & Hqh & Hqt & Hbuf).
  pose proof (Z.mod_pos_bound (q_Head q + 1) (QSize q) ltac:(lia)) as Hb.
  set (q4 := send_q q msg).
  set (S := set_queues (<[a := q4]> (queues s)) s).
  assert (HinvS : kernel_inv S c).
  { eapply same_core_inv; [|exact Hinv].
    apply (same_core_store_queue s a q q4 Hq). reflexivity. }
  assert (HqS : queues S !! a = Some q4) by apply lookup_insert_eq.
  pose proof (proj1 (inv_lists _ _ Hinv) (QueueWaitReadList a)) as Hrep.
  cbn in Hrep. rewrite Hq in Hrep. cbn in Hrep.
  pose proof (repr_head _ _ _ Hrep) as HH.
  unfold OS_QueueSend.
  apply wp_bind, wp_OS_EnterCritical.
  apply wp_bind. eapply wp_load_queue; [exact Hq|].
  replace (MsgCount q >=? QSize q) with false
    by (symmetry; rewrite Z.geb_leb; apply Z.leb_gt; lia).
  rewrite (memcpy_to_slot q (q_Head q) msg Hok Hqh Hm).
  apply wp_bind. eapply wp_store_queue; [exact Hq|].
  apply wp_bind. eapply wp_load_queue; [apply lookup_insert_eq|].
  cbn [QSize set_Buffer].
  replace (QSize q =? 0) with false by (symmetry; apply Z.eqb_neq; lia).
  apply wp_bind. eapply wp_store_queue; [apply lookup_insert_eq|].
  apply wp_bind. eapply wp_load_queue; [apply lookup_insert_eq|].
  apply wp_bind. eapply wp_store_queue; [apply lookup_insert_eq|].
  apply wp_bind. eapply wp_load_queue; [apply lookup_insert_eq|].
  cbn [queues set_queues set_g_CriticalNesting set_irq_enabled q_Head MsgCount
       set_Buffer set_q_Head set_MsgCount WaitReadList].
  rewrite !insert_insert_eq.
  unfold u16. rewrite !Z.mod_small by lia. fold (send_q q msg). fold q4.
  match goal with |- wp _ _ ?s1 =>
    change s1 with (set_g_CriticalNesting (u32 (g_CriticalNesting S + 1))
                      (set_irq_enabled false S))
  end.
  destruct (c (QueueWaitReadList a)) as [|w rest] eqn:Hwl.
  - rewrite HH. cbn [head is_null negb].
    apply wp_bind, wp_ret.
    apply wp_bind. apply wp_OS_ExitCritical; [exact Hn1|].
    apply wp_ret. split; [reflexivity|]. exists q4. split; [|reflexivity].
    cbv zeta. destruct (_ =? 0); exact HqS.
  - rewrite HH. cbn [head is_null negb].
    assert (Hwin : w ∈ c (QueueWaitReadList a)) by (rewrite Hwl; apply list_elem_of_here).
    destruct (lists_ok_in_heap _ _ _ _ (inv_lists _ _ Hinv) Hwin) as [tw Htw].
    change (bind (List_PopHead _) _) with (wake_head (QueueWaitReadList a)).
    apply wp_bind.
    eapply (wp_wake_head_exit S c (QueueWaitReadList a) w rest tw);
      [exact HinvS|exact Hn|exact Hwl|discriminate|exact Htw|].
    cbv zeta. intros s' _ _ Hr' _ _. split; [reflexivity|].
    exact (rest_of_queue _ _ a q4 Hr' HqS).
Qed.

(** X16.  A queue is first in, first out.  Read as the sequence of the
    messages it holds, oldest first ([queue_msgs]: the [MsgCount] slots of
    the ring buffer from the read index on), a queue that [OS_QueueInit]
    has set up over a buffer of [queue_size] slots of [msg_size] bytes is
    empty; [OS_QueueSend] appends the first [msg_size] bytes of the message
    to the sequence, or returns [OS_ERR_Q_FULL] and changes nothing when
    the sequence has [queue_size] messages; [OS_QueueReceive] on a queue
    that holds a message returns the oldest one without suspending the
    caller and removes it.  The geometry of the queue, its indices within
    the capacity and the write index the read index advanced by the count,
    is kept by all three. *)
Theorem queue_is_fifo :
  (∀ s a q0 b ms qs,
     queues s !! a = Some q0 → 0 < ms < 2 ^ 16 → 0 < qs < 2 ^ 16 →
     Z.of_nat (length b) = qs * ms →
     ∃ s' q, OS_QueueInit (Some a) (Some b) ms qs s = (Ret tt, s') ∧
             queues s' !! a = Some q ∧ queue_wf q = true ∧ queue_msgs q = [] ∧
             MsgSize q = ms ∧ QSize q = qs) ∧
  (∀ s a q msg,
     kernel_ok s = true → queues s !! a = Some q → queue_wf q = true →
     MsgSize q <= Z.of_nat (length msg) →
     if decide (Z.of_nat (length (queue_msgs q)) = QSize q)
     then OS_QueueSend (Some a) (Some msg) s
          = (Ret OS_ERR_Q_FULL, set_irq_enabled (irq_after s) s)
     else ∃ s' q', OS_QueueSend (Some a) (Some msg) s = (Ret OS_OK, s') ∧
                   queues s' !! a = Some q' ∧ queue_wf q' = true ∧
                   queue_msgs q' = queue_msgs q ++ [take (Z.to_nat (MsgSize q)) msg] ∧
                   MsgSize q' = MsgSize q ∧ QSize q' = QSize q) ∧
  (∀ s a q m rest,
     0 <= g_CriticalNesting s < 2 ^ 32 - 1 →
     queues s !! a = Some q → queue_wf q = true → queue_msgs q = m :: rest →
     ∃ q', OS_QueueReceive (Some a) true s
           = (Ret (Returned (OS_OK, m)), queue_written s a q') ∧
           queue_wf q' = true ∧ queue_msgs q' = rest ∧
           MsgSize q' = MsgSize q ∧ QSize q' = QSize q).
Proof.
  assert (Hlen : ∀ q, queue_ok q = true →
            Z.of_nat (length (queue_msgs q)) = MsgCount q).
  { intros q Hok. pose proof (queue_ok_elim q Hok) as (_ & _ & Hmc & _).
    unfold queue_msgs. rewrite length_fmap, length_seq. lia. }
  split; [|split].
  - intros s a q0 b ms qs Hq Hms Hqs Hb.
    exists (set_queues (<[a := mkQueue b ms qs 0 0 0 empty_list]> (queues s)) s),
           (mkQueue b ms qs 0 0 0 empty_list).
    split.
    { apply wp_run_eq. unfold OS_QueueInit.
      replace ((ms =? 0) || (qs =? 0)) with false
        by (symmetry; apply orb_false_iff; split; apply Z.eqb_neq; lia).
      apply wp_bind. eapply wp_store_queue; [exact Hq|].
      do 5 (apply wp_bind; eapply wp_store_queue; [apply lookup_insert_eq|]).
      unfold List_Init.
      apply wp_bind. eapply wp_store_list.
      { cbn. rewrite lookup_insert_eq. reflexivity. }
      eapply wp_store_list.
      { cbn. rewrite lookup_alter_eq, lookup_insert_eq. reflexivity. }
      split; [reflexivity|].
      cbn [set_list queues set_queues]. rewrite !insert_insert_eq.
      rewrite !alter_insert_eq. reflexivity. }
    split; [apply lookup_insert_eq|].
    split; [|split; [reflexivity|split; reflexivity]].
    unfold queue_wf, queue_ok. cbn.
    rewrite Z.mod_0_l by lia. rewrite Hb, Z.eqb_refl.
    repeat (apply andb_true_iff; split); try (apply Z.ltb_lt; lia); try (apply Z.leb_le; lia);
      reflexivity.
  - intros s a q msg Hk Hq Hwf Hm.
    destruct (kernel_ok_sound s Hk) as [Hinv Hn].
    destruct (queue_wf_elim q Hwf) as [Hok _].
    pose proof (queue_ok_elim q Hok) as (_ & _ & Hmc & _).
    rewrite (Hlen q Hok).
    destruct (decide (MsgCount q = QSize q)) as [Hfull|Hroom].
    + apply (QueueSend_full_eq s a q msg Hn Hq). lia.
    + assert (Hr : MsgCount q < QSize q) by lia.
      pose proof (wp_OS_QueueSend_room s (contents s) a q msg Hinv Hn Hq Hok Hr Hm) as Hwp.
      apply wp_elim in Hwp as (r & s' & Hrun & -> & q' & Hq' & Eq).
      destruct (send_q_wf q msg Hwf Hr Hm) as [Hwf4 Hmsgs4].
      assert (Eq' : set_WaitReadList empty_list q'
                    = set_WaitReadList empty_list (send_q q msg)) by exact Eq.
      destruct (queue_fields_eq _ _ Eq') as (E1 & E2 & _ & E4).
      exists s', q'. split; [exact Hrun|]. split; [exact Hq'|].
      split; [rewrite E2; exact Hwf4|]. split; [rewrite E1; exact Hmsgs4|].
      split; [exact (f_equal MsgSize Eq')|exact E4].
  - intros s a q m rest Hn Hq Hwf Hmsgs.
    destruct (queue_wf_elim q Hwf) as [Hok _].
    assert (Hpos : 0 < MsgCount q).
    { pose proof (Hlen q Hok) as E. rewrite Hmsgs in E. cbn [length] in E. lia. }
    destruct (recv_q_wf q Hwf Hpos) as [Hwf' Hmsgs'].
    rewrite Hmsgs in Hmsgs'. injection Hmsgs' as -> ->.
    exists (recv_q q).
    split; [exact (QueueReceive_take_eq s a q Hn Hq Hok Hpos)|].
    split; [exact Hwf'|]. split; [reflexivity|]. split; reflexivity.
Qed.

Lemma queue_is_fifo_witness :
  let s := exec scenario_E app_memory in
  let s2 := exec (OS_QueueSend (Some 1%nat) (Some [1; 2; 3; 4; 5])) s in
  (queue_msgs <$> queues s !! 1%nat) = Some [] ∧
  (∃ s' q', OS_QueueSend (Some 1%nat) (Some [1; 2; 3; 4; 5]) s = (Ret OS_OK, s') ∧
            queues s' !! 1%nat = Some q' ∧ queue_msgs q' = [[1; 2; 3; 4]]) ∧
  (∃ q', OS_QueueReceive (Some 1%nat) true s2
         = (Ret (Returned (OS_OK, [1; 2; 3; 4])), queue_written s2 1 q') ∧
         queue_msgs q' = []).
Proof.
  intros s s2.
  set (q := mkQueue (replicate 8 0) 4 2 0 0 0 (mkList (Some 1%nat) (Some 1%nat))).
  set (q2 := mkQueue [1; 2; 3; 4; 0; 0; 0; 0] 4 2 1 1 0 empty_list).
  assert (Hk : kernel_ok s = true) by (vm_compute; reflexivity).
  assert (Hq : queues s !! 1%nat = Some q) by (vm_compute; reflexivity).
  assert (Hwf : queue_wf q = true) by (vm_compute; reflexivity).
  assert (Hm : MsgSize q <= Z.of_nat (length [1; 2; 3; 4; 5])) by (vm_compute; congruence).
  assert (Hn2 : 0 <= g_CriticalNesting s2 < 2 ^ 32 - 1) by (vm_compute; split; congruence).
  assert (Hq2 : queues s2 !! 1%nat = Some q2) by (vm_compute; reflexivity).
  assert (Hwf2 : queue_wf q2 = true) by (vm_compute; reflexivity).
  assert (Hm2 : queue_msgs q2 = [[1; 2; 3; 4]]) by (vm_compute; reflexivity).
  destruct queue_is_fifo as (_ & Hsend & Hrecv).
  specialize (Hsend s 1%nat q [1; 2; 3; 4; 5] Hk Hq Hwf Hm).
  rewrite decide_False in Hsend by (vm_compute; congruence).
  destruct Hsend as (s' & q' & Hrun & Hq' & _ & Hmsgs & _).
  destruct (Hrecv s2 1%nat q2 [1; 2; 3; 4] [] Hn2 Hq2 Hwf2 Hm2) as (q3 & Hrun3 & _ & Hm3 & _).
  split; [rewrite Hq; reflexivity|].
  split; [exists s', q'; split; [exact Hrun|]; split; [exact Hq'|exact Hmsgs]|].
  exists q3. split; [exact Hrun3|exact Hm3].
Defined.

(** X17.  [OS_QueueReceive] when there is nothing to take.  A null queue
    or a null buffer gives [OS_ERR_PARAM].  On an empty queue the running
    task is suspended inside the call: it is blocked and goes from the
    ready list of its priority to the tail of the queue's list of waiting
    readers; the queue itself is not touched, [NextTCB] is the
    highest-priority ready task and a switch is requested. *)
Theorem OS_QueueReceive_empty :
  (∀ s b, OS_QueueReceive None b s = (Ret (Returned (OS_ERR_PARAM, [])), s)) ∧
  (∀ s a, OS_QueueReceive (Some a) false s = (Ret (Returned (OS_ERR_PARAM, [])), s)) ∧
  (∀ s a q cur,
     kernel_ok s = true → current_ready s = true → CurrentTCB s = Some cur →
     other_ready s cur = true → queues s !! a = Some q → MsgCount q = 0 →
     let s' := exec (OS_QueueReceive (Some a) true) s in
     let p := prio_val s cur in
     result (OS_QueueReceive (Some a) true) s = Ret Suspended ∧
     contents s' (QueueWaitReadList a) = contents s (QueueWaitReadList a) ++ [cur] ∧
     contents s' (ReadyListAt p) = filter (λ y, y ≠ cur) (contents s (ReadyListAt p)) ∧
     (∀ r, r ≠ QueueWaitReadList a → r ≠ ReadyListAt p → contents s' r = contents s r) ∧
     state_of s' cur = Some TASK_BLOCKED ∧
     (∀ y, y ≠ cur → state_of s' y = state_of s y) ∧
     (∃ q', queues s' !! a = Some q' ∧
            set_WaitReadList empty_list q' = set_WaitReadList empty_list q) ∧
     CurrentTCB s' = Some cur ∧ swi_pending s' = true ∧
     NextTCB s' = head (contents s' (ReadyListAt (OS_GetTopPrio (g_PrioMap s')))) ∧
     kernel_inv s' (contents s')).
Proof.
  split; [intros s []; reflexivity|]. split; [reflexivity|].
  intros s a q cur Hk Hcr Hcur Hother Hq Hc s' p.
  destruct (kernel_ok_sound s Hk) as [Hinv Hn].
  destruct (current_task s cur Hk Hcr Hcur) as (tc & Htc & Hcin & Hp).
  fold p in Hp.
  pose proof (wp_OS_QueueReceive_block s (contents s) a q cur tc Hinv Hn Hcur Htc Hcin
                (other_ready_sound s cur Hother) Hq Hc) as Hwp.
  apply wp_run in Hwp as (r & Hres & -> & Hinv' & Hf & Hrest & Hswi & Hnx).
  fold s' in Hinv', Hf, Hrest, Hswi, Hnx. rewrite <- Hp in Hinv', Hnx.
  pose proof (λ r, lists_ok_contents _ _ r (inv_lists _ _ Hinv')) as Hcont.
  split; [exact Hres|].
  split; [rewrite Hcont; apply fn_lookup_insert|].
  split.
  { rewrite Hcont, fn_lookup_insert_ne by discriminate. apply fn_lookup_insert. }
  split.
  { intros r Hr1 Hr2. rewrite Hcont, !fn_lookup_insert_ne by congruence. reflexivity. }
  split.
  { eapply state_of_fields_set; [eauto|]. rewrite Hf, decide_True by reflexivity. reflexivity. }
  split.
  { intros y Hy. apply fields_state_of. rewrite Hf, decide_False by exact Hy. reflexivity. }
  split; [exact (rest_of_queue _ _ a q Hrest Hq)|].
  split; [rewrite (rest_of_CurrentTCB _ _ Hrest); exact Hcur|].
  split; [exact Hswi|].
  split; [rewrite Hnx, Hcont; reflexivity|].
  eapply kernel_inv_self, Hinv'.
Qed.

Lemma OS_QueueReceive_empty_witness :
  let s := exec scenario_E app_memory in
  let s' := exec (OS_QueueReceive (Some 1%nat) true) s in
  CurrentTCB s = Some 2%nat ∧ contents s (QueueWaitReadList 1) = [1%nat] ∧
  result (OS_QueueReceive (Some 1%nat) true) s = Ret Suspended ∧
  contents s' (QueueWaitReadList 1) = [1; 2]%nat ∧
  state_of s' 2 = Some TASK_BLOCKED.
Proof.
  intros s s'.
  assert (Hk : kernel_ok s = true) by (vm_compute; reflexivity).
  assert (Hcr : current_ready s = true) by (vm_compute; reflexivity).
  assert (Hcur : CurrentTCB s = Some 2%nat) by (vm_compute; reflexivity).
  assert (Ho : other_ready s 2 = true) by (vm_compute; reflexivity).
  assert (Hq : queues s !! 1%nat
               = Some (mkQueue (replicate 8 0) 4 2 0 0 0 (mkList (Some 1%nat) (Some 1%nat))))
    by (vm_compute; reflexivity).
  assert (Hw : contents s (QueueWaitReadList 1) = [1%nat]) by (vm_compute; reflexivity).
  destruct (proj2 (proj2 OS_QueueReceive_empty) s 1%nat _ 2%nat Hk Hcr Hcur Ho Hq eq_refl)
    as (R & E1 & _ & _ & E2 & _).
  fold s' in R, E1, E2. rewrite Hw in E1.
  split; [exact Hcur|]. split; [exact Hw|]. split; [exact R|]. split; [exact E1|exact E2].
Defined.

(** ** Memory pools *)

Lemma link_blocks_below n : ∀ p bs r a,
  0 < bs → a < p → link_blocks n p bs r !! a = r !! a.
Proof.
  induction n as [|n IH]; intros p bs r a Hbs Ha; cbn [link_blocks].
  - apply lookup_insert_ne. lia.
  - rewrite IH by lia. apply lookup_insert_ne. lia.
Qed.

Lemma link_blocks_above n : ∀ p bs r a,
  0 < bs → p + Z.of_nat n * bs < a → link_blocks n p bs r !! a = r !! a.
Proof.
  induction n as [|n IH]; intros p bs r a Hbs Ha; cbn [link_blocks].
  - apply lookup_insert_ne. lia.
  - rewrite IH by lia. apply lookup_insert_ne. nia.
Qed.

Lemma free_chain_link_blocks n : ∀ p bs r,
  0 < p → 0 < bs →
  free_chain (S n) (link_blocks n p bs r) p
  = (λ i, p + Z.of_nat i * bs) <$> seq 0 (S n).
Proof.
  induction n as [|n IH]; intros p bs r Hp Hbs.
  - cbn. replace (p =? 0) with false by (symmetry; apply Z.eqb_neq; lia).
    f_equal. lia.
  - cbn [link_blocks]. remember (S n) as k. cbn [free_chain].
    replace (p =? 0) with false by (symmetry; apply Z.eqb_neq; lia).
    rewrite link_blocks_below by lia. rewrite lookup_insert_eq. cbn [default].
    subst k. unfold id. rewrite IH by lia.
    change (seq 0 (S (S n))) with (0%nat :: seq 1 (S n)).
    rewrite <- (seq_shift (S n) 0), fmap_cons. f_equal; [lia|].
    rewrite <- list_fmap_compose. apply list_fmap_ext. intros _ i _. cbn [compose]. lia.
Qed.

Lemma MemInit_Link_run n : ∀ p bs s,
  0 <= p → 0 < bs → p + Z.of_nat n * bs < 2 ^ 32 →
  (p_block ← MemInit_Link n p bs; store_word p_block 0) s
  = (Ret tt, set_ram (link_blocks n p bs (ram s)) s).
Proof.
  induction n as [|n IH]; intros p bs s Hp Hbs Hn.
  - reflexivity.
  - cbn [MemInit_Link link_blocks].
    assert (Eu : u32 (p + bs) = p + bs) by (unfold u32; apply Z.mod_small; nia).
    rewrite Eu.
    transitivity ((p_block ← MemInit_Link n (p + bs) bs; store_word p_block 0)
                    (set_ram (<[p := p + bs]> (ram s)) s)); [reflexivity|].
    rewrite IH by nia. reflexivity.
Qed.

Lemma link_blocks_other n : ∀ p bs r x,
  (∀ i, (i ≤ n)%nat → x ≠ p + Z.of_nat i * bs) → link_blocks n p bs r !! x = r !! x.
Proof.
  induction n as [|n IH]; intros p bs r x Hx; cbn [link_blocks].
  - apply lookup_insert_ne. specialize (Hx 0%nat ltac:(lia)). lia.
  - rewrite IH.
    + apply lookup_insert_ne. specialize (Hx 0%nat ltac:(lia)). lia.
    + intros i Hi. specialize (Hx (S i) ltac:(lia)). lia.
Qed.

Lemma free_chain_insert n : ∀ r p b v,
  b ∉ free_chain n r p → free_chain n (<[b := v]> r) p = free_chain n r p.
Proof.
  induction n as [|n IH]; intros r p b v Hb; cbn [free_chain] in *; [reflexivity|].
  destruct (p =? 0); [reflexivity|].
  apply not_elem_of_cons in Hb as [Hne Hb].
  rewrite lookup_insert_ne by congruence. f_equal. apply IH. exact Hb.
Qed.

Lemma pool_written_lookup s a m : pools (pool_written s a m) !! a = Some m.
Proof. unfold pool_written. cbn [pools set_pools set_irq_enabled]. apply lookup_insert_eq. Qed.

Lemma leave_pool_written s a m :
  0 <= g_CriticalNesting s < 2 ^ 32 - 1 →
  (let s1 := set_g_CriticalNesting (u32 (g_CriticalNesting s + 1)) (set_irq_enabled false s) in
   let n := u32 (g_CriticalNesting s1 - 1) in
   if n =? 0 then set_irq_enabled true
                    (set_g_CriticalNesting n (set_pools (<[a := m]> (pools s)) s1))
   else set_g_CriticalNesting n (set_pools (<[a := m]> (pools s)) s1))
  = pool_written s a m.
Proof.
  intros Hn. unfold pool_written.
  rewrite <- (critical_roundtrip (set_pools (<[a := m]> (pools s)) s) Hn).
  cbv zeta. cbn [g_CriticalNesting set_g_CriticalNesting set_irq_enabled set_pools].
  destruct (u32 (u32 (g_CriticalNesting s + 1) - 1) =? 0); reflexivity.
Qed.

(** [OS_MemInit] with arguments it accepts. *)
Lemma MemInit_eq s a m0 start blocks bs :
  pools s !! a = Some m0 → 0 < start → 0 < blocks → 4 <= bs →
  start + blocks * bs <= 2 ^ 32 →
  OS_MemInit (Some a) start blocks bs s = (Ret tt, pool_linked s a start blocks bs).
Proof.
  intros Hm Hs Hb Hbs Hend.
  apply wp_run_eq. unfold OS_MemInit.
  replace ((start =? 0) || (blocks =? 0) || (bs <? 4)) with false.
  2:{ symmetry. rewrite !orb_false_iff. repeat split;
        [apply Z.eqb_neq; lia|apply Z.eqb_neq; lia|apply Z.ltb_ge; lia]. }
  apply wp_bind. eapply wp_store_pool; [exact Hm|].
  do 4 (apply wp_bind; eapply wp_store_pool; [apply lookup_insert_eq|]).
  unfold List_Init.
  apply wp_bind. apply wp_bind. eapply wp_store_list.
  { cbn. rewrite lookup_insert_eq. reflexivity. }
  eapply wp_store_list.
  { cbn. rewrite lookup_alter_eq, lookup_insert_eq. reflexivity. }
  cbn [set_list pools set_pools]. rewrite !insert_insert_eq, !alter_insert_eq.
  eapply wp_intro.
  { apply MemInit_Link_run; [lia|lia|].
    rewrite Z2Nat.id by lia. nia. }
  split; [reflexivity|]. reflexivity.
Qed.

(** [OS_MemGet] from a pool whose free count is not zero. *)
Lemma MemGet_take_eq s a m :
  0 <= g_CriticalNesting s < 2 ^ 32 - 1 →
  pools s !! a = Some m → 0 < FreeBlocks m < 2 ^ 32 →
  OS_MemGet (Some a) s = (Ret (Returned (FreeList m)), pool_written s a (get_m s m)).
Proof.
  intros Hn Hm Hfb. destruct (enter_exit_nesting _ Hn) as [Hn1 Hn2].
  apply wp_run_eq. unfold OS_MemGet, MemGet_Body.
  apply wp_bind, wp_OS_EnterCritical.
  apply wp_bind. eapply wp_load_pool; [exact Hm|].
  replace (FreeBlocks m =? 0) with false by (symmetry; apply Z.eqb_neq; lia).
  cbv zeta.
  apply wp_bind. unfold load_word. apply wp_gets.
  apply wp_bind. eapply wp_store_pool; [exact Hm|].
  apply wp_bind. eapply wp_load_pool; [apply lookup_insert_eq|].
  apply wp_bind. eapply wp_store_pool; [apply lookup_insert_eq|].
  apply wp_bind. apply wp_OS_ExitCritical; [exact Hn1|].
  apply wp_ret. split; [reflexivity|].
  rewrite <- (leave_pool_written s a _ Hn).
  cbn [pools set_pools set_g_CriticalNesting set_irq_enabled g_CriticalNesting ram
       FreeBlocks set_FreeList set_FreeBlocks].
  rewrite insert_insert_eq. unfold get_m, u32.
  rewrite (Z.mod_small (FreeBlocks m - 1)) by lia. reflexivity.
Qed.

Lemma rest_of_pool s s' a m :
  rest_of s' = rest_of s → pools s !! a = Some m →
  ∃ m', pools s' !! a = Some m' ∧
        set_mem_WaitList empty_list m' = set_mem_WaitList empty_list m.
Proof.
  intros E Hm. apply (f_equal pools) in E. cbn in E.
  pose proof (f_equal (λ k, k !! a) E) as Ea. cbn in Ea.
  rewrite !lookup_fmap, Hm in Ea.
  destruct (pools s' !! a) as [m'|]; [|discriminate]. cbn in Ea.
  exists m'. split; [reflexivity|]. congruence.
Qed.

Lemma pool_fields_eq m m' :
  set_mem_WaitList empty_list m' = set_mem_WaitList empty_list m →
  Addr m' = Addr m ∧ FreeList m' = FreeList m ∧ BlockSize m' = BlockSize m ∧
  TotalBlocks m' = TotalBlocks m ∧ FreeBlocks m' = FreeBlocks m.
Proof.
  destruct m, m'. unfold set_mem_WaitList. cbn. intros E. injection E as -> -> -> -> ->.
  repeat split; reflexivity.
Qed.

(** [OS_MemGet] from a pool with no free block: the caller is parked. *)
Lemma wp_OS_MemGet_block s c a m cur tc :
  kernel_inv s c → 0 <= g_CriticalNesting s < 2 ^ 32 - 1 →
  CurrentTCB s = Some cur → tcbs s !! cur = Some tc →
  cur ∈ c (ReadyListAt (Priority tc)) →
  (∃ y p, y ≠ cur ∧ y ∈ c (ReadyListAt p)) →
  pools s !! a = Some m → FreeBlocks m = 0 →
  wp (OS_MemGet (Some a)) (λ r s',
    r = Suspended ∧
    let p := Priority tc in
    let c' := <[MemWaitList a := c (MemWaitList a) ++ [cur]]>
                (<[ReadyListAt p := filter (λ y, y ≠ cur) (c (ReadyListAt p))]> c) in
    kernel_inv s' c' ∧
    (∀ y, fields s' y = if decide (y = cur) then set_State TASK_BLOCKED <$> fields s y
                        else fields s y) ∧
    rest_of s' = rest_of (set_irq_enabled (irq_after s) s) ∧
    swi_pending s' = true ∧
    NextTCB s' = head (c' (ReadyListAt (OS_GetTopPrio (g_PrioMap s'))))) s.
Proof.
  intros Hinv Hn Hcur Htc Hcin Hother Hm Hc.
  unfold OS_MemGet, MemGet_Body.
  apply wp_bind, wp_OS_EnterCritical.
  apply wp_bind. eapply wp_load_pool; [exact Hm|].
  rewrite Hc. cbn [Z.eqb].
  match goal with
  | |- wp ?m _ _ =>
      change m with (cur ← gets CurrentTCB;
                     store_tcb cur (set_State TASK_BLOCKED) ;;
                     OS_ReadyListRemove cur ;;
                     List_InsertTail (MemWaitList a) cur ;;
                     next ← FindNextTask;
                     modify (set_NextTCB next) ;;
                     OS_Trigger_SWI ;;
                     (OS_ExitCritical ;; ret (@Suspended Z)))
  end.
  apply wp_block_on_then.
  eapply (wp_block_on_exit s c (MemWaitList a) (mem_WaitList m) cur tc);
    [exact Hinv|exact Hn|exact Hcur|exact Htc|exact Hcin| |discriminate|exact Hother|].
  { cbn. rewrite Hm. reflexivity. }
  cbv zeta. intros s' Hinv' Hf' Hr' Hswi' Hnx'. auto 10.
Qed.

(** X18.  [OS_MemInit] returns without touching anything when the pool
    pointer or the start address is null, the block count is zero or a
    block is smaller than a pointer.  Otherwise, for a region that lies
    in the 32-bit address space, it sets every field of the pool and
    threads the free list through the first word of each block: the free
    blocks are all [blocks] blocks of the region in ascending address
    order, the wait list is empty, and no word of RAM other than the
    first word of each block is written. *)
Theorem OS_MemInit_free_list :
  (∀ s p start blocks bs,
     p = None ∨ start = 0 ∨ blocks = 0 ∨ bs < 4 →
     OS_MemInit p start blocks bs s = (Ret tt, s)) ∧
  (∀ s a m0 start blocks bs,
     pools s !! a = Some m0 → 0 < start → 0 < blocks → 4 <= bs →
     start + blocks * bs <= 2 ^ 32 →
     let s' := pool_linked s a start blocks bs in
     let m := fresh_pool start blocks bs in
     OS_MemInit (Some a) start blocks bs s = (Ret tt, s') ∧
     pools s' !! a = Some m ∧
     free_blocks s' m = (λ i, start + Z.of_nat i * bs) <$> seq 0 (Z.to_nat blocks) ∧
     (∀ x, (∀ i, 0 <= i < blocks → x ≠ start + i * bs) → ram s' !! x = ram s !! x)).
Proof.
  split.
  - intros s p start blocks bs H. unfold OS_MemInit.
    destruct p as [a|]; [|reflexivity].
    destruct H as [H|[->|[->|H]]]; [discriminate|reflexivity| |].
    + rewrite orb_true_r. reflexivity.
    + replace (bs <? 4) with true by (symmetry; apply Z.ltb_lt; exact H).
      rewrite orb_true_r. reflexivity.
  - intros s a m0 start blocks bs Hm Hs Hb Hbs Hend s' m.
    split; [exact (MemInit_eq s a m0 start blocks bs Hm Hs Hb Hbs Hend)|].
    split; [apply lookup_insert_eq|].
    split.
    + unfold free_blocks, s', m, pool_linked, fresh_pool.
      cbn [FreeBlocks FreeList ram set_ram].
      replace (Z.to_nat blocks) with (S (Z.to_nat (blocks - 1))) by lia.
      apply free_chain_link_blocks; lia.
    + intros x Hx. unfold s', pool_linked. cbn [ram set_ram set_pools].
      apply link_blocks_other. intros i Hi. apply Hx. lia.
Qed.

Lemma OS_MemInit_free_list_witness :
  let s' := pool_linked app_memory 1 0x20000000 4 32 in
  OS_MemInit (Some 1%nat) 0x20000000 4 32 app_memory = (Ret tt, s') ∧
  free_blocks s' (fresh_pool 0x20000000 4 32)
  = [0x20000000; 0x20000020; 0x20000040; 0x20000060].
Proof.
  intros s'.
  assert (Hm : pools app_memory !! 1%nat = Some zero_pool) by (vm_compute; reflexivity).
  destruct (proj2 OS_MemInit_free_list app_memory 1%nat zero_pool 0x20000000 4 32 Hm
              ltac:(lia) ltac:(lia) ltac:(lia) ltac:(lia)) as (E1 & _ & E2 & _).
  split; [exact E1|exact E2].
Defined.

(** X19.  [OS_MemGet] on a null pool returns the null pointer and touches
    nothing.  On a pool with a free block it returns the head of the free
    list without suspending the caller, makes the link stored in that
    block the new head and decrements the free count: the free list loses
    its first block and nothing else of the state changes (the interrupt
    mask apart, as at the end of any critical section).  On a pool
    whose free count is zero the calling task is suspended inside the
    call: it is blocked and goes from the ready list of its priority to
    the tail of the pool's wait list, the pool itself is not touched,
    [NextTCB] is the highest-priority ready task and a switch is
    requested. *)
Theorem OS_MemGet_spec :
  (∀ s, OS_MemGet None s = (Ret (Returned 0), s)) ∧
  (∀ s a m b rest,
     0 <= g_CriticalNesting s < 2 ^ 32 - 1 →
     pools s !! a = Some m → FreeBlocks m < 2 ^ 32 →
     free_blocks s m = b :: rest →
     let s' := pool_written s a (get_m s m) in
     OS_MemGet (Some a) s = (Ret (Returned b), s') ∧
     b ≠ 0 ∧ free_blocks s' (get_m s m) = rest ∧
     FreeBlocks (get_m s m) = FreeBlocks m - 1) ∧
  (∀ s a m cur,
     kernel_ok s = true → current_ready s = true → CurrentTCB s = Some cur →
     other_ready s cur = true → pools s !! a = Some m → FreeBlocks m = 0 →
     let s' := exec (OS_MemGet (Some a)) s in
     let p := prio_val s cur in
     result (OS_MemGet (Some a)) s = Ret Suspended ∧
     contents s' (MemWaitList a) = contents s (MemWaitList a) ++ [cur] ∧
     contents s' (ReadyListAt p) = filter (λ y, y ≠ cur) (contents s (ReadyListAt p)) ∧
     (∀ r, r ≠ MemWaitList a → r ≠ ReadyListAt p → contents s' r = contents s r) ∧
     state_of s' cur = Some TASK_BLOCKED ∧
     (∀ y, y ≠ cur → state_of s' y = state_of s y) ∧
     (∃ m', pools s' !! a = Some m' ∧
            set_mem_WaitList empty_list m' = set_mem_WaitList empty_list m) ∧
     ram s' = ram s ∧
     CurrentTCB s' = Some cur ∧ swi_pending s' = true ∧
     NextTCB s' = head (contents s' (ReadyListAt (OS_GetTopPrio (g_PrioMap s')))) ∧
     kernel_inv s' (contents s')).
Proof.
  split; [reflexivity|]. split.
  - intros s a m b rest Hn Hm Hfb Hfree s'.
    unfold free_blocks in Hfree.
    destruct (Z.to_nat (FreeBlocks m)) as [|n] eqn:En; [discriminate|].
    cbn [free_chain] in Hfree.
    destruct (Z.eqb_spec (FreeList m) 0) as [|Hne]; [discriminate|].
    injection Hfree as Hb Hrest.
    split; [rewrite <- Hb; apply MemGet_take_eq; [exact Hn|exact Hm|lia]|].
    split; [congruence|].
    split; [|reflexivity].
    unfold free_blocks, s', pool_written, get_m.
    cbn [FreeBlocks FreeList set_FreeBlocks set_FreeList ram set_irq_enabled set_pools].
    replace (Z.to_nat (FreeBlocks m - 1)) with n by lia. exact Hrest.
  - intros s a m cur Hk Hcr Hcur Hother Hm Hc s' p.
    destruct (kernel_ok_sound s Hk) as [Hinv Hn].
    destruct (current_task s cur Hk Hcr Hcur) as (tc & Htc & Hcin & Hp).
    fold p in Hp.
    pose proof (wp_OS_MemGet_block s (contents s) a m cur tc Hinv Hn Hcur Htc Hcin
                  (other_ready_sound s cur Hother) Hm Hc) as Hwp.
    apply wp_run in Hwp as (r & Hres & -> & Hinv' & Hf & Hrest & Hswi & Hnx).
    fold s' in Hinv', Hf, Hrest, Hswi, Hnx. rewrite <- Hp in Hinv', Hnx.
    pose proof (λ r, lists_ok_contents _ _ r (inv_lists _ _ Hinv')) as Hcont.
    split; [exact Hres|].
    split; [rewrite Hcont; apply fn_lookup_insert|].
    split.
    { rewrite Hcont, fn_lookup_insert_ne by discriminate. apply fn_lookup_insert. }
    split.
    { intros r Hr1 Hr2. rewrite Hcont, !fn_lookup_insert_ne by congruence. reflexivity. }
    split.
    { eapply state_of_fields_set; [eauto|]. rewrite Hf, decide_True by reflexivity. reflexivity. }
    split.
    { intros y Hy. apply fields_state_of. rewrite Hf, decide_False by exact Hy. reflexivity. }
    split; [exact (rest_of_pool _ _ a m Hrest Hm)|].
    split; [exact (f_equal ram Hrest)|].
    split; [rewrite (rest_of_CurrentTCB _ _ Hrest); exact Hcur|].
    split; [exact Hswi|].
    split; [rewrite Hnx, Hcont; reflexivity|].
    eapply kernel_inv_self, Hinv'.
Qed.

Lemma OS_MemGet_spec_witness :
  let s := exec scenario_F app_memory in
  let e := exec (ignore (by_task 1 (OS_MemGet (Some 1%nat))) ;;
                 ignore (by_task 1 (OS_MemGet (Some 1%nat)))) s in
  let e' := exec (OS_MemGet (Some 1%nat)) e in
  (free_blocks s (mkMem 0x20000000 0x20000040 32 4 2 empty_list) = [0x20000040; 0x20000060] ∧
   ∃ s', OS_MemGet (Some 1%nat) s = (Ret (Returned 0x20000040), s') ∧
         free_blocks s' (get_m s (mkMem 0x20000000 0x20000040 32 4 2 empty_list))
         = [0x20000060]) ∧
  result (OS_MemGet (Some 1%nat)) e = Ret Suspended ∧
  contents e' (MemWaitList 1) = [1%nat] ∧ state_of e' 1 = Some TASK_BLOCKED.
Proof.
  intros s e e'. split.
  - assert (Hn : 0 <= g_CriticalNesting s < 2 ^ 32 - 1) by (vm_compute; split; [discriminate|reflexivity]).
    assert (Hm : pools s !! 1%nat = Some (mkMem 0x20000000 0x20000040 32 4 2 empty_list))
      by (vm_compute; reflexivity).
    assert (Hf : free_blocks s (mkMem 0x20000000 0x20000040 32 4 2 empty_list)
                 = [0x20000040; 0x20000060]) by (vm_compute; reflexivity).
    split; [exact Hf|].
    destruct (proj1 (proj2 OS_MemGet_spec) s 1%nat _ _ _ Hn Hm ltac:(cbn; lia) Hf)
      as (E1 & _ & E2 & _).
    eexists. split; [exact E1|exact E2].
  - assert (Hk : kernel_ok e = true) by (vm_compute; reflexivity).
    assert (Hcr : current_ready e = true) by (vm_compute; reflexivity).
    assert (Hcur : CurrentTCB e = Some 1%nat) by (vm_compute; reflexivity).
    assert (Ho : other_ready e 1 = true) by (vm_compute; reflexivity).
    assert (Hm : pools e !! 1%nat = Some (mkMem 0x20000000 0 32 4 0 empty_list))
      by (vm_compute; reflexivity).
    assert (Hw : contents e (MemWaitList 1) = []) by (vm_compute; reflexivity).
    destruct (proj2 (proj2 OS_MemGet_spec) e 1%nat _ 1%nat Hk Hcr Hcur Ho Hm eq_refl)
      as (R & E1 & _ & _ & E2 & _).
    fold e' in R, E1, E2. rewrite Hw in E1.
    split; [exact R|]. split; [exact E1|exact E2].
Defined.

(** [OS_MemPut] of a block of the pool, whether or not a task waits for
    one: what becomes of the pool and of the RAM. *)
Lemma wp_OS_MemPut_block s c a m b :
  kernel_inv s c → 0 <= g_CriticalNesting s < 2 ^ 32 - 1 →
  pools s !! a = Some m → pool_ok m = true → in_pool m b → aligned_in m b →
  wp (OS_MemPut (Some a) b) (λ r s',
    r = OS_OK ∧ (∃ c', kernel_inv s' c') ∧
    g_CriticalNesting s' = g_CriticalNesting s ∧
    ram s' = <[b := FreeList m]> (ram s) ∧
    ∃ m', pools s' !! a = Some m' ∧
          set_mem_WaitList empty_list m' = set_mem_WaitList empty_list (put_m m b)) s.
Proof.
  intros Hinv Hn Hm Hmok Hin Hal.
  pose proof (pool_ok_elim m Hmok) as (Ha & Hbs & Htb & Hend & Hfb).
  destruct (enter_exit_nesting _ Hn) as [Hn1 Hn2].
  unfold in_pool in Hin. unfold aligned_in in Hal.
  assert (Htot : u32 (TotalBlocks m * BlockSize m) = TotalBlocks m * BlockSize m)
    by (unfold u32; apply Z.mod_small; nia).
  assert (Hlim : u32 (Addr m + TotalBlocks m * BlockSize m)
                 = Addr m + TotalBlocks m * BlockSize m)
    by (unfold u32; apply Z.mod_small; nia).
  assert (Hoff : u32 (b - Addr m) = b - Addr m)
    by (unfold u32; apply Z.mod_small; lia).
  set (m4 := put_m m b).
  set (S := set_pools (<[a := m4]> (pools s)) (set_ram (<[b := FreeList m]> (ram s)) s)).
  assert (Hcore : same_core s S).
  { eapply same_core_trans;
      [|apply (same_core_store_pool (set_ram (<[b := FreeList m]> (ram s)) s) a m m4 Hm);
        reflexivity].
    same_core_tac. }
  assert (HinvS : kernel_inv S c) by (eapply same_core_inv; eauto).
  assert (HmS : pools S !! a = Some m4) by apply lookup_insert_eq.
  pose proof (proj1 (inv_lists _ _ Hinv) (MemWaitList a)) as Hrep.
  cbn in Hrep. rewrite Hm in Hrep. cbn in Hrep.
  pose proof (repr_head _ _ _ Hrep) as HH.
  unfold OS_MemPut.
  replace (b =? 0) with false by (symmetry; apply Z.eqb_neq; lia).
  apply wp_bind, wp_OS_EnterCritical.
  apply wp_bind. eapply wp_load_pool; [exact Hm|].
  cbv zeta. rewrite Htot, Hlim.
  replace ((b <? Addr m) || (b >=? Addr m + TotalBlocks m * BlockSize m)) with false.
  2:{ symmetry. apply orb_false_iff. split; [apply Z.ltb_ge; lia|].
      rewrite Z.geb_leb. apply Z.leb_gt. lia. }
  replace (BlockSize m =? 0) with false by (symmetry; apply Z.eqb_neq; lia).
  rewrite Hoff, Hal. cbn [Z.eqb negb].
  apply wp_bind, wp_modify.
  apply wp_bind. eapply wp_store_pool; [exact Hm|].
  apply wp_bind. eapply wp_load_pool; [cbn; apply lookup_insert_eq|].
  apply wp_bind. eapply wp_store_pool; [cbn; apply lookup_insert_eq|].
  apply wp_bind. eapply wp_load_pool; [cbn; apply lookup_insert_eq|].
  cbn [pools set_pools]. rewrite !insert_insert_eq.
  cbn [FreeBlocks set_FreeList set_FreeBlocks mem_WaitList].
  replace (u32 (FreeBlocks m + 1)) with (FreeBlocks m + 1)
    by (unfold u32; symmetry; apply Z.mod_small; lia).
  fold (put_m m b). fold m4.
  match goal with |- wp _ _ ?s1 =>
    change s1 with (set_g_CriticalNesting (u32 (g_CriticalNesting S + 1))
                      (set_irq_enabled false S))
  end.
  rewrite HH. destruct (c (MemWaitList a)) as [|w rest] eqn:Hwl; cbn [head is_null negb].
  - apply wp_bind, wp_ret.
    apply wp_bind. apply wp_OS_ExitCritical; [exact Hn1|]. cbv zeta.
    apply wp_ret. split; [reflexivity|].
    change (g_CriticalNesting S) with (g_CriticalNesting s) in *.
    pose proof (critical_roundtrip S Hn) as Hrt. cbv zeta in Hrt.
    change (g_CriticalNesting S) with (g_CriticalNesting s) in Hrt.
    rewrite Hrt.
    split.
    { exists c. eapply same_core_inv; [|exact HinvS]. same_core_tac. }
    split; [reflexivity|]. split; [reflexivity|].
    exists m4. split; [exact HmS|reflexivity].
  - assert (Hwin : w ∈ c (MemWaitList a)) by (rewrite Hwl; apply list_elem_of_here).
    destruct (lists_ok_in_heap _ _ _ _ (inv_lists _ _ Hinv) Hwin) as [tw Htw].
    change (bind (List_PopHead _) _) with (wake_head (MemWaitList a)).
    apply wp_bind.
    eapply (wp_wake_head_exit S c (MemWaitList a) w rest tw);
      [exact HinvS|exact Hn|exact Hwl|discriminate|exact Htw|].
    cbv zeta. intros s' Hinv' _ Hr' _ _. split; [reflexivity|].
    split; [eexists; exact Hinv'|].
    split; [exact (rest_of_nesting _ _ Hr')|].
    split; [exact (f_equal ram Hr')|].
    exact (rest_of_pool _ _ a m4 Hr' HmS).
Qed.

Lemma pool_ok_intro m :
  0 < Addr m → 4 <= BlockSize m → 0 < TotalBlocks m →
  Addr m + TotalBlocks m * BlockSize m < 2 ^ 32 → 0 <= FreeBlocks m < 2 ^ 32 - 1 →
  pool_ok m = true.
Proof.
  intros H1 H2 H3 H4 H5. unfold pool_ok.
  repeat (apply andb_true_iff; split);
    try (apply Z.ltb_lt; lia); apply Z.leb_le; lia.
Qed.

(** X20.  A pool hands out last the block it was given back last.
    [OS_MemPut] of a block that lies in the pool on a block boundary
    returns [OS_OK], stores the old head of the free list in the block
    and makes the block the head: a block that was not free is pushed on
    the front of the free list.  The [OS_MemGet] that follows returns that
    very block and leaves the pool with the head and the free count it had
    before the two calls and, for a block that was not free, with the free
    list it had. *)
Theorem OS_MemPut_MemGet_lifo s a m b :
  kernel_ok s = true → pools s !! a = Some m → pool_ok m = true →
  in_pool m b → aligned_in m b →
  ∃ s1 m1,
    OS_MemPut (Some a) b s = (Ret OS_OK, s1) ∧ pools s1 !! a = Some m1 ∧
    FreeList m1 = b ∧ FreeBlocks m1 = FreeBlocks m + 1 ∧
    ram s1 = <[b := FreeList m]> (ram s) ∧
    (b ∉ free_blocks s m → free_blocks s1 m1 = b :: free_blocks s m) ∧
    let m2 := get_m s1 m1 in
    let s2 := pool_written s1 a m2 in
    OS_MemGet (Some a) s1 = (Ret (Returned b), s2) ∧
    FreeList m2 = FreeList m ∧ FreeBlocks m2 = FreeBlocks m ∧
    (b ∉ free_blocks s m → free_blocks s2 m2 = free_blocks s m).
Proof.
  intros Hk Hm Hmok Hin Hal.
  destruct (kernel_ok_sound s Hk) as [Hinv Hn].
  pose proof (pool_ok_elim m Hmok) as (Ha & Hbs & Htb & Hend & Hfb).
  assert (Hb0 : b ≠ 0) by (unfold in_pool in Hin; lia).
  pose proof (wp_OS_MemPut_block s (contents s) a m b Hinv Hn Hm Hmok Hin Hal) as Hwp.
  apply wp_elim in Hwp as (r & s1 & Hrun & -> & _ & Hn1 & Hram & m1 & Hm1 & Em1).
  destruct (pool_fields_eq _ _ Em1) as (E1 & E2 & E3 & E4 & E5).
  cbn in E1, E2, E3, E4, E5.
  assert (Hfree1 : free_blocks s1 m1
                   = b :: free_chain (Z.to_nat (FreeBlocks m)) (ram s1) (FreeList m)).
  { unfold free_blocks. rewrite E2, E5.
    replace (Z.to_nat (FreeBlocks m + 1)) with (S (Z.to_nat (FreeBlocks m))) by lia.
    cbn [free_chain].
    replace (b =? 0) with false by (symmetry; apply Z.eqb_neq; exact Hb0).
    rewrite Hram, lookup_insert_eq. reflexivity. }
  exists s1, m1.
  split; [exact Hrun|]. split; [exact Hm1|]. split; [exact E2|]. split; [exact E5|].
  split; [exact Hram|].
  split.
  { intros Hnotin. rewrite Hfree1, Hram. f_equal. apply free_chain_insert. exact Hnotin. }
  cbv zeta.
  assert (EL : FreeList (get_m s1 m1) = FreeList m).
  { unfold get_m. cbn [FreeList set_FreeList set_FreeBlocks].
    rewrite E2, Hram, lookup_insert_eq. reflexivity. }
  assert (EB : FreeBlocks (get_m s1 m1) = FreeBlocks m).
  { unfold get_m. cbn [FreeBlocks set_FreeList set_FreeBlocks]. lia. }
  split.
  { rewrite <- E2. apply MemGet_take_eq; [rewrite Hn1; exact Hn|exact Hm1|lia]. }
  split; [exact EL|]. split; [exact EB|].
  intros Hnotin. unfold free_blocks at 1. rewrite EL, EB.
  unfold pool_written. cbn [ram set_irq_enabled set_pools].
  rewrite Hram. apply free_chain_insert. exact Hnotin.
Qed.

Lemma OS_MemPut_MemGet_lifo_witness :
  let s := exec scenario_F app_memory in
  ∃ s1 s2, OS_MemPut (Some 1%nat) 0x20000020 s = (Ret OS_OK, s1) ∧
           OS_MemGet (Some 1%nat) s1 = (Ret (Returned 0x20000020), s2) ∧
           free_blocks s (mkMem 0x20000000 0x20000040 32 4 2 empty_list)
           = [0x20000040; 0x20000060] ∧
           ∃ m1, pools s1 !! 1%nat = Some m1 ∧
                 free_blocks s1 m1 = [0x20000020; 0x20000040; 0x20000060].
Proof.
  intros s.
  assert (Hk : kernel_ok s = true) by (vm_compute; reflexivity).
  assert (Hm : pools s !! 1%nat = Some (mkMem 0x20000000 0x20000040 32 4 2 empty_list))
    by (vm_compute; reflexivity).
  assert (Hf : free_blocks s (mkMem 0x20000000 0x20000040 32 4 2 empty_list)
               = [0x20000040; 0x20000060]) by (vm_compute; reflexivity).
  assert (Hin : in_pool (mkMem 0x20000000 0x20000040 32 4 2 empty_list) 0x20000020)
    by (unfold in_pool; cbn; lia).
  destruct (OS_MemPut_MemGet_lifo s 1%nat _ 0x20000020 Hk Hm eq_refl Hin eq_refl)
    as (s1 & m1 & E1 & Hm1 & _ & _ & _ & Hpush & E2 & _).
  exists s1. eexists. split; [exact E1|]. split; [exact E2|]. split; [exact Hf|].
  exists m1. split; [exact Hm1|]. rewrite Hpush; [rewrite Hf; reflexivity|].
  rewrite Hf. intros H. apply elem_of_cons in H as [H|H]; [discriminate|].
  apply elem_of_cons in H as [H|H]; [discriminate|]. apply elem_of_nil in H. exact H.
Defined.

(** X21.  [OS_MemPut] does not look whether the block is already free.
    Giving back the same block twice in a row returns [OS_OK] both times,
    counts the block twice and leaves it as the head of the free list
    with its link pointing to itself: the two calls of [OS_MemGet] that
    follow both return this one block. *)
Theorem OS_MemPut_twice_hands_out_twice s a m b :
  kernel_ok s = true → pools s !! a = Some m → pool_ok m = true →
  FreeBlocks m < TotalBlocks m → in_pool m b → aligned_in m b →
  ∃ s1 s2 s3 s4 m2,
    OS_MemPut (Some a) b s = (Ret OS_OK, s1) ∧
    OS_MemPut (Some a) b s1 = (Ret OS_OK, s2) ∧
    pools s2 !! a = Some m2 ∧ FreeBlocks m2 = FreeBlocks m + 2 ∧
    FreeList m2 = b ∧ ram s2 !! b = Some b ∧
    OS_MemGet (Some a) s2 = (Ret (Returned b), s3) ∧
    OS_MemGet (Some a) s3 = (Ret (Returned b), s4).
Proof.
  intros Hk Hm Hmok Hlt Hin Hal.
  destruct (kernel_ok_sound s Hk) as [Hinv Hn].
  pose proof (pool_ok_elim m Hmok) as (Ha & Hbs & Htb & Hend & Hfb).
  pose proof (wp_OS_MemPut_block s (contents s) a m b Hinv Hn Hm Hmok Hin Hal) as Hwp.
  apply wp_elim in Hwp as (r & s1 & Hrun1 & -> & [c1 Hinv1] & Hn1 & Hram1 & m1 & Hm1 & Em1).
  destruct (pool_fields_eq _ _ Em1) as (E1 & E2 & E3 & E4 & E5).
  cbn in E1, E2, E3, E4, E5.
  assert (Hmok1 : pool_ok m1 = true).
  { apply pool_ok_intro; rewrite ?E1, ?E3, ?E4, ?E5; try lia. nia. }
  assert (Hin1 : in_pool m1 b) by (unfold in_pool in *; rewrite E1, E3, E4; exact Hin).
  assert (Hal1 : aligned_in m1 b) by (unfold aligned_in in *; rewrite E1, E3; exact Hal).
  assert (Hn1' : 0 <= g_CriticalNesting s1 < 2 ^ 32 - 1) by (rewrite Hn1; exact Hn).
  pose proof (wp_OS_MemPut_block s1 c1 a m1 b Hinv1 Hn1' Hm1 Hmok1 Hin1 Hal1) as Hwp.
  apply wp_elim in Hwp as (r & s2 & Hrun2 & -> & _ & Hn2 & Hram2 & m2 & Hm2 & Em2).
  destruct (pool_fields_eq _ _ Em2) as (F1 & F2 & F3 & F4 & F5).
  cbn in F1, F2, F3, F4, F5.
  assert (Hn2' : 0 <= g_CriticalNesting s2 < 2 ^ 32 - 1) by (rewrite Hn2; exact Hn1').
  assert (Hbb : ram s2 !! b = Some b) by (rewrite Hram2, E2; apply lookup_insert_eq).
  set (m3 := get_m s2 m2).
  set (s3 := pool_written s2 a m3).
  exists s1, s2, s3, (pool_written s3 a (get_m s3 m3)), m2.
  split; [exact Hrun1|]. split; [exact Hrun2|]. split; [exact Hm2|].
  split; [lia|]. split; [exact F2|]. split; [exact Hbb|].
  split.
  { rewrite <- F2. apply MemGet_take_eq; [exact Hn2'|exact Hm2|nia]. }
  assert (EL : FreeList m3 = b).
  { unfold m3, get_m. cbn [FreeList set_FreeList set_FreeBlocks].
    rewrite F2, Hbb. reflexivity. }
  assert (HB : 0 < FreeBlocks m3 < 2 ^ 32)
    by (unfold m3, get_m; cbn [FreeBlocks set_FreeList set_FreeBlocks]; nia).
  pose proof (MemGet_take_eq s3 a m3 Hn2' (pool_written_lookup s2 a m3) HB) as Hrun4.
  rewrite EL in Hrun4. exact Hrun4.
Qed.

Lemma OS_MemPut_twice_hands_out_twice_witness :
  let s := exec scenario_F app_memory in
  ∃ s1 s2 s3 s4,
    OS_MemPut (Some 1%nat) 0x20000020 s = (Ret OS_OK, s1) ∧
    OS_MemPut (Some 1%nat) 0x20000020 s1 = (Ret OS_OK, s2) ∧
    OS_MemGet (Some 1%nat) s2 = (Ret (Returned 0x20000020), s3) ∧
    OS_MemGet (Some 1%nat) s3 = (Ret (Returned 0x20000020), s4).
Proof.
  intros s.
  assert (Hk : kernel_ok s = true) by (vm_compute; reflexivity).
  assert (Hm : pools s !! 1%nat = Some (mkMem 0x20000000 0x20000040 32 4 2 empty_list))
    by (vm_compute; reflexivity).
  assert (Hin : in_pool (mkMem 0x20000000 0x20000040 32 4 2 empty_list) 0x20000020)
    by (unfold in_pool; cbn; lia).
  destruct (OS_MemPut_twice_hands_out_twice s 1%nat _ 0x20000020 Hk Hm eq_refl
              ltac:(cbn; lia) Hin eq_refl)
    as (s1 & s2 & s3 & s4 & m2 & E1 & E2 & _ & _ & _ & _ & E3 & E4).
  exists s1, s2, s3, s4. auto.
Defined.

(** ** Task creation *)

Lemma align16 x : 0 <= x < 2 ^ 32 → Z.land x 0xFFFFFFF0 = x - x mod 16.
Proof.
  intros Hx.
  replace (x - x mod 16) with (Z.shiftl (Z.shiftr x 4) 4).
  2:{ rewrite Z.shiftl_mul_pow2, Z.shiftr_div_pow2 by lia.
      change (2 ^ 4) with 16. pose proof (Z.div_mod x 16 ltac:(lia)). lia. }
  change 0xFFFFFFF0 with (Z.shiftl (Z.ones 28) 4).
  apply Z.bits_inj'. intros n Hn. rewrite Z.land_spec.
  destruct (Z.lt_ge_cases n 4) as [Hlt|Hge].
  - rewrite !Z.shiftl_spec_low by lia. apply andb_false_r.
  - rewrite !Z.shiftl_spec_high by lia. rewrite Z.shiftr_spec by lia.
    replace (n - 4 + 4) with n by lia.
    destruct (Z.lt_ge_cases n 32) as [Hlt|Hge'].
    + rewrite Z.ones_spec_low by lia. apply andb_true_r.
    + rewrite Z.ones_spec_high by lia. rewrite andb_false_r.
      symmetry. destruct (Z.eq_dec x 0) as [->|Hne]; [apply Z.bits_0|].
      apply Z.bits_above_log2; [lia|].
      apply Z.log2_lt_pow2; [lia|].
      eapply Z.lt_le_trans; [apply Hx|]. apply Z.pow_le_mono_r; lia.
Qed.

Lemma pushed_other ws : ∀ sp r a,
  a < sp - 4 * Z.of_nat (length ws) ∨ sp <= a → pushed sp ws r !! a = r !! a.
Proof.
  induction ws as [|w ws IH]; intros sp r a Ha; cbn [pushed]; [reflexivity|].
  cbn [length] in Ha. rewrite IH by lia. apply lookup_insert_ne. lia.
Qed.

Lemma pushed_lookup ws : ∀ sp r i w,
  ws !! i = Some w → pushed sp ws r !! (sp - 4 * (Z.of_nat i + 1)) = Some w.
Proof.
  induction ws as [|w0 ws IH]; intros sp r i w Hi; [discriminate|].
  cbn [pushed]. destruct i as [|i].
  - injection Hi as ->. rewrite pushed_other by lia.
    replace (sp - 4 * (Z.of_nat 0 + 1)) with (sp - 4) by lia. apply lookup_insert_eq.
  - cbn in Hi. replace (sp - 4 * (Z.of_nat (S i) + 1)) with (sp - 4 - 4 * (Z.of_nat i + 1)) by lia.
    apply IH. exact Hi.
Qed.

Lemma lookup_repeat {A} (x : A) n : ∀ k, (k < n)%nat → repeat x n !! k = Some x.
Proof.
  induction n as [|n IH]; intros k Hk; [lia|].
  destruct k as [|k]; [reflexivity|]. cbn. apply IH. lia.
Qed.

Lemma push_words_run ws : ∀ sp s,
  4 * Z.of_nat (length ws) <= sp < 2 ^ 32 →
  push_words sp ws s
  = (Ret (sp - 4 * Z.of_nat (length ws)), set_ram (pushed sp ws (ram s)) s).
Proof.
  induction ws as [|w ws IH]; intros sp s Hsp.
  - cbn [push_words pushed length]. replace (sp - 4 * Z.of_nat 0) with sp by lia.
    destruct s; reflexivity.
  - cbn [push_words pushed]. cbn [length] in Hsp.
    assert (Eu : u32 (sp - 4) = sp - 4) by (unfold u32; apply Z.mod_small; lia).
    rewrite Eu.
    transitivity (push_words (sp - 4) ws (set_ram (<[sp - 4 := w]> (ram s)) s));
      [reflexivity|].
    rewrite IH by lia. cbn [length]. f_equal. f_equal. lia.
Qed.

(** [OS_StackInit] on a stack that lies in the address space and has room
    for the frame above address zero. *)
Lemma StackInit_run s f p base depth :
  0 <= base → 0 <= depth → 143 <= base + 4 * depth < 2 ^ 32 →
  let top := base + 4 * depth - (base + 4 * depth) mod 16 in
  OS_StackInit f p base depth s
  = (Ret (top - 128),
     set_ram (pushed top ([MSTATUS_VALUE; u32 f; OS_TaskReturn; global_pointer; u32 p]
                            ++ repeat 0 27) (ram s)) s).
Proof.
  intros Hb Hd Hr top. unfold OS_StackInit. cbv zeta.
  replace (u32 (base + 4 * depth)) with (base + 4 * depth)
    by (unfold u32; symmetry; apply Z.mod_small; lia).
  rewrite align16 by lia. fold top.
  pose proof (Z.mod_pos_bound (base + 4 * depth) 16 ltac:(lia)) as Hm.
  rewrite push_words_run.
  - reflexivity.
  - change (Z.of_nat (length _)) with 32. unfold top. lia.
Qed.

(** X22.  [OS_StackInit] builds the frame that the first switch to the
    task restores.  For a stack of [depth] words at [base] that lies in
    the address space, with [top] its upper end rounded down to 16 bytes,
    the 32 words below [top] are written and nothing else: [mstatus] at
    [top - 4], the entry point at [top - 8], the address of
    [OS_TaskReturn] at [top - 12], the global pointer at [top - 16], the
    parameter at [top - 20] and 27 zero words below them.  The stack
    pointer returned is [top - 128], a multiple of 16. *)
Theorem OS_StackInit_frame s f p base depth :
  0 <= base → 0 <= depth → 143 <= base + 4 * depth < 2 ^ 32 →
  let top := base + 4 * depth - (base + 4 * depth) mod 16 in
  let sp := top - 128 in
  ∃ r', OS_StackInit f p base depth s = (Ret sp, set_ram r' s) ∧
        sp mod 16 = 0 ∧ base + 4 * depth - 15 <= top <= base + 4 * depth ∧
        r' !! (top - 4) = Some MSTATUS_VALUE ∧
        r' !! (top - 8) = Some (u32 f) ∧
        r' !! (top - 12) = Some OS_TaskReturn ∧
        r' !! (top - 16) = Some global_pointer ∧
        r' !! (top - 20) = Some (u32 p) ∧
        (∀ i, 0 <= i < 27 → r' !! (sp + 4 * i) = Some 0) ∧
        (∀ a, a < sp ∨ top <= a → r' !! a = ram s !! a).
Proof.
  intros Hb Hd Hr top sp.
  pose proof (Z.mod_pos_bound (base + 4 * depth) 16 ltac:(lia)) as Hm.
  set (ws := [MSTATUS_VALUE; u32 f; OS_TaskReturn; global_pointer; u32 p] ++ repeat 0 27).
  assert (Hat : ∀ i w, ws !! i = Some w →
            pushed top ws (ram s) !! (top - 4 * (Z.of_nat i + 1)) = Some w)
    by (intros i w; apply pushed_lookup).
  exists (pushed top ws (ram s)).
  split; [exact (StackInit_run s f p base depth Hb Hd Hr)|].
  split.
  { unfold sp, top.
    replace (base + 4 * depth - (base + 4 * depth) mod 16 - 128)
      with (16 * ((base + 4 * depth) / 16 - 8))
      by (pose proof (Z.div_mod (base + 4 * depth) 16 ltac:(lia)); lia).
    rewrite Z.mul_comm. apply Z.mod_mul. lia. }
  split; [unfold top; lia|].
  split; [exact (Hat 0%nat _ eq_refl)|].
  split; [exact (Hat 1%nat _ eq_refl)|].
  split; [exact (Hat 2%nat _ eq_refl)|].
  split; [exact (Hat 3%nat _ eq_refl)|].
  split; [exact (Hat 4%nat _ eq_refl)|].
  split.
  - intros i Hi.
    replace (sp + 4 * i) with (top - 4 * (Z.of_nat (Z.to_nat (31 - i)) + 1))
      by (unfold sp; lia).
    apply Hat. unfold ws.
    rewrite lookup_app_r by (cbn [length]; lia). cbn [length].
    apply lookup_repeat. lia.
  - intros a Ha. apply pushed_other. change (Z.of_nat (length ws)) with 32.
    unfold sp in Ha. lia.
Qed.

Lemma OS_StackInit_frame_witness :
  ∃ r', OS_StackInit 0x08001000 7 0x20001404 128 app_memory
        = (Ret 0x20001580, set_ram r' app_memory) ∧
        r' !! 0x200015F8 = Some 0x08001000 ∧ r' !! 0x200015EC = Some 7.
Proof.
  destruct (OS_StackInit_frame app_memory 0x08001000 7 0x20001404 128
              ltac:(lia) ltac:(lia) ltac:(lia))
    as (r' & E & _ & _ & _ & E1 & _ & _ & E2 & _).
  exists r'. split; [exact E|]. split; [exact E1|exact E2].
Defined.

(** [OS_TaskCreate] with arguments it accepts, for a control block that
    is on no list. *)
Lemma wp_OS_TaskCreate s c x t f p base depth prio :
  kernel_inv s c → tcbs s !! x = Some t → (∀ r, x ∉ c r) →
  f ≠ 0 → 0 < base → 0 <= depth → 143 <= base + 4 * depth < 2 ^ 32 → 0 <= prio <= 31 →
  let top := base + 4 * depth - (base + 4 * depth) mod 16 in
  let r' := <[base := OS_STACK_MAGIC_VAL]>
              (pushed top ([MSTATUS_VALUE; u32 f; OS_TaskReturn; global_pointer; u32 p]
                             ++ repeat 0 27) (ram s)) in
  wp (OS_TaskCreate (Some x) f p base depth prio) (λ r s',
    r = OS_OK ∧
    kernel_inv s' (<[ReadyListAt prio := c (ReadyListAt prio) ++ [x]]> c) ∧
    data_of s' = data_of (set_g_PrioMap (Z.lor (g_PrioMap s) (Z.shiftl 1 prio))
                   (set_tcbs (<[x := created_tcb (top - 128) base prio t]> (tcbs s))
                      (set_ram r' s)))) s.
Proof.
  intros Hinv Hx Hoff Hf Hbase Hd Hr Hprio top r'.
  unfold OS_TaskCreate. cbn [is_null orb].
  replace (f =? 0) with false by (symmetry; apply Z.eqb_neq; exact Hf).
  replace (base =? 0) with false by (symmetry; apply Z.eqb_neq; lia).
  replace (prio >? OS_MAX_PRIO - 1) with false
    by (symmetry; rewrite Z.gtb_ltb; apply Z.ltb_ge; unfold OS_MAX_PRIO; lia).
  cbn [orb].
  apply wp_bind. eapply wp_intro; [apply StackInit_run; lia|]. fold top.
  apply wp_bind. eapply wp_store_tcb; [exact Hx|].
  apply wp_bind. eapply wp_store_tcb; [apply lookup_insert_eq|].
  apply wp_bind. eapply wp_load_tcb; [apply lookup_insert_eq|].
  apply wp_bind, wp_modify.
  do 4 (apply wp_bind; eapply wp_store_tcb; [apply lookup_insert_eq|]).
  cbn [tcbs set_tcbs set_ram ram stackLimit set_stackLimit]. rewrite !insert_insert_eq.
  fold (created_tcb (top - 128) base prio t).
  match goal with |- wp _ _ ?s4 =>
    change s4 with (set_tcbs (<[x := created_tcb (top - 128) base prio t]> (tcbs s))
                      (set_ram r' s))
  end.
  set (s4 := set_tcbs _ _).
  assert (Hinv4 : kernel_inv s4 c).
  { apply (kernel_inv_store (set_ram r' s) c x t); try reflexivity.
    - eapply same_core_inv; [|exact Hinv]. same_core_tac.
    - exact Hx.
    - cbn. lia.
    - cbn. lia.
    - right. intros q. apply Hoff. }
  apply wp_bind.
  eapply (wp_OS_ReadyListAdd s4 c x); [exact Hinv4|apply lookup_insert_eq|exact Hoff|].
  intros s' Hinv' Hd' _. apply wp_ret.
  split; [reflexivity|]. split; [exact Hinv'|].
  rewrite Hd'. cbn [Priority created_tcb set_OriginalPrio set_Priority].
  rewrite shift_mask by lia. reflexivity.
Qed.

(** X23.  [OS_TaskCreate] returns [OS_ERR_PARAM] and changes nothing when
    the control block, the entry point or the stack is null or the
    priority exceeds 31.  Otherwise, for a control block that is on no
    list and a stack of at least 36 words, it returns [OS_OK]: the task is
    ready with no delay, its priority and its original priority are the
    one given, it is the last of the ready list of that priority, whose
    bit of the bitmap is set, and the state is well formed again.  The
    guard word is at the stack base and the saved stack pointer above it,
    so that the stack check passes when the task runs.  No other task,
    no other list, neither [CurrentTCB] nor [NextTCB] changes and no
    switch is requested, whatever the priority of the new task. *)
Theorem OS_TaskCreate_spec :
  (∀ s tcb f p base depth prio,
     tcb = None ∨ f = 0 ∨ base = 0 ∨ 31 < prio →
     OS_TaskCreate tcb f p base depth prio s = (Ret OS_ERR_PARAM, s)) ∧
  (∀ s x f p base depth prio,
     kernel_ok s = true → is_Some (tcbs s !! x) → off_lists s x = true →
     f ≠ 0 → 0 < base → 36 <= depth → base + 4 * depth < 2 ^ 32 → 0 <= prio <= 31 →
     let s' := exec (OS_TaskCreate (Some x) f p base depth prio) s in
     result (OS_TaskCreate (Some x) f p base depth prio) s = Ret OS_OK ∧
     contents s' (ReadyListAt prio) = contents s (ReadyListAt prio) ++ [x] ∧
     (∀ r, r ≠ ReadyListAt prio → contents s' r = contents s r) ∧
     g_PrioMap s' = Z.lor (g_PrioMap s) (Z.shiftl 1 prio) ∧
     (∃ t', tcbs s' !! x = Some t' ∧ State t' = TASK_READY ∧ DelayTicks t' = 0 ∧
            Priority t' = prio ∧ OriginalPrio t' = prio ∧ stackLimit t' = base ∧
            stackPtr t' = base + 4 * depth - (base + 4 * depth) mod 16 - 128) ∧
     (∀ y, y ≠ x → fields s' y = fields s y) ∧
     ram s' !! base = Some OS_STACK_MAGIC_VAL ∧
     stack_ok (set_CurrentTCB (Some x) s') = true ∧
     CurrentTCB s' = CurrentTCB s ∧ NextTCB s' = NextTCB s ∧
     swi_pending s' = swi_pending s ∧
     kernel_inv s' (contents s')).
Proof.
  split.
  - intros s tcb f p base depth prio H. unfold OS_TaskCreate.
    destruct tcb as [x|]; [|reflexivity]. cbn [is_null orb].
    destruct (Z.eqb_spec f 0) as [|Hf]; [reflexivity|].
    destruct (Z.eqb_spec base 0) as [|Hb]; [reflexivity|].
    destruct H as [H|[H|[H|H]]]; [discriminate|contradiction|contradiction|].
    replace (prio >? OS_MAX_PRIO - 1) with true
      by (symmetry; rewrite Z.gtb_ltb; apply Z.ltb_lt; unfold OS_MAX_PRIO; lia).
    reflexivity.
  - intros s x f p base depth prio Hk [t Hx] Hoff Hf Hbase Hdepth Hend Hprio s'.
    destruct (kernel_ok_sound s Hk) as [Hinv _].
    pose proof (Z.mod_pos_bound (base + 4 * depth) 16 ltac:(lia)) as Hm.
    pose proof (wp_OS_TaskCreate s (contents s) x t f p base depth prio Hinv Hx
                  (off_lists_sound s x Hoff) Hf Hbase ltac:(lia) ltac:(lia) Hprio) as Hwp.
    cbv zeta in Hwp.
    apply wp_run in Hwp as (r & Hres & -> & Hinv' & Hd'). fold s' in Hinv', Hd'.
    set (top := base + 4 * depth - (base + 4 * depth) mod 16) in *.
    destruct (contents_insert _ _ _ _ _ (inv_lists _ _ Hinv) (inv_lists _ _ Hinv')) as [E1 E2].
    destruct (data_of_tcb_Some _ _ x (created_tcb (top - 128) base prio t) (eq_sym Hd'))
      as (t' & Ht' & Est); [cbn; apply lookup_insert_eq|].
    assert (Eram : ram s' !! base = Some OS_STACK_MAGIC_VAL).
    { change (ram s') with (ram (data_of s')). rewrite Hd'.
      cbn [ram data_of set_g_PrioMap set_tcbs set_ram]. apply lookup_insert_eq. }
    assert (Ef : State t' = TASK_READY ∧ DelayTicks t' = 0 ∧ Priority t' = prio ∧
                 OriginalPrio t' = prio ∧ stackLimit t' = base ∧ stackPtr t' = top - 128).
    { destruct t', t. cbn in Est. inversion Est. cbn. auto 10. }
    split; [exact Hres|]. split; [exact E1|]. split; [exact E2|].
    split; [exact (f_equal g_PrioMap Hd')|].
    split; [exists t'; split; [exact Ht'|exact Ef]|].
    split.
    { intros y Hy. rewrite (fields_data _ _ y Hd'). unfold fields. cbn.
      rewrite lookup_insert_ne by congruence. reflexivity. }
    split; [exact Eram|].
    split.
    { unfold stack_ok. cbn. rewrite Ht'.
      destruct Ef as (_ & _ & _ & _ & -> & ->). rewrite Eram. cbn [default].
      rewrite Z.eqb_refl. cbn [andb]. apply negb_true_iff, Z.leb_gt. unfold top. lia. }
    split; [exact (f_equal CurrentTCB Hd')|].
    split; [exact (f_equal NextTCB Hd')|].
    split; [exact (f_equal swi_pending Hd')|].
    eapply kernel_inv_self, Hinv'.
Qed.

Lemma OS_TaskCreate_spec_witness :
  let s := exec scenario_S app_memory in
  let s' := exec (OS_TaskCreate (Some 3%nat) task_entry 0 (stack_of 3) 128 2) s in
  CurrentTCB s = Some 1%nat ∧ prio_of s 1 = Some 5 ∧ swi_pending s = false ∧
  result (OS_TaskCreate (Some 3%nat) task_entry 0 (stack_of 3) 128 2) s = Ret OS_OK ∧
  contents s' (ReadyListAt 2) = [3%nat] ∧ prio_of s' 3 = Some 2 ∧
  CurrentTCB s' = Some 1%nat ∧ swi_pending s' = false.
Proof.
  intros s s'.
  assert (Hk : kernel_ok s = true) by (vm_compute; reflexivity).
  assert (Hx : is_Some (tcbs s !! 3%nat)) by (vm_compute; eauto).
  assert (Ho : off_lists s 3 = true) by (vm_compute; reflexivity).
  assert (Hcur : CurrentTCB s = Some 1%nat) by (vm_compute; reflexivity).
  assert (Hp : prio_of s 1 = Some 5) by (vm_compute; reflexivity).
  assert (Hswi : swi_pending s = false) by (vm_compute; reflexivity).
  assert (Hl : contents s (ReadyListAt 2) = []) by (vm_compute; reflexivity).
  assert (Hf : task_entry ≠ 0) by (unfold task_entry; lia).
  destruct (proj2 OS_TaskCreate_spec s 3%nat task_entry 0 (stack_of 3) 128 2 Hk Hx Ho Hf
              ltac:(unfold stack_of; lia) ltac:(lia) ltac:(unfold stack_of; lia) ltac:(lia))
    as (R & E1 & _ & _ & (t' & Ht' & _ & _ & Ep & _) & _ & _ & _ & Ec & _ & Es & _).
  fold s' in R, E1, Ht', Ec, Es. rewrite Hl in E1.
  split; [exact Hcur|]. split; [exact Hp|]. split; [exact Hswi|].
  split; [exact R|]. split; [exact E1|].
  split; [unfold prio_of; rewrite Ht'; cbn; rewrite Ep; reflexivity|].
  split; [rewrite Ec; exact Hcur|rewrite Es; exact Hswi].
Defined.

(** ** Start-up *)

Lemma tcbs_ok_sound s :
  tcbs_ok s = true →
  ∀ x t, tcbs s !! x = Some t → 0 <= Priority t < 32 ∧ 0 <= DelayTicks t < 2 ^ 32.
Proof.
  intros H x t Hx.
  pose proof (proj1 (forallb_forall _ _) H (x, t)) as Ht. simpl in Ht.
  unfold tcb_ok, OS_MAX_PRIO in Ht.
  assert (Hin : In (x, t) (map_to_list (tcbs s)))
    by (apply list_elem_of_In, elem_of_map_to_list; exact Hx).
  specialize (Ht Hin). rewrite !andb_true_iff in Ht.
  destruct Ht as (((Ht1 & Ht2) & Ht3) & Ht4).
  apply Z.leb_le in Ht1, Ht3. apply Z.ltb_lt in Ht2, Ht4. lia.
Qed.

Lemma no_waiters_sound s r L :
  no_waiters s = true → get_list r s = Some L →
  (∀ p, r ≠ ReadyListAt p) → r ≠ DelayListRef → L = empty_list.
Proof.
  intros H E Hr Hd.
  pose proof (proj1 (forallb_forall _ _) H r) as Hrr. cbv beta in Hrr.
  specialize (Hrr (proj1 (list_elem_of_In _ _) (get_list_in_all_refs _ _ _ E))).
  rewrite E in Hrr.
  destruct r as [p| |a|a|a|a]; try (exfalso; eapply Hr; reflexivity);
    try (exfalso; apply Hd; reflexivity);
    destruct L as [[h|] [tl|]]; cbn in Hrr; try discriminate; reflexivity.
Qed.

Lemma init_ready_lists_run n : ∀ i s,
  (i + n ≤ length (ReadyList s))%nat → (length (ReadyList s) ≤ 32)%nat →
  init_ready_lists n (Z.of_nat i) s
  = (Ret tt, set_ReadyList (take i (ReadyList s) ++ replicate n empty_list
                              ++ drop (i + n) (ReadyList s)) s).
Proof.
  induction n as [|n IH]; intros i s Hi Hlen.
  - cbn [init_ready_lists replicate app]. rewrite Nat.add_0_r, take_drop.
    destruct s; reflexivity.
  - cbn [init_ready_lists].
    destruct (lookup_lt_is_Some_2 (ReadyList s) i ltac:(lia)) as [L HL].
    assert (Hg : ((0 <=? Z.of_nat i) && (Z.of_nat i <? OS_MAX_PRIO)) = true)
      by (apply andb_true_intro; unfold OS_MAX_PRIO; split;
          [apply Z.leb_le | apply Z.ltb_lt]; lia).
    set (s1 := set_ReadyList (<[i := empty_list]> (ReadyList s)) s).
    assert (E1 : List_Init (ReadyListAt (Z.of_nat i)) s = (Ret tt, s1)).
    { apply wp_run_eq. unfold List_Init.
      apply wp_bind. eapply wp_store_list.
      { unfold get_list. rewrite Hg, Nat2Z.id. exact HL. }
      eapply wp_store_list.
      { unfold get_list, set_list. rewrite Hg, Nat2Z.id. cbn [ReadyList set_ReadyList].
        apply list_lookup_insert_eq. apply lookup_lt_Some in HL. exact HL. }
      split; [reflexivity|].
      unfold set_list. rewrite Hg, Nat2Z.id. cbn [ReadyList set_ReadyList].
      rewrite list_insert_insert_eq. reflexivity. }
    transitivity (init_ready_lists n (Z.of_nat (S i)) s1).
    { unfold bind at 1. rewrite E1. rewrite Nat2Z.inj_succ. reflexivity. }
    rewrite IH by (unfold s1; cbn [ReadyList set_ReadyList]; rewrite length_insert; lia).
    f_equal. unfold s1. cbn [ReadyList set_ReadyList].
    match goal with
    | |- set_ReadyList ?X _ = _ => transitivity (set_ReadyList X s); [reflexivity|]
    end.
    f_equal.
    rewrite take_insert_lt by lia.
    rewrite (take_S_r _ _ _ HL).
    rewrite insert_app_r_alt by (rewrite length_take; lia).
    rewrite length_take, Nat.min_l by lia. rewrite Nat.sub_diag. cbn [insert list_insert].
    rewrite drop_insert_lt by lia.
    rewrite <- app_assoc. cbn [app replicate].
    replace (S i + n)%nat with (i + S n)%nat by lia. reflexivity.
Qed.

(** The state in which [OS_Init] calls [OS_TaskCreate]. *)
Lemma kernel_inv_cleared s :
  length (ReadyList s) = 32%nat → tcbs_ok s = true → no_waiters s = true →
  kernel_inv (set_DelayList empty_list
                (set_ReadyList (replicate 32 empty_list)
                   (set_g_PrioMap 0 (set_g_CriticalNesting 0
                      (set_g_SystemTickCount 0 (set_g_OSRunning false s))))))
             (λ _, []).
Proof.
  intros Hlen Ht Hw. set (s5 := set_DelayList _ _).
  split.
  - split; [|split].
    + intros r.
      destruct (get_list r s5) as [L|] eqn:E; [|reflexivity].
      assert (HL : L = empty_list).
      { destruct r as [p| |a|a|a|a].
        - unfold get_list, s5 in E. cbn [ReadyList set_DelayList set_ReadyList] in E.
          destruct ((0 <=? p) && (p <? OS_MAX_PRIO)); [|discriminate].
          apply lookup_replicate in E as [-> _]. reflexivity.
        - cbn in E. congruence.
        - apply (no_waiters_sound s (SemWaitList a) L Hw E); discriminate.
        - apply (no_waiters_sound s (MutexWaitList a) L Hw E); discriminate.
        - apply (no_waiters_sound s (QueueWaitReadList a) L Hw E); discriminate.
        - apply (no_waiters_sound s (MemWaitList a) L Hw E); discriminate. }
      subst L. split; reflexivity.
    + intros r. apply NoDup_nil_2.
    + intros r r' x Hx. exfalso. eapply not_elem_of_nil, Hx.
  - constructor.
    + unfold s5. cbn [ReadyList set_DelayList set_ReadyList]. apply length_replicate.
    + exact (tcbs_ok_sound s Ht).
    + intros p x t Hx. exfalso. eapply not_elem_of_nil, Hx.
    + cbn. lia.
    + intros p Hp. cbn [g_PrioMap s5 set_DelayList set_ReadyList set_g_PrioMap].
      unfold s5. cbn [g_PrioMap set_DelayList set_ReadyList set_g_PrioMap].
      rewrite Z.bits_0. split; [discriminate|congruence].
Qed.

Lemma wp_OS_Init s t0 :
  length (ReadyList s) = 32%nat → tcbs s !! IdleTaskTCB = Some t0 →
  tcbs_ok s = true → no_waiters s = true →
  let s5 := set_DelayList empty_list
              (set_ReadyList (replicate 32 empty_list)
                 (set_g_PrioMap 0 (set_g_CriticalNesting 0
                    (set_g_SystemTickCount 0 (set_g_OSRunning false s))))) in
  wp OS_Init (λ _ s',
    kernel_inv s' (<[ReadyListAt 31 := [IdleTaskTCB]]> (λ _, [])) ∧
    ∃ sp r', IdleTaskStack < sp ∧ r' !! IdleTaskStack = Some OS_STACK_MAGIC_VAL ∧
      data_of s' = data_of (set_g_PrioMap (2 ^ 31)
                     (set_tcbs (<[IdleTaskTCB := created_tcb sp IdleTaskStack 31 t0]> (tcbs s))
                        (set_ram r' s5)))) s.
Proof.
  intros Hlen Ht0 Ht Hw s5.
  pose proof (kernel_inv_cleared s Hlen Ht Hw) as Hinv5. fold s5 in Hinv5.
  unfold OS_Init.
  do 4 (apply wp_bind, wp_modify).
  apply wp_bind. eapply wp_intro.
  { apply (init_ready_lists_run 32 0%nat);
      cbn [ReadyList set_g_PrioMap set_g_CriticalNesting
           set_g_SystemTickCount set_g_OSRunning]; lia. }
  cbn [ReadyList set_g_PrioMap set_g_CriticalNesting set_g_SystemTickCount set_g_OSRunning].
  rewrite take_0, drop_ge by lia. cbn [app]. rewrite app_nil_r.
  unfold List_Init.
  apply wp_bind. apply wp_bind. eapply wp_store_list; [reflexivity|].
  eapply wp_store_list; [reflexivity|].
  cbn [set_list DelayList set_DelayList set_Head set_Tail Head Tail].
  match goal with |- wp _ _ ?s1 => change s1 with s5 end.
  apply wp_bind.
  assert (Hf : IdleTask ≠ 0) by (unfold IdleTask; lia).
  eapply wp_mono;
    [apply (wp_OS_TaskCreate s5 (λ _, []) IdleTaskTCB t0 IdleTask 0 IdleTaskStack
              IDLE_STACK_SIZE (OS_MAX_PRIO - 1) Hinv5 Ht0
              (λ r, not_elem_of_nil IdleTaskTCB) Hf);
     unfold IdleTaskStack, IDLE_STACK_SIZE, OS_MAX_PRIO; lia|].
  cbv beta zeta. intros r s' (_ & Hinv' & Hd'). apply wp_ret.
  split; [exact Hinv'|].
  eexists _, _. split; [|split]; [| |exact Hd'].
  - vm_compute. reflexivity.
  - apply lookup_insert_eq.
Qed.

(** X24.  [OS_Init] brings the kernel to its initial state, whatever the
    kernel variables, the ready lists and the delay list held before.
    In a memory in which the control blocks have fields in range and no
    task waits on a semaphore, mutex, queue or pool, it returns with the
    scheduler stopped, the tick count and the nesting of critical
    sections zero, every ready list and the delay list empty but for the
    idle task, which is ready, alone on the ready list of priority 31
    and passes the stack check; only bit 31 of the bitmap is set and the
    state is well formed.  [CurrentTCB] and the interrupt mask are not
    written. *)
Theorem OS_Init_spec s :
  length (ReadyList s) = 32%nat → is_Some (tcbs s !! IdleTaskTCB) →
  tcbs_ok s = true → no_waiters s = true →
  let s' := exec OS_Init s in
  result OS_Init s = Ret tt ∧
  g_OSRunning s' = false ∧ g_SystemTickCount s' = 0 ∧ g_CriticalNesting s' = 0 ∧
  g_PrioMap s' = 2 ^ 31 ∧
  contents s' (ReadyListAt 31) = [IdleTaskTCB] ∧
  (∀ r, r ≠ ReadyListAt 31 → contents s' r = []) ∧
  state_of s' IdleTaskTCB = Some TASK_READY ∧
  prio_of s' IdleTaskTCB = Some 31 ∧
  stack_ok (set_CurrentTCB (Some IdleTaskTCB) s') = true ∧
  (∀ y, y ≠ IdleTaskTCB → fields s' y = fields s y) ∧
  CurrentTCB s' = CurrentTCB s ∧ irq_enabled s' = irq_enabled s ∧
  kernel_inv s' (contents s').
Proof.
  intros Hlen [t0 Ht0] Ht Hw s'.
  pose proof (wp_OS_Init s t0 Hlen Ht0 Ht Hw) as Hwp. cbv zeta in Hwp.
  apply wp_run in Hwp as ([] & Hres & Hinv' & sp & r' & Hsp & Hr' & Hd').
  fold s' in Hinv', Hd'.
  pose proof (λ r, lists_ok_contents _ _ r (inv_lists _ _ Hinv')) as Hcont.
  destruct (data_of_tcb_Some _ _ IdleTaskTCB (created_tcb sp IdleTaskStack 31 t0) (eq_sym Hd'))
    as (t' & Ht' & Est); [cbn; apply lookup_insert_eq|].
  assert (Ef : State t' = TASK_READY ∧ Priority t' = 31 ∧
               stackLimit t' = IdleTaskStack ∧ stackPtr t' = sp).
  { destruct t', t0. cbn in Est. inversion Est. cbn. auto. }
  destruct Ef as (Est1 & Est2 & Est3 & Est4).
  assert (Eram : ram s' = r').
  { change (ram s') with (ram (data_of s')). rewrite Hd'. reflexivity. }
  split; [exact Hres|].
  split; [exact (f_equal g_OSRunning Hd')|].
  split; [exact (f_equal g_SystemTickCount Hd')|].
  split; [exact (f_equal g_CriticalNesting Hd')|].
  split; [exact (f_equal g_PrioMap Hd')|].
  split; [rewrite Hcont; apply fn_lookup_insert|].
  split; [intros r Hr; rewrite Hcont, fn_lookup_insert_ne by congruence; reflexivity|].
  split; [unfold state_of; rewrite Ht'; cbn; rewrite Est1; reflexivity|].
  split; [unfold prio_of; rewrite Ht'; cbn; rewrite Est2; reflexivity|].
  split.
  { unfold stack_ok. cbn [CurrentTCB set_CurrentTCB tcbs ram]. rewrite Ht', Est3, Est4, Eram, Hr'.
    cbn [default]. rewrite Z.eqb_refl. cbn [andb]. apply negb_true_iff, Z.leb_gt. exact Hsp. }
  split.
  { intros y Hy. rewrite (fields_data _ _ y Hd'). unfold fields. cbn.
    rewrite lookup_insert_ne by congruence. reflexivity. }
  split; [exact (f_equal CurrentTCB Hd')|].
  split; [exact (f_equal irq_enabled Hd')|].
  eapply kernel_inv_self, Hinv'.
Qed.

Lemma OS_Init_spec_witness :
  let s' := exec OS_Init app_memory in
  result OS_Init app_memory = Ret tt ∧
  contents s' (ReadyListAt 31) = [IdleTaskTCB] ∧ g_PrioMap s' = 0x80000000.
Proof.
  intros s'.
  assert (Hx : is_Some (tcbs app_memory !! IdleTaskTCB)) by (vm_compute; eauto).
  destruct (OS_Init_spec app_memory eq_refl Hx eq_refl eq_refl)
    as (R & _ & _ & _ & Em & Ec & _).
  split; [exact R|]. split; [exact Ec|exact Em].
Defined.

(** X25.  Start-up.  [OS_Init], the creation of a task and
    [OS_StartScheduler], one after the other from a memory in which no
    task waits: the scheduler is running and the well-formed state it
    starts from has the new task and the idle task ready.  The task that
    runs first is the new one when its priority value is below 31; at
    priority 31 it stands behind the idle task in the ready list, and the
    idle task runs first. *)
Theorem start_up s x f p base depth prio :
  length (ReadyList s) = 32%nat → is_Some (tcbs s !! IdleTaskTCB) →
  tcbs_ok s = true → no_waiters s = true →
  is_Some (tcbs s !! x) → x ≠ IdleTaskTCB →
  f ≠ 0 → 0 < base → 36 <= depth → base + 4 * depth < 2 ^ 32 → 0 <= prio <= 31 →
  let boot := (OS_Init ;; _ ← OS_TaskCreate (Some x) f p base depth prio;
               OS_StartScheduler) in
  let s' := exec boot s in
  result boot s = Ret tt ∧
  g_OSRunning s' = true ∧
  CurrentTCB s' = Some (if prio <? 31 then x else IdleTaskTCB) ∧
  contents s' (ReadyListAt 31) = (if prio <? 31 then [IdleTaskTCB] else [IdleTaskTCB; x]) ∧
  (prio < 31 → contents s' (ReadyListAt prio) = [x]) ∧
  (∀ r, r ≠ ReadyListAt 31 → r ≠ ReadyListAt prio → contents s' r = []) ∧
  state_of s' x = Some TASK_READY ∧ prio_of s' x = Some prio ∧
  (prio < 31 → stack_ok s' = true) ∧
  g_CriticalNesting s' = 0 ∧ g_SystemTickCount s' = 0 ∧
  kernel_inv s' (contents s').
Proof.
  intros Hlen [t0 Ht0] Ht Hw [tx Hx] Hxi Hf Hbase Hdepth Hend Hprio boot s'.
  set (c1 := <[ReadyListAt 31 := [IdleTaskTCB]]> (λ _ : list_ref, @nil nat)).
  set (c2 := <[ReadyListAt prio := c1 (ReadyListAt prio) ++ [x]]> c1).
  assert (Hwp : wp boot (λ _ s2,
            kernel_inv s2 c2 ∧ g_OSRunning s2 = true ∧
            CurrentTCB s2 = head (c2 (ReadyListAt prio)) ∧
            g_CriticalNesting s2 = 0 ∧ g_SystemTickCount s2 = 0 ∧
            (∃ t', tcbs s2 !! x = Some t' ∧ State t' = TASK_READY ∧ Priority t' = prio ∧
                   stackLimit t' < stackPtr t' ∧
                   ram s2 !! stackLimit t' = Some OS_STACK_MAGIC_VAL)) s).
  { unfold boot. apply wp_bind.
    eapply wp_mono; [apply (wp_OS_Init s t0 Hlen Ht0 Ht Hw)|].
    cbv beta zeta. intros [] s1 (Hinv1 & sp & r' & Hsp & Hr' & Hd1). fold c1 in Hinv1.
    assert (Hx1 : ∃ t1, tcbs s1 !! x = Some t1).
    { pose proof (data_of_tcb _ _ x Hd1) as E. cbn in E.
      rewrite lookup_insert_ne, Hx in E by congruence.
      destruct (tcbs s1 !! x) as [t1|]; [eauto|discriminate]. }
    destruct Hx1 as [t1 Hx1].
    assert (Hoff1 : ∀ r, x ∉ c1 r).
    { intros r. unfold c1. destruct (decide (r = ReadyListAt 31)) as [->|Hne].
      - rewrite fn_lookup_insert. intros H. apply list_elem_of_singleton in H. congruence.
      - rewrite fn_lookup_insert_ne by congruence. apply not_elem_of_nil. }
    pose proof (Z.mod_pos_bound (base + 4 * depth) 16 ltac:(lia)) as Hm.
    apply wp_bind.
    eapply wp_mono;
      [apply (wp_OS_TaskCreate s1 c1 x t1 f p base depth prio Hinv1 Hx1 Hoff1 Hf Hbase);
       lia|].
    cbv beta zeta. intros r s2 (_ & Hinv2 & Hd2). fold c2 in Hinv2.
    set (top := base + 4 * depth - (base + 4 * depth) mod 16) in *.
    pose proof (inv_data _ _ Hinv2) as Hdat2.
    assert (Hne : c2 (ReadyListAt prio) ≠ []).
    { unfold c2. rewrite fn_lookup_insert. intros E. apply app_eq_nil in E as [_ E].
      discriminate. }
    assert (Hnz : g_PrioMap s2 ≠ 0).
    { eapply (kernel_inv_nonzero s2 c2 prio x); [exact Hinv2|lia|].
      unfold c2. rewrite fn_lookup_insert. apply elem_of_app. right.
      apply list_elem_of_here. }
    destruct (OS_GetTopPrio_correct (g_PrioMap s2) (inv_map_range _ _ Hdat2) Hnz)
      as (_ & (Hp0 & Hbit & Hlow) & Hp32 & _).
    assert (Htop : OS_GetTopPrio (g_PrioMap s2) = prio).
    { set (tp := OS_GetTopPrio (g_PrioMap s2)) in *.
      assert (Hle : tp <= prio).
      { destruct (Z_le_gt_dec tp prio) as [H|H]; [exact H|]. exfalso.
        pose proof (proj2 (inv_map _ _ Hdat2 prio ltac:(lia)) Hne) as Hb.
        rewrite Hlow in Hb by lia. discriminate. }
      pose proof (proj1 (inv_map _ _ Hdat2 tp ltac:(lia)) Hbit) as Hne'.
      destruct (decide (tp = prio)) as [E|Hd]; [exact E|]. exfalso. apply Hne'.
      unfold c2, c1. rewrite !fn_lookup_insert_ne; [reflexivity| |]; intros E;
        injection E as E; lia. }
    unfold OS_StartScheduler.
    apply wp_bind. eapply wp_FindNextTask; [exact Hinv2|exact Hnz|].
    rewrite Htop. intros y Hy.
    apply wp_bind, wp_modify. apply wp_bind, wp_ret. apply wp_modify.
    split.
    { eapply same_core_inv; [|exact Hinv2]. same_core_tac. }
    split; [reflexivity|]. split; [symmetry; exact Hy|].
    cbn [g_CriticalNesting g_SystemTickCount set_g_OSRunning set_CurrentTCB tcbs ram].
    split; [exact (eq_trans (f_equal g_CriticalNesting Hd2) (f_equal g_CriticalNesting Hd1))|].
    split; [exact (eq_trans (f_equal g_SystemTickCount Hd2) (f_equal g_SystemTickCount Hd1))|].
    assert (Eram2 : ram s2 = <[base := OS_STACK_MAGIC_VAL]>
              (pushed top ([MSTATUS_VALUE; u32 f; OS_TaskReturn; global_pointer; u32 p]
                             ++ repeat 0 27) (ram s1))).
    { change (ram s2) with (ram (data_of s2)). rewrite Hd2. reflexivity. }
    destruct (data_of_tcb_Some _ _ x (created_tcb (top - 128) base prio t1) (eq_sym Hd2))
      as (t' & Ht' & Est); [cbn; apply lookup_insert_eq|].
    exists t'. split; [exact Ht'|].
    assert (Ef : State t' = TASK_READY ∧ Priority t' = prio ∧
                 stackLimit t' = base ∧ stackPtr t' = top - 128).
    { destruct t', t1. cbn in Est. inversion Est. cbn. auto. }
    destruct Ef as (-> & -> & -> & ->).
    split; [reflexivity|]. split; [reflexivity|]. split; [unfold top; lia|].
    rewrite Eram2. apply lookup_insert_eq. }
  apply wp_run in Hwp as ([] & Hres & Hinv' & Hrun & Hcur & Hnest & Htick & t' & Ht' & Hst & Hpr & Hsp & Hmagic).
  fold s' in Hinv', Hrun, Hcur, Hnest, Htick, Ht', Hmagic.
  pose proof (λ r, lists_ok_contents _ _ r (inv_lists _ _ Hinv')) as Hcont.
  assert (Hc31 : c2 (ReadyListAt 31) = if prio <? 31 then [IdleTaskTCB] else [IdleTaskTCB; x]).
  { unfold c2, c1. destruct (Z.ltb_spec prio 31) as [Hlt|Hge].
    - rewrite fn_lookup_insert_ne by (intros E; injection E as E; lia).
      apply fn_lookup_insert.
    - replace prio with 31 by lia. rewrite !fn_lookup_insert. reflexivity. }
  assert (Hcp : prio < 31 → c2 (ReadyListAt prio) = [x]).
  { intros Hlt. unfold c2, c1. rewrite fn_lookup_insert.
    rewrite fn_lookup_insert_ne by (intros E; injection E as E; lia). reflexivity. }
  split; [exact Hres|]. split; [exact Hrun|].
  split.
  { rewrite Hcur. destruct (Z.ltb_spec prio 31) as [Hlt|Hge].
    - rewrite (Hcp Hlt). reflexivity.
    - replace prio with 31 in * by lia. rewrite Hc31. reflexivity. }
  split; [rewrite Hcont; exact Hc31|].
  split; [intros Hlt; rewrite Hcont; exact (Hcp Hlt)|].
  split.
  { intros r Hr1 Hr2. rewrite Hcont. unfold c2, c1.
    rewrite !fn_lookup_insert_ne by congruence. reflexivity. }
  split; [unfold state_of; rewrite Ht'; cbn; rewrite Hst; reflexivity|].
  split; [unfold prio_of; rewrite Ht'; cbn; rewrite Hpr; reflexivity|].
  split.
  { intros Hlt. unfold stack_ok. rewrite Hcur, (Hcp Hlt). cbn [head].
    rewrite Ht', Hmagic. cbn [default]. rewrite Z.eqb_refl. cbn [andb].
    apply negb_true_iff, Z.leb_gt. exact Hsp. }
  split; [exact Hnest|]. split; [exact Htick|].
  eapply kernel_inv_self, Hinv'.
Qed.

Lemma start_up_witness :
  let boot := (OS_Init ;; _ ← OS_TaskCreate (Some 1%nat) task_entry 0 (stack_of 1) 128 5;
               OS_StartScheduler) in
  let s' := exec boot app_memory in
  result boot app_memory = Ret tt ∧ CurrentTCB s' = Some 1%nat ∧
  contents s' (ReadyListAt 5) = [1%nat] ∧ contents s' (ReadyListAt 31) = [IdleTaskTCB] ∧
  stack_ok s' = true.
Proof.
  intros boot s'.
  assert (Hi : is_Some (tcbs app_memory !! IdleTaskTCB)) by (vm_compute; eauto).
  assert (Hx : is_Some (tcbs app_memory !! 1%nat)) by (vm_compute; eauto).
  assert (Hf : task_entry ≠ 0) by (unfold task_entry; lia).
  destruct (start_up app_memory 1%nat task_entry 0 (stack_of 1) 128 5 eq_refl Hi eq_refl
              eq_refl Hx ltac:(discriminate) Hf ltac:(unfold stack_of; lia) ltac:(lia)
              ltac:(unfold stack_of; lia) ltac:(lia))
    as (R & _ & Ec & E31 & E5 & _ & _ & _ & Es & _).
  fold boot in R. fold s' in Ec, E31, E5, Es.
  split; [exact R|]. split; [exact Ec|]. split; [apply E5; lia|].
  split; [exact E31|apply Es; lia].
Defined.

(** ** The tick without delayed tasks *)

Lemma wp_OS_Tick_Handler_idle_list s c cur tc :
  kernel_inv s c → g_OSRunning s = true → CurrentTCB s = Some cur →
  tcbs s !! cur = Some tc → cur ∈ c (ReadyListAt (Priority tc)) →
  stack_ok s = true → c DelayListRef = [] →
  let c' := if State tc is TASK_READY
            then <[ReadyListAt (Priority tc) :=
                     filter (λ y, y ≠ cur) (c (ReadyListAt (Priority tc))) ++ [cur]]> c
            else c in
  wp OS_Tick_Handler (λ _ s',
    kernel_inv s' c' ∧
    ∃ nx, head (c' (ReadyListAt (OS_GetTopPrio (g_PrioMap s)))) = Some nx ∧
      data_of s' = data_of
        ((if bool_decide (nx = cur) then id else set_swi_pending true)
           (set_NextTCB (Some nx)
              (set_g_SystemTickCount (u32 (g_SystemTickCount s + 1)) s)))) s.
Proof.
  intros Hinv Hrun Hcur Htc Hcin Hstack Hdl c'.
  destruct (inv_tcb _ _ (inv_data _ _ Hinv) cur tc Htc) as [Hpc _].
  set (st := set_g_SystemTickCount (u32 (g_SystemTickCount s + 1)) s).
  assert (Hinvt : kernel_inv st c) by (eapply same_core_inv; [|exact Hinv]; same_core_tac).
  pose proof (proj1 (inv_lists _ _ Hinv) DelayListRef) as Hrep. cbn in Hrep.
  pose proof (repr_head _ _ _ Hrep) as HH. rewrite Hdl in HH. cbn in HH.
  unfold OS_Tick_Handler.
  apply wp_bind, wp_gets. rewrite Hrun. cbn [negb].
  apply wp_bind, wp_gets. rewrite Hcur. cbn [is_null negb].
  apply wp_bind. unfold OS_ASSERT. apply wp_ret.
  apply wp_bind. apply wp_OS_CheckStackOverflow; [exact Hstack|].
  apply wp_bind, wp_modify. fold st.
  apply wp_bind. unfold Tick_DelayList.
  apply wp_bind, wp_gets. cbn [DelayList st set_g_SystemTickCount].
  change (DelayList st) with (DelayList s). rewrite HH. cbn [is_null negb].
  apply wp_ret.
  apply wp_bind. eapply wp_Tick_RoundRobin; [exact Hinvt|exact Hcur|exact Htc|exact Hcin|].
  intros s2 Hinv2 Hdata2. fold c' in Hinv2.
  assert (Hnz : g_PrioMap s2 ≠ 0).
  { eapply (kernel_inv_nonzero _ _ (Priority tc) cur); [exact Hinv2|exact Hpc|].
    unfold c'. destruct (State tc); try exact Hcin.
    rewrite fn_lookup_insert. apply elem_of_app. right. apply list_elem_of_here. }
  assert (Hmap : g_PrioMap s2 = g_PrioMap s) by exact (f_equal g_PrioMap Hdata2).
  assert (Hcur2 : CurrentTCB s2 = Some cur).
  { rewrite <- Hcur. exact (f_equal CurrentTCB Hdata2). }
  apply wp_bind. eapply wp_FindNextTask; [exact Hinv2|exact Hnz|].
  rewrite Hmap. intros nx Hnx.
  apply wp_bind, wp_modify. apply wp_bind, wp_gets.
  cbn [CurrentTCB set_NextTCB]. rewrite Hcur2.
  destruct (bool_decide (nx = cur)) eqn:Eb.
  - apply bool_decide_eq_true_1 in Eb. subst nx.
    rewrite bool_decide_eq_true_2 by reflexivity. cbn [negb]. apply wp_ret.
    split; [eapply same_core_inv; [|exact Hinv2]; same_core_tac|].
    exists cur. split; [exact Hnx|].
    rewrite bool_decide_eq_true_2 by reflexivity. cbn [id].
    change (data_of (set_NextTCB (Some cur) s2)) with (set_NextTCB (Some cur) (data_of s2)).
    rewrite Hdata2. reflexivity.
  - apply bool_decide_eq_false_1 in Eb.
    rewrite bool_decide_eq_false_2 by congruence. cbn [negb]. apply wp_modify.
    split; [eapply same_core_inv; [|exact Hinv2]; same_core_tac|].
    exists nx. split; [exact Hnx|].
    rewrite bool_decide_eq_false_2 by exact Eb.
    change (data_of (set_swi_pending true (set_NextTCB (Some nx) s2)))
      with (set_swi_pending true (set_NextTCB (Some nx) (data_of s2))).
    rewrite Hdata2. reflexivity.
Qed.

Lemma post_run_eq {A} (m : M A) s (o : outcome A) s' :
  post m (λ r s1, r = o ∧ s1 = s') s → m s = (o, s').
Proof. unfold post, result, exec. destruct (m s) as [r s1]. cbn. intros [-> ->]. reflexivity. Qed.

(** X26.  A tick while no task is delayed, taken in a running system
    whose running task [cur] is on the ready list of its priority and
    passes the stack check.  [OS_Tick_Handler] returns with the tick count
    advanced by one modulo [2^32]; the running task, if its state is
    [TASK_READY], has gone to the tail of the ready list of its priority,
    and no other list, no control block and no bit of the bitmap has
    changed.  [NextTCB] is the head of the ready list of the highest
    priority, and a switch is requested exactly when that is not the
    running task.  So the tasks that share the highest priority take
    turns: when the running task heads their list, the task behind it is
    chosen and the running task queues up last. *)
Theorem OS_Tick_Handler_time_slice s cur tc :
  kernel_ok s = true → g_OSRunning s = true → CurrentTCB s = Some cur →
  tcbs s !! cur = Some tc → current_ready s = true → stack_ok s = true →
  contents s DelayListRef = [] →
  let s' := exec OS_Tick_Handler s in
  let top := OS_GetTopPrio (g_PrioMap s) in
  result OS_Tick_Handler s = Ret tt ∧
  g_SystemTickCount s' = (g_SystemTickCount s + 1) mod 2 ^ 32 ∧
  (∀ r, contents s' r = if decide (r = ReadyListAt (Priority tc))
                        then rotated cur tc (contents s r) else contents s r) ∧
  (∀ x, fields s' x = fields s x) ∧ g_PrioMap s' = g_PrioMap s ∧
  CurrentTCB s' = Some cur ∧
  NextTCB s' = head (contents s' (ReadyListAt top)) ∧
  swi_pending s' = (if decide (NextTCB s' = Some cur) then swi_pending s else true) ∧
  (∀ y l, State tc = TASK_READY → top = Priority tc →
          contents s (ReadyListAt top) = cur :: y :: l →
          contents s' (ReadyListAt top) = y :: l ++ [cur] ∧
          NextTCB s' = Some y ∧ swi_pending s' = true) ∧
  kernel_inv s' (contents s').
Proof.
  intros Hk Hrun Hcur Htc Hcr Hstack Hdl s' top.
  destruct (kernel_ok_sound s Hk) as [Hinv _].
  destruct (current_ready_sound s Hcr) as (cur' & tc' & Hcur' & Htc' & Hcin).
  rewrite Hcur in Hcur'. injection Hcur' as <-.
  rewrite Htc in Htc'. injection Htc' as <-.
  pose proof (wp_OS_Tick_Handler_idle_list s (contents s) cur tc Hinv Hrun Hcur Htc Hcin
                Hstack Hdl) as Hwp.
  cbv zeta in Hwp. fold top in Hwp.
  apply wp_run in Hwp as ([] & Hres & Hinv' & nx & Hnx & Hd'). fold s' in Hinv', Hd'.
  pose proof (λ r, lists_ok_contents _ _ r (inv_lists _ _ Hinv')) as Hcont0.
  assert (Hcont : ∀ r, contents s' r = if decide (r = ReadyListAt (Priority tc))
                                       then rotated cur tc (contents s r) else contents s r).
  { intros r. rewrite Hcont0. unfold rotated.
    destruct (decide (r = ReadyListAt (Priority tc))) as [->|Hr].
    - destruct (State tc); [apply fn_lookup_insert|reflexivity|reflexivity].
    - destruct (State tc); [apply fn_lookup_insert_ne; congruence|reflexivity|reflexivity]. }
  assert (Hnext : NextTCB s' = Some nx).
  { change (NextTCB s') with (NextTCB (data_of s')). rewrite Hd'.
    destruct (bool_decide (nx = cur)); reflexivity. }
  assert (Hswi : swi_pending s' = if bool_decide (nx = cur) then swi_pending s else true).
  { change (swi_pending s') with (swi_pending (data_of s')). rewrite Hd'.
    destruct (bool_decide (nx = cur)); reflexivity. }
  assert (Hhead : head (contents s' (ReadyListAt top)) = Some nx)
    by (rewrite Hcont0; exact Hnx).
  assert (Hswi' : swi_pending s'
                  = if decide (NextTCB s' = Some cur) then swi_pending s else true).
  { rewrite Hswi, Hnext. destruct (decide (nx = cur)) as [->|Hne].
    - rewrite bool_decide_eq_true_2, decide_True by reflexivity. reflexivity.
    - rewrite bool_decide_eq_false_2, decide_False by congruence. reflexivity. }
  split; [exact Hres|].
  split.
  { change (g_SystemTickCount s') with (g_SystemTickCount (data_of s')). rewrite Hd'.
    destruct (bool_decide (nx = cur)); reflexivity. }
  split; [exact Hcont|].
  split.
  { intros x. rewrite (fields_data _ _ x Hd'). destruct (bool_decide (nx = cur)); reflexivity. }
  split.
  { change (g_PrioMap s') with (g_PrioMap (data_of s')). rewrite Hd'.
    destruct (bool_decide (nx = cur)); reflexivity. }
  split.
  { change (CurrentTCB s') with (CurrentTCB (data_of s')). rewrite Hd'.
    destruct (bool_decide (nx = cur)); exact Hcur. }
  split; [rewrite Hnext, Hhead; reflexivity|].
  split; [exact Hswi'|].
  split.
  { intros y l Hst Htop Hl.
    pose proof (proj1 (proj2 (inv_lists _ _ Hinv)) (ReadyListAt top)) as N.
    rewrite Hl in N. apply NoDup_cons in N as [N1 N2].
    assert (Hyc : y ≠ cur) by (intros ->; apply N1, list_elem_of_here).
    assert (El : contents s' (ReadyListAt top) = y :: l ++ [cur]).
    { rewrite Hcont, Htop, decide_True by reflexivity. unfold rotated. rewrite Hst.
      rewrite <- Htop, Hl.
      pose proof (filter_ne_split [] (y :: l) cur) as Ef. cbn [app] in Ef.
      rewrite Ef by (apply NoDup_cons; split; assumption). reflexivity. }
    rewrite El in Hhead. cbn in Hhead. injection Hhead as <-.
    split; [exact El|]. split; [exact Hnext|].
    rewrite Hswi', Hnext, decide_False by congruence. reflexivity. }
  eapply kernel_inv_self, Hinv'.
Qed.

Lemma OS_Tick_Handler_time_slice_witness :
  let s := exec scenario_S app_memory in
  let s' := exec OS_Tick_Handler s in
  CurrentTCB s = Some 1%nat ∧ contents s (ReadyListAt 5) = [1; 2]%nat ∧
  result OS_Tick_Handler s = Ret tt ∧
  contents s' (ReadyListAt 5) = [2; 1]%nat ∧ NextTCB s' = Some 2%nat ∧
  swi_pending s' = true ∧ g_SystemTickCount s' = 1.
Proof.
  intros s s'.
  assert (Hk : kernel_ok s = true) by (vm_compute; reflexivity).
  assert (Hrun : g_OSRunning s = true) by (vm_compute; reflexivity).
  assert (Hcur : CurrentTCB s = Some 1%nat) by (vm_compute; reflexivity).
  destruct (tcbs s !! 1%nat) as [tc|] eqn:Htc; [|vm_compute in Htc; congruence].
  assert (Hp : Priority tc = 5) by (vm_compute in Htc; injection Htc as <-; reflexivity).
  assert (Hs : State tc = TASK_READY) by (vm_compute in Htc; injection Htc as <-; reflexivity).
  assert (Hcr : current_ready s = true) by (vm_compute; reflexivity).
  assert (Hst : stack_ok s = true) by (vm_compute; reflexivity).
  assert (Hd : contents s DelayListRef = []) by (vm_compute; reflexivity).
  assert (Hr : contents s (ReadyListAt 5) = [1; 2]%nat) by (vm_compute; reflexivity).
  assert (Ht : OS_GetTopPrio (g_PrioMap s) = 5) by (vm_compute; reflexivity).
  assert (Hc : g_SystemTickCount s = 0) by (vm_compute; reflexivity).
  destruct (OS_Tick_Handler_time_slice s 1 tc Hk Hrun Hcur Htc Hcr Hst Hd)
    as (R & Etick & _ & _ & _ & _ & _ & _ & Hrr & _).
  fold s' in R, Etick, Hrr. rewrite Ht in Hrr.
  destruct (Hrr 2%nat [] Hs (eq_sym Hp) Hr) as (E1 & E2 & E3).
  split; [exact Hcur|]. split; [exact Hr|]. split; [exact R|].
  split; [exact E1|]. split; [exact E2|]. split; [exact E3|].
  rewrite Etick, Hc. reflexivity.
Defined.

(** X27.  What stops a tick.  Before the scheduler is started
    [OS_Tick_Handler] returns at once and changes nothing.  In a running
    system it halts on a failed assertion, with interrupts masked and
    before the tick count or any list is touched, when there is no running
    task, when the guard word at the stack limit of the running task is
    overwritten, and when its saved stack pointer is at or below the
    limit. *)
Theorem OS_Tick_Handler_guards :
  (∀ s, g_OSRunning s = false → OS_Tick_Handler s = (Ret tt, s)) ∧
  (∀ s, g_OSRunning s = true → CurrentTCB s = None →
        OS_Tick_Handler s = (Fault AssertFailed, set_irq_enabled false s)) ∧
  (∀ s cur tc,
     g_OSRunning s = true → CurrentTCB s = Some cur → tcbs s !! cur = Some tc →
     ram s !! stackLimit tc ≠ Some OS_STACK_MAGIC_VAL ∨ stackPtr tc <= stackLimit tc →
     OS_Tick_Handler s = (Fault AssertFailed, set_irq_enabled false s)).
Proof.
  split; [|split].
  - intros s Hrun. apply post_run_eq. unfold OS_Tick_Handler.
    apply post_bind, wp_gets. rewrite Hrun. cbn [negb]. split; reflexivity.
  - intros s Hrun Hcur. apply post_run_eq. unfold OS_Tick_Handler.
    apply post_bind, wp_gets. rewrite Hrun. cbn [negb].
    apply post_bind, wp_gets. rewrite Hcur. cbn [is_null negb].
    apply post_bind_run. split; reflexivity.
  - intros s cur tc Hrun Hcur Htc Hbad.
    assert (Hc : negb (default 0 (ram s !! stackLimit tc) =? OS_STACK_MAGIC_VAL)
                 || (stackPtr tc <=? stackLimit tc) = true).
    { destruct Hbad as [Hw|Hsp].
      - apply orb_true_iff. left. apply negb_true_iff, Z.eqb_neq.
        destruct (ram s !! stackLimit tc) as [w|]; cbn [default].
        + intros E. apply Hw. f_equal. exact E.
        + unfold OS_STACK_MAGIC_VAL. lia.
      - apply orb_true_iff. right. apply Z.leb_le. exact Hsp. }
    apply post_run_eq. unfold OS_Tick_Handler.
    apply post_bind, wp_gets. rewrite Hrun. cbn [negb].
    apply post_bind, wp_gets. rewrite Hcur. cbn [is_null negb].
    apply post_bind. unfold OS_ASSERT. apply wp_ret.
    apply post_bind_run. unfold OS_CheckStackOverflow.
    assert (E : (cur0 ← gets CurrentTCB;
                 if is_null cur0 then ret tt
                 else t ← load_tcb cur0;
                      w ← load_word (stackLimit t);
                      if negb (w =? OS_STACK_MAGIC_VAL) || (stackPtr t <=? stackLimit t)
                      then OS_Disable_IRQ ;; OS_ASSERT false
                      else ret tt) s
                = (Fault AssertFailed, set_irq_enabled false s)).
    { apply post_run_eq.
      apply post_bind, wp_gets. rewrite Hcur. cbn [is_null].
      apply post_bind. eapply wp_load_tcb; [exact Htc|].
      apply post_bind. unfold load_word. apply wp_gets. rewrite Hc.
      apply post_bind, wp_modify. split; reflexivity. }
    unfold result, exec. rewrite E. cbn [fst snd]. split; reflexivity.
Qed.

Lemma OS_Tick_Handler_guards_witness :
  let s0 := exec scenario_S app_memory in
  let s := set_ram (<[stack_of 1 := 0]> (ram s0)) s0 in
  stack_ok s0 = true ∧ stack_ok s = false ∧
  OS_Tick_Handler s = (Fault AssertFailed, set_irq_enabled false s).
Proof.
  intros s0 s.
  assert (H0 : stack_ok s0 = true) by (vm_compute; reflexivity).
  assert (H1 : stack_ok s = false) by (vm_compute; reflexivity).
  assert (Hrun : g_OSRunning s = true) by (vm_compute; reflexivity).
  assert (Hcur : CurrentTCB s = Some 1%nat) by (vm_compute; reflexivity).
  destruct (tcbs s !! 1%nat) as [tc|] eqn:Htc; [|vm_compute in Htc; congruence].
  assert (Hl : stackLimit tc = stack_of 1)
    by (vm_compute in Htc; injection Htc as <-; reflexivity).
  assert (Hw : ram s !! stack_of 1 = Some 0) by (vm_compute; reflexivity).
  split; [exact H0|]. split; [exact H1|].
  apply (proj2 (proj2 OS_Tick_Handler_guards) s 1%nat tc Hrun Hcur Htc).
  left. rewrite Hl, Hw. intros E. injection E as E. unfold OS_STACK_MAGIC_VAL in E. lia.
Defined.

